(** * CSI collector firmware (access-point build): embedding and properties

    The development follows the layout of the sources:

    - [CLib]: the parts of the C library the firmware calls ([isspace],
      [strcasecmp], [sscanf] for the two timestamp formats, [printf]'s
      [%d], [%02x] and [%.4f], [snprintf] into a fixed buffer);
    - [Platform]: what the operating system and the runtime keep (clock,
      heap, console, log, the FreeRTOS queue) and the answers they give;
    - [TimestampManager], [CsiHandler], [CommandProcessor],
      [StorageManager]: the headers under [_components/];
    - [ActiveAp]: [active_ap/main/main.c].

    Target ABI (ESP32, ILP32): [int] and [long] are 32 bits wide,
    [long long] and [time_t] 64 bits, [char] is a byte.  Strings are lists
    of characters without their terminating NUL; a [char] array is the list
    of all its cells. *)

From Stdlib Require Import Strings.String Strings.Ascii Strings.Byte ZArith List Bool Lia.
From Stdlib Require Import PrimFloat FloatOps SpecFloat FloatAxioms Uint63.
Import ListNotations.
Local Open Scope Z_scope.

(* ================================================================== *)
(** * The C library                                                     *)
(* ================================================================== *)

Module CLib.

(** A string literal of the source, as the list of its characters. *)
Definition lit (s : string) : list ascii := list_ascii_of_string s.

Definition char_code (c : ascii) : Z := Z.of_N (N_of_ascii c).
Definition char_of (z : Z) : ascii := ascii_of_N (Z.to_N (z mod 256)).

Definition NUL : ascii := "000"%char.
Definition EOF : Z := -1.

(** ** Integer types *)

Definition wrap_signed (bits x : Z) : Z :=
  (x + 2 ^ (bits - 1)) mod 2 ^ bits - 2 ^ (bits - 1).

Definition to_int (x : Z) : Z := wrap_signed 32 x.
Definition to_long_long (x : Z) : Z := wrap_signed 64 x.

Definition type_min (bits : Z) : Z := - 2 ^ (bits - 1).
Definition type_max (bits : Z) : Z := 2 ^ (bits - 1) - 1.

(** [strtol] and [strtoll], which [scanf] converts with, answer the
    nearest bound of the type for a numeral outside it. *)
Definition saturate (bits x : Z) : Z :=
  Z.max (type_min bits) (Z.min (type_max bits) x).

(** ** <ctype.h>, "C" locale *)

Definition isspace (c : ascii) : bool :=
  let n := char_code c in (n =? 32) || ((9 <=? n) && (n <=? 13)).

Definition isdigit (c : ascii) : bool :=
  let n := char_code c in (48 <=? n) && (n <=? 57).

Definition tolower (c : ascii) : ascii :=
  let n := char_code c in
  if (65 <=? n) && (n <=? 90) then char_of (n + 32) else c.

(** ** <string.h> *)

(** The string a [char] array holds: the cells before the first NUL. *)
Fixpoint c_str (a : list ascii) : list ascii :=
  match a with
  | [] => []
  | c :: r => if Ascii.eqb c NUL then [] else c :: c_str r
  end.

Definition strlen (s : list ascii) : Z := Z.of_nat (List.length s).

Fixpoint strcmp (a b : list ascii) : Z :=
  match a, b with
  | [], [] => 0
  | [], y :: _ => 0 - char_code y
  | x :: _, [] => char_code x
  | x :: a', y :: b' =>
      if Ascii.eqb x y then strcmp a' b' else char_code x - char_code y
  end.

Fixpoint strcasecmp (a b : list ascii) : Z :=
  match a, b with
  | [], [] => 0
  | [], y :: _ => 0 - char_code (tolower y)
  | x :: _, [] => char_code (tolower x)
  | x :: a', y :: b' =>
      if Ascii.eqb (tolower x) (tolower y) then strcasecmp a' b'
      else char_code (tolower x) - char_code (tolower y)
  end.

Fixpoint strncmp (a b : list ascii) (n : nat) : Z :=
  match n with
  | O => 0
  | S n' =>
      match a, b with
      | [], [] => 0
      | [], y :: _ => 0 - char_code y
      | x :: _, [] => char_code x
      | x :: a', y :: b' =>
          if Ascii.eqb x y then strncmp a' b' n' else char_code x - char_code y
      end
  end.

(** [strncpy (dst, src, n)] followed by [dst[n] = '\0'], read back as a
    string: at most [n] characters of [src]. *)
Definition strncpy (src : list ascii) (n : nat) : list ascii := firstn n src.

(** ** Arrays of [char] *)

Definition memset_zero (size : nat) : list ascii := repeat NUL size.

(** [a[i] = c].  The firmware only stores inside the array; a store
    outside it is not modelled and leaves the list as it is. *)
Fixpoint array_set (a : list ascii) (i : nat) (c : ascii) : list ascii :=
  match a, i with
  | [], _ => []
  | _ :: r, O => c :: r
  | x :: r, S i' => x :: array_set r i' c
  end.

(** ** [scanf] conversions *)

Fixpoint skip_ws (s : list ascii) : list ascii :=
  match s with
  | c :: r => if isspace c then skip_ws r else s
  | [] => []
  end.

Definition digit_val (c : ascii) : Z := char_code c - 48.

Fixpoint scan_digits (s : list ascii) (acc : Z) : Z * list ascii :=
  match s with
  | c :: r => if isdigit c then scan_digits r (10 * acc + digit_val c) else (acc, s)
  | [] => (acc, [])
  end.

Inductive conversion :=
| ConvOk (value : Z) (rest : list ascii)
| ConvMismatch
| ConvEOF.

(** A [%d]-family conversion: white space is skipped, then an optional
    sign and a non-empty run of decimal digits are read. *)
Definition scan_integer (s : list ascii) : conversion :=
  match skip_ws s with
  | [] => ConvEOF
  | c :: r =>
      let '(negative, body) :=
        if Ascii.eqb c "-" then (true, r)
        else if Ascii.eqb c "+" then (false, r)
        else (false, c :: r) in
      match body with
      | d :: _ =>
          if isdigit d then
            let '(v, rest) := scan_digits body 0 in
            ConvOk (if negative then - v else v) rest
          else ConvMismatch
      | [] => ConvMismatch
      end
  end.

Inductive directive :=
| DLit (c : ascii)      (* an ordinary character: must match *)
| DSpace                (* white space: matches any run of white space *)
| DConv (bits : Z).     (* %ld (32) or %lld (64) *)

Fixpoint parse_format (f : list ascii) : list directive :=
  match f with
  | [] => []
  | "%"%char :: "l"%char :: "l"%char :: "d"%char :: r => DConv 64 :: parse_format r
  | "%"%char :: "l"%char :: "d"%char :: r => DConv 32 :: parse_format r
  | c :: r => (if isspace c then DSpace else DLit c) :: parse_format r
  end.

(** What [sscanf] returns when it stops: the number of assignments, or
    [EOF] when the input ended before the first one. *)
Definition stop_at_end (assigned : list Z) : Z :=
  match assigned with [] => EOF | _ => Z.of_nat (List.length assigned) end.

Fixpoint sscanf_run (fmt : list directive) (input : list ascii) (assigned : list Z)
  : Z * list Z :=
  match fmt with
  | [] => (Z.of_nat (List.length assigned), assigned)
  | DSpace :: fmt' => sscanf_run fmt' (skip_ws input) assigned
  | DLit c :: fmt' =>
      match input with
      | [] => (stop_at_end assigned, assigned)
      | x :: rest =>
          if Ascii.eqb x c then sscanf_run fmt' rest assigned
          else (Z.of_nat (List.length assigned), assigned)
      end
  | DConv bits :: fmt' =>
      match scan_integer input with
      | ConvOk v rest => sscanf_run fmt' rest (assigned ++ [saturate bits v])
      | ConvMismatch => (Z.of_nat (List.length assigned), assigned)
      | ConvEOF => (stop_at_end assigned, assigned)
      end
  end.

(** [sscanf (input, format, ...)]: the return value and the values
    assigned, in the order of the conversions. *)
Definition sscanf (input : list ascii) (format : string) : Z * list Z :=
  sscanf_run (parse_format (lit format)) input [].

(** ** [printf] conversions *)

Definition digit_char (d : Z) : ascii := char_of (48 + d).

Fixpoint digits_of (fuel : nat) (n : Z) (acc : list ascii) : list ascii :=
  match fuel with
  | O => acc
  | S fuel' =>
      let acc' := digit_char (n mod 10) :: acc in
      if n / 10 =? 0 then acc' else digits_of fuel' (n / 10) acc'
  end.

(** An unsigned decimal numeral; a number below [2^k] has at most [k]
    digits, which bounds the recursion. *)
Definition fmt_u (n : Z) : list ascii :=
  digits_of (S (Z.to_nat (Z.log2 n))) n [].

Definition fmt_signed (n : Z) : list ascii :=
  if n <? 0 then "-"%char :: fmt_u (- n) else fmt_u n.

(** [%d] of an argument promoted to [int]. *)
Definition fmt_d (n : Z) : list ascii := fmt_signed (to_int n).

(** [%lld]. *)
Definition fmt_lld (n : Z) : list ascii := fmt_signed (to_long_long n).

(** [%06ld]: a [long], padded with zeros on the left to six columns
    (the sign comes first). *)
Definition fmt_06ld (n : Z) : list ascii :=
  let v := to_int n in
  let ds := fmt_u (Z.abs v) in
  let width := if v <? 0 then 5%nat else 6%nat in
  let pad := repeat "0"%char (width - List.length ds) in
  if v <? 0 then "-"%char :: pad ++ ds else pad ++ ds.

Definition hex_digit (upper : bool) (d : Z) : ascii :=
  if d <? 10 then char_of (48 + d)
  else char_of ((if upper then 65 else 97) + (d - 10)).

(** [%02x] and [%02X] of a [uint8_t]. *)
Definition fmt_02x (upper : bool) (b : byte) : list ascii :=
  let n := Z.of_N (Byte.to_N b) in
  [hex_digit upper (n / 16); hex_digit upper (n mod 16)].

(** [%02x:%02x:%02x:%02x:%02x:%02x]. *)
Definition fmt_mac (upper : bool) (mac : list byte) : list ascii :=
  let at_ i := fmt_02x upper (nth i mac x00) in
  at_ 0%nat ++ lit ":" ++ at_ 1%nat ++ lit ":" ++ at_ 2%nat ++ lit ":" ++
  at_ 3%nat ++ lit ":" ++ at_ 4%nat ++ lit ":" ++ at_ 5%nat.

(** ** [double] *)

(** Conversion of a small integer to [double] (exact). *)
Definition double_of_int (z : Z) : float :=
  if z <? 0 then PrimFloat.opp (PrimFloat.of_uint63 (Uint63.of_Z (- z)))
  else PrimFloat.of_uint63 (Uint63.of_Z z).

(** [num / den] rounded to the nearest integer, ties to even, for
    [0 <= num] and [0 < den]. *)
Definition round_half_even (num den : Z) : Z :=
  let q := num / den in
  let r := num mod den in
  if 2 * r <? den then q
  else if den <? 2 * r then q + 1
  else if Z.even q then q else q + 1.

Definition pad4 (n : Z) : list ascii :=
  let ds := fmt_u n in repeat "0"%char (4 - List.length ds) ++ ds.

(** [%.4f]: the exact value of the [double], rounded to four decimals
    (to nearest, ties to even). *)
Definition fmt_4f (x : float) : list ascii :=
  match Prim2SF x with
  | S754_nan => lit "nan"
  | S754_infinity s => if s then lit "-inf" else lit "inf"
  | S754_zero s => if s then lit "-0.0000" else lit "0.0000"
  | S754_finite s m e =>
      let num := Zpos m * 10000 in
      let n := if 0 <=? e then num * 2 ^ e else round_half_even num (2 ^ (- e)) in
      (if s then lit "-" else []) ++ fmt_u (n / 10000) ++ lit "." ++ pad4 (n mod 10000)
  end.

(** ** [snprintf] into a fixed buffer *)

(** [snprintf (buf + offset, size, ...)] where the formatted text is
    [text]: at most [size - 1] characters and a NUL are stored from
    [offset] on.  [None] when the store does not lie inside the buffer
    (a [size] of zero stores nothing; a negative one, read as [size_t],
    lifts every limit). *)
Fixpoint store_at (buf : list ascii) (offset : nat) (data : list ascii) : list ascii :=
  match offset, buf with
  | O, _ => data ++ skipn (List.length data) buf
  | S o, c :: r => c :: store_at r o data
  | S _, [] => []
  end.

Definition snprintf_at (buf : list ascii) (offset size : Z) (text : list ascii)
  : option (list ascii) * Z :=
  let n := strlen text in
  if size =? 0 then (Some buf, n)
  else if (size <? 0) || (offset <? 0) || (strlen buf <? offset + size) then (None, n)
  else
    let stored := firstn (Z.to_nat (size - 1)) text ++ [NUL] in
    (Some (store_at buf (Z.to_nat offset) stored), n).

(** [snprintf (buf, size, ...)] into a buffer of [size] bytes, read back
    as a string: the first [size - 1] characters of the formatted
    [text]. *)
Definition snprintf_string (size : nat) (text : list ascii) : list ascii :=
  firstn (size - 1) text.

End CLib.


Import CLib.

(* ================================================================== *)
(** * Types of the firmware and of the platform                        *)
(* ================================================================== *)

Module Decl.

(** ** Platform types (ESP-IDF, FreeRTOS, libc) *)

Record timeval := { tv_sec : Z; tv_usec : Z }.

(** [wifi_pkt_rx_ctrl_t]: the fields the firmware prints. *)
Record wifi_pkt_rx_ctrl_t := {
  rssi : Z; rate : Z; sig_mode : Z; mcs : Z; cwb : Z; smoothing : Z;
  not_sounding : Z; aggregation : Z; stbc : Z; fec_coding : Z; sgi : Z;
  noise_floor : Z; ampdu_cnt : Z; channel : Z; secondary_channel : Z;
  timestamp : Z; ant : Z; sig_len : Z; rx_state : Z
}.

(** An [int8_t *] to a CSI payload: NULL, memory of the radio driver
    (given by what it holds), or a block of the heap. *)
Inductive buf_ptr :=
| BufNull
| BufDriver (content : list byte)
| BufHeap (addr : nat).

(** [wifi_csi_info_t]. *)
Record wifi_csi_info_t := {
  rx_ctrl : wifi_pkt_rx_ctrl_t;
  mac : list byte;
  len : Z;
  buf : buf_ptr
}.

(** A block of the heap. *)
Inductive block :=
| BlkRaw                              (* as [malloc] returns it *)
| BlkCsi (info : wifi_csi_info_t)
| BlkBytes (data : list byte)
| BlkChars (text : list ascii).

(** A FreeRTOS queue of pointers to [wifi_csi_info_t]. *)
Record queue_t := { uxLength : Z; items : list nat }.

Inductive log_level := LOGE | LOGW | LOGI | LOGD.

(** One record of an mDNS answer; [addr] is an IPv4 address. *)
Record mdns_result_t := {
  hostname : option (list ascii);
  addr : option (Z * Z * Z * Z)
}.

(** The two CSI callbacks of the firmware, as function pointers. *)
Inductive csi_callback := enhanced_csi_callback_ptr | research_csi_data_callback_ptr.

(** A datagram handed to [sendto]. *)
Record datagram := { dest_ip : list ascii; dest_port : Z; payload : list ascii }.

(** The answers of the platform that the firmware cannot influence. *)
Record os_t := {
  settimeofday_rc : timeval -> Z;
  gettimeofday_rc : Z;
  malloc_ok : nat -> Z -> bool;       (* by call number and size *)
  sendto_rc : datagram -> Z;
  atan2 : float -> float -> float;
  sizeof_wifi_csi_info_t : Z
}.

(** ** timestamp_manager.h *)

Record timestamp_parse_result_t := {
  seconds : Z;
  microseconds : Z;
  parse_success : bool
}.

(** ** csi_handler.h *)

Definition csi_processing_mode_t := Z.
Definition CSI_MODE_RAW_DATA : csi_processing_mode_t := 1.
Definition CSI_MODE_AMPLITUDE : csi_processing_mode_t := 2.
Definition CSI_MODE_PHASE_INFO : csi_processing_mode_t := 3.

Record csi_config_t := {
  mode : csi_processing_mode_t;
  device_role : list ascii;
  enable_filtering : bool;
  buffer_size : Z
}.

(** ** command_processor.h *)

Definition MAX_COMMAND_LENGTH : Z := 512.

Record command_processor_t := {
  command_buffer : list ascii;        (* char [MAX_COMMAND_LENGTH] *)
  buffer_position : Z;
  commands_processed : Z;
  echo_enabled : bool
}.

Inductive command_type_t :=
| CMD_TYPE_UNKNOWN
| CMD_TYPE_TIME_SYNC
| CMD_TYPE_CSI_CONFIG
| CMD_TYPE_SYSTEM_INFO
| CMD_TYPE_HELP.

(** ** main.c *)

Record application_state_t := {
  csi_data_queue : option queue_t;
  udp_socket_descriptor : Z;
  network_ready : bool;
  processed_packets : Z;
  discovered_host_ip : list ascii;    (* char [16], as the string it holds *)
  host_discovered : bool
}.

(** ** The whole machine: the globals of the firmware and the platform *)

Record world := {
  os : os_t;
  sys_clock : timeval;
  console : list (list ascii);              (* stdout, one entry per printf *)
  esp_log : list (log_level * list ascii);  (* ESP_LOGx, oldest first *)
  heap_next : nat;
  heap_live : list (nat * block);
  datagrams : list datagram;                (* handed to sendto, oldest first *)
  csi_rx_cb : option csi_callback;          (* registered with the radio driver *)
  time_sync_established : bool;
  g_cmd_processor : command_processor_t;
  g_csi_config : csi_config_t;
  app_state : application_state_t
}.

End Decl.

Import Decl.

(* ================================================================== *)
(** * Platform operations                                               *)
(* ================================================================== *)

Module Platform.

Definition set_sys_clock (t : timeval) (w : world) : world :=
  {| os := os w; sys_clock := t; console := console w; esp_log := esp_log w;
     heap_next := heap_next w; heap_live := heap_live w; datagrams := datagrams w; csi_rx_cb := csi_rx_cb w;
     time_sync_established := time_sync_established w;
     g_cmd_processor := g_cmd_processor w; g_csi_config := g_csi_config w;
     app_state := app_state w |}.

Definition set_console (c : list (list ascii)) (w : world) : world :=
  {| os := os w; sys_clock := sys_clock w; console := c; esp_log := esp_log w;
     heap_next := heap_next w; heap_live := heap_live w; datagrams := datagrams w; csi_rx_cb := csi_rx_cb w;
     time_sync_established := time_sync_established w;
     g_cmd_processor := g_cmd_processor w; g_csi_config := g_csi_config w;
     app_state := app_state w |}.

Definition set_esp_log (l : list (log_level * list ascii)) (w : world) : world :=
  {| os := os w; sys_clock := sys_clock w; console := console w; esp_log := l;
     heap_next := heap_next w; heap_live := heap_live w; datagrams := datagrams w; csi_rx_cb := csi_rx_cb w;
     time_sync_established := time_sync_established w;
     g_cmd_processor := g_cmd_processor w; g_csi_config := g_csi_config w;
     app_state := app_state w |}.

Definition set_heap (n : nat) (l : list (nat * block)) (w : world) : world :=
  {| os := os w; sys_clock := sys_clock w; console := console w; esp_log := esp_log w;
     heap_next := n; heap_live := l; datagrams := datagrams w; csi_rx_cb := csi_rx_cb w;
     time_sync_established := time_sync_established w;
     g_cmd_processor := g_cmd_processor w; g_csi_config := g_csi_config w;
     app_state := app_state w |}.

Definition set_datagrams (d : list datagram) (w : world) : world :=
  {| os := os w; sys_clock := sys_clock w; console := console w; esp_log := esp_log w;
     heap_next := heap_next w; heap_live := heap_live w; datagrams := d; csi_rx_cb := csi_rx_cb w;
     time_sync_established := time_sync_established w;
     g_cmd_processor := g_cmd_processor w; g_csi_config := g_csi_config w;
     app_state := app_state w |}.

Definition set_csi_rx_cb (c : option csi_callback) (w : world) : world :=
  {| os := os w; sys_clock := sys_clock w; console := console w; esp_log := esp_log w;
     heap_next := heap_next w; heap_live := heap_live w; datagrams := datagrams w;
     csi_rx_cb := c;
     time_sync_established := time_sync_established w;
     g_cmd_processor := g_cmd_processor w; g_csi_config := g_csi_config w;
     app_state := app_state w |}.

Definition set_time_sync_established (b : bool) (w : world) : world :=
  {| os := os w; sys_clock := sys_clock w; console := console w; esp_log := esp_log w;
     heap_next := heap_next w; heap_live := heap_live w; datagrams := datagrams w; csi_rx_cb := csi_rx_cb w;
     time_sync_established := b;
     g_cmd_processor := g_cmd_processor w; g_csi_config := g_csi_config w;
     app_state := app_state w |}.

Definition set_g_cmd_processor (p : command_processor_t) (w : world) : world :=
  {| os := os w; sys_clock := sys_clock w; console := console w; esp_log := esp_log w;
     heap_next := heap_next w; heap_live := heap_live w; datagrams := datagrams w; csi_rx_cb := csi_rx_cb w;
     time_sync_established := time_sync_established w;
     g_cmd_processor := p; g_csi_config := g_csi_config w;
     app_state := app_state w |}.

Definition set_g_csi_config (c : csi_config_t) (w : world) : world :=
  {| os := os w; sys_clock := sys_clock w; console := console w; esp_log := esp_log w;
     heap_next := heap_next w; heap_live := heap_live w; datagrams := datagrams w; csi_rx_cb := csi_rx_cb w;
     time_sync_established := time_sync_established w;
     g_cmd_processor := g_cmd_processor w; g_csi_config := c;
     app_state := app_state w |}.

Definition set_app_state (a : application_state_t) (w : world) : world :=
  {| os := os w; sys_clock := sys_clock w; console := console w; esp_log := esp_log w;
     heap_next := heap_next w; heap_live := heap_live w; datagrams := datagrams w; csi_rx_cb := csi_rx_cb w;
     time_sync_established := time_sync_established w;
     g_cmd_processor := g_cmd_processor w; g_csi_config := g_csi_config w;
     app_state := a |}.

(** [printf]: the formatted text goes to the console. *)
Definition printf (text : list ascii) (w : world) : world :=
  set_console (console w ++ [text]) w.

(** [ESP_LOGE], [ESP_LOGW], [ESP_LOGI], [ESP_LOGD]. *)
Definition ESP_LOG (level : log_level) (text : list ascii) (w : world) : world :=
  set_esp_log (esp_log w ++ [(level, text)]) w.

(** ** <sys/time.h> *)

Definition settimeofday (t : timeval) (w : world) : Z * world :=
  let rc := settimeofday_rc (os w) t in
  if rc =? 0 then (0, set_sys_clock t w) else (rc, w).

Definition gettimeofday (w : world) : Z * timeval :=
  (gettimeofday_rc (os w), sys_clock w).

(** ** The heap *)

Fixpoint heap_remove (p : nat) (l : list (nat * block)) : list (nat * block) :=
  match l with
  | [] => []
  | (q, b) :: r => if Nat.eqb p q then r else (q, b) :: heap_remove p r
  end.

Fixpoint heap_find (p : nat) (l : list (nat * block)) : option block :=
  match l with
  | [] => None
  | (q, b) :: r => if Nat.eqb p q then Some b else heap_find p r
  end.

Fixpoint heap_replace (p : nat) (b : block) (l : list (nat * block))
  : list (nat * block) :=
  match l with
  | [] => []
  | (q, b') :: r => if Nat.eqb p q then (q, b) :: r else (q, b') :: heap_replace p b r
  end.

(** [malloc (size)]: a fresh block, or NULL.  Every call is numbered;
    the number of a successful call is the address it returns. *)
Definition malloc (size : Z) (w : world) : option nat * world :=
  let p := heap_next w in
  if malloc_ok (os w) p size
  then (Some p, set_heap (S p) ((p, BlkRaw) :: heap_live w) w)
  else (None, set_heap (S p) (heap_live w) w).

Definition free (p : nat) (w : world) : world :=
  set_heap (heap_next w) (heap_remove p (heap_live w)) w.

Definition store (p : nat) (b : block) (w : world) : world :=
  set_heap (heap_next w) (heap_replace p b (heap_live w)) w.

Definition load (p : nat) (w : world) : option block := heap_find p (heap_live w).

(** The string a [char *] into the heap points to. *)
Definition load_chars (p : nat) (w : world) : list ascii :=
  match load p w with Some (BlkChars t) => t | _ => [] end.

(** What an [int8_t *] points to. *)
Definition payload_of (p : buf_ptr) (w : world) : list byte :=
  match p with
  | BufNull => []
  | BufDriver content => content
  | BufHeap a => match load a w with Some (BlkBytes d) => d | _ => [] end
  end.

Definition int8_of_byte (b : byte) : Z :=
  let n := Z.of_N (Byte.to_N b) in if n <? 128 then n else n - 256.

(** [data_ptr[i]]; the firmware reads below the reported length only. *)
Definition read_int8 (data : list byte) (i : Z) : Z :=
  int8_of_byte (nth (Z.to_nat i) data x00).

(** ** FreeRTOS queues *)

Definition pdTRUE : Z := 1.
Definition errQUEUE_FULL : Z := 0.

(** [xQueueCreate (uxQueueLength, uxItemSize)]: the new queue, or NULL
    when the memory for it cannot be had ([created] is the platform's
    answer). *)
Definition xQueueCreate (created : bool) (uxQueueLength : Z) : option queue_t :=
  if created then Some {| uxLength := uxQueueLength; items := [] |} else None.

(** [xQueueSend (q, &item, 0)]: with no time to wait, a full queue
    refuses the item. *)
Definition xQueueSend_nowait (q : queue_t) (item : nat) : Z * queue_t :=
  if Z.of_nat (List.length (items q)) <? uxLength q
  then (pdTRUE, {| uxLength := uxLength q; items := items q ++ [item] |})
  else (errQUEUE_FULL, q).

(** [xQueueReceive (q, &item, portMAX_DELAY)]: [None] while the queue
    is empty and the caller stays blocked. *)
Definition xQueueReceive (q : queue_t) : option (nat * queue_t) :=
  match items q with
  | [] => None
  | item :: rest => Some (item, {| uxLength := uxLength q; items := rest |})
  end.

(** ** lwIP *)

(** [inet_ntoa]: dotted decimal. *)
Definition inet_ntoa (a : Z * Z * Z * Z) : list ascii :=
  let '(a0, a1, a2, a3) := a in
  fmt_u (a0 mod 256) ++ lit "." ++ fmt_u (a1 mod 256) ++ lit "." ++
  fmt_u (a2 mod 256) ++ lit "." ++ fmt_u (a3 mod 256).

End Platform.

Import Platform.

(* ================================================================== *)
(** * _components/timestamp_manager.h                                  *)
(* ================================================================== *)

Module TimestampManager.

Definition TIMESTAMP_FORMAT_EXTENDED : string := "SYNC_TIME: %lld.%ld".
Definition TIMESTAMP_FORMAT_SIMPLE : string := "%lld.%ld".

(** [TIMESTAMP_FORMAT_READABLE], "%lld.%06ld", applied. *)
Definition format_readable (sec usec : Z) : list ascii :=
  fmt_lld sec ++ lit "." ++ fmt_06ld usec.

Definition validate_timestamp_format (input_string : option (list ascii)) : bool :=
  match input_string with
  | None => false
  | Some input =>
      let fields_parsed := fst (sscanf input TIMESTAMP_FORMAT_EXTENDED) in
      if 0 <? fields_parsed then true
      else
        let fields_parsed := fst (sscanf input TIMESTAMP_FORMAT_SIMPLE) in
        0 <? fields_parsed
  end.

(** The two destinations of a [sscanf] call, [&result.seconds] and
    [&result.microseconds], after the call. *)
Definition assign_fields (assigned : list Z) (result : timestamp_parse_result_t)
  : timestamp_parse_result_t :=
  match assigned with
  | [] => result
  | [s] => {| seconds := s; microseconds := microseconds result;
              parse_success := parse_success result |}
  | s :: u :: _ => {| seconds := s; microseconds := u;
                      parse_success := parse_success result |}
  end.

Definition parse_timestamp_string (timestamp_str : option (list ascii))
  : timestamp_parse_result_t :=
  let result := {| seconds := 0; microseconds := 0; parse_success := false |} in
  match timestamp_str with
  | None => result
  | Some input =>
      let '(parsed_fields, assigned) := sscanf input TIMESTAMP_FORMAT_EXTENDED in
      let result := assign_fields assigned result in
      let '(parsed_fields, result) :=
        if parsed_fields <=? 0 then
          let '(n, assigned) := sscanf input TIMESTAMP_FORMAT_SIMPLE in
          (n, assign_fields assigned result)
        else (parsed_fields, result) in
      if 0 <? parsed_fields then
        {| seconds := seconds result;
           microseconds :=
             if (microseconds result <? 0) || (1000000 <=? microseconds result)
             then 0 else microseconds result;
           parse_success := true |}
      else result
  end.

Definition synchronize_system_time (timestamp_input : option (list ascii)) (w : world)
  : bool * world :=
  let parsed_time := parse_timestamp_string timestamp_input in
  if negb (parse_success parsed_time) then
    (false, printf (lit "Warning: Failed to parse timestamp format" ++ ["010"%char]) w)
  else
    let new_time := {| tv_sec := to_long_long (seconds parsed_time);
                       tv_usec := microseconds parsed_time |} in
    let '(rc, w) := settimeofday new_time w in
    if rc =? 0 then
      let w := set_time_sync_established true w in
      (true, printf (lit "System time synchronized successfully" ++ ["010"%char]) w)
    else
      (false, printf (lit "Error: Failed to set system time" ++ ["010"%char]) w).

(** The result is a [char *] into the heap, or NULL. *)
Definition get_formatted_timestamp (w : world) : option nat * world :=
  let '(rc, current_time) := gettimeofday w in
  if negb (rc =? 0) then
    let '(error_timestamp, w) := malloc 20 w in
    match error_timestamp with
    | Some p => (Some p, store p (BlkChars (lit "0.0")) w)
    | None => (None, w)
    end
  else
    let text := format_readable (tv_sec current_time) (tv_usec current_time) in
    let buffer_size := strlen text + 1 in
    let '(formatted_time, w) := malloc buffer_size w in
    match formatted_time with
    | None => (None, w)
    | Some p => (Some p, store p (BlkChars text) w)
    end.

Definition is_time_synchronized (w : world) : bool := time_sync_established w.

Definition reset_time_sync_status (w : world) : world :=
  set_time_sync_established false w.

(** [get_current_time_components (&seconds, &microseconds)]: the values
    stored through the two pointers. *)
Definition get_current_time_components (w : world) : Z * Z :=
  let '(rc, current_time) := gettimeofday w in
  if rc =? 0 then (to_long_long (tv_sec current_time), to_int (tv_usec current_time))
  else (0, 0).

(** [get_time_difference_ms (start_time)].  The arithmetic is that of the
    types: [long long] for the seconds, [long] for the microseconds and
    the result; [/] truncates towards zero. *)
Definition get_time_difference_ms (start_time : timeval) (w : world) : Z :=
  let '(rc, current_time) := gettimeofday w in
  if negb (rc =? 0) then -1
  else
    let seconds_diff :=
      to_long_long (to_long_long (tv_sec current_time)
                    - to_long_long (tv_sec start_time)) in
    let useconds_diff := to_int (tv_usec current_time - tv_usec start_time) in
    to_int (to_int (to_long_long (seconds_diff * 1000)) + Z.quot useconds_diff 1000).

End TimestampManager.

Import TimestampManager.

(* ================================================================== *)
(** * _components/csi_handler.h                                        *)
(* ================================================================== *)

Module CsiHandler.

Definition format_mac_address (mac_bytes : list byte) : list ascii :=
  fmt_mac true mac_bytes.

(** [sqrt (real_part * real_part + imag_part * imag_part)]. *)
Definition amplitude_of (real imag : Z) : float :=
  let real_part := double_of_int real in
  let imag_part := double_of_int imag in
  PrimFloat.sqrt (PrimFloat.add (PrimFloat.mul real_part real_part)
                                (PrimFloat.mul imag_part imag_part)).

(** [atan2 (imag_part, real_part)]. *)
Definition phase_of (w : world) (real imag : Z) : float :=
  atan2 (os w) (double_of_int imag) (double_of_int real).

(** The three loops of the mode switch; [fuel] is the loop bound. *)
Fixpoint raw_loop (fuel : nat) (idx len : Z) (data_ptr : list byte) (w : world) : world :=
  match fuel with
  | O => w
  | S fuel' =>
      if (idx <? 128) && (idx <? len) then
        raw_loop fuel' (idx + 1) len data_ptr
                 (printf (fmt_d (read_int8 data_ptr idx) ++ lit " ") w)
      else w
  end.

Fixpoint amplitude_loop (fuel : nat) (idx len : Z) (data_ptr : list byte) (w : world)
  : world :=
  match fuel with
  | O => w
  | S fuel' =>
      if (idx <? 64) && (idx * 2 + 1 <? len) then
        let amplitude :=
          amplitude_of (read_int8 data_ptr (idx * 2)) (read_int8 data_ptr (idx * 2 + 1)) in
        amplitude_loop fuel' (idx + 1) len data_ptr
                       (printf (fmt_4f amplitude ++ lit " ") w)
      else w
  end.

Fixpoint phase_loop (fuel : nat) (idx len : Z) (data_ptr : list byte) (w : world)
  : world :=
  match fuel with
  | O => w
  | S fuel' =>
      if (idx <? 64) && (idx * 2 + 1 <? len) then
        let phase :=
          phase_of w (read_int8 data_ptr (idx * 2)) (read_int8 data_ptr (idx * 2 + 1)) in
        phase_loop fuel' (idx + 1) len data_ptr (printf (fmt_4f phase ++ lit " ") w)
      else w
  end.

(** [switch (g_csi_config.mode)]. *)
Definition emit_measurements (len : Z) (data_ptr : list byte) (w : world) : world :=
  let m := mode (g_csi_config w) in
  if m =? CSI_MODE_RAW_DATA then raw_loop 128 0 len data_ptr w
  else if m =? CSI_MODE_AMPLITUDE then amplitude_loop 64 0 len data_ptr w
  else if m =? CSI_MODE_PHASE_INFO then phase_loop 64 0 len data_ptr w
  else w.

Definition enhanced_csi_callback (csi_data : option wifi_csi_info_t) (w : world) : world :=
  match csi_data with
  | None => w
  | Some info =>
      match buf info with
      | BufNull => w
      | _ =>
          let mac_string := format_mac_address (mac info) in
          let w := printf (lit "CSI_DATA,") w in
          let w := printf (device_role (g_csi_config w) ++ lit ",") w in
          let w := printf (mac_string ++ lit ",") w in
          let rx_info := rx_ctrl info in
          let w := printf (fmt_d (rssi rx_info) ++ lit "," ++ fmt_d (rate rx_info) ++ lit ","
                           ++ fmt_d (sig_mode rx_info) ++ lit "," ++ fmt_d (mcs rx_info)
                           ++ lit "," ++ fmt_d (cwb rx_info) ++ lit ",") w in
          let w := printf (fmt_d (smoothing rx_info) ++ lit ","
                           ++ fmt_d (not_sounding rx_info) ++ lit ","
                           ++ fmt_d (aggregation rx_info) ++ lit "," ++ fmt_d (stbc rx_info)
                           ++ lit "," ++ fmt_d (fec_coding rx_info) ++ lit ",") w in
          let w := printf (fmt_d (sgi rx_info) ++ lit "," ++ fmt_d (noise_floor rx_info)
                           ++ lit "," ++ fmt_d (ampdu_cnt rx_info) ++ lit ","
                           ++ fmt_d (channel rx_info) ++ lit ","
                           ++ fmt_d (secondary_channel rx_info) ++ lit ",") w in
          let w := printf (fmt_d (timestamp rx_info) ++ lit "," ++ fmt_d (ant rx_info)
                           ++ lit "," ++ fmt_d (sig_len rx_info) ++ lit ","
                           ++ fmt_d (rx_state rx_info) ++ lit ",") w in
          let '(current_time, w) := get_formatted_timestamp w in
          let time_text :=
            match current_time with Some p => load_chars p w | None => lit "(null)" end in
          let w := printf (fmt_d (Z.b2z (is_time_synchronized w)) ++ lit ","
                           ++ time_text ++ lit ",") w in
          let w := match current_time with Some p => free p w | None => w end in
          let data_ptr := payload_of (buf info) w in
          let w := printf (fmt_d (len info) ++ lit ",[") w in
          let w := emit_measurements (len info) data_ptr w in
          printf (lit "]" ++ ["010"%char]) w
      end
  end.

Definition ESP_OK : Z := 0.
Definition ESP_FAIL : Z := -1.

(** The answers of [esp_wifi_set_csi], [esp_wifi_set_csi_config] and
    [esp_wifi_set_csi_rx_cb]. *)
Record csi_driver_answers := {
  set_csi_rc : Z; set_csi_config_rc : Z; set_csi_rx_cb_rc : Z
}.

Definition output_csi_header (w : world) : world :=
  printf (lit "data_type,node_role,source_mac,rssi,data_rate,signal_mode,"
          ++ lit "mcs_index,channel_width,smoothing_enabled,not_sounding,"
          ++ lit "aggregation_flag,stbc_enabled,fec_type,short_gi,noise_level,"
          ++ lit "ampdu_count,primary_channel,secondary_channel,local_time,"
          ++ lit "antenna_id,signal_length,rx_status,time_sync_flag,"
          ++ lit "timestamp_value,data_length,csi_measurements" ++ ["010"%char]) w.

Definition initialize_csi_collection (role_name : list ascii) (mode : csi_processing_mode_t)
    (custom_callback : option csi_callback) (drv : csi_driver_answers) (w : world)
  : Z * world :=
  let w := set_g_csi_config
             {| device_role := strncpy role_name 15; mode := mode;
                enable_filtering := true; buffer_size := 128 |} w in
  if negb (set_csi_rc drv =? ESP_OK) then (set_csi_rc drv, w)
  else if negb (set_csi_config_rc drv =? ESP_OK) then (set_csi_config_rc drv, w)
  else
    let callback_func :=
      match custom_callback with Some f => f | None => enhanced_csi_callback_ptr end in
    if negb (set_csi_rx_cb_rc drv =? ESP_OK) then (set_csi_rx_cb_rc drv, w)
    else
      let w := set_csi_rx_cb (Some callback_func) w in
      (ESP_OK, output_csi_header w).

Definition set_csi_processing_mode (new_mode : csi_processing_mode_t) (w : world) : world :=
  set_g_csi_config
    {| mode := new_mode; device_role := device_role (g_csi_config w);
       enable_filtering := enable_filtering (g_csi_config w);
       buffer_size := buffer_size (g_csi_config w) |} w.

Definition get_csi_configuration (w : world) : csi_config_t := g_csi_config w.

End CsiHandler.

Import CsiHandler.

(* ================================================================== *)
(** * _components/command_processor.h                                  *)
(* ================================================================== *)

Module CommandProcessor.

Definition newline : list ascii := ["010"%char].

Definition set_command_buffer (b : list ascii) (p : command_processor_t)
  : command_processor_t :=
  {| command_buffer := b; buffer_position := buffer_position p;
     commands_processed := commands_processed p; echo_enabled := echo_enabled p |}.

Definition set_buffer_position (n : Z) (p : command_processor_t) : command_processor_t :=
  {| command_buffer := command_buffer p; buffer_position := n;
     commands_processed := commands_processed p; echo_enabled := echo_enabled p |}.

Definition set_commands_processed (n : Z) (p : command_processor_t)
  : command_processor_t :=
  {| command_buffer := command_buffer p; buffer_position := buffer_position p;
     commands_processed := n; echo_enabled := echo_enabled p |}.

(** The backward scan of [trim_whitespace]:
    while [end > str] and the character at [end] is white space, [end--];
    on indices. *)
Fixpoint trim_end (str : list ascii) (e : nat) : nat :=
  match e with
  | O => O
  | S e' => if isspace (nth e str NUL) then trim_end str e' else e
  end.

(** [trim_whitespace], on the string its argument holds (the argument
    is a local array at the only call, never NULL). *)
Definition trim_whitespace (str : list ascii) : list ascii :=
  let start := skip_ws str in
  match start with
  | [] => []                 (* end = str - 1; end[1] = '\0' *)
  | _ => firstn (S (trim_end start (List.length start - 1))) start
  end.

Definition classify_command (command_text : option (list ascii)) : command_type_t :=
  match command_text with
  | None => CMD_TYPE_UNKNOWN
  | Some text =>
      let temp_cmd := strncpy text (Z.to_nat (MAX_COMMAND_LENGTH - 1)) in
      let temp_cmd := trim_whitespace temp_cmd in
      if validate_timestamp_format (Some temp_cmd) then CMD_TYPE_TIME_SYNC
      else if strncmp temp_cmd (lit "CSI_") 4 =? 0 then CMD_TYPE_CSI_CONFIG
      else if (strcasecmp temp_cmd (lit "help") =? 0) || (strcasecmp temp_cmd (lit "?") =? 0)
      then CMD_TYPE_HELP
      else if (strcasecmp temp_cmd (lit "status") =? 0)
              || (strcasecmp temp_cmd (lit "info") =? 0)
      then CMD_TYPE_SYSTEM_INFO
      else CMD_TYPE_UNKNOWN
  end.

Definition display_help_information (w : world) : world :=
  let w := printf (newline ++ lit "=== Available Commands ===" ++ newline) w in
  let w := printf (lit "Time Sync: SYNC_TIME: <seconds>.<microseconds>" ++ newline) w in
  let w := printf (lit "Simple Time: <seconds>.<microseconds>" ++ newline) w in
  let w := printf (lit "System Info: status, info" ++ newline) w in
  let w := printf (lit "Help: help, ?" ++ newline) w in
  let w := printf (lit "CSI Config: CSI_* commands (future expansion)" ++ newline) w in
  printf (lit "===========================" ++ newline ++ newline) w.

Definition display_system_status (w : world) : world :=
  let w := printf (newline ++ lit "=== System Status ===" ++ newline) w in
  let w := printf (lit "Time Synchronized: "
                   ++ (if is_time_synchronized w then lit "Yes" else lit "No")
                   ++ newline) w in
  let w := printf (lit "Commands Processed: "
                   ++ fmt_d (commands_processed (g_cmd_processor w)) ++ newline) w in
  let '(current_time, w) := get_formatted_timestamp w in
  let w :=
    match current_time with
    | Some p =>
        let w := printf (lit "Current Timestamp: " ++ load_chars p w ++ newline) w in
        free p w
    | None => w
    end in
  let csi_config := get_csi_configuration w in
  let w := printf (lit "CSI Mode: " ++ fmt_d (mode csi_config) ++ newline) w in
  let w := printf (lit "Device Role: " ++ device_role csi_config ++ newline) w in
  printf (lit "====================" ++ newline ++ newline) w.

Definition execute_classified_command (command_text : list ascii)
    (cmd_type : command_type_t) (w : world) : bool * world :=
  let '(command_handled, w) :=
    match cmd_type with
    | CMD_TYPE_TIME_SYNC =>
        let w := printf (lit "Processing time synchronization: " ++ command_text
                         ++ newline) w in
        synchronize_system_time (Some command_text) w
    | CMD_TYPE_HELP => (true, display_help_information w)
    | CMD_TYPE_SYSTEM_INFO => (true, display_system_status w)
    | CMD_TYPE_CSI_CONFIG =>
        (true, printf (lit "CSI configuration commands not yet implemented: "
                       ++ command_text ++ newline) w)
    | CMD_TYPE_UNKNOWN =>
        let w := printf (lit "Unrecognized command: " ++ command_text ++ newline) w in
        (false, printf (lit "Type 'help' for available commands" ++ newline) w)
    end in
  if command_handled then
    let p := g_cmd_processor w in
    (true, set_g_cmd_processor
             (set_commands_processed (to_int (commands_processed p + 1)) p) w)
  else (false, w).

Definition process_received_command (w : world) : world :=
  let text := c_str (command_buffer (g_cmd_processor w)) in
  if strlen text =? 0 then w
  else
    let cmd_type := classify_command (Some text) in
    snd (execute_classified_command text cmd_type w).

(** [memset (command_buffer, 0, sizeof command_buffer); buffer_position = 0]. *)
Definition reset_buffer (w : world) : world :=
  set_g_cmd_processor
    (set_buffer_position 0
       (set_command_buffer (memset_zero (Z.to_nat MAX_COMMAND_LENGTH))
                           (g_cmd_processor w))) w.

(** [scan_for_input_data].  [stdin] holds the bytes [fgetc] can deliver
    now; past them it answers [EOF].  The bytes not consumed by this
    call are returned with the state. *)
Fixpoint scan_for_input_data (stdin : list ascii) (w : world) : world * list ascii :=
  match stdin with
  | [] => (w, [])
  | c :: rest =>
      let input_char := char_code c in
      if (input_char =? 255) || (input_char =? EOF) then (w, rest)
      else if (input_char =? 10) || (input_char =? 13) then
        let p := g_cmd_processor w in
        let w := set_g_cmd_processor
                   (set_command_buffer
                      (array_set (command_buffer p) (Z.to_nat (buffer_position p)) NUL)
                      p) w in
        let w := process_received_command w in
        scan_for_input_data rest (reset_buffer w)
      else if buffer_position (g_cmd_processor w) <? MAX_COMMAND_LENGTH - 1 then
        let p := g_cmd_processor w in
        let p := set_command_buffer
                   (array_set (command_buffer p) (Z.to_nat (buffer_position p))
                              (char_of input_char)) p in
        let p := set_buffer_position (to_int (buffer_position p + 1)) p in
        scan_for_input_data rest (set_g_cmd_processor p w)
      else
        let w := printf (lit "Warning: Command too long, buffer reset" ++ newline) w in
        scan_for_input_data rest (reset_buffer w)
  end.

Definition initialize_command_processor (enable_echo : bool) (w : world) : world :=
  let w := set_g_cmd_processor
             {| command_buffer := memset_zero (Z.to_nat MAX_COMMAND_LENGTH);
                buffer_position := 0; commands_processed := 0;
                echo_enabled := enable_echo |} w in
  printf (lit "Command processor initialized" ++ newline) w.

Definition get_processor_stats (w : world) : Z * Z :=
  (commands_processed (g_cmd_processor w), buffer_position (g_cmd_processor w)).

(** The turns of the loop of [start_command_monitoring_loop].  [polls]
    holds, turn by turn, the bytes the console receives before the
    turn's [scan_for_input_data]; what a turn leaves unread stays in
    [stdin] for the next one. *)
Fixpoint command_monitoring_turns (polls : list (list ascii)) (stdin : list ascii)
    (w : world) : world * list ascii :=
  match polls with
  | [] => (w, stdin)
  | arrived :: later =>
      let '(w, unread) := scan_for_input_data (stdin ++ arrived) w in
      command_monitoring_turns later unread w
  end.

(** [start_command_monitoring_loop], for as many turns as [polls] has. *)
Definition start_command_monitoring_loop (polls : list (list ascii)) (w : world)
  : world * list ascii :=
  let w := printf (lit "Command processor started. Type 'help' for commands."
                   ++ newline) w in
  command_monitoring_turns polls [] w.

End CommandProcessor.

Import CommandProcessor.

(* ================================================================== *)
(** * _components/storage_manager.h                                    *)
(* ================================================================== *)

Module StorageManager.

(** nvs.h of ESP-IDF. *)
Definition ESP_ERR_NVS_BASE : Z := 4352.                        (* 0x1100 *)
Definition ESP_ERR_NVS_NO_FREE_PAGES : Z := ESP_ERR_NVS_BASE + 13.
Definition ESP_ERR_NVS_NEW_VERSION_FOUND : Z := ESP_ERR_NVS_BASE + 16.

Record storage_init_result_t := {
  success : bool;
  required_format : bool;
  error_code : Z
}.

(** The answers of the NVS library: of the first and of the second call
    of [nvs_flash_init], of [nvs_flash_erase] and of [nvs_get_stats],
    and the names [esp_err_to_name] gives the error codes. *)
Record nvs_answers := {
  nvs_flash_init_first : Z;
  nvs_flash_init_second : Z;
  nvs_flash_erase_rc : Z;
  nvs_get_stats_rc : Z;
  nvs_err_to_name : Z -> list ascii
}.

(** A call to the NVS library. *)
Inductive nvs_call := NvsFlashInit | NvsFlashErase.

Definition STORAGE_LOG (level : log_level) (text : list ascii) (w : world) : world :=
  ESP_LOG level text w.

(** [initialize_non_volatile_storage]: the result and the calls made to
    the NVS library, in order. *)
Definition initialize_non_volatile_storage (nvs : nvs_answers) (w : world)
  : storage_init_result_t * list nvs_call * world :=
  let w := STORAGE_LOG LOGI (lit "Initializing NVS storage system...") w in
  let init_result := nvs_flash_init_first nvs in
  if init_result =? ESP_OK then
    ({| success := true; required_format := false; error_code := init_result |},
     [NvsFlashInit],
     STORAGE_LOG LOGI (lit "NVS initialized successfully") w)
  else if (init_result =? ESP_ERR_NVS_NO_FREE_PAGES)
          || (init_result =? ESP_ERR_NVS_NEW_VERSION_FOUND) then
    let w := STORAGE_LOG LOGW (lit "NVS partition needs formatting (reason: "
                               ++ nvs_err_to_name nvs init_result ++ lit ")") w in
    let erase_result := nvs_flash_erase_rc nvs in
    if negb (erase_result =? ESP_OK) then
      ({| success := false; required_format := false; error_code := erase_result |},
       [NvsFlashInit; NvsFlashErase],
       STORAGE_LOG LOGE (lit "Failed to erase NVS partition: "
                         ++ nvs_err_to_name nvs erase_result) w)
    else
      let init_result := nvs_flash_init_second nvs in
      if init_result =? ESP_OK then
        ({| success := true; required_format := true; error_code := init_result |},
         [NvsFlashInit; NvsFlashErase; NvsFlashInit],
         STORAGE_LOG LOGI (lit "NVS initialized successfully after format") w)
      else
        ({| success := false; required_format := false; error_code := init_result |},
         [NvsFlashInit; NvsFlashErase; NvsFlashInit],
         STORAGE_LOG LOGE (lit "NVS initialization failed even after format: "
                           ++ nvs_err_to_name nvs init_result) w)
  else
    ({| success := false; required_format := false; error_code := init_result |},
     [NvsFlashInit],
     STORAGE_LOG LOGE (lit "Critical NVS initialization error: "
                       ++ nvs_err_to_name nvs init_result) w).

(** [setup_nvs_storage]: [None] when [ESP_ERROR_CHECK] aborts. *)
Definition setup_nvs_storage (nvs : nvs_answers) (w : world) : option world :=
  let '(result, _, w) := initialize_non_volatile_storage nvs w in
  if negb (success result) then
    if error_code result =? ESP_OK then Some w else None
  else Some w.

(** [get_storage_statistics (&used, &free, &total)]: the value returned
    and, when they are written, the three values stored. *)
Definition get_storage_statistics (nvs : nvs_answers) (w : world)
  : Z * option (Z * Z * Z) * world :=
  let result := nvs_get_stats_rc nvs in
  if negb (result =? ESP_OK) then
    (result, None,
     STORAGE_LOG LOGE (lit "Failed to get NVS statistics: " ++ nvs_err_to_name nvs result) w)
  else
    (ESP_OK, Some (0, 0, 0), STORAGE_LOG LOGI (lit "Storage statistics retrieved") w).

End StorageManager.

Import StorageManager.

(* ================================================================== *)
(** * active_ap/main/main.c                                            *)
(* ================================================================== *)

Module ActiveAp.

Definition CSI_DATA_QUEUE_SIZE : Z := 64.
Definition HOST_COMMUNICATION_PORT : Z := 9999.
Definition UDP_PAYLOAD_BUFFER_SIZE : Z := 4096.

Definition set_csi_data_queue (q : option queue_t) (a : application_state_t)
  : application_state_t :=
  {| csi_data_queue := q; udp_socket_descriptor := udp_socket_descriptor a;
     network_ready := network_ready a; processed_packets := processed_packets a;
     discovered_host_ip := discovered_host_ip a; host_discovered := host_discovered a |}.

Definition set_udp_socket_descriptor (s : Z) (a : application_state_t)
  : application_state_t :=
  {| csi_data_queue := csi_data_queue a; udp_socket_descriptor := s;
     network_ready := network_ready a; processed_packets := processed_packets a;
     discovered_host_ip := discovered_host_ip a; host_discovered := host_discovered a |}.

Definition set_processed_packets (n : Z) (a : application_state_t)
  : application_state_t :=
  {| csi_data_queue := csi_data_queue a;
     udp_socket_descriptor := udp_socket_descriptor a;
     network_ready := network_ready a; processed_packets := n;
     discovered_host_ip := discovered_host_ip a; host_discovered := host_discovered a |}.

(** [strcpy (app_state.discovered_host_ip, ip); app_state.host_discovered = true]. *)
Definition set_discovered_host (ip : list ascii) (a : application_state_t)
  : application_state_t :=
  {| csi_data_queue := csi_data_queue a;
     udp_socket_descriptor := udp_socket_descriptor a;
     network_ready := network_ready a; processed_packets := processed_packets a;
     discovered_host_ip := ip; host_discovered := true |}.

Definition authorized_devices : list (list ascii) :=
  [ lit "a0:b7:65:5a:08:a5";    (* Research ESP32 Device A *)
    lit "24:0a:c4:c9:25:d8" ].  (* Research ESP32 Device B *)

Definition NUM_AUTHORIZED_DEVICES : Z := Z.of_nat (List.length authorized_devices).

(** The loop over [authorized_devices], from [device_index] on. *)
Fixpoint authorized_loop (fuel : nat) (device_index : Z) (mac_address_string : list ascii)
    (w : world) : bool * world :=
  match fuel with
  | O => (false, ESP_LOG LOGD (lit "Unauthorized device filtered: " ++ mac_address_string) w)
  | S fuel' =>
      if device_index <? NUM_AUTHORIZED_DEVICES then
        if strcmp mac_address_string
                  (nth (Z.to_nat device_index) authorized_devices []) =? 0
        then (true, ESP_LOG LOGI (lit "Authorized device detected: " ++ mac_address_string) w)
        else authorized_loop fuel' (device_index + 1) mac_address_string w
      else (false, ESP_LOG LOGD (lit "Unauthorized device filtered: "
                                 ++ mac_address_string) w)
  end.

Definition is_authorized_research_device (device_mac : list byte) (w : world)
  : bool * world :=
  let mac_address_string := fmt_mac false device_mac in
  authorized_loop (List.length authorized_devices) 0 mac_address_string w.

(** [research_csi_data_callback]. *)
Definition research_csi_data_callback (csi_info : option wifi_csi_info_t) (w : world)
  : world :=
  match csi_info with
  | None => ESP_LOG LOGW (lit "Invalid CSI data received") w
  | Some info =>
      match buf info with
      | BufNull => ESP_LOG LOGW (lit "Invalid CSI data received") w
      | _ =>
          let '(authorized, w) := is_authorized_research_device (mac info) w in
          if negb authorized then w
          else
            let '(csi_copy, w) := malloc (sizeof_wifi_csi_info_t (os w)) w in
            match csi_copy with
            | None => ESP_LOG LOGE (lit "Failed to allocate memory for CSI data") w
            | Some copy =>
                let w := store copy (BlkCsi info) w in
                let '(copy_buf, w) := malloc (len info) w in
                match copy_buf with
                | None =>
                    let w := free copy w in
                    ESP_LOG LOGE (lit "Failed to allocate memory for CSI buffer") w
                | Some b =>
                    let w := store copy
                               (BlkCsi {| rx_ctrl := rx_ctrl info; mac := mac info;
                                          len := len info; buf := BufHeap b |}) w in
                    let w := store b
                               (BlkBytes (firstn (Z.to_nat (len info))
                                                 (payload_of (buf info) w))) w in
                    match csi_data_queue (app_state w) with
                    | None => w     (* no queue yet: xQueueSend asserts *)
                    | Some q =>
                        let '(sent, q) := xQueueSend_nowait q copy in
                        if negb (sent =? pdTRUE) then
                          let w := free b w in
                          let w := free copy w in
                          ESP_LOG LOGW (lit "CSI data queue overflow - dropping packet") w
                        else set_app_state (set_csi_data_queue (Some q) (app_state w)) w
                    end
                end
            end
      end
  end.

(** The walk over the list of mDNS results. *)
Fixpoint process_mdns_results (current : list mdns_result_t) (w : world) : world :=
  match current with
  | [] => w
  | r :: next =>
      let w :=
        match addr r, hostname r with
        | Some a, Some h =>
            let w := ESP_LOG LOGI (lit "Found host: " ++ h ++ lit " at " ++ inet_ntoa a) w in
            if negb (host_discovered (app_state w)) then
              let w := set_app_state (set_discovered_host (inet_ntoa a) (app_state w)) w in
              ESP_LOG LOGI (lit "Selected host: " ++ discovered_host_ip (app_state w)) w
            else w
        | _, _ => w
        end in
      process_mdns_results next w
  end.

(** [discover_host_computer]; [query] is what
    [mdns_query_ptr ("_ssh", "_tcp", 3000, 20, &results)] answers: its
    return value and the results. *)
Definition discover_host_computer (query : Z * list mdns_result_t) (w : world)
  : Z * world :=
  let w := ESP_LOG LOGI (lit "Searching for host computer via mDNS...") w in
  let '(result, results) := query in
  if negb (result =? ESP_OK) then
    (ESP_FAIL, ESP_LOG LOGW (lit "mDNS query failed, using broadcast discovery") w)
  else
    let w := process_mdns_results results w in
    if negb (host_discovered (app_state w)) then
      let w := ESP_LOG LOGW (lit "No host computer discovered via mDNS") w in
      let w := set_app_state (set_discovered_host (lit "192.168.4.255") (app_state w)) w in
      (ESP_OK, ESP_LOG LOGI (lit "Using broadcast address: "
                             ++ discovered_host_ip (app_state w)) w)
    else (ESP_OK, w).

(** One turn of the loop of [mdns_discovery_task]. *)
Definition mdns_discovery_cycle (query : Z * list mdns_result_t) (w : world) : world :=
  if negb (host_discovered (app_state w)) then snd (discover_host_computer query w)
  else w.

(** The loop of [mdns_discovery_task], one query answer per turn. *)
Fixpoint mdns_discovery_loop (queries : list (Z * list mdns_result_t)) (w : world)
  : world :=
  match queries with
  | [] => w
  | q :: rest => mdns_discovery_loop rest (mdns_discovery_cycle q w)
  end.

Definition transmit_csi_data (formatted_data : list ascii) (w : world) : Z * world :=
  if negb (host_discovered (app_state w)) || (udp_socket_descriptor (app_state w) <? 0)
  then (ESP_FAIL, w)
  else
    let dgram := {| dest_ip := discovered_host_ip (app_state w);
                    dest_port := HOST_COMMUNICATION_PORT;
                    payload := formatted_data |} in
    let bytes_sent := sendto_rc (os w) dgram in
    let w := set_datagrams (datagrams w ++ [dgram]) w in
    if bytes_sent <? 0 then
      (ESP_FAIL, ESP_LOG LOGE (lit "UDP transmission failed") w)
    else
      let a := app_state w in
      (ESP_OK, set_app_state
                 (set_processed_packets ((processed_packets a + 1) mod 2 ^ 32) a) w).

(** A run of [%d,] conversions. *)
Definition fmt_fields (values : list Z) : list ascii :=
  flat_map (fun v => fmt_d v ++ lit ",") values.

(** The text of the first [snprintf] of the forwarding task: the header
    of a record, up to the opening bracket. *)
Definition record_header (mac_string : list ascii) (csi_data : wifi_csi_info_t)
    (synchronized : bool) (timestamp : option (list ascii)) : list ascii :=
  let rx := rx_ctrl csi_data in
  lit "CSI_Data,AP," ++ mac_string ++ lit ","
  ++ fmt_fields [ rssi rx; rate rx; sig_mode rx; mcs rx; cwb rx; smoothing rx;
                  not_sounding rx; aggregation rx; stbc rx; fec_coding rx; sgi rx;
                  noise_floor rx; ampdu_cnt rx; channel rx; secondary_channel rx;
                  Decl.timestamp rx; ant rx; sig_len rx; rx_state rx;
                  Z.b2z synchronized ]
  ++ (match timestamp with Some t => t | None => lit "0.0" end) ++ lit ","
  ++ fmt_d (len csi_data) ++ lit ",[".

(** The text of one value: ["%.4f "] of the amplitude of pair [i]. *)
Definition pair_text (data_ptr : list byte) (i : Z) : list ascii :=
  let real_part := read_int8 data_ptr (i * 2) in
  let imag_part := read_int8 data_ptr (i * 2 + 1) in
  fmt_4f (amplitude_of real_part imag_part) ++ lit " ".

(** The loop over the pairs of the payload; [fuel] is the loop bound.
    The buffer is [None] once a store has left it. *)
Fixpoint format_loop (fuel : nat) (i len : Z) (data_ptr : list byte)
    (output_buffer : list ascii) (offset : Z) : option (list ascii) * Z :=
  match fuel with
  | O => (Some output_buffer, offset)
  | S fuel' =>
      if (i <? 64) && (i * 2 + 1 <? len) && (offset <? UDP_PAYLOAD_BUFFER_SIZE - 50) then
        match snprintf_at output_buffer offset (UDP_PAYLOAD_BUFFER_SIZE - offset)
                          (pair_text data_ptr i) with
        | (Some output_buffer, n) =>
            format_loop fuel' (i + 1) len data_ptr output_buffer (offset + n)
        | (None, n) => (None, offset + n)
        end
      else (Some output_buffer, offset)
  end.

(** The formatting part of one turn of [csi_data_processing_task]: the
    output buffer after the closing [snprintf]. *)
Definition format_csi_record (csi_data : wifi_csi_info_t) (data_ptr : list byte)
    (synchronized : bool) (timestamp : option (list ascii)) : option (list ascii) :=
  let output_buffer := memset_zero (Z.to_nat UDP_PAYLOAD_BUFFER_SIZE) in
  let mac_string := fmt_mac true (mac csi_data) in
  match snprintf_at output_buffer 0 UDP_PAYLOAD_BUFFER_SIZE
                    (record_header mac_string csi_data synchronized timestamp) with
  | (None, _) => None
  | (Some output_buffer, offset) =>
      match format_loop 64 0 (len csi_data) data_ptr output_buffer offset with
      | (None, _) => None
      | (Some output_buffer, offset) =>
          fst (snprintf_at output_buffer offset (UDP_PAYLOAD_BUFFER_SIZE - offset)
                           (lit "]" ++ ["010"%char]))
      end
  end.

Inductive task_outcome :=
| Blocked                 (* xQueueReceive waits *)
| Fault                   (* a load or a store outside any object *)
| Ran (w : world).

(** One turn of the loop of [csi_data_processing_task]. *)
Definition csi_data_processing_step (w : world) : task_outcome :=
  match csi_data_queue (app_state w) with
  | None => Blocked
  | Some q =>
      match xQueueReceive q with
      | None => Blocked
      | Some (csi_ptr, q) =>
          let w := set_app_state (set_csi_data_queue (Some q) (app_state w)) w in
          match load csi_ptr w with
          | Some (BlkCsi csi_data) =>
              let '(timestamp, w) := get_formatted_timestamp w in
              let timestamp_text := option_map (fun p => load_chars p w) timestamp in
              match format_csi_record csi_data (payload_of (buf csi_data) w)
                                      (is_time_synchronized w) timestamp_text with
              | None => Fault
              | Some output_buffer =>
                  let w := snd (transmit_csi_data (c_str output_buffer) w) in
                  let w := printf (c_str output_buffer) w in
                  let w := match timestamp with Some p => free p w | None => w end in
                  let w := match buf csi_data with BufHeap b => free b w | _ => w end in
                  Ran (free csi_ptr w)
              end
          | _ => Fault
          end
      end
  end.

(** The globals at power-on: all zero. *)
Definition power_on (o : os_t) (now : timeval) : world :=
  {| os := o; sys_clock := now; console := []; esp_log := []; heap_next := 0;
     heap_live := []; datagrams := []; csi_rx_cb := None;
     time_sync_established := false;
     g_cmd_processor := {| command_buffer := memset_zero (Z.to_nat MAX_COMMAND_LENGTH);
                           buffer_position := 0; commands_processed := 0;
                           echo_enabled := false |};
     g_csi_config := {| mode := 0; device_role := []; enable_filtering := false;
                        buffer_size := 0 |};
     app_state := {| csi_data_queue := None; udp_socket_descriptor := 0;
                     network_ready := false; processed_packets := 0;
                     discovered_host_ip := []; host_discovered := false |} |}.

(** ** Bringing the access point up *)

Definition WIFI_ACCESS_POINT_SSID : string := "ESP32-AP".
Definition WIFI_CHANNEL_NUMBER : Z := 6.

(** The answers of the network stack to the calls of
    [configure_wifi_access_point], in the order of the calls. *)
Record wifi_answers := {
  esp_netif_init_rc : Z;
  esp_event_loop_create_default_rc : Z;
  ap_netif_created : bool;            (* esp_netif_create_default_wifi_ap is not NULL *)
  esp_netif_dhcps_stop_rc : Z;
  esp_netif_set_ip_info_rc : Z;
  esp_netif_dhcps_start_rc : Z;
  esp_wifi_init_rc : Z;
  esp_event_handler_register_rc : Z;
  esp_wifi_set_mode_rc : Z;
  esp_wifi_set_config_rc : Z;
  esp_wifi_start_rc : Z
}.

(** The calls under [ESP_ERROR_CHECK] before and after the creation of
    the network interface; the macro aborts on the first answer that is
    not [ESP_OK]. *)
Definition wifi_checks_before (wifi : wifi_answers) : list Z :=
  [esp_netif_init_rc wifi; esp_event_loop_create_default_rc wifi].

Definition wifi_checks_after (wifi : wifi_answers) : list Z :=
  [esp_netif_dhcps_stop_rc wifi; esp_netif_set_ip_info_rc wifi;
   esp_netif_dhcps_start_rc wifi; esp_wifi_init_rc wifi;
   esp_event_handler_register_rc wifi; esp_wifi_set_mode_rc wifi;
   esp_wifi_set_config_rc wifi; esp_wifi_start_rc wifi].

(** A run of [ESP_ERROR_CHECK]s passes when every answer is [ESP_OK]. *)
Definition checks_pass (answers : list Z) : bool :=
  forallb (fun rc => rc =? ESP_OK) answers.

(** [configure_wifi_access_point]: [None] when an [ESP_ERROR_CHECK]
    aborts. *)
Definition configure_wifi_access_point (wifi : wifi_answers) (w : world)
  : option (Z * world) :=
  let w := ESP_LOG LOGI (lit "Configuring WiFi Access Point...") w in
  if negb (checks_pass (wifi_checks_before wifi)) then None
  else if negb (ap_netif_created wifi) then
    Some (ESP_FAIL, ESP_LOG LOGE (lit "Failed to create AP network interface") w)
  else if negb (checks_pass (wifi_checks_after wifi)) then None
  else
    Some (ESP_OK,
          ESP_LOG LOGI (lit "WiFi AP configured: SSID=" ++ lit WIFI_ACCESS_POINT_SSID
                        ++ lit ", Channel=" ++ fmt_d WIFI_CHANNEL_NUMBER) w).

(** The answers of [socket] and [setsockopt], and the text of
    [strerror (errno)] after the one that failed. *)
Record socket_answers := {
  socket_rc : Z;
  setsockopt_rc : Z;
  strerror_text : list ascii
}.

Definition initialize_udp_socket (sa : socket_answers) (w : world) : Z * world :=
  let sock := socket_rc sa in
  if sock <? 0 then
    (-1, ESP_LOG LOGE (lit "Failed to create UDP socket: " ++ strerror_text sa) w)
  else
    let w := if setsockopt_rc sa <? 0
             then ESP_LOG LOGW (lit "Failed to enable broadcast: " ++ strerror_text sa) w
             else w in
    (sock, ESP_LOG LOGI (lit "UDP socket initialized successfully") w).

(** What the platform answers to [app_main] and to the functions it
    calls. *)
Record boot_answers := {
  nvs : nvs_answers;                  (* initialize_non_volatile_storage *)
  queue_created : bool;               (* xQueueCreate *)
  wifi : wifi_answers;                (* configure_wifi_access_point *)
  udp : socket_answers;               (* initialize_udp_socket *)
  csi_driver : csi_driver_answers     (* initialize_csi_collection *)
}.

(** How [app_main] ends. *)
Inductive main_outcome :=
| MainReturned             (* a setup step failed and [app_main] returned *)
| MainAborted              (* an [ESP_ERROR_CHECK] aborted *)
| MainRunning.             (* the tasks are created and the command loop entered *)

(** [app_main] up to the call of [start_command_monitoring_loop]; the
    two tasks it creates are [csi_data_processing_task] and
    [mdns_discovery_task]. *)
Definition app_main (boot : boot_answers) (w : world) : main_outcome * world :=
  let w := ESP_LOG LOGI (lit "ESP32 CSI Data Collector - Access Point Mode") w in
  let w := ESP_LOG LOGI (lit "Firmware Version: 1.2.0") w in
  let '(storage_result, _, w) := initialize_non_volatile_storage (nvs boot) w in
  if negb (success storage_result) then
    (MainReturned, ESP_LOG LOGE (lit "Storage initialization failed") w)
  else
    let w := reset_time_sync_status w in
    let w := ESP_LOG LOGI (lit "Timestamp manager initialized") w in
    let w := initialize_command_processor true w in
    let w := set_app_state
               (set_csi_data_queue (xQueueCreate (queue_created boot) CSI_DATA_QUEUE_SIZE)
                                   (app_state w)) w in
    match csi_data_queue (app_state w) with
    | None => (MainReturned, ESP_LOG LOGE (lit "Failed to create CSI data queue") w)
    | Some _ =>
        match configure_wifi_access_point (wifi boot) w with
        | None => (MainAborted, w)
        | Some (wifi_result, w) =>
            if negb (wifi_result =? ESP_OK) then
              (MainReturned,
               ESP_LOG LOGE (lit "WiFi AP configuration failed: "
                             ++ nvs_err_to_name (nvs boot) wifi_result) w)
            else
              let '(sock, w) := initialize_udp_socket (udp boot) w in
              let w := set_app_state (set_udp_socket_descriptor sock (app_state w)) w in
              if udp_socket_descriptor (app_state w) <? 0 then
                (MainReturned, ESP_LOG LOGE (lit "UDP socket initialization failed") w)
              else
                let '(csi_result, w) :=
                  initialize_csi_collection (lit "collector") CSI_MODE_AMPLITUDE
                                            (Some research_csi_data_callback_ptr)
                                            (csi_driver boot) w in
                if negb (csi_result =? ESP_OK) then
                  (MainReturned,
                   ESP_LOG LOGE (lit "CSI initialization failed: "
                                 ++ nvs_err_to_name (nvs boot) csi_result) w)
                else
                  let w := ESP_LOG LOGI (lit "System initialization complete") w in
                  let w := ESP_LOG LOGI (lit "Access Point SSID: "
                                         ++ lit WIFI_ACCESS_POINT_SSID) w in
                  (MainRunning, ESP_LOG LOGI (lit "Data transmission port: "
                                              ++ fmt_d HOST_COMMUNICATION_PORT) w)
        end
    end.

(** ** Network events and the discovery task *)

Definition DEVICE_HOSTNAME_PREFIX : string := "ESP32_CSI_Collector".
Definition MDNS_SERVICE_NAME : string := "csi-collector".
Definition MDNS_PROTOCOL : string := "_udp".

Definition set_network_ready (b : bool) (a : application_state_t) : application_state_t :=
  {| csi_data_queue := csi_data_queue a;
     udp_socket_descriptor := udp_socket_descriptor a;
     network_ready := b; processed_packets := processed_packets a;
     discovered_host_ip := discovered_host_ip a; host_discovered := host_discovered a |}.

(** The base an event is posted under. *)
Inductive esp_event_base_t := WIFI_EVENT | IP_EVENT.

(** A WiFi event: its identifier and, for the station events, the MAC
    address in its data. *)
Inductive wifi_event :=
| WIFI_EVENT_AP_START
| WIFI_EVENT_AP_STOP
| WIFI_EVENT_AP_STACONNECTED (mac : list byte)
| WIFI_EVENT_AP_STADISCONNECTED (mac : list byte)
| WIFI_EVENT_OTHER (event_id : Z).

(** [network_event_handler (arg, event_base, event_id, event_data)]. *)
Definition network_event_handler (event_base : esp_event_base_t) (event : wifi_event)
    (w : world) : world :=
  match event_base with
  | WIFI_EVENT =>
      match event with
      | WIFI_EVENT_AP_START =>
          let w := ESP_LOG LOGI (lit "Access Point started successfully") w in
          set_app_state (set_network_ready true (app_state w)) w
      | WIFI_EVENT_AP_STOP =>
          let w := ESP_LOG LOGI (lit "Access Point stopped") w in
          set_app_state (set_network_ready false (app_state w)) w
      | WIFI_EVENT_AP_STACONNECTED mac =>
          ESP_LOG LOGI (lit "Station connected - MAC: " ++ fmt_mac false mac) w
      | WIFI_EVENT_AP_STADISCONNECTED mac =>
          ESP_LOG LOGI (lit "Station disconnected - MAC: " ++ fmt_mac false mac) w
      | WIFI_EVENT_OTHER event_id =>
          (* [%ld] of an [int32_t] *)
          ESP_LOG LOGD (lit "Unhandled WiFi event: " ++ fmt_d event_id) w
      end
  | _ => w
  end.

(** The answers of the mDNS responder and of the WiFi driver to
    [setup_mdns_service]. *)
Record mdns_answers := {
  mdns_init_rc : Z;
  mdns_hostname_set_rc : Z;
  mdns_instance_name_set_rc : Z;
  mdns_service_add_rc : Z;
  ap_mac : list byte;                 (* esp_wifi_get_mac (WIFI_IF_AP, mac) *)
  esp_err_to_name : Z -> list ascii
}.

(** What the mDNS responder is asked to do. *)
Inductive mdns_call :=
| MdnsInit
| MdnsHostnameSet (hostname : list ascii)
| MdnsInstanceNameSet (name : list ascii)
| MdnsServiceAdd (service proto : list ascii) (port : Z).

(** The text of ["%s_%02x%02x"] for the host name. *)
Definition hostname_text (mac : list byte) : list ascii :=
  lit DEVICE_HOSTNAME_PREFIX ++ lit "_"
  ++ fmt_02x false (nth 4 mac x00) ++ fmt_02x false (nth 5 mac x00).

(** [setup_mdns_service]: the value returned and the calls made to the
    responder, in order. *)
Definition setup_mdns_service (mdns : mdns_answers) (w : world)
  : Z * list mdns_call * world :=
  let w := ESP_LOG LOGI (lit "Setting up mDNS service...") w in
  let result := mdns_init_rc mdns in
  if negb (result =? ESP_OK) then
    (result, [MdnsInit],
     ESP_LOG LOGE (lit "mDNS initialization failed: " ++ esp_err_to_name mdns result) w)
  else
    let hostname := snprintf_string 32 (hostname_text (ap_mac mdns)) in
    let result := mdns_hostname_set_rc mdns in
    if negb (result =? ESP_OK) then
      (result, [MdnsInit; MdnsHostnameSet hostname],
       ESP_LOG LOGE (lit "Failed to set mDNS hostname: " ++ esp_err_to_name mdns result) w)
    else
      let result := mdns_instance_name_set_rc mdns in
      if negb (result =? ESP_OK) then
        (result,
         [MdnsInit; MdnsHostnameSet hostname;
          MdnsInstanceNameSet (lit "ESP32 CSI Data Collector")],
         ESP_LOG LOGE (lit "Failed to set mDNS instance name: "
                       ++ esp_err_to_name mdns result) w)
      else
        let calls :=
          [MdnsInit; MdnsHostnameSet hostname;
           MdnsInstanceNameSet (lit "ESP32 CSI Data Collector");
           MdnsServiceAdd (lit MDNS_SERVICE_NAME) (lit MDNS_PROTOCOL)
                          HOST_COMMUNICATION_PORT] in
        let result := mdns_service_add_rc mdns in
        if negb (result =? ESP_OK) then
          (result, calls,
           ESP_LOG LOGE (lit "Failed to add mDNS service: "
                         ++ esp_err_to_name mdns result) w)
        else
          (ESP_OK, calls,
           ESP_LOG LOGI (lit "mDNS service configured: hostname=" ++ hostname) w).

(** The events the event task delivers to the handler while another
    task sleeps in [vTaskDelay]. *)
Definition handle_events (events : list (esp_event_base_t * wifi_event)) (w : world)
  : world :=
  fold_left (fun w e => network_event_handler (fst e) (snd e) w) events w.

(** The first loop of [mdns_discovery_task], waiting for the network:
    [delays] holds, delay by delay, the events handled meanwhile.
    [false] when the task is still waiting after the last of them. *)
Fixpoint wait_for_network (delays : list (list (esp_event_base_t * wifi_event)))
    (w : world) : bool * world :=
  if network_ready (app_state w) then (true, w)
  else
    match delays with
    | [] => (false, w)
    | events :: later => wait_for_network later (handle_events events w)
    end.

Inductive discovery_task_state :=
| TaskWaiting               (* in the first loop *)
| TaskDeleted               (* vTaskDelete (NULL) *)
| TaskDiscovering.          (* in the periodic loop *)

(** [mdns_discovery_task], as far as [delays] and [queries] take it. *)
Definition mdns_discovery_task (delays : list (list (esp_event_base_t * wifi_event)))
    (mdns : mdns_answers) (queries : list (Z * list mdns_result_t)) (w : world)
  : discovery_task_state * world :=
  let w := ESP_LOG LOGI (lit "mDNS discovery task started") w in
  let '(ready, w) := wait_for_network delays w in
  if negb ready then (TaskWaiting, w)
  else
    let '(rc, _, w) := setup_mdns_service mdns w in
    if negb (rc =? ESP_OK) then
      (TaskDeleted, ESP_LOG LOGE (lit "Failed to setup mDNS service") w)
    else (TaskDiscovering, mdns_discovery_loop queries w).

End ActiveAp.

Import ActiveAp.

(* ================================================================== *)
(** * Vocabulary of the properties                                     *)
(* ================================================================== *)

Module Props.

(** ** Admission filter *)

Definition hex_val (c : ascii) : Z :=
  let n := char_code c in
  if isdigit c then n - 48
  else if (97 <=? n) && (n <=? 102) then n - 87
  else if (65 <=? n) && (n <=? 70) then n - 55
  else 0.

Definition byte_of_hex (hi lo : ascii) : byte :=
  match Byte.of_N (Z.to_N (16 * hex_val hi + hex_val lo)) with
  | Some b => b
  | None => x00
  end.

(** The bytes a textual identity ["hh:hh:..."] denotes. *)
Fixpoint parse_mac (s : list ascii) : list byte :=
  match s with
  | hi :: lo :: _ :: r => byte_of_hex hi lo :: parse_mac r
  | hi :: lo :: [] => [byte_of_hex hi lo]
  | _ => []
  end.

(** The allow-list, entry by entry, as 6-byte identities. *)
Definition allow_list : list (list byte) := map parse_mac authorized_devices.

(** ** The sample queue *)

(** The radio driver calls the callback once per sample. *)
Definition run_callbacks (samples : list (option wifi_csi_info_t)) (w : world) : world :=
  fold_left (fun w s => research_csi_data_callback s w) samples w.

Definition queue_items (w : world) : list nat :=
  match csi_data_queue (app_state w) with Some q => items q | None => [] end.

Definition queue_capacity (w : world) : Z :=
  match csi_data_queue (app_state w) with Some q => uxLength q | None => 0 end.

Definition overflow_report : list ascii :=
  lit "CSI data queue overflow - dropping packet".

Definition is_overflow_report (e : log_level * list ascii) : bool :=
  match e with
  | (LOGW, text) => strcmp text overflow_report =? 0
  | _ => false
  end.

(** The number of drops the log reports. *)
Definition overflow_drops (w : world) : nat :=
  List.length (filter is_overflow_report (esp_log w)).

(** A sample that passes the checks of the callback: a payload is
    attached and the sender is on the allow-list. *)
Definition admissible (s : option wifi_csi_info_t) : Prop :=
  exists info content,
    s = Some info /\ buf info = BufDriver content /\ In (mac info) allow_list.

(** ** Peer discovery *)

Definition BROADCAST_ADDRESS : list ascii := lit "192.168.4.255".

(** The first result of an answer that carries an address and a name. *)
Fixpoint first_usable (results : list mdns_result_t) : option (Z * Z * Z * Z) :=
  match results with
  | [] => None
  | r :: rest =>
      match addr r, hostname r with
      | Some a, Some _ => Some a
      | _, _ => first_usable rest
      end
  end.

(** ** A machine to try the properties on *)

Definition sample_os : os_t :=
  {| settimeofday_rc := fun _ => 0; gettimeofday_rc := 0;
     malloc_ok := fun _ _ => true;
     sendto_rc := fun d => strlen (payload d);
     atan2 := fun y _ => y;
     sizeof_wifi_csi_info_t := 60 |}.

Definition sample_boot : boot_answers :=
  {| nvs := {| nvs_flash_init_first := 0; nvs_flash_init_second := 0;
               nvs_flash_erase_rc := 0; nvs_get_stats_rc := 0;
               nvs_err_to_name := fun _ => lit "ESP_FAIL" |};
     queue_created := true;
     wifi := {| esp_netif_init_rc := 0; esp_event_loop_create_default_rc := 0;
                ap_netif_created := true; esp_netif_dhcps_stop_rc := 0;
                esp_netif_set_ip_info_rc := 0; esp_netif_dhcps_start_rc := 0;
                esp_wifi_init_rc := 0; esp_event_handler_register_rc := 0;
                esp_wifi_set_mode_rc := 0; esp_wifi_set_config_rc := 0;
                esp_wifi_start_rc := 0 |};
     udp := {| socket_rc := 3; setsockopt_rc := 0; strerror_text := [] |};
     csi_driver := {| set_csi_rc := 0; set_csi_config_rc := 0; set_csi_rx_cb_rc := 0 |} |}.

(** The machine when [app_main] has started the tasks. *)
Definition booted : world :=
  snd (app_main sample_boot (power_on sample_os {| tv_sec := 5; tv_usec := 7 |})).

Definition sample_rx_ctrl : wifi_pkt_rx_ctrl_t :=
  {| rssi := -40; rate := 11; sig_mode := 1; mcs := 7; cwb := 1; smoothing := 1;
     not_sounding := 1; aggregation := 0; stbc := 0; fec_coding := 0; sgi := 1;
     noise_floor := -96; ampdu_cnt := 0; channel := 6; secondary_channel := 1;
     timestamp := 123456; ant := 0; sig_len := 100; rx_state := 0 |}.

(** A sample of device A whose payload is the pair (3, 4) and the
    pair (-1, 0). *)
Definition sample_csi : wifi_csi_info_t :=
  {| rx_ctrl := sample_rx_ctrl; mac := [xa0; xb7; x65; x5a; x08; xa5];
     len := 4; buf := BufDriver [x03; x04; xff; x00] |}.

(** ** Console lines and timestamps *)

Definition blank (s : list ascii) : Prop := Forall (fun c => isspace c = true) s.

(** A text with no white space at either end. *)
Definition trimmed (s : list ascii) : Prop :=
  match s with
  | [] => False
  | x :: _ => isspace x = false /\ isspace (last s NUL) = false
  end.

Fixpoint strip_prefix (p s : list ascii) : option (list ascii) :=
  match p, s with
  | [], _ => Some s
  | c :: p', x :: s' => if Ascii.eqb x c then strip_prefix p' s' else None
  | _ :: _, [] => None
  end.

(** The text starts, after white space, with an optionally signed
    decimal numeral. *)
Definition begins_with_integer (s : list ascii) : bool :=
  match skip_ws s with
  | [] => false
  | c :: r =>
      isdigit c
      || ((Ascii.eqb c "-" || Ascii.eqb c "+")
          && match r with d :: _ => isdigit d | [] => false end)
  end.

(** Numeric input: an integer comes first, or comes first after the
    tag [SYNC_TIME:]. *)
Definition numeric (s : list ascii) : bool :=
  begins_with_integer s
  || match strip_prefix (lit "SYNC_TIME:") s with
     | Some t => begins_with_integer t
     | None => false
     end.

Definition is_sign (sgn : list ascii) : Prop :=
  sgn = [] \/ sgn = lit "+" \/ sgn = lit "-".

Definition is_numeral (ds : list ascii) : Prop :=
  ds <> [] /\ Forall (fun c => isdigit c = true) ds.

(** The number a decimal numeral writes. *)
Definition numeral_value (ds : list ascii) : Z :=
  fold_left (fun acc c => 10 * acc + digit_val c) ds 0.

Definition signed_value (sgn ds : list ascii) : Z :=
  match sgn with
  | c :: _ => if Ascii.eqb c "-" then - numeral_value ds else numeral_value ds
  | [] => numeral_value ds
  end.

(** The numeral is not continued by [rest]. *)
Definition ends_numeral (rest : list ascii) : Prop :=
  match rest with c :: _ => isdigit c = false | [] => True end.

(** No microsecond part: what follows the integer is not a dot
    followed by an integer. *)
Definition no_microseconds (rest : list ascii) : Prop :=
  match rest with
  | c :: m => Ascii.eqb c "." = true -> begins_with_integer m = false
  | [] => True
  end.

(** The fields the conversions of ["%lld.%ld"] find at the head of a
    text: the seconds and, if a dot and an integer follow, the
    microseconds. *)
Definition scan_fields (s : list ascii) : option (Z * option Z) :=
  match scan_integer s with
  | ConvOk v rest =>
      Some (saturate 64 v,
            match rest with
            | c :: r =>
                if Ascii.eqb c "." then
                  match scan_integer r with
                  | ConvOk u _ => Some (saturate 32 u)
                  | _ => None
                  end
                else None
            | [] => None
            end)
  | _ => None
  end.

(** The fields of a timestamp line, in either form. *)
Definition timestamp_fields (s : list ascii) : option (Z * option Z) :=
  match strip_prefix (lit "SYNC_TIME:") s with
  | Some t => match scan_fields t with Some f => Some f | None => scan_fields s end
  | None => scan_fields s
  end.

(** The machine with the console line [line] in the command buffer, as
    [scan_for_input_data] leaves it when the terminator arrives. *)
Definition holds_line (line : list ascii) (w : world) : Prop :=
  c_str (command_buffer (g_cmd_processor w)) = line.

(** The values a call of [sscanf] with one of the two timestamp formats
    assigns, and the record [parse_timestamp_string] makes of them. *)
Definition fields_assigned (f : option (Z * option Z)) : list Z :=
  match f with
  | Some (v, Some u) => [v; u]
  | Some (v, None) => [v]
  | None => []
  end.

(** ["%lld.%ld"], parsed. *)
Definition simple_directives : list directive := [DConv 64; DLit "."; DConv 32].

Definition no_fields (f : option (Z * option Z)) : bool :=
  match f with None => true | Some _ => false end.

Definition parsed_result (f : option (Z * option Z)) : timestamp_parse_result_t :=
  match f with
  | Some (v, ou) =>
      let u := match ou with Some u => u | None => 0 end in
      {| seconds := v;
         microseconds := if (u <? 0) || (1000000 <=? u) then 0 else u;
         parse_success := true |}
  | None => {| seconds := 0; microseconds := 0; parse_success := false |}
  end.

(** ** The console stream *)

(** A byte that [scan_for_input_data] stores: not a line terminator and
    not the end-of-data mark 0xFF. *)
Definition ordinary (c : ascii) : Prop :=
  char_code c <> 10 /\ char_code c <> 13 /\ char_code c <> 255.

(** A console line: at most 511 stored bytes, none of them NUL. *)
Definition console_line (line : list ascii) : Prop :=
  (List.length line <= 511)%nat
  /\ Forall ordinary line
  /\ Forall (fun c => c <> NUL) line.

(** The command buffer is as after a reset: all NUL, cursor at 0. *)
Definition buffer_empty (w : world) : Prop :=
  command_buffer (g_cmd_processor w) = memset_zero (Z.to_nat MAX_COMMAND_LENGTH)
  /\ buffer_position (g_cmd_processor w) = 0.

(** The machine when the bytes of [line] have been stored. *)
Definition load_line (line : list ascii) (w : world) : world :=
  set_g_cmd_processor
    {| command_buffer :=
         line ++ memset_zero (Z.to_nat MAX_COMMAND_LENGTH - List.length line);
       buffer_position := Z.of_nat (List.length line);
       commands_processed := commands_processed (g_cmd_processor w);
       echo_enabled := echo_enabled (g_cmd_processor w) |} w.

Definition LF : ascii := "010"%char.

Definition overflow_notice : list ascii :=
  lit "Warning: Command too long, buffer reset" ++ newline.

(** The machine with [text] typed on the console of the booted machine
    and no terminator yet. *)
Definition typed (text : list ascii) : world :=
  fst (scan_for_input_data text booted).

(** ** Command lines *)

Definition command_words : list (list ascii) :=
  [lit "help"; lit "?"; lit "status"; lit "info"].

(** The well-formed help, status and time-sync lines: one of the four
    command words in any letter case, or a time stamp (an integer, and
    whatever follows it) alone or after the tag [SYNC_TIME:]; white space
    may come before and after each of them, and between the tag and the
    time stamp. *)
Inductive well_formed : list ascii -> Prop :=
| wf_word : forall lead word trail,
    blank lead -> blank trail -> In (map tolower word) command_words ->
    well_formed (lead ++ word ++ trail)
| wf_time : forall lead sgn ds rest trail,
    blank lead -> blank trail -> is_sign sgn -> is_numeral ds ->
    trimmed (sgn ++ ds ++ rest) ->
    well_formed (lead ++ (sgn ++ ds ++ rest) ++ trail)
| wf_tagged_time : forall lead gap sgn ds rest trail,
    blank lead -> blank gap -> blank trail -> is_sign sgn -> is_numeral ds ->
    trimmed (sgn ++ ds ++ rest) ->
    well_formed (lead ++ lit "SYNC_TIME:" ++ gap ++ (sgn ++ ds ++ rest) ++ trail).

(** An unknown command: the text between the white space at the two
    ends of the line (possibly no text at all) is not a time stamp in
    either form, does not begin with [CSI_] and is none of the four
    command words in any letter case. *)
Inductive unknown_command : list ascii -> Prop :=
| unknown_text : forall lead body trail,
    blank lead -> blank trail -> body = [] \/ trimmed body ->
    numeric body = false ->
    strip_prefix (lit "CSI_") body = None ->
    ~ In (map tolower body) command_words ->
    unknown_command (lead ++ body ++ trail).

Inductive line_kind := WellFormed | Unknown.

(** A console line of the given kind; the empty line is of neither. *)
Definition line_of_kind (k : line_kind) (line : list ascii) : Prop :=
  console_line line /\ line <> []
  /\ match k with
     | WellFormed => well_formed line
     | Unknown => unknown_command line
     end.

Definition count_well_formed (cmds : list (line_kind * list ascii)) : Z :=
  Z.of_nat (List.length (filter (fun c => match fst c with
                                          | WellFormed => true
                                          | Unknown => false
                                          end) cmds)).

(** The line begins with white space and its text begins with the tag
    [SYNC_TIME:]. *)
Definition tag_behind_space (line : list ascii) : bool :=
  match line with
  | c :: _ =>
      isspace c
      && match strip_prefix (lit "SYNC_TIME:") (skip_ws line) with
         | Some _ => true
         | None => false
         end
  | [] => false
  end.

(** The well-formed lines of a stream that are tagged time stamps behind
    white space. *)
Definition count_tag_behind_space (cmds : list (line_kind * list ascii)) : Z :=
  Z.of_nat (List.length (filter (fun c => match fst c with
                                          | WellFormed => tag_behind_space (snd c)
                                          | Unknown => false
                                          end) cmds)).

(** The lines as the console delivers them, each with its terminator. *)
Definition console_stream (cmds : list (line_kind * list ascii)) : list ascii :=
  concat (map (fun c => snd c ++ [LF]) cmds).

(** What dispatching a time-sync line prints when the line as typed does
    not parse. *)
Definition parse_failure_report (line : list ascii) : list (list ascii) :=
  [ lit "Processing time synchronization: " ++ line ++ newline;
    lit "Warning: Failed to parse timestamp format" ++ newline ].

(** The first characters of two texts differ somewhere before either
    ends. *)
Fixpoint clash (p s : list ascii) : bool :=
  match p, s with
  | c :: p', x :: s' => if Ascii.eqb x c then clash p' s' else true
  | _, _ => false
  end.

(** The upper-case letter of a lower-case one. *)
Definition upper_of (c : ascii) : ascii := char_of (char_code c - 32).

(** The spellings of a lower-case word in every mix of letter cases. *)
Fixpoint case_variants (word : list ascii) : list (list ascii) :=
  match word with
  | [] => [[]]
  | c :: r =>
      flat_map (fun v => if Ascii.eqb (tolower (upper_of c)) c
                         then [c :: v; upper_of c :: v]
                         else [c :: v])
               (case_variants r)
  end.

Definition command_spellings : list (list ascii) := flat_map case_variants command_words.

Definition trimmedb (s : list ascii) : bool :=
  match s with
  | [] => false
  | x :: _ => negb (isspace x) && negb (isspace (last s NUL))
  end.

(** The word stands alone on its line and is classified as a help or a
    status command. *)
Definition is_handled_word (word : list ascii) : bool :=
  trimmedb word
  && match classify_command (Some word) with
     | CMD_TYPE_HELP | CMD_TYPE_SYSTEM_INFO => true
     | _ => false
     end.

Definition unknown_diagnostic (line : list ascii) : list (list ascii) :=
  [ lit "Unrecognized command: " ++ line ++ newline;
    lit "Type 'help' for available commands" ++ newline ].

(** ** The formatter *)

Definition all_bytes : list byte :=
  map (fun n => match Byte.of_nat n with Some b => b | None => x00 end) (seq 0 256).

(** ["%.4f "] of the amplitude of the pair of bytes [(b1, b2)]. *)
Definition value_text (b1 b2 : byte) : list ascii :=
  fmt_4f (amplitude_of (int8_of_byte b1) (int8_of_byte b2)) ++ lit " ".

(** A text without NUL. *)
Definition printable (s : list ascii) : Prop := Forall (fun c => c <> NUL) s.

(** The amplitude of the pair of bytes [(b1, b2)] lies in [[0, 999)]. *)
Definition amplitude_in_range (b1 b2 : byte) : bool :=
  let amplitude := amplitude_of (int8_of_byte b1) (int8_of_byte b2) in
  PrimFloat.leb 0 amplitude && PrimFloat.ltb amplitude 999.

(** The output buffer holding [text] and zeros after it. *)
Definition buffer_with (text : list ascii) : list ascii :=
  text ++ memset_zero (Z.to_nat UDP_PAYLOAD_BUFFER_SIZE - List.length text).

(** The texts of [n] values from pair [i] on. *)
Fixpoint pairs_from (n : nat) (i : Z) (data : list byte) : list ascii :=
  match n with
  | O => []
  | S n' => pair_text data i ++ pairs_from n' (i + 1) data
  end.

(** The number of values of a record: the pairs of the payload, at
    most 64. *)
Definition pair_count (len : Z) : nat := Z.to_nat (Z.min 64 (len / 2)).

(** A timestamp string as [get_formatted_timestamp] makes them. *)
Definition timestamp_text (t : option (list ascii)) : Prop :=
  match t with
  | Some text => (List.length text <= 32)%nat /\ printable text
  | None => True
  end.

(** ** Time stamps, printed and read back *)

(** The elapsed time between two instants, in microseconds. *)
Definition elapsed_us (start_time now : timeval) : Z :=
  (tv_sec now - tv_sec start_time) * 1000000 + (tv_usec now - tv_usec start_time).

(** A [struct timeval] in normal form. *)
Definition normal_timeval (t : timeval) : Prop :=
  type_min 64 <= tv_sec t <= type_max 64 /\ 0 <= tv_usec t < 1000000.

(** ** The console reader *)

(** The line buffer is sound: it has its 512 cells, the cursor lies in
    [[0, 511]] and every cell from the cursor on holds NUL. *)
Definition buffer_in_bounds (w : world) : Prop :=
  let p := g_cmd_processor w in
  List.length (command_buffer p) = Z.to_nat MAX_COMMAND_LENGTH
  /\ 0 <= buffer_position p <= MAX_COMMAND_LENGTH - 1
  /\ forall i, (Z.to_nat (buffer_position p) <= i)%nat -> nth i (command_buffer p) NUL = NUL.

(** A byte other than the end-of-data mark 0xFF. *)
Definition data_byte (c : ascii) : Prop := char_code c <> 255.

Definition CR : ascii := "013"%char.

(** What console input leaves alone: the platform, the live blocks of the
    heap, the log, the datagrams sent, the registered callback, the CSI
    configuration, the application state and the echo setting; the
    synchronized flag is not cleared and the console only grows. *)
Definition console_frame (w w' : world) : Prop :=
  os w' = os w
  /\ heap_live w' = heap_live w
  /\ esp_log w' = esp_log w
  /\ datagrams w' = datagrams w
  /\ csi_rx_cb w' = csi_rx_cb w
  /\ g_csi_config w' = g_csi_config w
  /\ app_state w' = app_state w
  /\ echo_enabled (g_cmd_processor w') = echo_enabled (g_cmd_processor w)
  /\ (time_sync_established w = true -> time_sync_established w' = true)
  /\ exists more, console w' = console w ++ more.

(** ** The values of [enhanced_csi_callback] *)

(** ["%d "] of [n] payload bytes from index [idx] on. *)
Fixpoint raw_values_from (n : nat) (idx : Z) (data : list byte) : list (list ascii) :=
  match n with
  | O => []
  | S n' => (fmt_d (read_int8 data idx) ++ lit " ") :: raw_values_from n' (idx + 1) data
  end.

(** ["%.4f "] of the amplitudes of [n] pairs from pair [idx] on. *)
Fixpoint amplitude_values_from (n : nat) (idx : Z) (data : list byte)
  : list (list ascii) :=
  match n with
  | O => []
  | S n' => pair_text data idx :: amplitude_values_from n' (idx + 1) data
  end.

(** ["%.4f "] of the phases of [n] pairs from pair [idx] on, [atan2]
    being the platform's. *)
Fixpoint phase_values_from (o : os_t) (n : nat) (idx : Z) (data : list byte)
  : list (list ascii) :=
  match n with
  | O => []
  | S n' =>
      (fmt_4f (atan2 o (double_of_int (read_int8 data (idx * 2 + 1)))
                       (double_of_int (read_int8 data (idx * 2))))
       ++ lit " ")
      :: phase_values_from o n' (idx + 1) data
  end.

(** The number of raw values: the reported length, at most 128. *)
Definition raw_count (len : Z) : nat := Z.to_nat (Z.min 128 len).

(** A step that only prints: every part of the machine but the console
    and the count of allocations is as before, and the console has
    grown. *)
Definition prints_only (w w' : world) : Prop :=
  os w' = os w /\ sys_clock w' = sys_clock w /\ esp_log w' = esp_log w
  /\ heap_live w' = heap_live w /\ datagrams w' = datagrams w
  /\ csi_rx_cb w' = csi_rx_cb w
  /\ time_sync_established w' = time_sync_established w
  /\ g_cmd_processor w' = g_cmd_processor w /\ g_csi_config w' = g_csi_config w
  /\ app_state w' = app_state w
  /\ exists more, console w' = console w ++ more.

(** ** The forwarder *)

(** The forwarder's calls for a run of records. *)
Definition transmit_all (records : list (list ascii)) (w : world) : world :=
  fold_left (fun w r => snd (transmit_csi_data r w)) records w.

(** The datagram [transmit_csi_data] makes of a record. *)
Definition datagram_of (w : world) (record : list ascii) : datagram :=
  {| dest_ip := discovered_host_ip (app_state w);
     dest_port := HOST_COMMUNICATION_PORT;
     payload := record |}.

(** [sendto] takes the record. *)
Definition accepted (w : world) (record : list ascii) : bool :=
  0 <=? sendto_rc (os w) (datagram_of w record).

(** The time stamp string the forwarding task gets in a machine: NULL
    when the allocation fails. *)
Definition timestamp_string (w : world) : option (list ascii) :=
  option_map (fun p => load_chars p (snd (get_formatted_timestamp w)))
             (fst (get_formatted_timestamp w)).

(** The first query of a run that was answered without error. *)
Definition first_answered (queries : list (Z * list mdns_result_t))
  : option (Z * list mdns_result_t) :=
  find (fun q => fst q =? ESP_OK) queries.

(** The address a query's answer resolves the peer to. *)
Definition resolved_address (results : list mdns_result_t) : list ascii :=
  match first_usable results with
  | Some a => inet_ntoa a
  | None => BROADCAST_ADDRESS
  end.

(** ** The network and the discovery task *)

(** Whether the access point runs after a run of events: the last
    AP-start or AP-stop among the WiFi events decides. *)
Definition ap_state_after (events : list (esp_event_base_t * wifi_event)) (before : bool)
  : bool :=
  fold_left (fun up e =>
               match e with
               | (WIFI_EVENT, WIFI_EVENT_AP_START) => true
               | (WIFI_EVENT, WIFI_EVENT_AP_STOP) => false
               | _ => up
               end) events before.

(** Whether the access point is found running at the start of some
    delay or after the last one. *)
Fixpoint becomes_ready (delays : list (list (esp_event_base_t * wifi_event))) (up : bool)
  : bool :=
  if up then true
  else
    match delays with
    | [] => false
    | events :: later => becomes_ready later (ap_state_after events up)
    end.

(** The four calls of [setup_mdns_service] all succeed. *)
Definition mdns_ok (mdns : mdns_answers) : bool :=
  (mdns_init_rc mdns =? ESP_OK) && (mdns_hostname_set_rc mdns =? ESP_OK)
  && (mdns_instance_name_set_rc mdns =? ESP_OK) && (mdns_service_add_rc mdns =? ESP_OK).

(** ** Storage *)

(** The first [nvs_flash_init] asks for the partition to be formatted. *)
Definition needs_format (nvs : nvs_answers) : bool :=
  (nvs_flash_init_first nvs =? ESP_ERR_NVS_NO_FREE_PAGES)
  || (nvs_flash_init_first nvs =? ESP_ERR_NVS_NEW_VERSION_FOUND).

(** What [enhanced_csi_callback] prints before the values, one text per
    [printf]: the tag, the role, the sender, the reception data, the
    synchronized flag with the time stamp, and the length with the
    opening bracket. *)
Definition callback_header (info : wifi_csi_info_t) (w : world) : list (list ascii) :=
  let rx := rx_ctrl info in
  [ lit "CSI_DATA,";
    device_role (g_csi_config w) ++ lit ",";
    fmt_mac true (mac info) ++ lit ",";
    fmt_d (rssi rx) ++ lit "," ++ fmt_d (rate rx) ++ lit "," ++ fmt_d (sig_mode rx)
    ++ lit "," ++ fmt_d (mcs rx) ++ lit "," ++ fmt_d (cwb rx) ++ lit ",";
    fmt_d (smoothing rx) ++ lit "," ++ fmt_d (not_sounding rx) ++ lit ","
    ++ fmt_d (aggregation rx) ++ lit "," ++ fmt_d (stbc rx) ++ lit ","
    ++ fmt_d (fec_coding rx) ++ lit ",";
    fmt_d (sgi rx) ++ lit "," ++ fmt_d (noise_floor rx) ++ lit ","
    ++ fmt_d (ampdu_cnt rx) ++ lit "," ++ fmt_d (channel rx) ++ lit ","
    ++ fmt_d (secondary_channel rx) ++ lit ",";
    fmt_d (Decl.timestamp rx) ++ lit "," ++ fmt_d (ant rx) ++ lit ","
    ++ fmt_d (sig_len rx) ++ lit "," ++ fmt_d (rx_state rx) ++ lit ",";
    fmt_d (Z.b2z (time_sync_established w)) ++ lit ","
    ++ (match timestamp_string w with Some t => t | None => lit "(null)" end) ++ lit ",";
    fmt_d (len info) ++ lit ",[" ].

(** ** The firmware at work *)

(** Every live block of the heap was handed out by an earlier [malloc]. *)
Definition heap_fresh (w : world) : Prop :=
  forall a blk, In (a, blk) (heap_live w) -> (a < heap_next w)%nat.

(** What happens once [app_main] has entered the command loop: the
    console delivers bytes to a turn of the loop, the radio driver calls
    the registered callback with a sample, the forwarding task takes a
    turn, the event loop delivers an event, the discovery task sets the
    mDNS service up or takes a turn of its loop.  A sample arrives at the
    callback that is registered; a turn of the forwarding task that
    waits at the queue, or faults, changes nothing. *)
Inductive firmware_event :=
| ConsoleInput (bytes : list ascii)
| CsiReceived (sample : option wifi_csi_info_t)
| ForwardingTurn
| NetworkEvent (base : esp_event_base_t) (event : wifi_event)
| MdnsSetup (mdns : mdns_answers)
| DiscoveryCycle (query : Z * list mdns_result_t).

Definition firmware_step (e : firmware_event) (w : world) : world :=
  match e with
  | ConsoleInput bytes => fst (scan_for_input_data bytes w)
  | CsiReceived sample =>
      match csi_rx_cb w with
      | Some research_csi_data_callback_ptr => research_csi_data_callback sample w
      | Some enhanced_csi_callback_ptr => enhanced_csi_callback sample w
      | None => w
      end
  | ForwardingTurn =>
      match csi_data_processing_step w with Ran w' => w' | _ => w end
  | NetworkEvent base event => network_event_handler base event w
  | MdnsSetup mdns => snd (setup_mdns_service mdns w)
  | DiscoveryCycle query => mdns_discovery_cycle query w
  end.

Definition run_firmware (events : list firmware_event) (w : world) : world :=
  fold_left (fun w e => firmware_step e w) events w.

(** The record a turn of the forwarding task makes of the sample [csi]
    in the machine [w]: the header, the amplitude of every pair of the
    payload up to pair 63, the closing bracket and newline. *)
Definition forwarded_record (csi : wifi_csi_info_t) (w : world) : list ascii :=
  record_header (fmt_mac true (mac csi)) csi (time_sync_established w) (timestamp_string w)
  ++ concat (amplitude_values_from (pair_count (len csi)) 0 (payload_of (buf csi) w))
  ++ lit "]" ++ newline.

(** The steps of the firmware keep the CSI configuration and the
    registered callback, and a heap in order stays in order. *)
Definition pipeline_frame (w w' : world) : Prop :=
  g_csi_config w' = g_csi_config w /\ csi_rx_cb w' = csi_rx_cb w
  /\ (heap_fresh w -> heap_fresh w').

(** ** Start-up *)

(** The storage comes up: at once, or after a format. *)
Definition storage_up (n : nvs_answers) : Prop :=
  nvs_flash_init_first n = ESP_OK
  \/ (needs_format n = true /\ nvs_flash_erase_rc n = ESP_OK
      /\ nvs_flash_init_second n = ESP_OK).

(** Every call that brings the access point up succeeds. *)
Definition wifi_up (wf : wifi_answers) : Prop :=
  esp_netif_init_rc wf = ESP_OK /\ esp_event_loop_create_default_rc wf = ESP_OK
  /\ ap_netif_created wf = true
  /\ esp_netif_dhcps_stop_rc wf = ESP_OK /\ esp_netif_set_ip_info_rc wf = ESP_OK
  /\ esp_netif_dhcps_start_rc wf = ESP_OK /\ esp_wifi_init_rc wf = ESP_OK
  /\ esp_event_handler_register_rc wf = ESP_OK /\ esp_wifi_set_mode_rc wf = ESP_OK
  /\ esp_wifi_set_config_rc wf = ESP_OK /\ esp_wifi_start_rc wf = ESP_OK.

(** A call under [ESP_ERROR_CHECK] fails: one of the two before the
    network interface is created or, the interface created, one of the
    eight after it. *)
Definition wifi_check_fails (wf : wifi_answers) : Prop :=
  esp_netif_init_rc wf <> ESP_OK \/ esp_event_loop_create_default_rc wf <> ESP_OK
  \/ (ap_netif_created wf = true
      /\ (esp_netif_dhcps_stop_rc wf <> ESP_OK \/ esp_netif_set_ip_info_rc wf <> ESP_OK
          \/ esp_netif_dhcps_start_rc wf <> ESP_OK \/ esp_wifi_init_rc wf <> ESP_OK
          \/ esp_event_handler_register_rc wf <> ESP_OK
          \/ esp_wifi_set_mode_rc wf <> ESP_OK \/ esp_wifi_set_config_rc wf <> ESP_OK
          \/ esp_wifi_start_rc wf <> ESP_OK)).

(** The second machine is the first with more lines in the log. *)
Definition log_only (w w' : world) : Prop :=
  exists entries, w' = set_esp_log (esp_log w ++ entries) w.

End Props.

Import Props.

(* ================================================================== *)
(** * Properties                                                       *)
(* ================================================================== *)

(** ** Characters and strings *)

Lemma char_code_inj : forall a b, char_code a = char_code b -> a = b.
Proof.
  unfold char_code. intros a b H.
  apply N2Z.inj in H.
  rewrite <- (ascii_N_embedding a), <- (ascii_N_embedding b).
  now rewrite H.
Qed.

Lemma strcmp_same_length :
  forall a b, List.length a = List.length b -> (strcmp a b = 0 <-> a = b).
Proof.
  induction a as [|x a IH]; intros [|y b] Hlen; simpl in *; try discriminate.
  - tauto.
  - destruct (Ascii.eqb_spec x y) as [->|Hne].
    + rewrite IH by congruence. split; congruence.
    + split; [|congruence]. intros H. exfalso. apply Hne, char_code_inj. lia.
Qed.

(** ** The admission filter *)

Lemma byte_of_hex_fmt : forall b, 
  match fmt_02x false b with
  | [hi; lo] => byte_of_hex hi lo = b
  | _ => False
  end.
Proof. destruct b; reflexivity. Qed.

Lemma parse_mac_fmt_mac :
  forall b0 b1 b2 b3 b4 b5,
    parse_mac (fmt_mac false [b0; b1; b2; b3; b4; b5]) = [b0; b1; b2; b3; b4; b5].
Proof.
  intros.
  pose proof (byte_of_hex_fmt b0) as H0. pose proof (byte_of_hex_fmt b1) as H1.
  pose proof (byte_of_hex_fmt b2) as H2. pose proof (byte_of_hex_fmt b3) as H3.
  pose proof (byte_of_hex_fmt b4) as H4. pose proof (byte_of_hex_fmt b5) as H5.
  unfold fmt_mac. cbn [nth].
  unfold fmt_02x in *. cbn [app lit list_ascii_of_string parse_mac].
  now rewrite H0, H1, H2, H3, H4, H5.
Qed.

Lemma fmt_mac_length :
  forall upper b0 b1 b2 b3 b4 b5,
    List.length (fmt_mac upper [b0; b1; b2; b3; b4; b5]) = 17%nat.
Proof. reflexivity. Qed.

(** The answer of the filter and its only effect, one line of log. *)
Lemma is_authorized_research_device_run :
  forall mac w,
    let s := fmt_mac false mac in
    let b := existsb (fun d => strcmp s d =? 0) authorized_devices in
    is_authorized_research_device mac w =
      (b, ESP_LOG (if b then LOGI else LOGD)
                  ((if b then lit "Authorized device detected: "
                    else lit "Unauthorized device filtered: ") ++ s) w).
Proof.
  intros mac w s b. unfold is_authorized_research_device. fold s. subst b.
  cbn [authorized_loop List.length authorized_devices existsb].
  change (0 <? NUM_AUTHORIZED_DEVICES) with true.
  change (0 + 1 <? NUM_AUTHORIZED_DEVICES) with true.
  change (nth (Z.to_nat 0) authorized_devices []) with (lit "a0:b7:65:5a:08:a5").
  change (nth (Z.to_nat (0 + 1)) authorized_devices []) with (lit "24:0a:c4:c9:25:d8").
  destruct (strcmp s (lit "a0:b7:65:5a:08:a5") =? 0); cbn [orb].
  - reflexivity.
  - destruct (strcmp s (lit "24:0a:c4:c9:25:d8") =? 0); cbn [orb]; reflexivity.
Qed.

Lemma authorized_iff_allow_list :
  forall b0 b1 b2 b3 b4 b5,
    existsb (fun d => strcmp (fmt_mac false [b0; b1; b2; b3; b4; b5]) d =? 0)
            authorized_devices = true
    <-> In [b0; b1; b2; b3; b4; b5] allow_list.
Proof.
  intros. rewrite existsb_exists. unfold allow_list. rewrite in_map_iff.
  split.
  - intros (d & Hd & Hcmp). exists d. split; [|exact Hd].
    apply Z.eqb_eq in Hcmp. apply strcmp_same_length in Hcmp.
    + rewrite <- Hcmp. apply parse_mac_fmt_mac.
    + rewrite fmt_mac_length.
      destruct Hd as [<-|[<-|[]]]; reflexivity.
  - intros (d & Hparse & Hd). exists d. split; [exact Hd|].
    apply Z.eqb_eq. apply strcmp_same_length.
    + rewrite fmt_mac_length. destruct Hd as [<-|[<-|[]]]; reflexivity.
    + destruct Hd as [<-|[<-|[]]]; injection Hparse as <- <- <- <- <- <-; reflexivity.
Qed.

(** C5. The admission filter: for every 6-byte identity, the answer is
    true exactly when the identity equals, byte for byte, one of the
    entries of the allow-list; the answer does not depend on the state,
    and the state is left as it was but for one line of log. *)
Theorem admission_filter_exact :
  forall b0 b1 b2 b3 b4 b5 w,
    let x := [b0; b1; b2; b3; b4; b5] in
    (fst (is_authorized_research_device x w) = true <-> In x allow_list)
    /\ (fst (is_authorized_research_device x w) = false <-> ~ In x allow_list)
    /\ (forall w', fst (is_authorized_research_device x w')
                   = fst (is_authorized_research_device x w))
    /\ (exists level text, snd (is_authorized_research_device x w) = ESP_LOG level text w).
Proof.
  intros b0 b1 b2 b3 b4 b5 w x.
  pose proof (is_authorized_research_device_run x w) as Hrun. cbv zeta in Hrun.
  rewrite Hrun. cbn [fst snd].
  pose proof (authorized_iff_allow_list b0 b1 b2 b3 b4 b5) as Hiff. fold x in Hiff.
  repeat split.
  - apply Hiff.
  - apply Hiff.
  - intros Hf Hin. apply Hiff in Hin. congruence.
  - intros Hnot. destruct (existsb _ authorized_devices); [|reflexivity].
    exfalso. apply Hnot, Hiff. reflexivity.
  - intros w'. pose proof (is_authorized_research_device_run x w') as Hrun'.
    cbv zeta in Hrun'. now rewrite Hrun'.
  - eauto.
Qed.

(** ** State bookkeeping *)

(** Reads of a field through the setters of the other fields. *)
Ltac world_simpl :=
  cbn [os sys_clock console esp_log heap_next heap_live datagrams csi_rx_cb
       time_sync_established g_cmd_processor g_csi_config app_state
       set_sys_clock set_console set_esp_log set_heap set_datagrams set_csi_rx_cb
       set_time_sync_established set_g_cmd_processor set_g_csi_config set_app_state
       printf ESP_LOG store free fst snd
       command_buffer buffer_position commands_processed echo_enabled
       set_command_buffer set_buffer_position set_commands_processed].

(** The same by value, down to the record itself (the machine is a
    record of variables at that point). *)
Ltac world_norm :=
  cbv [os sys_clock console esp_log heap_next heap_live datagrams csi_rx_cb
       time_sync_established g_cmd_processor g_csi_config app_state
       set_sys_clock set_console set_esp_log set_heap set_datagrams set_csi_rx_cb
       set_time_sync_established set_g_cmd_processor set_g_csi_config set_app_state
       printf ESP_LOG store free fst snd
       command_buffer buffer_position commands_processed echo_enabled
       set_command_buffer set_buffer_position set_commands_processed].

Ltac world_simpl_in H :=
  cbn [os sys_clock console esp_log heap_next heap_live datagrams csi_rx_cb
       time_sync_established g_cmd_processor g_csi_config app_state
       set_sys_clock set_console set_esp_log set_heap set_datagrams set_csi_rx_cb
       set_time_sync_established set_g_cmd_processor set_g_csi_config set_app_state
       printf ESP_LOG store free fst snd
       command_buffer buffer_position commands_processed echo_enabled
       set_command_buffer set_buffer_position set_commands_processed] in H.

Lemma heap_remove_head : forall p b l, heap_remove p ((p, b) :: l) = l.
Proof. intros. simpl. now rewrite Nat.eqb_refl. Qed.

Lemma eqb_succ_false : forall p, Nat.eqb p (S p) = false.
Proof. intros. apply Nat.eqb_neq. lia. Qed.

(** ** Peer discovery *)

Lemma process_mdns_results_resolved :
  forall results w,
    host_discovered (app_state w) = true ->
    app_state (process_mdns_results results w) = app_state w.
Proof.
  induction results as [|r rest IH]; intros w Hd; simpl; [reflexivity|].
  destruct (addr r) as [a|], (hostname r) as [h|]; try (apply IH; exact Hd).
  cbn [app_state ESP_LOG set_esp_log]. rewrite Hd. cbn [negb].
  rewrite IH; [reflexivity | exact Hd].
Qed.

Lemma process_mdns_results_first :
  forall results w,
    host_discovered (app_state w) = false ->
    app_state (process_mdns_results results w) =
      match first_usable results with
      | Some a => set_discovered_host (inet_ntoa a) (app_state w)
      | None => app_state w
      end.
Proof.
  induction results as [|r rest IH]; intros w Hd; simpl; [reflexivity|].
  destruct (addr r) as [a|], (hostname r) as [h|]; try (apply IH; exact Hd).
  cbn [app_state ESP_LOG set_esp_log]. rewrite Hd. cbn [negb].
  rewrite process_mdns_results_resolved; reflexivity.
Qed.

Lemma discover_resolved_unchanged :
  forall query w,
    host_discovered (app_state w) = true ->
    app_state (snd (discover_host_computer query w)) = app_state w.
Proof.
  intros [result results] w Hd. unfold discover_host_computer.
  destruct (negb (result =? ESP_OK)); [reflexivity|].
  rewrite (surjective_pairing (if negb _ then _ else _)).
  assert (Hkeep : app_state (process_mdns_results results
                    (ESP_LOG LOGI (lit "Searching for host computer via mDNS...") w))
                  = app_state w)
    by (now rewrite process_mdns_results_resolved).
  rewrite Hkeep, Hd. cbn [negb snd]. exact Hkeep.
Qed.

Lemma discovery_cycle_resolved :
  forall query w,
    host_discovered (app_state w) = true -> mdns_discovery_cycle query w = w.
Proof. intros query w Hd. unfold mdns_discovery_cycle. now rewrite Hd. Qed.

Lemma discovery_loop_resolved :
  forall queries w,
    host_discovered (app_state w) = true -> mdns_discovery_loop queries w = w.
Proof.
  induction queries as [|q rest IH]; intros w Hd; simpl; [reflexivity|].
  rewrite discovery_cycle_resolved by exact Hd. now apply IH.
Qed.

Lemma discovery_cycle_unresolved :
  forall results w,
    host_discovered (app_state w) = false ->
    app_state (mdns_discovery_cycle (ESP_OK, results) w) =
      set_discovered_host
        (match first_usable results with
         | Some a => inet_ntoa a
         | None => BROADCAST_ADDRESS
         end) (app_state w).
Proof.
  intros results w Hd. unfold mdns_discovery_cycle. rewrite Hd. cbn [negb].
  unfold discover_host_computer. change (negb (ESP_OK =? ESP_OK)) with false. cbv iota.
  set (w0 := ESP_LOG LOGI (lit "Searching for host computer via mDNS...") w).
  pose proof (process_mdns_results_first results w0 Hd) as H.
  change (app_state w0) with (app_state w) in H.
  destruct (first_usable results) as [a|].
  - assert (Hnow : host_discovered (app_state (process_mdns_results results w0)) = true)
      by (rewrite H; reflexivity).
    rewrite Hnow. cbn [negb snd]. exact H.
  - assert (Hnow : host_discovered (app_state (process_mdns_results results w0)) = false)
      by (rewrite H; exact Hd).
    rewrite Hnow. cbn [negb snd]. cbn [app_state ESP_LOG set_esp_log set_app_state].
    rewrite H. reflexivity.
Qed.

(** C9. Discovery is idempotent: when a cycle has resolved the peer from
    a query result, the peer is marked resolved with the address of the
    first usable result, and no later cycle of the discovery task and no
    later call of [discover_host_computer], whatever the query answers,
    changes the address or the mark; in particular none replaces it by
    the broadcast address. *)
Theorem discovery_never_regresses :
  forall w results a,
    host_discovered (app_state w) = false ->
    first_usable results = Some a ->
    let w1 := mdns_discovery_cycle (ESP_OK, results) w in
    host_discovered (app_state w1) = true
    /\ discovered_host_ip (app_state w1) = inet_ntoa a
    /\ (forall queries,
          let w2 := mdns_discovery_loop queries w1 in
          host_discovered (app_state w2) = true
          /\ discovered_host_ip (app_state w2) = inet_ntoa a)
    /\ (forall query,
          let w2 := snd (discover_host_computer query w1) in
          host_discovered (app_state w2) = true
          /\ discovered_host_ip (app_state w2) = inet_ntoa a).
Proof.
  intros w results a Hd Hfirst w1.
  assert (Happ : app_state w1 = set_discovered_host (inet_ntoa a) (app_state w)).
  { unfold w1. rewrite discovery_cycle_unresolved by exact Hd. now rewrite Hfirst. }
  assert (Hres : host_discovered (app_state w1) = true) by (rewrite Happ; reflexivity).
  assert (Hip : discovered_host_ip (app_state w1) = inet_ntoa a)
    by (rewrite Happ; reflexivity).
  repeat split; try assumption.
  - rewrite discovery_loop_resolved; assumption.
  - rewrite discovery_loop_resolved; assumption.
  - rewrite discover_resolved_unchanged; assumption.
  - rewrite discover_resolved_unchanged; assumption.
Qed.

Lemma discovery_never_regresses_witness :
  let w1 := mdns_discovery_cycle
              (ESP_OK, [ {| hostname := Some (lit "host"); addr := Some (192, 168, 4, 2) |} ])
              booted in
  let w2 := mdns_discovery_loop [(ESP_OK, []); (ESP_FAIL, []); (ESP_OK, [])] w1 in
  host_discovered (app_state w2) = true
  /\ discovered_host_ip (app_state w2) = lit "192.168.4.2".
Proof.
  intros w1 w2.
  exact (proj1 (proj2 (proj2
           (discovery_never_regresses booted
              [ {| hostname := Some (lit "host"); addr := Some (192, 168, 4, 2) |} ]
              (192, 168, 4, 2) eq_refl eq_refl)))
           [(ESP_OK, []); (ESP_FAIL, []); (ESP_OK, [])]).
Defined.

(** ** The sample queue *)

Lemma admissible_passes_filter :
  forall m, In m allow_list ->
    existsb (fun d => strcmp (fmt_mac false m) d =? 0) authorized_devices = true.
Proof.
  intros m [<-|[<-|[]]]; reflexivity.
Qed.

(** The machine after the callback has run on an admissible sample and
    both allocations have succeeded. *)
Lemma callback_admissible_result :
  forall info content w q,
    buf info = BufDriver content ->
    In (mac info) allow_list ->
    csi_data_queue (app_state w) = Some q ->
    malloc_ok (os w) (heap_next w) (sizeof_wifi_csi_info_t (os w)) = true ->
    malloc_ok (os w) (S (heap_next w)) (len info) = true ->
    let p := heap_next w in
    let w1 := ESP_LOG LOGI (lit "Authorized device detected: "
                            ++ fmt_mac false (mac info)) w in
    research_csi_data_callback (Some info) w =
      if Z.of_nat (List.length (items q)) <? uxLength q
      then
        set_app_state
          (set_csi_data_queue
             (Some {| uxLength := uxLength q; items := items q ++ [p] |}) (app_state w))
          (set_heap (S (S p))
             ((S p, BlkBytes (firstn (Z.to_nat (len info)) content))
              :: (p, BlkCsi {| rx_ctrl := rx_ctrl info; mac := mac info;
                               len := len info; buf := BufHeap (S p) |})
              :: heap_live w) w1)
      else
        ESP_LOG LOGW overflow_report (set_heap (S (S p)) (heap_live w) w1).
Proof.
  intros info content w q Hbuf Hmac Hq Hm1 Hm2 p w1.
  unfold research_csi_data_callback. rewrite Hbuf.
  pose proof (is_authorized_research_device_run (mac info) w) as Hrun. cbv zeta in Hrun.
  rewrite Hrun, (admissible_passes_filter _ Hmac). cbn [negb]. clear Hrun.
  subst p w1.
  destruct w as [o clk con lg hn hl dg cb ts cp cc ap].
  world_simpl_in Hq. world_simpl_in Hm1. world_simpl_in Hm2.
  unfold malloc at 1. world_simpl. rewrite Hm1.
  unfold malloc. world_simpl. rewrite Hm2.
  world_simpl. cbn [payload_of heap_replace heap_remove].
  rewrite Hq. unfold xQueueSend_nowait.
  rewrite !Nat.eqb_refl. cbn [heap_replace heap_remove].
  rewrite ?eqb_succ_false, ?Nat.eqb_refl. cbn [heap_replace heap_remove].
  rewrite ?eqb_succ_false, ?Nat.eqb_refl.
  destruct (Z.of_nat (List.length (items q)) <? uxLength q).
  - change (negb (pdTRUE =? pdTRUE)) with false. cbv iota.
    world_norm.
    repeat (progress (cbn [heap_replace heap_remove];
                      rewrite ?eqb_succ_false, ?Nat.eqb_refl)).
    reflexivity.
  - change (negb (errQUEUE_FULL =? pdTRUE)) with true. cbv iota.
    world_norm.
    repeat (progress (cbn [heap_replace heap_remove];
                      rewrite ?eqb_succ_false, ?Nat.eqb_refl)).
    reflexivity.
Qed.

Lemma overflow_drops_log :
  forall level text w,
    overflow_drops (ESP_LOG level text w) =
      (overflow_drops w + if is_overflow_report (level, text) then 1 else 0)%nat.
Proof.
  intros. unfold overflow_drops. world_simpl.
  rewrite filter_app, length_app. cbn [filter].
  destruct (is_overflow_report (level, text)); reflexivity.
Qed.

(** The callback on an admissible sample when both allocations succeed:
    the sample is queued if there is room, and dropped, freed and
    reported otherwise. *)
Lemma callback_admissible :
  forall info content w q,
    buf info = BufDriver content ->
    In (mac info) allow_list ->
    csi_data_queue (app_state w) = Some q ->
    malloc_ok (os w) (heap_next w) (sizeof_wifi_csi_info_t (os w)) = true ->
    malloc_ok (os w) (S (heap_next w)) (len info) = true ->
    let w' := research_csi_data_callback (Some info) w in
    let room := Z.of_nat (List.length (items q)) <? uxLength q in
    os w' = os w
    /\ heap_next w' = S (S (heap_next w))
    /\ csi_data_queue (app_state w') =
         Some {| uxLength := uxLength q;
                 items := if room then items q ++ [heap_next w] else items q |}
    /\ if room
       then overflow_drops w' = overflow_drops w
       else heap_live w' = heap_live w
            /\ overflow_drops w' = S (overflow_drops w)
            /\ exists entry, esp_log w' = esp_log w ++ [entry; (LOGW, overflow_report)].
Proof.
  intros info content w q Hbuf Hmac Hq Hm1 Hm2 w' room.
  pose proof (callback_admissible_result info content w q Hbuf Hmac Hq Hm1 Hm2) as E.
  cbv zeta in E. fold w' in E. fold room in E. clearbody w' room. subst w'.
  destruct room.
  - world_simpl. repeat split.
    unfold overflow_drops. world_simpl.
    rewrite filter_app, length_app. cbn. lia.
  - rewrite !overflow_drops_log. world_simpl. rewrite Hq. repeat split.
    + destruct q; reflexivity.
    + change (is_overflow_report (LOGW, overflow_report)) with true.
      unfold overflow_drops. world_simpl.
      rewrite filter_app, length_app. cbn [filter is_overflow_report List.length]. lia.
    + eexists. rewrite <- app_assoc. reflexivity.
Qed.

(** Whatever the sample and whatever the allocator answers, the callback
    leaves the queue alone or appends one handle where there is room. *)
Lemma callback_queue_step :
  forall s w,
    let w' := research_csi_data_callback s w in
    app_state w' = app_state w
    \/ exists q p,
         csi_data_queue (app_state w) = Some q
         /\ Z.of_nat (List.length (items q)) < uxLength q
         /\ app_state w' =
              set_csi_data_queue
                (Some {| uxLength := uxLength q; items := items q ++ [p] |}) (app_state w).
Proof.
  intros s w w'. subst w'. unfold research_csi_data_callback.
  destruct s as [info|]; [|left; reflexivity].
  pose proof (is_authorized_research_device_run (mac info) w) as Hrun.
  cbv zeta in Hrun. rewrite Hrun. clear Hrun.
  destruct w as [o clk con lg hn hl dg cb ts cp cc ap].
  destruct (buf info) as [|content|a]; [left; reflexivity| |];
    (destruct (existsb _ authorized_devices); cbn [negb]; [|left; reflexivity];
     unfold malloc; world_simpl;
     destruct (malloc_ok o hn (sizeof_wifi_csi_info_t o)); [|left; reflexivity];
     world_simpl;
     destruct (malloc_ok o (S hn) (len info)); [|left; reflexivity];
     world_simpl; destruct (csi_data_queue ap) as [q|] eqn:Hq; [|left; reflexivity];
     unfold xQueueSend_nowait;
     destruct (Z.ltb_spec (Z.of_nat (List.length (items q))) (uxLength q))
       as [Hroom|Hfull];
     [ change (negb (pdTRUE =? pdTRUE)) with false; cbv iota; world_simpl;
       right; exists q, hn; repeat split; try reflexivity; assumption
     | change (negb (errQUEUE_FULL =? pdTRUE)) with true; cbv iota; world_simpl;
       left; reflexivity ]).
Qed.

Lemma callback_queue_bound :
  forall s w,
    Z.of_nat (List.length (queue_items w)) <= queue_capacity w ->
    let w' := research_csi_data_callback s w in
    queue_capacity w' = queue_capacity w
    /\ Z.of_nat (List.length (queue_items w')) <= queue_capacity w'.
Proof.
  intros s w Hbound w'.
  destruct (callback_queue_step s w) as [Hsame | (q & p & Hq & Hroom & Hnew)];
    fold w' in Hsame || fold w' in Hnew; unfold queue_capacity, queue_items in *.
  - rewrite Hsame. split; [reflexivity | exact Hbound].
  - rewrite Hnew, Hq in *. cbn [csi_data_queue set_csi_data_queue uxLength items].
    split; [reflexivity|]. rewrite length_app. cbn [List.length]. lia.
Qed.

Lemma run_callbacks_queue_bound :
  forall samples w,
    Z.of_nat (List.length (queue_items w)) <= queue_capacity w ->
    queue_capacity (run_callbacks samples w) = queue_capacity w
    /\ Z.of_nat (List.length (queue_items (run_callbacks samples w))) <= queue_capacity w.
Proof.
  induction samples as [|s rest IH]; intros w Hbound; cbn [run_callbacks fold_left].
  - split; [reflexivity | exact Hbound].
  - destruct (callback_queue_bound s w Hbound) as [Hcap Hb].
    fold (run_callbacks rest (research_csi_data_callback s w)).
    destruct (IH (research_csi_data_callback s w) Hb) as [Hcap' Hb'].
    rewrite Hcap' , Hcap in *. split; [reflexivity | exact Hb'].
Qed.

Lemma callback_os :
  forall s w, os (research_csi_data_callback s w) = os w
              /\ (heap_next w <= heap_next (research_csi_data_callback s w))%nat.
Proof.
  intros s w. unfold research_csi_data_callback.
  destruct s as [info|]; [|split; [reflexivity | world_simpl; lia]].
  pose proof (is_authorized_research_device_run (mac info) w) as Hrun.
  cbv zeta in Hrun. rewrite Hrun. clear Hrun.
  destruct w as [o clk con lg hn hl dg cb ts cp cc ap].
  destruct (buf info) as [|content|a]; [split; [reflexivity | world_simpl; lia]| |];
    (destruct (existsb _ authorized_devices); cbn [negb];
       [|split; [reflexivity | world_simpl; lia]];
     unfold malloc; world_simpl;
     destruct (malloc_ok o hn (sizeof_wifi_csi_info_t o));
       [|split; [reflexivity | world_simpl; lia]];
     world_simpl;
     destruct (malloc_ok o (S hn) (len info)); [|split; [reflexivity | world_simpl; lia]];
     world_simpl; destruct (csi_data_queue ap) as [q|] eqn:Hq;
       [|split; [reflexivity | world_simpl; lia]];
     unfold xQueueSend_nowait;
     destruct (Z.of_nat (List.length (items q)) <? uxLength q);
     [ change (negb (pdTRUE =? pdTRUE)) with false
     | change (negb (errQUEUE_FULL =? pdTRUE)) with true ];
     cbv iota; world_simpl; (split; [reflexivity | lia])).
Qed.

Lemma run_callbacks_os :
  forall samples w,
    os (run_callbacks samples w) = os w
    /\ (heap_next w <= heap_next (run_callbacks samples w))%nat.
Proof.
  induction samples as [|s rest IH]; intros w; cbn [run_callbacks fold_left].
  - split; [reflexivity | lia].
  - fold (run_callbacks rest (research_csi_data_callback s w)).
    destruct (IH (research_csi_data_callback s w)) as [-> Hn].
    destruct (callback_os s w) as [-> Hn']. split; [reflexivity | lia].
Qed.

Lemma run_callbacks_app :
  forall a b w, run_callbacks (a ++ b) w = run_callbacks b (run_callbacks a w).
Proof. intros. unfold run_callbacks. apply fold_left_app. Qed.

(** Admissible samples, an allocator that never refuses and nobody
    draining: the queue fills up to its capacity and every further
    sample is one more reported drop. *)
Lemma run_callbacks_admissible :
  forall samples w q,
    Forall admissible samples ->
    csi_data_queue (app_state w) = Some q ->
    (forall n size, malloc_ok (os w) n size = true) ->
    Z.of_nat (List.length (items q)) <= uxLength q ->
    let w' := run_callbacks samples w in
    let total := Z.of_nat (List.length (items q) + List.length samples) in
    queue_capacity w' = uxLength q
    /\ Z.of_nat (List.length (queue_items w')) = Z.min total (uxLength q)
    /\ Z.of_nat (overflow_drops w') =
         Z.of_nat (overflow_drops w) + Z.max 0 (total - uxLength q).
Proof.
  induction samples as [|s rest IH]; intros w q Hall Hq Hok Hbound w' total.
  - subst w' total. cbn [run_callbacks fold_left List.length].
    unfold queue_capacity, queue_items. rewrite Hq. rewrite Nat.add_0_r. lia.
  - inversion Hall as [|s' rest' Hs Hrest]; subst s' rest'.
    destruct Hs as (info & content & -> & Hbuf & Hmac).
    pose proof (callback_admissible info content w q Hbuf Hmac Hq (Hok _ _) (Hok _ _))
      as (Hos & _ & Hq' & Hcase).
    cbv zeta in Hos, Hq', Hcase.
    set (w1 := research_csi_data_callback (Some info) w) in *.
    assert (Hok1 : forall n size, malloc_ok (os w1) n size = true)
      by (intros; rewrite Hos; apply Hok).
    subst w'. cbn [run_callbacks fold_left]. fold w1. fold (run_callbacks rest w1).
    subst total. cbn [List.length].
    destruct (Z.ltb_spec (Z.of_nat (List.length (items q))) (uxLength q)) as [Hroom|Hfull].
    + specialize (IH w1 _ Hrest Hq' Hok1). cbn [uxLength items] in IH.
      rewrite length_app in IH. cbn [List.length] in IH.
      destruct IH as (Hc & Hl & Hd); [lia|].
      rewrite Hc, Hl, Hd, Hcase. repeat split; lia.
    + specialize (IH w1 _ Hrest Hq' Hok1). cbn [uxLength items] in IH.
      destruct IH as (Hc & Hl & Hd); [lia|].
      destruct Hcase as (_ & Hdrop & _).
      rewrite Hc, Hl, Hd, Hdrop. repeat split; lia.
Qed.

(** C1. The sample queue.  From a machine whose queue has the capacity
    of 64 handles and holds no more than that:
    (1) after any sequence of calls of the callback, with any samples and
    any answers of the allocator, the queue still has capacity 64 and
    holds at most 64 handles;
    (2) when the queue is full, the callback on an admissible sample
    leaves the queue and the heap as they were (the copy of the record
    and the copy of its buffer are freed again) and appends the overflow
    report to the log;
    (3) 65 admissible samples into the empty queue, with an allocator
    that never refuses and nobody draining, leave exactly 64 handles in
    the queue, the ones of the first 64 samples, and exactly one more
    reported drop. *)
Theorem sample_queue_bounded_drop_newest :
  forall w q,
    csi_data_queue (app_state w) = Some q ->
    uxLength q = CSI_DATA_QUEUE_SIZE ->
    (List.length (items q) <= 64)%nat ->
    (forall samples,
        let w' := run_callbacks samples w in
        queue_capacity w' = 64 /\ (List.length (queue_items w') <= 64)%nat)
    /\ (forall info content,
          List.length (items q) = 64%nat ->
          buf info = BufDriver content ->
          In (mac info) allow_list ->
          malloc_ok (os w) (heap_next w) (sizeof_wifi_csi_info_t (os w)) = true ->
          malloc_ok (os w) (S (heap_next w)) (len info) = true ->
          let w' := research_csi_data_callback (Some info) w in
          queue_items w' = items q
          /\ heap_live w' = heap_live w
          /\ overflow_drops w' = S (overflow_drops w)
          /\ exists entry, esp_log w' = esp_log w ++ [entry; (LOGW, overflow_report)])
    /\ (forall samples,
          items q = [] ->
          List.length samples = 65%nat ->
          Forall admissible samples ->
          (forall n size, malloc_ok (os w) n size = true) ->
          let w' := run_callbacks samples w in
          List.length (queue_items w') = 64%nat
          /\ overflow_drops w' = S (overflow_drops w)
          /\ queue_items w' = queue_items (run_callbacks (firstn 64 samples) w)
          /\ heap_live w' = heap_live (run_callbacks (firstn 64 samples) w)).
Proof.
  intros w q Hq Hcap Hlen. unfold CSI_DATA_QUEUE_SIZE in Hcap.
  split; [|split].
  - intros samples w'.
    destruct (run_callbacks_queue_bound samples w) as [Hc Hb].
    { unfold queue_items, queue_capacity. rewrite Hq. lia. }
    fold w' in Hc, Hb. unfold queue_capacity at 2 in Hc. unfold queue_capacity in Hb.
    rewrite Hq in Hc, Hb. split; lia.
  - intros info content Hfull Hbuf Hmac Hm1 Hm2 w'.
    pose proof (callback_admissible info content w q Hbuf Hmac Hq Hm1 Hm2)
      as (_ & _ & Hq' & Hcase).
    cbv zeta in Hq', Hcase. fold w' in Hq', Hcase.
    destruct (Z.ltb_spec (Z.of_nat (List.length (items q))) (uxLength q)) as [Hroom|_];
      [lia|].
    unfold queue_items. rewrite Hq'. cbn [items]. tauto.
  - intros samples Hempty Hn Hall Hok w'.
    assert (Hsplit : samples = firstn 64 samples ++ skipn 64 samples)
      by (symmetry; apply firstn_skipn).
    assert (Hfirst : List.length (firstn 64 samples) = 64%nat)
      by (rewrite length_firstn; lia).
    destruct (skipn 64 samples) as [|last [|extra more]] eqn:Hskip;
      try (apply (f_equal (@List.length _)) in Hskip;
           rewrite length_skipn in Hskip; cbn [List.length] in Hskip; lia).
    assert (Hall64 : Forall admissible (firstn 64 samples)).
    { rewrite Hsplit in Hall. apply Forall_app in Hall. tauto. }
    assert (Hlast : admissible last).
    { rewrite Hsplit in Hall. apply Forall_app in Hall. destruct Hall as [_ Hl].
      now inversion Hl. }
    set (w64 := run_callbacks (firstn 64 samples) w) in *.
    assert (Hw' : w' = research_csi_data_callback last w64).
    { unfold w'. rewrite Hsplit at 1. rewrite run_callbacks_app. reflexivity. }
    destruct (run_callbacks_admissible (firstn 64 samples) w q Hall64 Hq Hok)
      as (Hc64 & Hl64 & Hd64); [lia|].
    fold w64 in Hc64, Hl64, Hd64. rewrite Hempty, Hfirst, Hcap in *.
    cbn [List.length Nat.add] in Hl64, Hd64.
    assert (Hos64 : forall n size, malloc_ok (os w64) n size = true).
    { intros n size. unfold w64.
      rewrite (proj1 (run_callbacks_os (firstn 64 samples) w)). apply Hok. }
    unfold queue_capacity, queue_items in Hc64, Hl64.
    destruct (csi_data_queue (app_state w64)) as [q64|] eqn:Hq64;
      [|cbn [List.length] in Hl64; lia].
    destruct Hlast as (info & content & -> & Hbuf & Hmac).
    pose proof (callback_admissible info content w64 q64 Hbuf Hmac Hq64
                  (Hos64 _ _) (Hos64 _ _)) as (_ & _ & Hq' & Hcase).
    cbv zeta in Hq', Hcase. rewrite <- Hw' in Hq', Hcase.
    destruct (Z.ltb_spec (Z.of_nat (List.length (items q64))) (uxLength q64))
      as [Hroom|_]; [lia|].
    destruct Hcase as (Hheap & Hdrop & _).
    change (Z.of_nat 64) with 64 in Hl64, Hd64.
    unfold queue_items. rewrite Hq', Hq64. cbn [items].
    repeat split; try assumption; lia.
Qed.

(** ** White space and trimming *)

Lemma skip_ws_blank : forall s, blank s -> skip_ws s = [].
Proof.
  induction s as [|c s IH]; intros Hb; [reflexivity|].
  inversion Hb as [|c' s' Hc Hs]; subst. simpl. rewrite Hc. now apply IH.
Qed.

Lemma skip_ws_lead :
  forall lead x s, blank lead -> isspace x = false -> skip_ws (lead ++ x :: s) = x :: s.
Proof.
  induction lead as [|c lead IH]; intros x s Hb Hx; simpl.
  - now rewrite Hx.
  - inversion Hb as [|c' l' Hc Hl]; subst. rewrite Hc. now apply IH.
Qed.

Lemma skip_ws_idempotent : forall s, skip_ws (skip_ws s) = skip_ws s.
Proof.
  induction s as [|c s IH]; [reflexivity|]. simpl.
  destruct (isspace c) eqn:Hc; [exact IH|]. simpl. now rewrite Hc.
Qed.

Lemma skip_ws_split : forall s, exists lead, blank lead /\ s = lead ++ skip_ws s.
Proof.
  induction s as [|c s (lead & Hb & Hs)].
  - exists []. split; [constructor | reflexivity].
  - simpl. destruct (isspace c) eqn:Hc.
    + exists (c :: lead). split; [constructor; assumption | simpl; congruence].
    + exists []. split; [constructor | reflexivity].
Qed.

Lemma trim_end_app :
  forall s extra e, (e < List.length s)%nat -> trim_end (s ++ extra) e = trim_end s e.
Proof.
  induction e as [|e IH]; intros He; [reflexivity|].
  cbn [trim_end]. rewrite app_nth1 by exact He.
  destruct (isspace (nth (S e) s NUL)); [apply IH; lia | reflexivity].
Qed.

Lemma trim_end_blank_tail :
  forall init z trail,
    isspace z = false -> blank trail ->
    trim_end (init ++ z :: trail) (List.length init + List.length trail)
    = List.length init.
Proof.
  intros init z trail Hz. induction trail as [|c trail IH] using rev_ind; intros Hb.
  - rewrite Nat.add_0_r. destruct (List.length init) as [|n] eqn:Hn; [reflexivity|].
    cbn [trim_end]. rewrite <- Hn, nth_middle, Hz. reflexivity.
  - apply Forall_app in Hb. destruct Hb as [Hb Hc]. inversion Hc as [|c' l' Hc' _]; subst.
    assert (Hlen : List.length (init ++ z :: trail)
                   = S (List.length init + List.length trail))
      by (rewrite length_app; cbn [List.length]; lia).
    replace (List.length init + List.length (trail ++ [c]))%nat
      with (S (List.length init + List.length trail))
      by (rewrite length_app; cbn [List.length]; lia).
    replace (init ++ z :: trail ++ [c]) with ((init ++ z :: trail) ++ [c])
      by (rewrite <- app_assoc; reflexivity).
    cbn [trim_end].
    replace (nth (S (List.length init + List.length trail))
                 ((init ++ z :: trail) ++ [c]) NUL) with c
      by (rewrite <- Hlen; symmetry; apply nth_middle).
    rewrite Hc', trim_end_app by lia. apply IH. exact Hb.
Qed.

(** Trimming removes the white space around a trimmed text, and nothing
    else. *)
Lemma trim_whitespace_spec :
  forall lead body trail,
    blank lead -> blank trail -> trimmed body ->
    trim_whitespace (lead ++ body ++ trail) = body.
Proof.
  intros lead body trail Hl Ht Hbody.
  destruct body as [|x mid]; [contradiction|]. destruct Hbody as [Hx Hz].
  unfold trim_whitespace. cbn [app]. rewrite skip_ws_lead by assumption.
  destruct (exists_last (l := x :: mid)) as (init & z & Hsplit); [discriminate|].
  rewrite Hsplit in Hz. rewrite last_last in Hz.
  change (x :: mid ++ trail) with ((x :: mid) ++ trail). rewrite Hsplit.
  rewrite <- app_assoc. cbn [app].
  replace (List.length (init ++ z :: trail) - 1)%nat
    with (List.length init + List.length trail)%nat
    by (rewrite length_app; cbn [List.length]; lia).
  rewrite trim_end_blank_tail by assumption.
  replace (init ++ z :: trail) with ((init ++ [z]) ++ trail)
    by (rewrite <- app_assoc; reflexivity).
  replace (S (List.length init)) with (List.length (init ++ [z]))
    by (rewrite length_app; cbn [List.length]; lia).
  rewrite firstn_app, Nat.sub_diag, firstn_all. cbn [firstn]. rewrite app_nil_r.
  destruct (init ++ [z]) eqn:E; [destruct init; discriminate | reflexivity].
Qed.

Lemma trim_whitespace_blank : forall s, blank s -> trim_whitespace s = [].
Proof. intros s Hb. unfold trim_whitespace. now rewrite skip_ws_blank. Qed.

(** Every text is blank or a trimmed text between two blank ones. *)
Lemma blank_or_trimmed :
  forall s,
    blank s
    \/ exists lead body trail,
         s = lead ++ body ++ trail /\ blank lead /\ blank trail /\ trimmed body.
Proof.
  induction s as [|c s IH].
  - left. constructor.
  - destruct (isspace c) eqn:Hc.
    + destruct IH as [Hb | (lead & body & trail & -> & Hl & Ht & Hbody)].
      * left. constructor; assumption.
      * right. exists (c :: lead), body, trail.
        repeat split; try assumption. constructor; assumption.
    + right. destruct IH as [Hb | (lead & body & trail & -> & Hl & Ht & Hbody)].
      * exists [], [c], s. repeat split; try assumption; constructor.
      * exists [], (c :: lead ++ body), trail.
        split; [cbn [app]; now rewrite <- app_assoc|].
        split; [constructor|]. split; [assumption|].
        split; [assumption|].
        destruct body as [|x mid]; [contradiction|]. destruct Hbody as [_ Hz].
        change (c :: lead ++ x :: mid) with ((c :: lead) ++ x :: mid).
        destruct (exists_last (l := x :: mid)) as (init & z & Hsplit); [discriminate|].
        rewrite Hsplit in Hz |- *. rewrite last_last in Hz.
        rewrite app_assoc, last_last. exact Hz.
Qed.

Lemma trim_whitespace_split :
  forall s,
    trim_whitespace s <> [] ->
    exists lead trail,
      s = lead ++ trim_whitespace s ++ trail
      /\ blank lead /\ blank trail /\ trimmed (trim_whitespace s).
Proof.
  intros s Hne.
  destruct (blank_or_trimmed s) as [Hb | (lead & body & trail & Hs & Hl & Ht & Hbody)].
  - now rewrite trim_whitespace_blank in Hne.
  - exists lead, trail. rewrite Hs at 2 3.
    rewrite (trim_whitespace_spec lead body trail Hl Ht Hbody).
    repeat split; assumption.
Qed.

(** ** [sscanf] with the two timestamp formats *)

Lemma scan_integer_skip_ws : forall s, scan_integer (skip_ws s) = scan_integer s.
Proof. intros. unfold scan_integer. now rewrite skip_ws_idempotent. Qed.

Lemma scan_integer_begins :
  forall s,
    begins_with_integer s =
      match scan_integer s with ConvOk _ _ => true | _ => false end.
Proof.
  intros s. unfold begins_with_integer, scan_integer.
  destruct (skip_ws s) as [|c r]; [reflexivity|].
  destruct (Ascii.eqb_spec c "-") as [->|Hm].
  - cbn [orb]. change (isdigit "-") with false. cbn [orb andb].
    destruct r as [|d r']; [reflexivity|].
    destruct (isdigit d) eqn:Hd; [|reflexivity].
    now destruct (scan_digits (d :: r') 0).
  - destruct (Ascii.eqb_spec c "+") as [->|Hp].
    + cbn [orb]. change (isdigit "+") with false. cbn [orb andb].
      destruct r as [|d r']; [reflexivity|].
      destruct (isdigit d) eqn:Hd; [|reflexivity].
      now destruct (scan_digits (d :: r') 0).
    + cbn [orb andb]. rewrite orb_false_r.
      destruct (isdigit c) eqn:Hc; [|reflexivity].
      now destruct (scan_digits (c :: r) 0).
Qed.

Lemma scan_fields_begins : forall s, no_fields (scan_fields s) = negb (begins_with_integer s).
Proof.
  intros s. rewrite scan_integer_begins. unfold scan_fields.
  now destruct (scan_integer s).
Qed.

Lemma scan_fields_skip_ws : forall s, scan_fields (skip_ws s) = scan_fields s.
Proof. intros. unfold scan_fields. now rewrite scan_integer_skip_ws. Qed.

Lemma sscanf_run_simple :
  forall s,
    snd (sscanf_run simple_directives s []) = fields_assigned (scan_fields s)
    /\ (fst (sscanf_run simple_directives s []) <=? 0) = no_fields (scan_fields s).
Proof.
  intros s. unfold simple_directives, scan_fields. cbn [sscanf_run].
  destruct (scan_integer s) as [v rest| |]; cbn [app]; try (split; reflexivity).
  destruct rest as [|c r]; [split; reflexivity|].
  destruct (Ascii.eqb c "."); [|split; reflexivity].
  destruct (scan_integer r) as [u rest'| |]; split; reflexivity.
Qed.

Lemma sscanf_run_prefix_match :
  forall p fmt s t,
    strip_prefix p s = Some t ->
    sscanf_run (map DLit p ++ fmt) s [] = sscanf_run fmt t [].
Proof.
  induction p as [|c p IH]; intros fmt s t H; cbn in H |- *.
  - now injection H as ->.
  - destruct s as [|x s]; [discriminate|].
    destruct (Ascii.eqb x c); [now apply IH | discriminate].
Qed.

Lemma sscanf_run_prefix_mismatch :
  forall p fmt s,
    strip_prefix p s = None ->
    snd (sscanf_run (map DLit p ++ fmt) s []) = []
    /\ (fst (sscanf_run (map DLit p ++ fmt) s []) <=? 0) = true.
Proof.
  induction p as [|c p IH]; intros fmt s H; cbn in H |- *; [discriminate|].
  destruct s as [|x s]; [split; reflexivity|].
  destruct (Ascii.eqb x c); [now apply IH | split; reflexivity].
Qed.

Lemma sscanf_simple :
  forall s,
    snd (sscanf s TIMESTAMP_FORMAT_SIMPLE) = fields_assigned (scan_fields s)
    /\ (fst (sscanf s TIMESTAMP_FORMAT_SIMPLE) <=? 0) = no_fields (scan_fields s).
Proof. intros s. apply sscanf_run_simple. Qed.

Lemma sscanf_extended :
  forall s,
    let f := match strip_prefix (lit "SYNC_TIME:") s with
             | Some t => scan_fields t
             | None => None
             end in
    snd (sscanf s TIMESTAMP_FORMAT_EXTENDED) = fields_assigned f
    /\ (fst (sscanf s TIMESTAMP_FORMAT_EXTENDED) <=? 0) = no_fields f.
Proof.
  intros s f. subst f. unfold sscanf.
  change (parse_format (lit TIMESTAMP_FORMAT_EXTENDED))
    with (map DLit (lit "SYNC_TIME:") ++ DSpace :: simple_directives).
  destruct (strip_prefix (lit "SYNC_TIME:") s) as [t|] eqn:Hp.
  - rewrite (sscanf_run_prefix_match _ _ _ _ Hp). cbn [sscanf_run].
    fold simple_directives. rewrite <- (scan_fields_skip_ws t).
    apply sscanf_run_simple.
  - apply sscanf_run_prefix_mismatch. exact Hp.
Qed.

Lemma strip_prefix_tag_no_integer :
  forall s t, strip_prefix (lit "SYNC_TIME:") s = Some t -> begins_with_integer s = false.
Proof.
  intros s t H. destruct s as [|x s]; [discriminate|].
  cbn in H. destruct (Ascii.eqb_spec x "S") as [->|]; [|discriminate]. reflexivity.
Qed.

(** [parse_timestamp_string], by the fields of the line. *)
Lemma parse_timestamp_string_fields :
  forall s, parse_timestamp_string (Some s) = parsed_result (timestamp_fields s).
Proof.
  intros s. unfold parse_timestamp_string, timestamp_fields.
  destruct (sscanf_extended s) as [Ha1 Hn1]. cbv zeta in Ha1, Hn1.
  destruct (sscanf_simple s) as [Ha2 Hn2].
  rewrite (surjective_pairing (sscanf s TIMESTAMP_FORMAT_EXTENDED)).
  rewrite (surjective_pairing (sscanf s TIMESTAMP_FORMAT_SIMPLE)).
  rewrite Ha1, Hn1, Ha2.
  destruct (strip_prefix (lit "SYNC_TIME:") s) as [t|] eqn:Hp.
  - destruct (scan_fields t) as [[v [u|]]|] eqn:Ht; cbn [no_fields fields_assigned].
    + assert (H : (0 <? fst (sscanf s TIMESTAMP_FORMAT_EXTENDED)) = true)
        by (apply Z.ltb_lt; apply Z.leb_gt; exact Hn1).
      rewrite H. reflexivity.
    + assert (H : (0 <? fst (sscanf s TIMESTAMP_FORMAT_EXTENDED)) = true)
        by (apply Z.ltb_lt; apply Z.leb_gt; exact Hn1).
      rewrite H. reflexivity.
    + pose proof (scan_fields_begins s) as Hs.
      rewrite (strip_prefix_tag_no_integer _ _ Hp) in Hs.
      destruct (scan_fields s); [discriminate|]. cbn [no_fields] in Hn2.
      cbn [fields_assigned assign_fields].
      assert (H : (0 <? fst (sscanf s TIMESTAMP_FORMAT_SIMPLE)) = false)
        by (apply Z.ltb_ge; apply Z.leb_le; exact Hn2).
      rewrite H. reflexivity.
  - cbn [no_fields fields_assigned assign_fields].
    destruct (scan_fields s) as [[v [u|]]|] eqn:Hs; cbn [no_fields] in Hn2;
      cbn [fields_assigned assign_fields parsed_result seconds microseconds].
    + assert (H : (0 <? fst (sscanf s TIMESTAMP_FORMAT_SIMPLE)) = true)
        by (apply Z.ltb_lt; apply Z.leb_gt; exact Hn2).
      rewrite H. reflexivity.
    + assert (H : (0 <? fst (sscanf s TIMESTAMP_FORMAT_SIMPLE)) = true)
        by (apply Z.ltb_lt; apply Z.leb_gt; exact Hn2).
      rewrite H. reflexivity.
    + assert (H : (0 <? fst (sscanf s TIMESTAMP_FORMAT_SIMPLE)) = false)
        by (apply Z.ltb_ge; apply Z.leb_le; exact Hn2).
      rewrite H. reflexivity.
Qed.

Lemma timestamp_fields_numeric :
  forall s, no_fields (timestamp_fields s) = negb (numeric s).
Proof.
  intros s. unfold timestamp_fields, numeric.
  destruct (strip_prefix (lit "SYNC_TIME:") s) as [t|] eqn:Hp.
  - rewrite (strip_prefix_tag_no_integer _ _ Hp). cbn [orb].
    pose proof (scan_fields_begins t) as Ht. pose proof (scan_fields_begins s) as Hs.
    rewrite (strip_prefix_tag_no_integer _ _ Hp) in Hs.
    destruct (scan_fields t); cbn [no_fields] in *; [exact Ht|].
    destruct (scan_fields s); [discriminate | exact Ht].
  - rewrite orb_false_r. apply scan_fields_begins.
Qed.

Lemma parse_success_numeric :
  forall s, parse_success (parse_timestamp_string (Some s)) = numeric s.
Proof.
  intros s. rewrite parse_timestamp_string_fields.
  pose proof (timestamp_fields_numeric s) as H.
  destruct (timestamp_fields s) as [[v ou]|]; cbn [no_fields parsed_result parse_success] in *;
    destruct (numeric s); cbn in H; congruence.
Qed.

Lemma validate_numeric :
  forall s, validate_timestamp_format (Some s) = numeric s.
Proof.
  intros s. unfold validate_timestamp_format.
  destruct (sscanf_extended s) as [_ Hn1]. cbv zeta in Hn1.
  destruct (sscanf_simple s) as [_ Hn2].
  rewrite !Z.ltb_antisym, Hn1, Hn2. unfold numeric.
  rewrite !scan_fields_begins.
  destruct (strip_prefix (lit "SYNC_TIME:") s) as [t|] eqn:Hp.
  - rewrite (strip_prefix_tag_no_integer _ _ Hp). rewrite scan_fields_begins.
    cbn [negb orb]. now destruct (begins_with_integer t).
  - cbn [no_fields negb]. rewrite orb_false_r. now destruct (begins_with_integer s).
Qed.

(** [synchronize_system_time], by the fields of the line. *)
Lemma synchronize_system_time_fields :
  forall s w,
    synchronize_system_time (Some s) w =
      match timestamp_fields s with
      | None =>
          (false, printf (lit "Warning: Failed to parse timestamp format" ++ newline) w)
      | Some _ =>
          let r := parsed_result (timestamp_fields s) in
          let t := {| tv_sec := to_long_long (seconds r); tv_usec := microseconds r |} in
          if settimeofday_rc (os w) t =? 0
          then (true, printf (lit "System time synchronized successfully" ++ newline)
                        (set_time_sync_established true (set_sys_clock t w)))
          else (false, printf (lit "Error: Failed to set system time" ++ newline) w)
      end.
Proof.
  intros s w. unfold synchronize_system_time. rewrite parse_timestamp_string_fields.
  destruct (timestamp_fields s) as [[v ou]|]; [|reflexivity].
  cbn [parsed_result parse_success negb]. cbv zeta. unfold settimeofday.
  destruct (settimeofday_rc (os w) _ =? 0) eqn:Hrc; [|rewrite Hrc]; reflexivity.
Qed.

(** A line that is not numeric changes neither the clock nor the flag. *)
Lemma synchronize_not_numeric :
  forall s w,
    numeric s = false ->
    synchronize_system_time (Some s) w =
      (false, printf (lit "Warning: Failed to parse timestamp format" ++ newline) w).
Proof.
  intros s w H. rewrite synchronize_system_time_fields.
  pose proof (timestamp_fields_numeric s) as Hf. rewrite H in Hf.
  now destruct (timestamp_fields s).
Qed.

(** Counterexample to C2 as stated: the input 100.-5 parses with success
    and [synchronize_system_time] moves the clock to 100 seconds and
    raises the synchronized flag. *)
Lemma timestamp_100_minus_5_accepted :
  ~ (parse_success (parse_timestamp_string (Some (lit "100.-5"))) = false
     /\ sys_clock (snd (synchronize_system_time (Some (lit "100.-5")) booted))
        = sys_clock booted
     /\ time_sync_established (snd (synchronize_system_time (Some (lit "100.-5")) booted))
        = time_sync_established booted).
Proof. intros (H & _ & _). vm_compute in H. discriminate. Qed.

(** C2, amended.  [parse_timestamp_string] on "SYNC_TIME: 100.500000"
    returns seconds 100, microseconds 500000 and success; on "100.-5" it
    returns seconds 100, microseconds 0 (the negative value is replaced)
    and success, and [synchronize_system_time] then sets the clock to
    100.000000 and raises the synchronized flag when [settimeofday]
    accepts; parsing succeeds exactly on numeric input, and on any other
    input [synchronize_system_time] returns false and leaves the clock
    and the synchronized flag as they were. *)
Theorem timestamp_parsing_outcomes :
  parse_timestamp_string (Some (lit "SYNC_TIME: 100.500000"))
    = {| seconds := 100; microseconds := 500000; parse_success := true |}
  /\ parse_timestamp_string (Some (lit "100.-5"))
     = {| seconds := 100; microseconds := 0; parse_success := true |}
  /\ (forall w,
        settimeofday_rc (os w) {| tv_sec := 100; tv_usec := 0 |} = 0 ->
        let w' := snd (synchronize_system_time (Some (lit "100.-5")) w) in
        sys_clock w' = {| tv_sec := 100; tv_usec := 0 |}
        /\ time_sync_established w' = true)
  /\ (forall s, parse_success (parse_timestamp_string (Some s)) = numeric s)
  /\ (forall s w,
        numeric s = false ->
        let w' := snd (synchronize_system_time (Some s) w) in
        parse_success (parse_timestamp_string (Some s)) = false
        /\ fst (synchronize_system_time (Some s) w) = false
        /\ sys_clock w' = sys_clock w
        /\ time_sync_established w' = time_sync_established w).
Proof.
  split; [reflexivity|]. split; [reflexivity|]. split; [|split].
  - intros w Hrc w'. subst w'. rewrite synchronize_system_time_fields.
    change (timestamp_fields (lit "100.-5")) with (Some (100, Some (-5))).
    cbn [parsed_result seconds microseconds]. cbv zeta.
    change (to_long_long 100) with 100.
    change (if (-5 <? 0) || (1000000 <=? -5) then 0 else -5) with 0.
    rewrite Hrc. cbn. split; reflexivity.
  - apply parse_success_numeric.
  - intros s w Hs w'. subst w'. rewrite parse_success_numeric, synchronize_not_numeric by exact Hs.
    repeat split; try reflexivity. exact Hs.
Qed.

Lemma timestamp_parsing_outcomes_witness :
  fst (synchronize_system_time (Some (lit "time?")) booted) = false
  /\ sys_clock (snd (synchronize_system_time (Some (lit "time?")) booted)) = sys_clock booted
  /\ sys_clock (snd (synchronize_system_time (Some (lit "100.-5")) booted))
     = {| tv_sec := 100; tv_usec := 0 |}.
Proof.
  destruct timestamp_parsing_outcomes as (_ & _ & Hset & _ & Hkeep).
  assert (Hnum : numeric (lit "time?") = false) by (vm_compute; reflexivity).
  assert (Hrc : settimeofday_rc (os booted) {| tv_sec := 100; tv_usec := 0 |} = 0)
    by (vm_compute; reflexivity).
  destruct (Hkeep (lit "time?") booted Hnum) as (_ & Hf & Hc & _).
  destruct (Hset booted Hrc) as (Hc100 & _).
  split; [exact Hf | split; [exact Hc | exact Hc100]].
Defined.

Lemma sample_queue_bounded_drop_newest_witness :
  let w' := run_callbacks (repeat (Some sample_csi) 65) booted in
  List.length (queue_items w') = 64%nat
  /\ overflow_drops w' = S (overflow_drops booted)
  /\ queue_capacity w' = 64.
Proof.
  intros w'.
  assert (Hq : csi_data_queue (app_state booted) = Some {| uxLength := 64; items := [] |})
    by (vm_compute; reflexivity).
  assert (Hlen : (List.length (items {| uxLength := 64; items := [] |}) <= 64)%nat)
    by (cbn; lia).
  destruct (sample_queue_bounded_drop_newest booted _ Hq eq_refl Hlen)
    as (Hbound & _ & Hfill).
  assert (Hall : Forall admissible (repeat (Some sample_csi) 65)).
  { apply Forall_forall. intros s Hs. apply repeat_spec in Hs. subst s.
    exists sample_csi, [x03; x04; xff; x00].
    split; [reflexivity|]. split; [reflexivity|]. left. reflexivity. }
  assert (Hok : forall n size, malloc_ok (os booted) n size = true)
    by (intros; vm_compute; reflexivity).
  destruct (Hfill (repeat (Some sample_csi) 65) eq_refl (repeat_length _ 65) Hall Hok)
    as (H64 & Hdrop & _).
  destruct (Hbound (repeat (Some sample_csi) 65)) as (Hcap & _).
  split; [exact H64 | split; [exact Hdrop | exact Hcap]].
Defined.

(** ** Numerals *)

Lemma digit_not_space : forall c, isdigit c = true -> isspace c = false.
Proof.
  intros c. unfold isdigit, isspace. generalize (char_code c). intros n H.
  destruct (Z.leb_spec 48 n), (Z.leb_spec n 57); try discriminate.
  destruct (Z.eqb_spec n 32), (Z.leb_spec 9 n), (Z.leb_spec n 13); try reflexivity; lia.
Qed.

Lemma space_not_digit : forall c, isspace c = true -> isdigit c = false.
Proof.
  intros c H. destruct (isdigit c) eqn:Hd; [|reflexivity].
  apply digit_not_space in Hd. congruence.
Qed.

Lemma digit_not_char :
  forall c x, isdigit x = false -> isdigit c = true -> Ascii.eqb c x = false.
Proof.
  intros c x Hx Hc. destruct (Ascii.eqb_spec c x) as [->|]; congruence.
Qed.

Lemma space_not_char :
  forall c x, isspace x = false -> isspace c = true -> Ascii.eqb c x = false.
Proof.
  intros c x Hx Hc. destruct (Ascii.eqb_spec c x) as [->|]; congruence.
Qed.

Lemma scan_digits_numeral :
  forall ds rest acc,
    Forall (fun c => isdigit c = true) ds -> ends_numeral rest ->
    scan_digits (ds ++ rest) acc
    = (fold_left (fun acc c => 10 * acc + digit_val c) ds acc, rest).
Proof.
  induction ds as [|d ds IH]; intros rest acc Hds Hrest; cbn [app fold_left].
  - destruct rest as [|c r]; [reflexivity|]. cbn in Hrest |- *. now rewrite Hrest.
  - inversion Hds as [|d' ds' Hd Hds']; subst. cbn [scan_digits]. rewrite Hd.
    now apply IH.
Qed.

(** The conversion reads a numeral for the number it writes. *)
Lemma scan_integer_numeral :
  forall lead sgn ds rest,
    blank lead -> is_sign sgn -> is_numeral ds -> ends_numeral rest ->
    scan_integer (lead ++ sgn ++ ds ++ rest) = ConvOk (signed_value sgn ds) rest.
Proof.
  intros lead sgn ds rest Hlead Hsgn [Hne Hds] Hrest.
  destruct ds as [|d ds]; [contradiction|].
  inversion Hds as [|d' ds' Hd Hds']; subst.
  pose proof (scan_digits_numeral (d :: ds) rest 0 Hds Hrest) as Hscan.
  unfold scan_integer, signed_value, numeral_value.
  destruct Hsgn as [-> | [-> | ->]]; cbn [app lit list_ascii_of_string].
  - rewrite skip_ws_lead by (try apply digit_not_space; assumption).
    rewrite (digit_not_char d "-"), (digit_not_char d "+") by (reflexivity || assumption).
    rewrite Hd. change (d :: ds ++ rest) with ((d :: ds) ++ rest). now rewrite Hscan.
  - rewrite skip_ws_lead by (reflexivity || assumption).
    change (Ascii.eqb "+" "-") with false. change (Ascii.eqb "+" "+") with true.
    cbv iota. rewrite Hd. change (d :: ds ++ rest) with ((d :: ds) ++ rest).
    now rewrite Hscan.
  - rewrite skip_ws_lead by (reflexivity || assumption).
    change (Ascii.eqb "-" "-") with true.
    cbv iota. rewrite Hd. change (d :: ds ++ rest) with ((d :: ds) ++ rest).
    now rewrite Hscan.
Qed.

Lemma begins_with_integer_numeral :
  forall lead sgn ds rest,
    blank lead -> is_sign sgn -> is_numeral ds ->
    begins_with_integer (lead ++ sgn ++ ds ++ rest) = true.
Proof.
  intros lead sgn ds rest Hlead Hsgn [Hne Hds].
  destruct ds as [|d ds]; [contradiction|].
  inversion Hds as [|d' ds' Hd Hds']; subst.
  unfold begins_with_integer.
  destruct Hsgn as [-> | [-> | ->]]; cbn [app lit list_ascii_of_string].
  - rewrite skip_ws_lead by (try apply digit_not_space; assumption). now rewrite Hd.
  - rewrite skip_ws_lead by (reflexivity || assumption). now rewrite Hd.
  - rewrite skip_ws_lead by (reflexivity || assumption). now rewrite Hd.
Qed.

Lemma begins_with_integer_no_tag :
  forall s, begins_with_integer s = true -> strip_prefix (lit "SYNC_TIME:") s = None.
Proof.
  intros s H. destruct (strip_prefix (lit "SYNC_TIME:") s) as [t|] eqn:Hp; [|reflexivity].
  rewrite (strip_prefix_tag_no_integer _ _ Hp) in H. discriminate.
Qed.

Lemma ends_numeral_blank_tail :
  forall rest trail, ends_numeral rest -> blank trail -> ends_numeral (rest ++ trail).
Proof.
  intros [|c r] trail Hrest Htrail; [|exact Hrest]. cbn [app].
  destruct trail as [|c t]; [exact I|]. inversion Htrail; subst.
  cbn. now apply space_not_digit.
Qed.

Lemma begins_with_integer_blank_tail :
  forall m trail,
    blank trail -> begins_with_integer m = false -> begins_with_integer (m ++ trail) = false.
Proof.
  intros m trail Htrail. unfold begins_with_integer.
  induction m as [|c m IH]; intros H; cbn [app].
  - now rewrite skip_ws_blank.
  - cbn [skip_ws] in H |- *. destruct (isspace c); [now apply IH|].
    apply orb_false_iff in H. destruct H as [Hc H]. rewrite Hc. cbn [orb].
    destruct (Ascii.eqb c "-" || Ascii.eqb c "+"); [|reflexivity]. cbn [andb] in H |- *.
    destruct m as [|d m']; [|exact H]. cbn [app].
    destruct trail as [|t trail']; [reflexivity|]. inversion Htrail; subst.
    now apply space_not_digit.
Qed.

(** The fields of a line that is an integer with no microsecond part,
    between white space. *)
Lemma scan_fields_integer_only :
  forall lead sgn ds rest trail,
    blank lead -> blank trail -> is_sign sgn -> is_numeral ds ->
    ends_numeral rest -> no_microseconds rest ->
    scan_fields (lead ++ (sgn ++ ds ++ rest) ++ trail)
    = Some (saturate 64 (signed_value sgn ds), None).
Proof.
  intros lead sgn ds rest trail Hlead Htrail Hsgn Hds Hrest Hno.
  unfold scan_fields.
  replace (lead ++ (sgn ++ ds ++ rest) ++ trail)
    with (lead ++ sgn ++ ds ++ (rest ++ trail))
    by (now rewrite <- !app_assoc).
  rewrite scan_integer_numeral;
    try assumption; [|now apply ends_numeral_blank_tail].
  destruct rest as [|c m]; cbn [app].
  - destruct trail as [|t trail']; [reflexivity|]. inversion Htrail; subst.
    rewrite (space_not_char t ".") by (reflexivity || assumption). reflexivity.
  - destruct (Ascii.eqb c ".") eqn:Hdot; [|reflexivity].
    cbn in Hno. specialize (Hno Hdot).
    pose proof (begins_with_integer_blank_tail m trail Htrail Hno) as Hb.
    rewrite scan_integer_begins in Hb.
    destruct (scan_integer (m ++ trail)); [discriminate | reflexivity | reflexivity].
Qed.

Lemma saturate_in_range :
  forall bits v, type_min bits <= v <= type_max bits -> saturate bits v = v.
Proof. intros bits v H. unfold saturate. lia. Qed.

Lemma to_long_long_in_range :
  forall v, type_min 64 <= v <= type_max 64 -> to_long_long v = v.
Proof.
  intros v H. unfold to_long_long, wrap_signed, type_min, type_max in *.
  change (2 ^ (64 - 1)) with 9223372036854775808 in *.
  change (2 ^ 64) with 18446744073709551616.
  rewrite Z.mod_small; lia.
Qed.

(** ** Dispatch of a console line *)

Lemma classify_numeric :
  forall line,
    numeric (trim_whitespace (strncpy line (Z.to_nat (MAX_COMMAND_LENGTH - 1)))) = true ->
    classify_command (Some line) = CMD_TYPE_TIME_SYNC.
Proof.
  intros line H. unfold classify_command. now rewrite validate_numeric, H.
Qed.

Lemma strncpy_short :
  forall line,
    (List.length line <= 511)%nat ->
    strncpy line (Z.to_nat (MAX_COMMAND_LENGTH - 1)) = line.
Proof. intros line H. unfold strncpy. apply firstn_all2. exact H. Qed.

(** The machine after a time-sync line has been dispatched, when the
    line has fields and [settimeofday] accepts. *)
Lemma execute_time_sync_accepted :
  forall line w f,
    timestamp_fields line = Some f ->
    let r := parsed_result (Some f) in
    let t := {| tv_sec := to_long_long (seconds r); tv_usec := microseconds r |} in
    settimeofday_rc (os w) t = 0 ->
    let w' := snd (execute_classified_command line CMD_TYPE_TIME_SYNC w) in
    fst (execute_classified_command line CMD_TYPE_TIME_SYNC w) = true
    /\ sys_clock w' = t
    /\ time_sync_established w' = true
    /\ commands_processed (g_cmd_processor w')
       = to_int (commands_processed (g_cmd_processor w) + 1).
Proof.
  intros line w f Hf r t Hrc w'. subst w'.
  unfold execute_classified_command.
  rewrite synchronize_system_time_fields, Hf. cbv zeta. fold r. fold t.
  world_simpl. rewrite Hrc. change (0 =? 0) with true. cbv iota.
  world_simpl. repeat split.
Qed.

(** C10. A console line whose trimmed text begins with an optionally
    signed decimal integer is classified as a time-sync command, whatever
    follows the integer (nothing, as in 42, or other text, as in 123abc);
    when no microsecond part follows (no dot followed by an integer),
    the integer fits the 64-bit seconds and [settimeofday] accepts,
    dispatching the line sets the clock to that number of seconds and
    0 microseconds, raises the synchronized flag and counts the line as
    a handled command. *)
Theorem integer_line_is_time_sync :
  forall line sgn ds rest,
    (List.length line <= 511)%nat ->
    trim_whitespace line = sgn ++ ds ++ rest ->
    is_sign sgn -> is_numeral ds -> ends_numeral rest ->
    classify_command (Some line) = CMD_TYPE_TIME_SYNC
    /\ forall w,
         holds_line line w ->
         no_microseconds rest ->
         let v := signed_value sgn ds in
         type_min 64 <= v <= type_max 64 ->
         settimeofday_rc (os w) {| tv_sec := v; tv_usec := 0 |} = 0 ->
         let w' := process_received_command w in
         sys_clock w' = {| tv_sec := v; tv_usec := 0 |}
         /\ time_sync_established w' = true
         /\ commands_processed (g_cmd_processor w')
            = to_int (commands_processed (g_cmd_processor w) + 1).
Proof.
  intros line sgn ds rest Hlen Htrim Hsgn Hds Hrest.
  assert (Hclass : classify_command (Some line) = CMD_TYPE_TIME_SYNC).
  { apply classify_numeric. rewrite strncpy_short by exact Hlen. rewrite Htrim.
    unfold numeric.
    pose proof (begins_with_integer_numeral [] sgn ds rest (Forall_nil _) Hsgn Hds) as Hb.
    cbn [app] in Hb. now rewrite Hb. }
  split; [exact Hclass|].
  intros w Hholds Hno v Hrange Hrc w'.
  assert (Hne : trim_whitespace line <> []).
  { rewrite Htrim. destruct Hds as [Hne _]. destruct sgn, ds; try discriminate.
    contradiction. }
  destruct (trim_whitespace_split line Hne) as (lead & trail & Hline & Hlead & Htrail & _).
  rewrite Htrim in Hline.
  assert (Hfields : timestamp_fields line = Some (v, None)).
  { unfold timestamp_fields.
    rewrite begins_with_integer_no_tag.
    - rewrite Hline, scan_fields_integer_only by assumption.
      now rewrite saturate_in_range.
    - rewrite Hline.
      replace (lead ++ (sgn ++ ds ++ rest) ++ trail)
        with (lead ++ sgn ++ ds ++ (rest ++ trail)) by (now rewrite <- !app_assoc).
      now apply begins_with_integer_numeral. }
  subst w'. unfold process_received_command. unfold holds_line in Hholds.
  rewrite Hholds.
  assert (Hnz : (strlen line =? 0) = false).
  { apply Z.eqb_neq. unfold strlen. destruct line; [|cbn; lia].
    exfalso. apply Hne. reflexivity. }
  rewrite Hnz, Hclass.
  pose proof (execute_time_sync_accepted line w (v, None) Hfields) as Hexec.
  cbv zeta in Hexec. cbn [parsed_result seconds microseconds] in Hexec.
  change (if (0 <? 0) || (1000000 <=? 0) then 0 else 0) with 0 in Hexec.
  rewrite to_long_long_in_range in Hexec by exact Hrange.
  destruct (Hexec Hrc) as (_ & Hclock & Hflag & Hcount).
  split; [exact Hclock | split; [exact Hflag | exact Hcount]].
Qed.

(** ** The line buffer *)

Lemma char_of_char_code : forall c, char_of (char_code c) = c.
Proof.
  intros c. unfold char_of, char_code.
  pose proof (N_ascii_bounded c) as Hb.
  rewrite Z.mod_small by lia.
  rewrite N2Z.id. apply ascii_N_embedding.
Qed.

Lemma array_set_middle :
  forall pre x post c, array_set (pre ++ x :: post) (List.length pre) c = pre ++ c :: post.
Proof.
  induction pre as [|y pre IH]; intros; cbn; [reflexivity|]. now rewrite IH.
Qed.

Lemma memset_zero_succ : forall n, memset_zero (S n) = NUL :: memset_zero n.
Proof. reflexivity. Qed.

Lemma c_str_line :
  forall line n, Forall (fun c => c <> NUL) line -> c_str (line ++ memset_zero (S n)) = line.
Proof.
  induction line as [|c line IH]; intros n H; cbn [app c_str].
  - reflexivity.
  - inversion H as [|c' l' Hc Hl]; subst.
    destruct (Ascii.eqb_spec c NUL) as [->|_]; [contradiction|]. now rewrite IH.
Qed.

Lemma to_int_small : forall z, -2147483648 <= z <= 2147483647 -> to_int z = z.
Proof.
  intros z H. unfold to_int, wrap_signed.
  change (2 ^ (32 - 1)) with 2147483648. change (2 ^ 32) with 4294967296.
  rewrite Z.mod_small; lia.
Qed.

(** Ordinary bytes are stored one after the other while there is room. *)
Lemma scan_stores :
  forall xs pre rest w,
    Forall ordinary xs ->
    (List.length pre + List.length xs <= 511)%nat ->
    command_buffer (g_cmd_processor w)
      = pre ++ memset_zero (Z.to_nat MAX_COMMAND_LENGTH - List.length pre) ->
    buffer_position (g_cmd_processor w) = Z.of_nat (List.length pre) ->
    scan_for_input_data (xs ++ rest) w =
      scan_for_input_data rest
        (set_g_cmd_processor
           {| command_buffer :=
                (pre ++ xs)
                ++ memset_zero (Z.to_nat MAX_COMMAND_LENGTH - List.length (pre ++ xs));
              buffer_position := Z.of_nat (List.length (pre ++ xs));
              commands_processed := commands_processed (g_cmd_processor w);
              echo_enabled := echo_enabled (g_cmd_processor w) |} w).
Proof.
  induction xs as [|c xs IH]; intros pre rest w Hord Hlen Hbuf Hpos.
  - cbn [app]. rewrite app_nil_r. f_equal.
    destruct w as [o clk con lg hn hl dg cb ts [b p n e] cc ap].
    cbn in Hbuf, Hpos. subst b p. reflexivity.
  - inversion Hord as [|c' xs' (H10 & H13 & H255) Hxs]; subst.
    cbn [List.length] in Hlen. cbn [app scan_for_input_data].
    assert (Hc1 : ((char_code c =? 255) || (char_code c =? EOF)) = false).
    { pose proof (N_ascii_bounded c). unfold char_code, EOF in *.
      apply orb_false_iff. split; apply Z.eqb_neq; lia. }
    assert (Hc2 : ((char_code c =? 10) || (char_code c =? 13)) = false)
      by (apply orb_false_iff; split; apply Z.eqb_neq; assumption).
    rewrite Hc1, Hc2, Hpos.
    assert (Hroom : (Z.of_nat (List.length pre) <? MAX_COMMAND_LENGTH - 1) = true)
      by (apply Z.ltb_lt; unfold MAX_COMMAND_LENGTH; lia).
    rewrite Hroom.
    set (w1 := set_g_cmd_processor _ w).
    specialize (IH (pre ++ [c]) rest w1 Hxs).
    rewrite length_app in IH. cbn [List.length] in IH.
    rewrite <- !app_assoc in IH. cbn [app] in IH.
    rewrite IH.
    + f_equal. subst w1. destruct w as [o clk con lg hn hl dg cb ts [b p n e] cc ap].
      world_norm. rewrite <- app_assoc. reflexivity.
    + lia.
    + subst w1. world_simpl.
      rewrite Hbuf, ?Hpos, Nat2Z.id, char_of_char_code.
      change (Z.to_nat MAX_COMMAND_LENGTH) with 512%nat.
      replace (512 - List.length pre)%nat with (S (512 - (List.length pre + 1)))%nat by lia.
      rewrite memset_zero_succ, array_set_middle. reflexivity.
    + subst w1. world_simpl.
      rewrite ?Hpos, to_int_small by lia. lia.
Qed.

Lemma load_line_stores :
  forall line rest w,
    buffer_empty w -> Forall ordinary line -> (List.length line <= 511)%nat ->
    scan_for_input_data (line ++ rest) w = scan_for_input_data rest (load_line line w).
Proof.
  intros line rest w [Hbuf Hpos] Hord Hlen.
  rewrite (scan_stores line [] rest w Hord Hlen Hbuf Hpos). reflexivity.
Qed.

Lemma reset_buffer_empty : forall w, buffer_empty (reset_buffer w).
Proof. intros w. split; reflexivity. Qed.

(** A terminator hands the stored line to [process_received_command]
    and resets the buffer. *)
Lemma scan_line :
  forall line t rest w,
    buffer_empty w -> console_line line ->
    char_code t = 10 \/ char_code t = 13 ->
    scan_for_input_data (line ++ t :: rest) w =
      scan_for_input_data rest
        (reset_buffer (process_received_command (load_line line w))).
Proof.
  intros line t rest w Hempty (Hlen & Hord & Hnul) Ht.
  rewrite load_line_stores by assumption.
  cbn [scan_for_input_data].
  assert (Hc1 : ((char_code t =? 255) || (char_code t =? EOF)) = false)
    by (unfold EOF; apply orb_false_iff; split; apply Z.eqb_neq; lia).
  assert (Hc2 : ((char_code t =? 10) || (char_code t =? 13)) = true)
    by (apply orb_true_iff; rewrite !Z.eqb_eq; exact Ht).
  rewrite Hc1, Hc2. do 3 f_equal.
  destruct w as [o clk con lg hn hl dg cb ts [b p n e] cc ap].
  unfold load_line. world_norm. do 2 f_equal.
  rewrite Nat2Z.id. change (Z.to_nat MAX_COMMAND_LENGTH) with 512%nat.
  replace (512 - List.length line)%nat with (S (511 - List.length line)) by lia.
  rewrite memset_zero_succ. apply array_set_middle.
Qed.

Lemma holds_line_load :
  forall line w, console_line line -> holds_line line (load_line line w).
Proof.
  intros line w (Hlen & _ & Hnul). unfold holds_line, load_line. world_simpl.
  change (Z.to_nat MAX_COMMAND_LENGTH) with 512%nat.
  replace (512 - List.length line)%nat with (S (511 - List.length line)) by lia.
  now apply c_str_line.
Qed.

(** The 512th byte of a line resets the buffer, with a notice. *)
Lemma scan_overflow :
  forall xs c rest w,
    buffer_empty w -> List.length xs = 511%nat -> Forall ordinary xs -> ordinary c ->
    scan_for_input_data (xs ++ c :: rest) w =
      scan_for_input_data rest (printf overflow_notice w).
Proof.
  intros xs c rest w Hempty Hlen Hord (H10 & H13 & H255).
  rewrite load_line_stores by (assumption || lia).
  cbn [scan_for_input_data].
  assert (Hc1 : ((char_code c =? 255) || (char_code c =? EOF)) = false).
  { pose proof (N_ascii_bounded c). unfold char_code, EOF in *.
    apply orb_false_iff. split; apply Z.eqb_neq; lia. }
  assert (Hc2 : ((char_code c =? 10) || (char_code c =? 13)) = false)
    by (apply orb_false_iff; split; apply Z.eqb_neq; assumption).
  rewrite Hc1, Hc2.
  assert (Hfull : (buffer_position (g_cmd_processor (load_line xs w))
                   <? MAX_COMMAND_LENGTH - 1) = false).
  { unfold load_line. world_simpl. rewrite Hlen. reflexivity. }
  rewrite Hfull. f_equal.
  destruct Hempty as [Hbuf Hpos].
  destruct w as [o clk con lg hn hl dg cb ts [b p n e] cc ap].
  world_simpl_in Hbuf. world_simpl_in Hpos. subst b p.
  unfold reset_buffer, load_line. world_norm. reflexivity.
Qed.

(** Counterexample to C7 as stated: a line of 511 bytes, one more byte
    and the word help before the terminator.  The buffer fills before
    the terminator arrives, and yet the end of that line is classified
    and dispatched: the help text is printed and the counter of handled
    commands goes from 0 to 1. *)
Lemma overflow_tail_is_dispatched :
  let stream := repeat "x"%char 511 ++ lit "yhelp" ++ [LF] in
  let w' := fst (scan_for_input_data stream booted) in
  commands_processed (g_cmd_processor booted) = 0
  /\ commands_processed (g_cmd_processor w') = 1
  /\ In (lit "Help: help, ?" ++ newline) (console w').
Proof.
  vm_compute. split; [reflexivity|]. split; [reflexivity|].
  do 7 right. left. reflexivity.
Qed.

(** C7, amended.  When 511 bytes of a line are stored and one more
    ordinary byte arrives, those 512 bytes are discarded with the
    overflow notice: the machine is as before the line but for the
    notice, so nothing of them is classified or dispatched; the bytes
    that follow are read as a new line from an empty buffer.  (A
    terminator arriving instead of the 512th byte dispatches the 511
    stored bytes as a line.) *)
Theorem overflow_discards_stored_bytes :
  forall xs w,
    buffer_empty w -> List.length xs = 511%nat -> Forall ordinary xs ->
    (forall c rest,
        ordinary c ->
        fst (scan_for_input_data (xs ++ [c]) w) = printf overflow_notice w
        /\ scan_for_input_data (xs ++ c :: rest) w
           = scan_for_input_data rest (printf overflow_notice w)
        /\ buffer_empty (printf overflow_notice w))
    /\ (forall t rest,
          char_code t = 10 \/ char_code t = 13 ->
          Forall (fun c => c <> NUL) xs ->
          scan_for_input_data (xs ++ t :: rest) w
          = scan_for_input_data rest
              (reset_buffer (process_received_command (load_line xs w)))).
Proof.
  intros xs w Hempty Hlen Hord. split.
  - intros c rest Hc. split; [|split].
    + rewrite (scan_overflow xs c [] w) by assumption. reflexivity.
    + apply scan_overflow; assumption.
    + exact Hempty.
  - intros t rest Ht Hnul. apply scan_line; try assumption.
    repeat split; try assumption. lia.
Qed.

Lemma overflow_discards_stored_bytes_witness :
  fst (scan_for_input_data (repeat "x"%char 511 ++ ["y"%char]) booted)
  = printf overflow_notice booted.
Proof.
  assert (Hempty : buffer_empty booted) by (split; vm_compute; reflexivity).
  assert (Hord : Forall ordinary (repeat "x"%char 511)).
  { apply Forall_forall. intros c Hc. apply repeat_spec in Hc. subst c.
    repeat split; discriminate. }
  assert (Hy : ordinary "y"%char) by (repeat split; discriminate).
  destruct (overflow_discards_stored_bytes (repeat "x"%char 511) booted
              Hempty (repeat_length _ 511) Hord) as [Hover _].
  exact (proj1 (Hover "y"%char [] Hy)).
Defined.

(** ** What dispatching a line changes *)

Lemma get_formatted_timestamp_frame :
  forall w,
    os (snd (get_formatted_timestamp w)) = os w
    /\ g_cmd_processor (snd (get_formatted_timestamp w)) = g_cmd_processor w
    /\ g_csi_config (snd (get_formatted_timestamp w)) = g_csi_config w
    /\ console (snd (get_formatted_timestamp w)) = console w.
Proof.
  intros w. unfold get_formatted_timestamp, gettimeofday, malloc.
  destruct (negb (gettimeofday_rc (os w) =? 0));
    destruct (malloc_ok (os w) (heap_next w) _); world_simpl; repeat split.
Qed.

Lemma display_system_status_frame :
  forall w,
    os (display_system_status w) = os w
    /\ g_cmd_processor (display_system_status w) = g_cmd_processor w.
Proof.
  intros w. unfold display_system_status.
  set (w1 := printf _ (printf _ (printf _ w))).
  destruct (get_formatted_timestamp_frame w1) as (Hos & Hcp & _ & _).
  destruct (get_formatted_timestamp w1) as [[p|] w2]; world_simpl_in Hos;
    world_simpl_in Hcp; world_simpl; rewrite ?Hos, ?Hcp; split; reflexivity.
Qed.

(** Dispatching keeps the platform and the line buffer, and counts the
    command when it was handled. *)
Lemma execute_classified_command_effects :
  forall text cmd_type w,
    let r := execute_classified_command text cmd_type w in
    os (snd r) = os w
    /\ g_cmd_processor (snd r)
       = if fst r
         then set_commands_processed
                (to_int (commands_processed (g_cmd_processor w) + 1)) (g_cmd_processor w)
         else g_cmd_processor w.
Proof.
  intros text cmd_type w r. subst r. unfold execute_classified_command.
  destruct cmd_type.
  - world_simpl. split; reflexivity.
  - rewrite synchronize_system_time_fields.
    destruct (timestamp_fields text); [|world_simpl; split; reflexivity].
    cbv zeta. world_simpl.
    destruct (settimeofday_rc (os w) _ =? 0); world_simpl; split; reflexivity.
  - world_simpl. split; reflexivity.
  - destruct (display_system_status_frame w) as [Hos Hcp].
    world_simpl. rewrite Hos, Hcp. split; reflexivity.
  - unfold display_help_information. world_simpl. split; reflexivity.
Qed.

Lemma execute_handled :
  forall text cmd_type w,
    fst (execute_classified_command text cmd_type w) =
      match cmd_type with
      | CMD_TYPE_UNKNOWN => false
      | CMD_TYPE_TIME_SYNC => fst (synchronize_system_time (Some text)
                                     (printf (lit "Processing time synchronization: "
                                              ++ text ++ newline) w))
      | _ => true
      end.
Proof.
  intros text cmd_type w. unfold execute_classified_command.
  destruct cmd_type; try reflexivity.
  now destruct (synchronize_system_time _ _) as [[|] w1].
Qed.

Lemma process_stored_line :
  forall line w,
    console_line line -> line <> [] ->
    process_received_command (load_line line w)
    = snd (execute_classified_command line (classify_command (Some line))
                                      (load_line line w)).
Proof.
  intros line w Hline Hne. unfold process_received_command.
  pose proof (holds_line_load line w Hline) as Hholds. unfold holds_line in Hholds.
  rewrite Hholds.
  destruct line as [|c line]; [contradiction|]. reflexivity.
Qed.

Lemma reset_buffer_keeps :
  forall w,
    os (reset_buffer w) = os w
    /\ commands_processed (g_cmd_processor (reset_buffer w))
       = commands_processed (g_cmd_processor w)
    /\ console (reset_buffer w) = console w.
Proof. intros w. repeat split. Qed.

(** A stored line that is handled counts as one command; one that is
    not leaves the counter. *)
Lemma process_stored_line_counts :
  forall line w,
    console_line line -> line <> [] ->
    let handled :=
      fst (execute_classified_command line (classify_command (Some line))
                                      (load_line line w)) in
    let w' := reset_buffer (process_received_command (load_line line w)) in
    os w' = os w
    /\ buffer_empty w'
    /\ commands_processed (g_cmd_processor w')
       = if handled then to_int (commands_processed (g_cmd_processor w) + 1)
         else commands_processed (g_cmd_processor w).
Proof.
  intros line w Hline Hne handled w'. subst w'.
  rewrite process_stored_line by assumption.
  destruct (execute_classified_command_effects
              line (classify_command (Some line)) (load_line line w)) as [Hos Hcp].
  cbv zeta in Hos, Hcp. subst handled.
  set (r := execute_classified_command _ _ _) in *. clearbody r.
  destruct (reset_buffer_keeps (snd r)) as (Hos' & Hcp' & _).
  split; [|split].
  - rewrite Hos'. exact Hos.
  - apply reset_buffer_empty.
  - rewrite Hcp', Hcp. destruct (fst r); reflexivity.
Qed.

(** ** Command words *)

Lemma tolower_cases :
  forall c x,
    tolower c = x ->
    c = x \/ (c = upper_of x /\ Ascii.eqb (tolower (upper_of x)) x = true).
Proof.
  intros c x <-.
  destruct c as [[] [] [] [] [] [] [] []];
    ((left; reflexivity) || (right; split; reflexivity)).
Qed.

Lemma spelling_in_variants :
  forall word, In word (case_variants (map tolower word)).
Proof.
  induction word as [|c word IH]; cbn [map case_variants]; [left; reflexivity|].
  apply in_flat_map. exists word. split; [exact IH|].
  destruct (tolower_cases c (tolower c) eq_refl) as [Hc | [Hc Hup]].
  - rewrite <- Hc. destruct (Ascii.eqb _ c); left; reflexivity.
  - rewrite Hup. right. left. now rewrite <- Hc.
Qed.

Lemma command_spellings_handled : forallb is_handled_word command_spellings = true.
Proof. vm_compute. reflexivity. Qed.

Lemma command_word_handled :
  forall word, In (map tolower word) command_words -> is_handled_word word = true.
Proof.
  intros word Hin.
  pose proof command_spellings_handled as Hall. rewrite forallb_forall in Hall.
  apply Hall. unfold command_spellings. apply in_flat_map.
  exists (map tolower word). split; [exact Hin | apply spelling_in_variants].
Qed.

Lemma trimmedb_trimmed : forall s, trimmedb s = true -> trimmed s.
Proof.
  intros [|x s] H; [discriminate|]. unfold trimmedb in H. unfold trimmed.
  apply andb_true_iff in H. destruct H as [Hx Hz].
  split; now apply negb_true_iff.
Qed.

Lemma trimmed_not_nil : forall s, trimmed s -> s <> [].
Proof. intros [|x s] H; [contradiction | discriminate]. Qed.

(** Classification looks at the trimmed line only. *)
Lemma classify_trimmed_line :
  forall lead body trail,
    blank lead -> blank trail -> trimmed body ->
    (List.length (lead ++ body ++ trail) <= 511)%nat ->
    classify_command (Some (lead ++ body ++ trail)) = classify_command (Some body).
Proof.
  intros lead body trail Hlead Htrail Hbody Hlen.
  assert (Hlen' : (List.length body <= 511)%nat)
    by (rewrite !length_app in Hlen; lia).
  unfold classify_command. rewrite !strncpy_short by assumption.
  rewrite trim_whitespace_spec by assumption.
  pose proof (trim_whitespace_spec [] body [] (Forall_nil _) (Forall_nil _) Hbody) as Hself.
  cbn [app] in Hself. rewrite app_nil_r in Hself. now rewrite Hself.
Qed.

Lemma numeric_handled :
  forall line w,
    numeric line = true ->
    (forall t, settimeofday_rc (os w) t = 0) ->
    fst (synchronize_system_time (Some line) w) = true.
Proof.
  intros line w Hnum Hrc. rewrite synchronize_system_time_fields.
  pose proof (timestamp_fields_numeric line) as Hf. rewrite Hnum in Hf.
  destruct (timestamp_fields line) as [f|]; [|discriminate].
  cbv zeta. now rewrite Hrc.
Qed.

Lemma strip_prefix_app : forall p s, strip_prefix p (p ++ s) = Some s.
Proof.
  induction p as [|c p IH]; intros s; cbn; [reflexivity|].
  now rewrite Ascii.eqb_refl.
Qed.

Lemma trimmed_after :
  forall pre body,
    match pre with [] => True | x :: _ => isspace x = false end ->
    trimmed body -> trimmed (pre ++ body).
Proof.
  intros pre body Hpre Hbody.
  destruct body as [|y body]; [contradiction|]. destruct Hbody as [Hy Hz].
  destruct (exists_last (l := y :: body)) as (init & z & Hsplit); [discriminate|].
  rewrite Hsplit in Hz |- *. rewrite last_last in Hz.
  destruct pre as [|x pre].
  - cbn [app]. rewrite <- Hsplit. split; [exact Hy|]. rewrite Hsplit, last_last. exact Hz.
  - cbn [app]. split; [exact Hpre|].
    change (x :: pre ++ init ++ [z]) with ((x :: pre) ++ init ++ [z]).
    rewrite app_assoc, last_last. exact Hz.
Qed.

Lemma unknown_not_handled :
  forall line w,
    classify_command (Some line) = CMD_TYPE_UNKNOWN ->
    let r := execute_classified_command line (classify_command (Some line)) w in
    fst r = false
    /\ console (snd r) = console w ++ unknown_diagnostic line
    /\ g_cmd_processor (snd r) = g_cmd_processor w.
Proof.
  intros line w Hcls r. subst r. rewrite Hcls.
  unfold execute_classified_command. world_simpl.
  rewrite <- app_assoc. repeat split.
Qed.

Lemma blank_firstn : forall n s, blank s -> blank (firstn n s).
Proof.
  unfold blank. intros n s H. revert n.
  induction H as [|c s Hc Hs IH]; intros [|n]; cbn [firstn]; constructor; auto.
Qed.

(** ** Command lines, well-formed and unknown *)

Lemma char_code_differ :
  forall x y, x <> y -> (char_code x - char_code y =? 0) = false.
Proof.
  intros x y Hne. apply Z.eqb_neq. intros H. apply Hne, char_code_inj. lia.
Qed.

Lemma strncmp_csi :
  forall s,
    (strncmp s (lit "CSI_") 4 =? 0)
    = match strip_prefix (lit "CSI_") s with Some _ => true | None => false end.
Proof.
  intros s. change (lit "CSI_") with ["C"; "S"; "I"; "_"]%char.
  destruct s as [|x1 s]; [reflexivity|]. cbn [strncmp strip_prefix].
  destruct (Ascii.eqb_spec x1 "C") as [->|H1]; [|now apply char_code_differ].
  destruct s as [|x2 s]; [reflexivity|]. cbn [strncmp strip_prefix].
  destruct (Ascii.eqb_spec x2 "S") as [->|H2]; [|now apply char_code_differ].
  destruct s as [|x3 s]; [reflexivity|]. cbn [strncmp strip_prefix].
  destruct (Ascii.eqb_spec x3 "I") as [->|H3]; [|now apply char_code_differ].
  destruct s as [|x4 s]; [reflexivity|]. cbn [strncmp strip_prefix].
  destruct (Ascii.eqb_spec x4 "_") as [->|H4]; [|now apply char_code_differ].
  now destruct s.
Qed.

Lemma tolower_not_nul : forall c, c <> NUL -> tolower c <> NUL.
Proof.
  intros c Hc H. apply Hc. clear Hc.
  destruct c as [[] [] [] [] [] [] [] []]; try discriminate H; reflexivity.
Qed.

Lemma char_code_nul : forall c, c <> NUL -> (char_code c =? 0) = false.
Proof.
  intros c Hc. apply Z.eqb_neq. intros H. apply Hc, char_code_inj. exact H.
Qed.

(** [strcasecmp] answers 0 only for texts that agree up to letter
    case. *)
Lemma strcasecmp_zero :
  forall a b,
    printable a -> printable b ->
    (strcasecmp a b =? 0) = true -> map tolower a = map tolower b.
Proof.
  induction a as [|x a IH]; intros [|y b] Ha Hb H; cbn [strcasecmp map] in *.
  - reflexivity.
  - exfalso. inversion Hb as [|? ? Hy _]; subst.
    pose proof (char_code_nul _ (tolower_not_nul y Hy)) as Hn.
    apply Z.eqb_eq in H. apply Z.eqb_neq in Hn. lia.
  - exfalso. inversion Ha as [|? ? Hx _]; subst.
    pose proof (char_code_nul _ (tolower_not_nul x Hx)) as Hn. congruence.
  - inversion Ha as [|? ? Hx Ha']; inversion Hb as [|? ? Hy Hb']; subst.
    destruct (Ascii.eqb_spec (tolower x) (tolower y)) as [He|Hne].
    + rewrite He. f_equal. now apply IH.
    + rewrite char_code_differ in H by exact Hne. discriminate.
Qed.

Lemma classify_blank :
  forall line, blank line -> classify_command (Some line) = CMD_TYPE_UNKNOWN.
Proof.
  intros line Hblank. unfold classify_command, strncpy.
  rewrite (trim_whitespace_blank _ (blank_firstn _ _ Hblank)). reflexivity.
Qed.

(** The classifier on a text that is no time stamp, has no [CSI_] at its
    head and is no command word. *)
Lemma classify_unknown_text :
  forall body,
    trimmed body -> (List.length body <= 511)%nat -> printable body ->
    numeric body = false ->
    strip_prefix (lit "CSI_") body = None ->
    ~ In (map tolower body) command_words ->
    classify_command (Some body) = CMD_TYPE_UNKNOWN.
Proof.
  intros body Htr Hlen Hp Hnum Hcsi Hword.
  unfold classify_command. rewrite strncpy_short by exact Hlen.
  pose proof (trim_whitespace_spec [] body [] (Forall_nil _) (Forall_nil _) Htr) as Hself.
  cbn [app] in Hself. rewrite app_nil_r in Hself. rewrite Hself.
  rewrite validate_numeric, Hnum, strncmp_csi, Hcsi.
  assert (Hno : forall word,
             In word command_words -> (strcasecmp body word =? 0) = false).
  { intros word Hin. destruct (strcasecmp body word =? 0) eqn:He; [|reflexivity].
    exfalso. apply Hword.
    assert (Hpw : printable word).
    { destruct Hin as [<-|[<-|[<-|[<-|[]]]]]; repeat constructor; discriminate. }
    rewrite (strcasecmp_zero body word Hp Hpw He).
    destruct Hin as [<-|[<-|[<-|[<-|[]]]]]; cbn; tauto. }
  rewrite !Hno by (cbn; tauto). reflexivity.
Qed.

Lemma printable_app_inv :
  forall a b, printable (a ++ b) -> printable a /\ printable b.
Proof. intros a b H. unfold printable in *. now apply Forall_app. Qed.

(** An unknown command is classified as unknown. *)
Lemma unknown_command_classified :
  forall line,
    (List.length line <= 511)%nat -> printable line -> unknown_command line ->
    classify_command (Some line) = CMD_TYPE_UNKNOWN.
Proof.
  intros line Hlen Hp Hunk.
  destruct Hunk as [lead body trail Hlead Htrail Hbody Hnum Hcsi Hword].
  destruct Hbody as [ -> | Htr].
  - apply classify_blank. cbn [app]. unfold blank in *. now apply Forall_app.
  - rewrite classify_trimmed_line by assumption.
    destruct (printable_app_inv _ _ Hp) as [_ Hp']. destruct (printable_app_inv _ _ Hp').
    apply classify_unknown_text; try assumption.
    rewrite !length_app in Hlen. lia.
Qed.

Lemma clash_strip_prefix :
  forall p s t, clash p s = true -> strip_prefix p (s ++ t) = None.
Proof.
  induction p as [|c p IH]; intros [|x s] t H; cbn [clash] in H; try discriminate.
  cbn [app strip_prefix]. destruct (Ascii.eqb x c); [now apply IH | reflexivity].
Qed.

Lemma command_spellings_clash :
  forallb (clash (lit "SYNC_TIME:")) command_spellings = true.
Proof. vm_compute. reflexivity. Qed.

Lemma tag_behind_space_lead :
  forall lead x s,
    blank lead -> isspace x = false ->
    strip_prefix (lit "SYNC_TIME:") (x :: s) = None ->
    tag_behind_space (lead ++ x :: s) = false.
Proof.
  intros lead x s Hlead Hx Hnone. unfold tag_behind_space.
  destruct lead as [|c lead]; cbn [app].
  - rewrite Hx. reflexivity.
  - change (c :: lead ++ x :: s) with ((c :: lead) ++ x :: s).
    rewrite skip_ws_lead by assumption. rewrite Hnone. apply andb_false_r.
Qed.

(** Only a tagged time stamp has the tag behind white space. *)
Lemma well_formed_tag_behind_space :
  forall line,
    well_formed line -> tag_behind_space line = true ->
    exists lead gap sgn ds rest trail,
      line = lead ++ lit "SYNC_TIME:" ++ gap ++ (sgn ++ ds ++ rest) ++ trail
      /\ lead <> [] /\ blank lead /\ blank gap /\ blank trail
      /\ is_sign sgn /\ is_numeral ds /\ trimmed (sgn ++ ds ++ rest).
Proof.
  intros line Hwf Htag.
  destruct Hwf as [lead word trail Hlead Htrail Hword
                  | lead sgn ds rest trail Hlead Htrail Hsgn Hds Hbody
                  | lead gap sgn ds rest trail Hlead Hgap Htrail Hsgn Hds Hbody].
  - exfalso.
    pose proof (command_word_handled word Hword) as Hh. unfold is_handled_word in Hh.
    apply andb_true_iff in Hh. destruct Hh as [Htr _]. apply trimmedb_trimmed in Htr.
    assert (Hin : In word command_spellings).
    { unfold command_spellings. apply in_flat_map.
      exists (map tolower word). split; [exact Hword | apply spelling_in_variants]. }
    pose proof command_spellings_clash as Hall. rewrite forallb_forall in Hall.
    specialize (Hall word Hin).
    destruct word as [|x word]; [contradiction|]. destruct Htr as [Hx _].
    cbn [app] in Htag. rewrite tag_behind_space_lead in Htag; try assumption;
      [discriminate|].
    change (x :: word ++ trail) with ((x :: word) ++ trail).
    now apply clash_strip_prefix.
  - exfalso.
    destruct (sgn ++ ds ++ rest) as [|x body] eqn:Hb; [contradiction|].
    destruct Hbody as [Hx _].
    cbn [app] in Htag. rewrite tag_behind_space_lead in Htag; try assumption;
      [discriminate|].
    cbn [strip_prefix lit list_ascii_of_string].
    assert (Hns : Ascii.eqb x "S" = false).
    { destruct Hds as [Hne Hdig].
      destruct Hsgn as [ -> | [ -> | -> ] ]; cbn [app] in Hb.
      - destruct ds as [|d ds]; [contradiction|]. injection Hb as <- _.
        inversion Hdig; subst. now apply digit_not_char.
      - injection Hb as <- _. reflexivity.
      - injection Hb as <- _. reflexivity. }
    now rewrite Hns.
  - destruct lead as [|c lead].
    + discriminate Htag.
    + exists (c :: lead), gap, sgn, ds, rest, trail.
      split; [reflexivity|]. split; [discriminate|]. tauto.
Qed.

(** A tagged time stamp behind white space is classified as a time-sync
    command, and the line as typed does not parse. *)
Lemma padded_tag_not_parsed :
  forall lead gap sgn ds rest trail,
    lead <> [] -> blank lead -> blank gap -> blank trail ->
    is_sign sgn -> is_numeral ds -> trimmed (sgn ++ ds ++ rest) ->
    let line := lead ++ lit "SYNC_TIME:" ++ gap ++ (sgn ++ ds ++ rest) ++ trail in
    (List.length line <= 511)%nat ->
    classify_command (Some line) = CMD_TYPE_TIME_SYNC
    /\ numeric line = false
    /\ tag_behind_space line = true.
Proof.
  intros lead gap sgn ds rest trail Hne Hlead Hgap Htrail Hsgn Hds Hbody line Hlen.
  set (tag := lit "SYNC_TIME:") in *.
  assert (Htagged : trimmed ((tag ++ gap) ++ sgn ++ ds ++ rest))
    by (apply trimmed_after; [reflexivity | exact Hbody]).
  assert (Hline : line = lead ++ ((tag ++ gap) ++ sgn ++ ds ++ rest) ++ trail)
    by (subst line; now rewrite <- !app_assoc).
  assert (Hskip : skip_ws line = tag ++ gap ++ (sgn ++ ds ++ rest) ++ trail).
  { subst line. change tag with ("S"%char :: lit "YNC_TIME:"). cbn [app].
    now rewrite skip_ws_lead. }
  split; [|split].
  - rewrite Hline in Hlen |- *.
    rewrite (classify_trimmed_line lead _ trail Hlead Htrail Htagged Hlen).
    apply classify_numeric.
    assert (Hlen' : (List.length ((tag ++ gap) ++ sgn ++ ds ++ rest) <= 511)%nat)
      by (rewrite !length_app in *; lia).
    rewrite strncpy_short by exact Hlen'.
    pose proof (trim_whitespace_spec [] _ [] (Forall_nil _) (Forall_nil _) Htagged)
      as Hself.
    cbn [app] in Hself. rewrite app_nil_r in Hself. rewrite Hself.
    unfold numeric. rewrite <- app_assoc. fold tag. rewrite strip_prefix_app.
    rewrite (begins_with_integer_numeral gap sgn ds rest) by assumption.
    apply orb_true_r.
  - unfold numeric, begins_with_integer. rewrite Hskip.
    destruct lead as [|c lead]; [contradiction|].
    inversion Hlead as [|? ? Hc _]; subst.
    subst line. cbn [app strip_prefix tag lit list_ascii_of_string].
    rewrite (space_not_char c "S"%char) by (reflexivity || exact Hc). reflexivity.
  - unfold tag_behind_space. rewrite Hskip.
    destruct lead as [|c lead]; [contradiction|].
    inversion Hlead as [|? ? Hc _]; subst.
    subst line. cbn [app]. rewrite Hc. fold tag. now rewrite strip_prefix_app.
Qed.

(** A literal is a console line. *)
Ltac literal_console_line :=
  split; [cbn [List.length lit list_ascii_of_string]; lia|];
  split; [repeat constructor; vm_compute; discriminate
         | repeat constructor; discriminate].

(** A well-formed line is handled, unless it is a tagged time stamp
    behind white space. *)
Lemma well_formed_handled :
  forall line w,
    well_formed line -> console_line line ->
    (forall t, settimeofday_rc (os w) t = 0) ->
    line <> []
    /\ fst (execute_classified_command line (classify_command (Some line))
                                       (load_line line w))
       = negb (tag_behind_space line).
Proof.
  intros line w Hwf (Hlen & _ & _) Hrc.
  rewrite execute_handled.
  destruct (tag_behind_space line) eqn:Htag; cbn [negb].
  { destruct (well_formed_tag_behind_space line Hwf Htag)
      as (lead & gap & sgn & ds & rest & trail & -> & Hne & Hlead & Hgap & Htrail
          & Hsgn & Hds & Hbody).
    destruct (padded_tag_not_parsed lead gap sgn ds rest trail Hne Hlead Hgap Htrail
                Hsgn Hds Hbody Hlen) as (Hcls & Hnum & _).
    split; [destruct lead; [contradiction | discriminate]|].
    rewrite Hcls. now rewrite synchronize_not_numeric. }
  destruct Hwf as [lead word trail Hlead Htrail Hword
                  | lead sgn ds rest trail Hlead Htrail Hsgn Hds Hbody
                  | lead gap sgn ds rest trail Hlead Hgap Htrail Hsgn Hds Hbody].
  - pose proof (command_word_handled word Hword) as Hh. unfold is_handled_word in Hh.
    apply andb_true_iff in Hh. destruct Hh as [Htr Hcls].
    apply trimmedb_trimmed in Htr.
    split.
    { pose proof (trimmed_not_nil _ Htr). destruct lead, word; try discriminate;
        contradiction. }
    rewrite classify_trimmed_line by assumption.
    destruct (classify_command (Some word)); try discriminate; reflexivity.
  - split.
    { pose proof (trimmed_not_nil _ Hbody). destruct lead, (sgn ++ ds ++ rest);
        try discriminate; contradiction. }
    rewrite classify_trimmed_line by assumption.
    rewrite classify_numeric.
    + apply numeric_handled; [|exact Hrc].
      unfold numeric.
      replace (lead ++ (sgn ++ ds ++ rest) ++ trail)
        with (lead ++ sgn ++ ds ++ (rest ++ trail)) by (now rewrite <- !app_assoc).
      now rewrite begins_with_integer_numeral.
    + assert (Hlen' : (List.length (sgn ++ ds ++ rest) <= 511)%nat).
      { rewrite length_app in Hlen. rewrite (length_app (sgn ++ ds ++ rest)) in Hlen. lia. }
      rewrite strncpy_short by exact Hlen'.
      pose proof (trim_whitespace_spec [] _ [] (Forall_nil _) (Forall_nil _) Hbody) as Hself.
      cbn [app] in Hself. rewrite app_nil_r in Hself. rewrite Hself.
      unfold numeric.
      pose proof (begins_with_integer_numeral [] sgn ds rest (Forall_nil _) Hsgn Hds) as Hb.
      cbn [app] in Hb. now rewrite Hb.
  - destruct lead as [|c lead].
    2:{ exfalso.
        assert (Hne : c :: lead <> []) by discriminate.
        destruct (padded_tag_not_parsed (c :: lead) gap sgn ds rest trail Hne Hlead Hgap
                    Htrail Hsgn Hds Hbody Hlen) as (_ & _ & Ht).
        cbv zeta in Ht. congruence. }
    cbn [app] in *. split; [discriminate|].
    set (tag := lit "SYNC_TIME:") in *.
    assert (Htagged : trimmed ((tag ++ gap) ++ sgn ++ ds ++ rest))
      by (apply trimmed_after; [reflexivity | exact Hbody]).
    assert (Hline : tag ++ gap ++ (sgn ++ ds ++ rest) ++ trail
                    = [] ++ ((tag ++ gap) ++ sgn ++ ds ++ rest) ++ trail)
      by (cbn [app]; now rewrite <- !app_assoc).
    assert (Hnum : forall tail,
               numeric (tag ++ gap ++ sgn ++ ds ++ rest ++ tail) = true).
    { intros tail. unfold numeric. fold tag. rewrite strip_prefix_app.
      rewrite (begins_with_integer_numeral gap sgn ds (rest ++ tail)) by assumption.
      apply orb_true_r. }
    rewrite Hline in Hlen |- *.
    rewrite (classify_trimmed_line [] _ trail (Forall_nil _) Htrail Htagged Hlen).
    rewrite classify_numeric.
    + apply numeric_handled; [|exact Hrc].
      rewrite <- Hline.
      replace (tag ++ gap ++ (sgn ++ ds ++ rest) ++ trail)
        with (tag ++ gap ++ sgn ++ ds ++ rest ++ trail) by (now rewrite <- !app_assoc).
      apply Hnum.
    + assert (Hlen' : (List.length ((tag ++ gap) ++ sgn ++ ds ++ rest) <= 511)%nat).
      { cbn [app] in Hlen. rewrite (length_app ((tag ++ gap) ++ sgn ++ ds ++ rest)) in Hlen.
        lia. }
      rewrite strncpy_short by exact Hlen'.
      pose proof (trim_whitespace_spec [] _ [] (Forall_nil _) (Forall_nil _) Htagged)
        as Hself.
      cbn [app] in Hself. rewrite app_nil_r in Hself. rewrite Hself.
      replace ((tag ++ gap) ++ sgn ++ ds ++ rest)
        with (tag ++ gap ++ sgn ++ ds ++ rest ++ []) by (now rewrite <- !app_assoc, app_nil_r).
      apply Hnum.
Qed.

Lemma count_well_formed_cons :
  forall k line cmds,
    count_well_formed ((k, line) :: cmds)
    = (match k with WellFormed => 1 | Unknown => 0 end) + count_well_formed cmds.
Proof.
  intros k line cmds. unfold count_well_formed. cbn [filter fst].
  destruct k; cbn [List.length]; lia.
Qed.

Lemma count_tag_behind_space_cons :
  forall k line cmds,
    count_tag_behind_space ((k, line) :: cmds)
    = (match k with
       | WellFormed => if tag_behind_space line then 1 else 0
       | Unknown => 0
       end) + count_tag_behind_space cmds.
Proof.
  intros k line cmds. unfold count_tag_behind_space. cbn [filter fst snd].
  destruct k; [destruct (tag_behind_space line)|]; cbn [List.length]; lia.
Qed.

Lemma count_tag_behind_space_bounds :
  forall cmds, 0 <= count_tag_behind_space cmds <= count_well_formed cmds.
Proof.
  induction cmds as [|[k line] cmds IH].
  - unfold count_tag_behind_space, count_well_formed. cbn. lia.
  - rewrite count_tag_behind_space_cons, count_well_formed_cons.
    destruct k; [destruct (tag_behind_space line)|]; lia.
Qed.

Lemma console_line_printable : forall line, console_line line -> printable line.
Proof. intros line (_ & _ & H). exact H. Qed.

(** The counter over a stream of well-formed and unknown lines. *)
Lemma scan_commands_count :
  forall cmds w,
    buffer_empty w ->
    (forall t, settimeofday_rc (os w) t = 0) ->
    Forall (fun c => line_of_kind (fst c) (snd c)) cmds ->
    -2147483648 <= commands_processed (g_cmd_processor w) ->
    commands_processed (g_cmd_processor w) + count_well_formed cmds <= 2147483647 ->
    commands_processed
      (g_cmd_processor (fst (scan_for_input_data (console_stream cmds) w)))
    = commands_processed (g_cmd_processor w) + count_well_formed cmds
      - count_tag_behind_space cmds.
Proof.
  induction cmds as [|[k line] cmds IH]; intros w Hempty Hrc Hall Hlo Hhi.
  - cbn. unfold count_well_formed, count_tag_behind_space. cbn. lia.
  - inversion Hall as [|c cs (Hline & Hne & Hkind) Hrest]; subst.
    cbn [fst snd] in Hline, Hne, Hkind.
    rewrite count_well_formed_cons in Hhi |- *. rewrite count_tag_behind_space_cons.
    pose proof (count_tag_behind_space_bounds cmds) as Hnn.
    unfold console_stream. cbn [map concat snd]. fold (console_stream cmds).
    rewrite <- app_assoc. cbn [app].
    rewrite scan_line by (assumption || (left; reflexivity)).
    destruct (process_stored_line_counts line w Hline Hne) as (Hos & Hempty' & Hcount).
    set (w2 := reset_buffer (process_received_command (load_line line w))) in *.
    assert (Hrc2 : forall t, settimeofday_rc (os w2) t = 0)
      by (intros t; rewrite Hos; apply Hrc).
    destruct k.
    + destruct (well_formed_handled line w Hkind Hline Hrc) as [_ Hh].
      rewrite Hh in Hcount.
      destruct (tag_behind_space line); cbn [negb] in Hcount.
      * rewrite IH; try assumption; lia.
      * rewrite to_int_small in Hcount by lia.
        rewrite IH; try assumption; lia.
    + pose proof (unknown_command_classified line (proj1 Hline)
                    (console_line_printable line Hline) Hkind) as Hcls.
      destruct (unknown_not_handled line (load_line line w) Hcls) as (Hh & _ & _).
      rewrite Hh in Hcount.
      rewrite IH; try assumption; lia.
Qed.

(** C3. The counter of handled commands over a stream of N well-formed
    status, help and time-sync lines in any order with M unknown lines,
    typed on a console with an empty line buffer while [settimeofday]
    accepts: it rises by N less the number of tagged time stamps behind
    leading white space (as long as it fits an [int]).  Such a line is
    classified as a time-sync command on its trimmed text, but the
    dispatcher parses the line as typed, does not find the tag at its
    head, reports a parse failure and does not count the line.  An
    unknown line gets the two lines of the diagnostic and is not
    counted. *)
Theorem command_counter_skips_tag_behind_space :
  forall cmds w,
    buffer_empty w ->
    (forall t, settimeofday_rc (os w) t = 0) ->
    Forall (fun c => line_of_kind (fst c) (snd c)) cmds ->
    -2147483648 <= commands_processed (g_cmd_processor w) ->
    commands_processed (g_cmd_processor w) + count_well_formed cmds <= 2147483647 ->
    commands_processed
      (g_cmd_processor (fst (scan_for_input_data (console_stream cmds) w)))
    = commands_processed (g_cmd_processor w) + count_well_formed cmds
      - count_tag_behind_space cmds
    /\ (forall line w0,
          line_of_kind Unknown line ->
          let r := execute_classified_command line (classify_command (Some line)) w0 in
          fst r = false
          /\ console (snd r) = console w0 ++ unknown_diagnostic line
          /\ commands_processed (g_cmd_processor (snd r))
             = commands_processed (g_cmd_processor w0))
    /\ (forall line w0,
          line_of_kind WellFormed line -> tag_behind_space line = true ->
          let r := execute_classified_command line (classify_command (Some line)) w0 in
          classify_command (Some line) = CMD_TYPE_TIME_SYNC
          /\ fst r = false
          /\ console (snd r) = console w0 ++ parse_failure_report line
          /\ sys_clock (snd r) = sys_clock w0
          /\ commands_processed (g_cmd_processor (snd r))
             = commands_processed (g_cmd_processor w0)).
Proof.
  intros cmds w Hempty Hrc Hall Hlo Hhi. split; [|split].
  - now apply scan_commands_count.
  - intros line w0 (Hline & _ & Hunk) r.
    pose proof (unknown_command_classified line (proj1 Hline)
                  (console_line_printable line Hline) Hunk) as Hcls.
    destruct (unknown_not_handled line w0 Hcls) as (Hh & Hcon & Hcp).
    fold r in Hh, Hcon, Hcp. rewrite Hcp. repeat split; assumption.
  - intros line w0 (Hline & _ & Hwf) Htag r.
    destruct (well_formed_tag_behind_space line Hwf Htag)
      as (lead & gap & sgn & ds & rest & trail & Heq & Hne & Hlead & Hgap & Htrail
          & Hsgn & Hds & Hbody).
    destruct Hline as (Hlen & _ & _).
    assert (H : classify_command (Some line) = CMD_TYPE_TIME_SYNC /\ numeric line = false).
    { rewrite Heq in Hlen |- *.
      destruct (padded_tag_not_parsed lead gap sgn ds rest trail Hne Hlead Hgap Htrail
                  Hsgn Hds Hbody Hlen) as (Hcls & Hnum & _).
      split; assumption. }
    destruct H as [Hcls Hnum]. subst r. rewrite Hcls.
    split; [reflexivity|].
    unfold execute_classified_command, parse_failure_report.
    rewrite synchronize_not_numeric by exact Hnum.
    world_simpl. rewrite <- app_assoc. repeat split.
Qed.

Lemma command_counter_skips_tag_behind_space_witness :
  let cmds := [ (WellFormed, lit "status"); (Unknown, lit "reboot");
                (WellFormed, lit "SYNC_TIME: 100.500000"); (Unknown, lit "helpme");
                (WellFormed, lit " SYNC_TIME: 100.500000");
                (WellFormed, lit " 100.500000"); (WellFormed, lit " HELP ") ] in
  commands_processed (g_cmd_processor (fst (scan_for_input_data (console_stream cmds) booted)))
  = commands_processed (g_cmd_processor booted) + 5 - 1.
Proof.
  intros cmds.
  assert (Hempty : buffer_empty booted) by (split; vm_compute; reflexivity).
  assert (Hrc : forall t, settimeofday_rc (os booted) t = 0)
    by (intros t; vm_compute; reflexivity).
  assert (H100 : is_numeral (lit "100")) by (split; [discriminate | repeat constructor]).
  assert (Hall : Forall (fun c => line_of_kind (fst c) (snd c)) cmds).
  { repeat constructor; cbn [fst snd]; try literal_console_line; try discriminate.
    - exact (wf_word [] (lit "status") [] (Forall_nil _) (Forall_nil _)
               (or_intror (or_intror (or_introl eq_refl)))).
    - refine (unknown_text [] (lit "reboot") [] (Forall_nil _) (Forall_nil _)
                (or_intror _) eq_refl eq_refl _); [split; reflexivity|].
      cbn. intuition discriminate.
    - refine (wf_tagged_time [] (lit " ") [] (lit "100") (lit ".500000") []
                (Forall_nil _) _ (Forall_nil _) (or_introl eq_refl) H100 _).
      + repeat constructor.
      + split; reflexivity.
    - refine (unknown_text [] (lit "helpme") [] (Forall_nil _) (Forall_nil _)
                (or_intror _) eq_refl eq_refl _); [split; reflexivity|].
      cbn. intuition discriminate.
    - refine (wf_tagged_time (lit " ") (lit " ") [] (lit "100") (lit ".500000") []
                _ _ (Forall_nil _) (or_introl eq_refl) H100 _).
      + repeat constructor.
      + repeat constructor.
      + split; reflexivity.
    - refine (wf_time (lit " ") [] (lit "100") (lit ".500000") []
                _ (Forall_nil _) (or_introl eq_refl) H100 _).
      + repeat constructor.
      + split; reflexivity.
    - refine (wf_word (lit " ") (lit "HELP") (lit " ") _ _ (or_introl eq_refl));
        repeat constructor. }
  assert (Hlo : -2147483648 <= commands_processed (g_cmd_processor booted))
    by (vm_compute; discriminate).
  assert (Hhi : commands_processed (g_cmd_processor booted) + count_well_formed cmds
                <= 2147483647) by (vm_compute; discriminate).
  exact (proj1 (command_counter_skips_tag_behind_space cmds booted Hempty Hrc Hall Hlo Hhi)).
Defined.

Lemma integer_line_is_time_sync_witness :
  classify_command (Some (lit "123abc")) = CMD_TYPE_TIME_SYNC
  /\ sys_clock (process_received_command (typed (lit "123abc")))
     = {| tv_sec := 123; tv_usec := 0 |}
  /\ classify_command (Some (lit "  42 ")) = CMD_TYPE_TIME_SYNC
  /\ sys_clock (process_received_command (typed (lit "  42 ")))
     = {| tv_sec := 42; tv_usec := 0 |}.
Proof.
  assert (H123 : is_numeral (lit "123")) by (split; [discriminate | repeat constructor]).
  assert (H42 : is_numeral (lit "42")) by (split; [discriminate | repeat constructor]).
  assert (Hlen1 : (List.length (lit "123abc") <= 511)%nat) by (cbn; lia).
  assert (Hlen2 : (List.length (lit "  42 ") <= 511)%nat) by (cbn; lia).
  assert (Hr1 : type_min 64 <= signed_value [] (lit "123") <= type_max 64)
    by (vm_compute; split; discriminate).
  assert (Hr2 : type_min 64 <= signed_value [] (lit "42") <= type_max 64)
    by (vm_compute; split; discriminate).
  assert (Hno1 : no_microseconds (lit "abc")) by (intros H; discriminate H).
  assert (Hrc1 : settimeofday_rc (os (typed (lit "123abc")))
                   {| tv_sec := signed_value [] (lit "123"); tv_usec := 0 |} = 0)
    by (vm_compute; reflexivity).
  assert (Hrc2 : settimeofday_rc (os (typed (lit "  42 ")))
                   {| tv_sec := signed_value [] (lit "42"); tv_usec := 0 |} = 0)
    by (vm_compute; reflexivity).
  assert (Hh1 : holds_line (lit "123abc") (typed (lit "123abc")))
    by (vm_compute; reflexivity).
  assert (Hh2 : holds_line (lit "  42 ") (typed (lit "  42 ")))
    by (vm_compute; reflexivity).
  destruct (integer_line_is_time_sync (lit "123abc") [] (lit "123") (lit "abc")
              Hlen1 eq_refl (or_introl eq_refl) H123 eq_refl) as [Hc1 Hd1].
  destruct (integer_line_is_time_sync (lit "  42 ") [] (lit "42") []
              Hlen2 eq_refl (or_introl eq_refl) H42 I) as [Hc2 Hd2].
  destruct (Hd1 _ Hh1 Hno1 Hr1 Hrc1) as (Hclock1 & _).
  destruct (Hd2 _ Hh2 I Hr2 Hrc2) as (Hclock2 & _).
  split; [exact Hc1 | split; [exact Hclock1 | split; [exact Hc2 | exact Hclock2]]].
Defined.

(** ** Lengths and characters of formatted numbers *)

Lemma char_code_char_of : forall z, char_code (char_of z) = z mod 256.
Proof.
  intros z. unfold char_code, char_of.
  pose proof (Z.mod_pos_bound z 256 ltac:(lia)) as Hb.
  rewrite N_ascii_embedding by lia. lia.
Qed.

Lemma digit_char_not_nul : forall n, digit_char (n mod 10) <> NUL.
Proof.
  intros n H. apply (f_equal char_code) in H. unfold digit_char in H.
  rewrite char_code_char_of in H. change (char_code NUL) with 0 in H.
  pose proof (Z.mod_pos_bound n 10 ltac:(lia)) as Hb.
  rewrite Z.mod_small in H; lia.
Qed.

Lemma digits_of_printable :
  forall fuel n acc, printable acc -> printable (digits_of fuel n acc).
Proof.
  induction fuel as [|fuel IH]; intros n acc Hacc; cbn [digits_of]; [exact Hacc|].
  assert (Hacc' : printable (digit_char (n mod 10) :: acc))
    by (constructor; [apply digit_char_not_nul | exact Hacc]).
  destruct (n / 10 =? 0); [exact Hacc' | now apply IH].
Qed.

Lemma digits_of_length :
  forall fuel n acc k,
    0 <= n < 10 ^ Z.of_nat (S k) ->
    (List.length (digits_of fuel n acc) <= S k + List.length acc)%nat.
Proof.
  induction fuel as [|fuel IH]; intros n acc k Hn; cbn [digits_of]; [lia|].
  destruct (Z.eqb_spec (n / 10) 0) as [Hz|Hnz]; [cbn [List.length]; lia|].
  destruct k as [|k].
  - change (10 ^ Z.of_nat 1) with 10 in Hn.
    exfalso. apply Hnz. apply Z.div_small. lia.
  - specialize (IH (n / 10) (digit_char (n mod 10) :: acc) k).
    cbn [List.length] in IH.
    assert (Hdiv : 0 <= n / 10 < 10 ^ Z.of_nat (S k)).
    { rewrite (Nat2Z.inj_succ (S k)), Z.pow_succ_r in Hn by lia.
      split; [apply Z.div_pos; lia | apply Z.div_lt_upper_bound; lia]. }
    specialize (IH Hdiv). lia.
Qed.

Lemma fmt_u_length :
  forall n k, 0 <= n < 10 ^ Z.of_nat (S k) -> (List.length (fmt_u n) <= S k)%nat.
Proof.
  intros n k Hn. unfold fmt_u.
  pose proof (digits_of_length (S (Z.to_nat (Z.log2 n))) n [] k Hn) as H.
  cbn [List.length] in H. lia.
Qed.

Lemma fmt_u_printable : forall n, printable (fmt_u n).
Proof. intros n. unfold fmt_u. apply digits_of_printable. constructor. Qed.

Lemma wrap_signed_range :
  forall bits x, 0 < bits -> - 2 ^ (bits - 1) <= wrap_signed bits x < 2 ^ (bits - 1).
Proof.
  intros bits x Hbits. unfold wrap_signed.
  assert (Hpow : 2 ^ bits = 2 * 2 ^ (bits - 1)).
  { replace bits with (Z.succ (bits - 1)) at 1 by lia. apply Z.pow_succ_r. lia. }
  pose proof (Z.pow_pos_nonneg 2 (bits - 1) ltac:(lia) ltac:(lia)) as Hpos.
  pose proof (Z.mod_pos_bound (x + 2 ^ (bits - 1)) (2 ^ bits) ltac:(lia)) as Hb.
  lia.
Qed.

Lemma fmt_signed_length :
  forall v k,
    - 10 ^ Z.of_nat (S k) < v < 10 ^ Z.of_nat (S k) ->
    (List.length (fmt_signed v) <= S (S k))%nat.
Proof.
  intros v k Hv. unfold fmt_signed.
  destruct (Z.ltb_spec v 0).
  - cbn [List.length]. pose proof (fmt_u_length (- v) k ltac:(lia)). lia.
  - pose proof (fmt_u_length v k ltac:(lia)). lia.
Qed.

Lemma fmt_signed_printable : forall v, printable (fmt_signed v).
Proof.
  intros v. unfold fmt_signed. destruct (v <? 0).
  - constructor; [discriminate | apply fmt_u_printable].
  - apply fmt_u_printable.
Qed.

Lemma fmt_d_length : forall n, (List.length (fmt_d n) <= 11)%nat.
Proof.
  intros n. unfold fmt_d, to_int.
  pose proof (wrap_signed_range 32 n ltac:(lia)) as Hr.
  change (2 ^ (32 - 1)) with 2147483648 in Hr.
  apply (fmt_signed_length _ 9). change (10 ^ Z.of_nat 10) with 10000000000. lia.
Qed.

Lemma fmt_d_printable : forall n, printable (fmt_d n).
Proof. intros. apply fmt_signed_printable. Qed.

Lemma fmt_lld_length : forall n, (List.length (fmt_lld n) <= 20)%nat.
Proof.
  intros n. unfold fmt_lld, to_long_long.
  pose proof (wrap_signed_range 64 n ltac:(lia)) as Hr.
  change (2 ^ (64 - 1)) with 9223372036854775808 in Hr.
  apply (fmt_signed_length _ 18). change (10 ^ Z.of_nat 19) with 10000000000000000000. lia.
Qed.

Lemma repeat_printable :
  forall c n, c <> NUL -> printable (repeat c n).
Proof. intros c n Hc. induction n; cbn; constructor; assumption. Qed.

Lemma printable_app : forall a b, printable a -> printable b -> printable (a ++ b).
Proof. intros a b Ha Hb. apply Forall_app. split; assumption. Qed.

Lemma fmt_06ld_length : forall n, (List.length (fmt_06ld n) <= 11)%nat.
Proof.
  intros n. unfold fmt_06ld, to_int.
  pose proof (wrap_signed_range 32 n ltac:(lia)) as Hr.
  change (2 ^ (32 - 1)) with 2147483648 in Hr.
  set (v := wrap_signed 32 n) in *.
  pose proof (fmt_u_length (Z.abs v) 9) as Hu.
  change (10 ^ Z.of_nat 10) with 10000000000 in Hu. specialize (Hu ltac:(lia)).
  destruct (v <? 0); cbn [List.length]; rewrite length_app, repeat_length; lia.
Qed.

Lemma fmt_06ld_printable : forall n, printable (fmt_06ld n).
Proof.
  intros n. unfold fmt_06ld. destruct (to_int n <? 0).
  - constructor; [discriminate|].
    apply printable_app; [apply repeat_printable; discriminate | apply fmt_u_printable].
  - apply printable_app; [apply repeat_printable; discriminate | apply fmt_u_printable].
Qed.

Lemma format_readable_timestamp :
  forall sec usec, timestamp_text (Some (format_readable sec usec)).
Proof.
  intros sec usec. unfold timestamp_text, format_readable. split.
  - rewrite !length_app. pose proof (fmt_lld_length sec). pose proof (fmt_06ld_length usec).
    cbn [List.length lit list_ascii_of_string]. lia.
  - apply printable_app; [apply fmt_signed_printable|].
    apply printable_app; [repeat constructor; discriminate | apply fmt_06ld_printable].
Qed.

Lemma fmt_02x_printable : forall upper b, printable (fmt_02x upper b).
Proof. intros [] b; destruct b; repeat constructor; discriminate. Qed.

Lemma fmt_mac_shape :
  forall upper m, List.length (fmt_mac upper m) = 17%nat /\ printable (fmt_mac upper m).
Proof.
  intros upper m. split; [reflexivity|]. unfold fmt_mac.
  repeat (apply printable_app;
          [first [apply fmt_02x_printable | repeat constructor; discriminate]|]).
  apply fmt_02x_printable.
Qed.

Lemma fmt_fields_shape :
  forall values,
    (List.length (fmt_fields values) <= 12 * List.length values)%nat
    /\ printable (fmt_fields values).
Proof.
  induction values as [|v values [IHl IHp]]; cbn [fmt_fields flat_map].
  - split; [cbn; lia | constructor].
  - fold (fmt_fields values). split.
    + rewrite !length_app. pose proof (fmt_d_length v).
      cbn [List.length lit list_ascii_of_string]. lia.
    + apply printable_app; [|exact IHp].
      apply printable_app; [apply fmt_d_printable | repeat constructor; discriminate].
Qed.

(** ** Values *)

(** A mantissa has at most 53 bits. *)
Lemma digits2_pos_bound : forall m, Z.pos m < 2 ^ Z.pos (digits2_pos m).
Proof.
  induction m as [m IH|m IH|]; cbn [digits2_pos];
    rewrite ?Pos2Z.inj_succ, ?Z.pow_succ_r by lia; lia.
Qed.

Lemma mantissa_bound :
  forall s m e, valid_binary (S754_finite s m e) = true -> Z.pos m < 2 ^ 53.
Proof.
  intros s m e H. unfold SpecFloat.valid_binary, bounded in H.
  apply andb_true_iff in H. destruct H as [H _].
  unfold canonical_mantissa, fexp, emin, prec, emax in H. apply Z.eqb_eq in H.
  pose proof (digits2_pos_bound m) as Hm.
  assert (Hd : Z.pos (digits2_pos m) <= 53) by lia.
  eapply Z.lt_le_trans; [exact Hm|]. apply Z.pow_le_mono_r; lia.
Qed.

Lemma round_half_even_bounds :
  forall num den, num / den <= round_half_even num den <= num / den + 1.
Proof.
  intros num den. unfold round_half_even.
  destruct (2 * (num mod den) <? den); [lia|].
  destruct (den <? 2 * (num mod den)); [lia|].
  destruct (Z.even (num / den)); lia.
Qed.

Lemma pad4_length : forall n, 0 <= n < 10000 -> List.length (pad4 n) = 4%nat.
Proof.
  intros n Hn. unfold pad4. rewrite length_app, repeat_length.
  pose proof (fmt_u_length n 3 ltac:(change (10 ^ Z.of_nat 4) with 10000; lia)). lia.
Qed.

Lemma pad4_printable : forall n, printable (pad4 n).
Proof.
  intros n. unfold pad4. apply printable_app; [|apply fmt_u_printable].
  apply repeat_printable. discriminate.
Qed.

(** [%.4f] never prints a NUL. *)
Lemma fmt_4f_printable : forall x, printable (fmt_4f x).
Proof.
  intros x. unfold fmt_4f. destruct (Prim2SF x) as [s|s| |s m e].
  - destruct s; repeat constructor; discriminate.
  - destruct s; repeat constructor; discriminate.
  - repeat constructor; discriminate.
  - cbv zeta. apply printable_app; [destruct s; repeat constructor; discriminate|].
    apply printable_app; [apply fmt_u_printable|].
    apply printable_app; [repeat constructor; discriminate | apply pad4_printable].
Qed.

(** [%.4f] of a [double] in [[0, 999)] has at most three digits before
    the point: eight characters in all. *)
Lemma fmt_4f_length :
  forall x,
    PrimFloat.leb 0 x = true -> PrimFloat.ltb x 999 = true ->
    (List.length (fmt_4f x) <= 8)%nat.
Proof.
  intros x Hlo Hhi. rewrite FloatAxioms.leb_spec in Hlo. rewrite FloatAxioms.ltb_spec in Hhi.
  pose proof (Prim2SF_valid x) as Hv. unfold fmt_4f.
  change (Prim2SF 0) with (S754_zero false) in Hlo.
  change (Prim2SF 999) with (S754_finite false 8787296929185792 (-43)) in Hhi.
  destruct (Prim2SF x) as [s|s| |s m e].
  - destruct s; cbn; lia.
  - destruct s; discriminate.
  - discriminate.
  - apply mantissa_bound in Hv.
    destruct s; [discriminate|].
    unfold SFltb, SFcompare in Hhi.
    assert (He : e < -43 \/ (e = -43 /\ Z.pos m < 8787296929185792)).
    { destruct (e ?= -43) eqn:Hcmp.
      - apply Z.compare_eq_iff in Hcmp. right. split; [exact Hcmp|].
        destruct (PosDef.Pos.compare_cont Eq m 8787296929185792) eqn:Hc.
        + exfalso. clear -Hhi. inversion Hhi.
        + apply Pos2Z.pos_lt_pos. exact Hc.
        + exfalso. clear -Hhi. inversion Hhi.
      - left. apply Z.compare_lt_iff. exact Hcmp.
      - exfalso. clear -Hhi. inversion Hhi. }
    cbv zeta.
    assert (Hneg : (0 <=? e) = false) by (apply Z.leb_gt; lia). rewrite Hneg.
    set (n := round_half_even (Z.pos m * 10000) (2 ^ (- e))).
    assert (Hn : 0 <= n <= 9990000).
    { pose proof (round_half_even_bounds (Z.pos m * 10000) (2 ^ (- e))) as Hr.
      fold n in Hr.
      assert (Hden : 0 < 2 ^ (- e)) by (apply Z.pow_pos_nonneg; lia).
      assert (Hq0 : 0 <= Z.pos m * 10000 / 2 ^ (- e)) by (apply Z.div_pos; lia).
      split; [lia|].
      assert (Hq : Z.pos m * 10000 / 2 ^ (- e) < 9990000); [|lia].
      apply Z.div_lt_upper_bound; [exact Hden|].
      destruct He as [He|[He Hm]].
      - assert (H44 : 2 ^ 44 <= 2 ^ (- e)) by (apply Z.pow_le_mono_r; lia).
        change (2 ^ 53) with (512 * 2 ^ 44) in Hv.
        generalize dependent (2 ^ (- e)). generalize dependent (2 ^ 44).
        intros a Hv b _ _ _ Hab. nia.
      - subst e. change (2 ^ (- -43)) with 8796093022208. lia. }
    cbn [app List.length]. rewrite !length_app. cbn [List.length lit list_ascii_of_string].
    rewrite pad4_length by (apply Z.mod_pos_bound; lia).
    assert (Hi : 0 <= n / 10000 < 10 ^ Z.of_nat 3).
    { change (10 ^ Z.of_nat 3) with 1000. split; [apply Z.div_pos; lia|].
      apply Z.div_lt_upper_bound; lia. }
    pose proof (fmt_u_length (n / 10000) 2 Hi). lia.
Qed.

Lemma in_all_bytes : forall b, In b all_bytes.
Proof.
  intros b. unfold all_bytes. apply in_map_iff.
  exists (Byte.to_nat b). rewrite Byte.of_to_nat. split; [reflexivity|].
  apply in_seq. pose proof (Byte.to_nat_bounded b). lia.
Qed.

(** The amplitude of every pair of bytes lies in [[0, 999)]: the largest
    is that of (-128, -128), below 182. *)
Lemma amplitudes_in_range :
  forallb (fun b1 => forallb (fun b2 => amplitude_in_range b1 b2) all_bytes) all_bytes = true.
Proof. vm_compute. reflexivity. Qed.

Lemma value_text_shape :
  forall b1 b2,
    (List.length (value_text b1 b2) <= 9)%nat /\ printable (value_text b1 b2).
Proof.
  intros b1 b2. pose proof amplitudes_in_range as H.
  rewrite forallb_forall in H. specialize (H b1 (in_all_bytes b1)).
  rewrite forallb_forall in H. specialize (H b2 (in_all_bytes b2)).
  unfold amplitude_in_range in H. cbv zeta in H.
  apply andb_true_iff in H. destruct H as [Hlo Hhi].
  unfold value_text. split.
  - rewrite length_app. pose proof (fmt_4f_length _ Hlo Hhi).
    cbn [List.length lit list_ascii_of_string]. lia.
  - apply printable_app; [apply fmt_4f_printable | repeat constructor; discriminate].
Qed.

Lemma pair_text_shape :
  forall data i, (List.length (pair_text data i) <= 9)%nat /\ printable (pair_text data i).
Proof. intros data i. apply value_text_shape. Qed.

Lemma pairs_from_shape :
  forall n i data,
    (List.length (pairs_from n i data) <= 9 * n)%nat /\ printable (pairs_from n i data).
Proof.
  induction n as [|n IH]; intros i data; cbn [pairs_from].
  - split; [cbn; lia | constructor].
  - destruct (IH (i + 1) data) as [Hl Hp]. destruct (pair_text_shape data i) as [Hl1 Hp1].
    split; [rewrite length_app; lia | now apply printable_app].
Qed.

(** ** The output buffer *)

Lemma store_at_app :
  forall pre post data,
    store_at (pre ++ post) (List.length pre) data
    = pre ++ data ++ skipn (List.length data) post.
Proof.
  induction pre as [|c pre IH]; intros post data; cbn [app List.length store_at].
  - destruct post; reflexivity.
  - now rewrite IH.
Qed.

Lemma skipn_memset_zero :
  forall k n, skipn k (memset_zero n) = memset_zero (n - k).
Proof.
  unfold memset_zero. induction k as [|k IH]; intros n.
  - now rewrite Nat.sub_0_r.
  - destruct n as [|n]; [reflexivity|]. cbn [repeat skipn]. apply IH.
Qed.

Lemma buffer_with_length :
  forall text, (List.length text <= 4096)%nat -> List.length (buffer_with text) = 4096%nat.
Proof.
  intros text H. unfold buffer_with, memset_zero.
  rewrite length_app, repeat_length.
  change (Z.to_nat UDP_PAYLOAD_BUFFER_SIZE) with 4096%nat. lia.
Qed.

(** A [snprintf] at the end of the text in the buffer appends to it, as
    long as the result and its NUL fit. *)
Lemma snprintf_at_append :
  forall text data,
    (List.length text + List.length data < 4096)%nat ->
    snprintf_at (buffer_with text) (Z.of_nat (List.length text))
                (UDP_PAYLOAD_BUFFER_SIZE - Z.of_nat (List.length text)) data
    = (Some (buffer_with (text ++ data)), strlen data).
Proof.
  intros text data Hfit. unfold snprintf_at, UDP_PAYLOAD_BUFFER_SIZE, strlen.
  rewrite buffer_with_length by lia.
  destruct (Z.eqb_spec (4096 - Z.of_nat (List.length text)) 0); [lia|].
  destruct (Z.ltb_spec (4096 - Z.of_nat (List.length text)) 0); [lia|].
  destruct (Z.ltb_spec (Z.of_nat (List.length text)) 0); [lia|].
  destruct (Z.ltb_spec (Z.of_nat 4096)
              (Z.of_nat (List.length text) + (4096 - Z.of_nat (List.length text))));
    [lia|].
  cbn [orb]. f_equal. f_equal.
  rewrite firstn_all2 by lia. rewrite Nat2Z.id.
  unfold buffer_with. rewrite store_at_app, skipn_memset_zero.
  rewrite length_app. cbn [List.length].
  change (Z.to_nat UDP_PAYLOAD_BUFFER_SIZE) with 4096%nat.
  rewrite <- !app_assoc. f_equal. f_equal. cbn [app].
  rewrite length_app.
  replace (4096 - (List.length text + List.length data))%nat
    with (S (4096 - List.length text - (List.length data + 1))) by lia.
  reflexivity.
Qed.

Lemma c_str_buffer_with :
  forall text,
    (List.length text < 4096)%nat -> printable text -> c_str (buffer_with text) = text.
Proof.
  intros text Hlen Hp. unfold buffer_with.
  change (Z.to_nat UDP_PAYLOAD_BUFFER_SIZE) with 4096%nat.
  replace (4096 - List.length text)%nat with (S (4095 - List.length text)) by lia.
  now apply c_str_line.
Qed.

(** ** The loop over the pairs *)

Lemma pair_condition :
  forall i len, 0 <= i ->
    ((i <? 64) && (i * 2 + 1 <? len)) = (i <? Z.min 64 (len / 2)).
Proof.
  intros i len Hi.
  destruct (Z.ltb_spec i 64), (Z.ltb_spec (i * 2 + 1) len),
    (Z.ltb_spec i (Z.min 64 (len / 2))); cbn [andb]; try reflexivity; exfalso;
    pose proof (Z.div_mod len 2 ltac:(lia));
    pose proof (Z.mod_pos_bound len 2 ltac:(lia)); lia.
Qed.

(** While the text stays clear of the ceiling, the loop appends the
    values of the pairs from [i] on: up to pair 63 and up to the last
    pair below the reported length. *)
Lemma format_loop_appends :
  forall fuel i len data text,
    0 <= i ->
    (List.length text + 9 * fuel < 4046)%nat ->
    let n := Nat.min fuel (Z.to_nat (Z.min 64 (len / 2) - i)) in
    format_loop fuel i len data (buffer_with text) (Z.of_nat (List.length text))
    = (Some (buffer_with (text ++ pairs_from n i data)),
       Z.of_nat (List.length (text ++ pairs_from n i data))).
Proof.
  induction fuel as [|fuel IH]; intros i len data text Hi Hfit n; subst n.
  - cbn [format_loop Nat.min pairs_from]. now rewrite app_nil_r.
  - cbn [format_loop]. rewrite pair_condition by exact Hi.
    assert (Hguard : (Z.of_nat (List.length text) <? UDP_PAYLOAD_BUFFER_SIZE - 50) = true)
      by (apply Z.ltb_lt; unfold UDP_PAYLOAD_BUFFER_SIZE; lia).
    rewrite Hguard, andb_true_r.
    destruct (Z.ltb_spec i (Z.min 64 (len / 2))) as [Hmore|Hdone].
    + destruct (pair_text_shape data i) as [Hl _].
      rewrite snprintf_at_append by lia.
      unfold strlen. rewrite <- Nat2Z.inj_add, <- length_app.
      rewrite IH; [|lia|rewrite length_app; lia].
      replace (Z.to_nat (Z.min 64 (len / 2) - i))
        with (S (Z.to_nat (Z.min 64 (len / 2) - (i + 1)))) by lia.
      cbn [Nat.min pairs_from]. rewrite <- !app_assoc. reflexivity.
    + replace (Z.to_nat (Z.min 64 (len / 2) - i)) with 0%nat by lia.
      rewrite Nat.min_0_r. cbn [pairs_from]. now rewrite app_nil_r.
Qed.

(** ** The formatted record *)

Lemma record_header_shape :
  forall mac_string csi sync ts,
    List.length mac_string = 17%nat -> printable mac_string -> timestamp_text ts ->
    (List.length (record_header mac_string csi sync ts) <= 316)%nat
    /\ printable (record_header mac_string csi sync ts).
Proof.
  intros mac_string csi sync ts Hmac Hmacp Hts. unfold record_header.
  set (fields := fmt_fields _).
  destruct (fmt_fields_shape
              [ rssi (rx_ctrl csi); rate (rx_ctrl csi); sig_mode (rx_ctrl csi);
                mcs (rx_ctrl csi); cwb (rx_ctrl csi); smoothing (rx_ctrl csi);
                not_sounding (rx_ctrl csi); aggregation (rx_ctrl csi);
                stbc (rx_ctrl csi); fec_coding (rx_ctrl csi); sgi (rx_ctrl csi);
                noise_floor (rx_ctrl csi); ampdu_cnt (rx_ctrl csi);
                channel (rx_ctrl csi); secondary_channel (rx_ctrl csi);
                Decl.timestamp (rx_ctrl csi); ant (rx_ctrl csi); sig_len (rx_ctrl csi);
                rx_state (rx_ctrl csi); Z.b2z sync ]) as [Hfl Hfp].
  fold fields in Hfl, Hfp. cbn [List.length] in Hfl.
  set (t := match ts with Some t => t | None => lit "0.0" end).
  assert (Ht : (List.length t <= 32)%nat /\ printable t).
  { subst t. destruct ts as [text|]; [exact Hts|].
    split; [cbn; lia | repeat constructor; discriminate]. }
  destruct Ht as [Htl Htp].
  pose proof (fmt_d_length (len csi)) as Hdl.
  split.
  - rewrite !length_app, Hmac. cbn [List.length lit list_ascii_of_string]. lia.
  - repeat (apply printable_app;
            [first [ assumption | apply fmt_d_printable
                   | repeat constructor; discriminate ]|]).
    repeat constructor; discriminate.
Qed.

Lemma pair_count_bound : forall len, (pair_count len <= 64)%nat.
Proof. intros len. unfold pair_count. lia. Qed.

(** The formatter, in closed form: the header, the values of the pairs
    and the closing bracket and newline, inside the buffer. *)
Lemma format_csi_record_text :
  forall csi data sync ts,
    timestamp_text ts ->
    let record :=
      record_header (fmt_mac true (mac csi)) csi sync ts
      ++ pairs_from (pair_count (len csi)) 0 data ++ lit "]" ++ newline in
    format_csi_record csi data sync ts = Some (buffer_with record)
    /\ (List.length record <= 894)%nat
    /\ printable record.
Proof.
  intros csi data sync ts Hts record.
  destruct (fmt_mac_shape true (mac csi)) as [Hml Hmp].
  destruct (record_header_shape _ csi sync ts Hml Hmp Hts) as [Hhl Hhp].
  destruct (pairs_from_shape (pair_count (len csi)) 0 data) as [Hvl Hvp].
  pose proof (pair_count_bound (len csi)) as Hcount.
  set (header := record_header _ csi sync ts) in *.
  set (values := pairs_from _ 0 data) in *.
  split; [|split].
  - unfold format_csi_record. fold header.
    pose proof (snprintf_at_append [] header) as Hfirst.
    cbn [app List.length] in Hfirst.
    change (buffer_with []) with (memset_zero (Z.to_nat UDP_PAYLOAD_BUFFER_SIZE)) in Hfirst.
    change (UDP_PAYLOAD_BUFFER_SIZE - Z.of_nat 0) with UDP_PAYLOAD_BUFFER_SIZE in Hfirst.
    change (Z.of_nat 0) with 0 in Hfirst.
    rewrite Hfirst by lia. unfold strlen.
    pose proof (format_loop_appends 64 0 (len csi) data header) as Hloop.
    cbv zeta in Hloop. rewrite Z.sub_0_r in Hloop.
    replace (Nat.min 64 (Z.to_nat (Z.min 64 (len csi / 2)))) with (pair_count (len csi))
      in Hloop by (unfold pair_count; lia).
    fold values in Hloop. rewrite Hloop by lia.
    rewrite snprintf_at_append by (rewrite length_app; cbn [List.length app lit list_ascii_of_string newline]; lia).
    cbn [fst]. subst record. now rewrite <- app_assoc.
  - subst record. rewrite !length_app.
    cbn [List.length lit list_ascii_of_string newline]. lia.
  - subst record. apply printable_app; [exact Hhp|].
    apply printable_app; [exact Hvp|]. repeat constructor; discriminate.
Qed.

(** The loop emits nothing more once one of its three conditions
    fails. *)
Lemma format_loop_stops :
  forall fuel i len data buf offset,
    64 <= i \/ len <= i * 2 + 1 \/ UDP_PAYLOAD_BUFFER_SIZE - 50 <= offset ->
    format_loop fuel i len data buf offset = (Some buf, offset).
Proof.
  intros [|fuel] i len data buf offset H; cbn [format_loop]; [reflexivity|].
  destruct (Z.ltb_spec i 64), (Z.ltb_spec (i * 2 + 1) len),
    (Z.ltb_spec offset (UDP_PAYLOAD_BUFFER_SIZE - 50)); cbn [andb]; try reflexivity; lia.
Qed.

(** The string [get_formatted_timestamp] returns. *)
Lemma get_formatted_timestamp_text :
  forall w,
    timestamp_text
      (option_map (fun p => load_chars p (snd (get_formatted_timestamp w)))
                  (fst (get_formatted_timestamp w))).
Proof.
  intros w. unfold get_formatted_timestamp, gettimeofday, malloc.
  destruct (negb (gettimeofday_rc (os w) =? 0));
    destruct (malloc_ok (os w) (heap_next w) _); cbn [fst snd option_map]; try exact I;
    unfold load_chars, load; world_simpl; cbn [heap_replace heap_find];
    rewrite !Nat.eqb_refl; cbn [heap_find]; rewrite Nat.eqb_refl.
  - split; [cbn; lia | repeat constructor; discriminate].
  - apply format_readable_timestamp.
Qed.

Lemma transmit_csi_data_console :
  forall record w, console (snd (transmit_csi_data record w)) = console w.
Proof.
  intros record w. unfold transmit_csi_data.
  destruct (negb (host_discovered (app_state w)) || _); [reflexivity|].
  destruct (sendto_rc (os w) _ <? 0); reflexivity.
Qed.

(** C4. For every sample, whatever its fields and its payload, and every
    timestamp string as [get_formatted_timestamp] makes them, no store of
    the formatter leaves the 4096-byte buffer; the record it builds is the
    header, the values of the first min (64, reported length / 2) pairs
    and the closing bracket and newline; it is at most 894 characters
    long, well below the ceiling, and its terminating NUL is inside the
    buffer.  The loop over the pairs emits nothing once the pair index
    has reached 64, or the pair lies beyond the reported length, or the
    offset has come within 50 bytes of the ceiling.  One turn of the
    forwarding task on a queued sample does not fault and prints such a
    record. *)
Theorem record_fits_payload_buffer :
  forall csi data sync ts,
    timestamp_text ts ->
    (exists record,
        format_csi_record csi data sync ts = Some (buffer_with record)
        /\ List.length (buffer_with record) = Z.to_nat UDP_PAYLOAD_BUFFER_SIZE
        /\ c_str (buffer_with record) = record
        /\ (List.length record <= 894)%nat
        /\ record = record_header (fmt_mac true (mac csi)) csi sync ts
                    ++ pairs_from (pair_count (len csi)) 0 data
                    ++ lit "]" ++ newline)
    /\ (forall fuel i size buf offset,
          64 <= i \/ size <= i * 2 + 1 \/ UDP_PAYLOAD_BUFFER_SIZE - 50 <= offset ->
          format_loop fuel i size data buf offset = (Some buf, offset))
    /\ (forall w q ptr rest,
          csi_data_queue (app_state w) = Some q ->
          items q = ptr :: rest ->
          load ptr w = Some (BlkCsi csi) ->
          exists w' body,
            csi_data_processing_step w = Ran w'
            /\ console w' = console w ++ [body ++ lit "]" ++ newline]
            /\ (List.length (body ++ lit "]" ++ newline) <= 894)%nat).
Proof.
  intros csi data sync ts Hts. split; [|split].
  - destruct (format_csi_record_text csi data sync ts Hts) as (Hfmt & Hlen & Hp).
    cbv zeta in Hfmt, Hlen, Hp.
    eexists. split; [exact Hfmt|]. split; [apply buffer_with_length; lia|].
    split; [apply c_str_buffer_with; [lia | exact Hp]|].
    split; [exact Hlen | reflexivity].
  - intros. now apply format_loop_stops.
  - intros w q ptr rest Hq Hitems Hload.
    unfold csi_data_processing_step. rewrite Hq. unfold xQueueReceive. rewrite Hitems.
    set (w1 := set_app_state _ w).
    change (load ptr w1) with (load ptr w). rewrite Hload.
    pose proof (get_formatted_timestamp_text w1) as Hts1.
    destruct (get_formatted_timestamp_frame w1) as (_ & _ & _ & Hcon2).
    destruct (get_formatted_timestamp w1) as [p w2]. cbn [fst snd] in Hts1, Hcon2.
    destruct (format_csi_record_text csi (payload_of (buf csi) w2)
                (is_time_synchronized w2)
                (option_map (fun p0 => load_chars p0 w2) p) Hts1) as (Hfmt & Hlen & Hp).
    cbv zeta in Hfmt, Hlen, Hp. rewrite Hfmt.
    rewrite c_str_buffer_with by (lia || exact Hp).
    rewrite app_assoc in Hlen |- *.
    eexists. eexists. split; [reflexivity|]. split; [|exact Hlen].
    assert (Hcon : console w2 = console w) by (rewrite Hcon2; reflexivity).
    rewrite <- Hcon.
    destruct p as [p|], (buf csi) as [|content|b]; world_simpl;
      now rewrite transmit_csi_data_console.
Qed.

Lemma record_fits_payload_buffer_witness :
  timestamp_text (Some (lit "5.000007"))
  /\ exists record,
       format_csi_record sample_csi [x03; x04; xff; x00] false (Some (lit "5.000007"))
       = Some (buffer_with record)
       /\ c_str (buffer_with record) = record
       /\ (List.length record <= 894)%nat.
Proof.
  assert (Hts : timestamp_text (Some (lit "5.000007")))
    by (split; [cbn; lia | repeat constructor; discriminate]).
  split; [exact Hts|].
  destruct (record_fits_payload_buffer sample_csi [x03; x04; xff; x00] false
              (Some (lit "5.000007")) Hts) as ((record & Hfmt & _ & Hstr & Hlen & _) & _).
  exists record. split; [exact Hfmt | split; [exact Hstr | exact Hlen]].
Defined.

(** A tagged time stamp after leading white space is classified as a
    time-sync command, but the dispatcher parses the line as typed, the
    tag is not found at its head and the command is not handled. *)
Example tagged_stamp_after_space_not_handled :
  classify_command (Some (lit " SYNC_TIME: 100.500000")) = CMD_TYPE_TIME_SYNC
  /\ parse_success (parse_timestamp_string (Some (lit " SYNC_TIME: 100.500000"))) = false
  /\ commands_processed
       (g_cmd_processor
          (fst (scan_for_input_data (lit " SYNC_TIME: 100.500000" ++ [LF]) booted)))
     = commands_processed (g_cmd_processor booted).
Proof. vm_compute. repeat split. Qed.

(* ================================================================== *)
(** * Further properties of the code                                   *)
(* ================================================================== *)

(** ** Decimal numerals, printed and read back *)

Lemma digit_char_digit :
  forall d, 0 <= d < 10 ->
    isdigit (digit_char d) = true /\ digit_val (digit_char d) = d.
Proof.
  intros d Hd. unfold isdigit, digit_val, digit_char. rewrite char_code_char_of.
  rewrite Z.mod_small by lia. split; lia.
Qed.

Lemma numeral_value_app :
  forall a b, numeral_value (a ++ b)
              = fold_left (fun acc c => 10 * acc + digit_val c) b (numeral_value a).
Proof. intros a b. unfold numeral_value. apply fold_left_app. Qed.

Lemma digits_of_numeral :
  forall fuel n acc,
    0 <= n < 2 ^ Z.of_nat (S fuel) ->
    exists ds,
      digits_of (S fuel) n acc = ds ++ acc
      /\ ds <> [] /\ Forall (fun c => isdigit c = true) ds /\ numeral_value ds = n.
Proof.
  induction fuel as [|fuel IH]; intros n acc Hn;
    assert (Hmod : 0 <= n mod 10 < 10) by (apply Z.mod_pos_bound; lia);
    destruct (digit_char_digit (n mod 10) Hmod) as [Hd Hv];
    pose proof (Z.div_mod n 10 ltac:(lia)) as Hdm;
    cbn [digits_of]; destruct (Z.eqb_spec (n / 10) 0) as [Hz|Hnz].
  1, 3: exists [digit_char (n mod 10)]; repeat split;
        [discriminate | repeat constructor; exact Hd
         | unfold numeral_value; cbn [fold_left]; rewrite Hv; lia].
  - exfalso. change (2 ^ Z.of_nat 1) with 2 in Hn.
    apply Hnz. apply Z.div_small. lia.
  - assert (Hq : 0 <= n / 10 < 2 ^ Z.of_nat (S fuel)).
    { split; [apply Z.div_pos; lia|].
      rewrite (Nat2Z.inj_succ (S fuel)), Z.pow_succ_r in Hn by lia.
      apply Z.div_lt_upper_bound; lia. }
    destruct (IH (n / 10) (digit_char (n mod 10) :: acc) Hq)
      as (ds & Heq & Hne & Hall & Hval).
    exists (ds ++ [digit_char (n mod 10)]). repeat split.
    + cbn [digits_of] in Heq. rewrite Heq, <- app_assoc. reflexivity.
    + destruct ds; discriminate.
    + apply Forall_app. split; [exact Hall | repeat constructor; exact Hd].
    + rewrite numeral_value_app. cbn [fold_left]. rewrite Hval, Hv. lia.
Qed.

(** [%u] of a number writes a numeral of that number. *)
Lemma fmt_u_numeral :
  forall n, 0 <= n -> is_numeral (fmt_u n) /\ numeral_value (fmt_u n) = n.
Proof.
  intros n Hn. unfold fmt_u.
  assert (Hb : 0 <= n < 2 ^ Z.of_nat (S (Z.to_nat (Z.log2 n)))).
  { split; [exact Hn|].
    rewrite Nat2Z.inj_succ, Z2Nat.id by apply Z.log2_nonneg.
    destruct (Z.eq_dec n 0) as [->|Hnz]; [reflexivity|].
    apply Z.log2_spec. lia. }
  destruct (digits_of_numeral _ n [] Hb) as (ds & Heq & Hne & Hall & Hval).
  rewrite Heq, app_nil_r. repeat split; assumption.
Qed.

Lemma numeral_value_zeros :
  forall k ds, numeral_value (repeat "0"%char k ++ ds) = numeral_value ds.
Proof.
  intros k ds. rewrite numeral_value_app.
  assert (Hz : numeral_value (repeat "0"%char k) = 0).
  { induction k as [|k IH]; [reflexivity|].
    replace (S k) with (k + 1)%nat by lia.
    rewrite repeat_app, numeral_value_app, IH. reflexivity. }
  rewrite Hz. reflexivity.
Qed.

(** [%06ld] of a number of microseconds writes a numeral of it. *)
Lemma fmt_06ld_numeral :
  forall usec, 0 <= usec < 1000000 ->
    is_numeral (fmt_06ld usec) /\ numeral_value (fmt_06ld usec) = usec.
Proof.
  intros usec Hu. unfold fmt_06ld.
  rewrite to_int_small by lia.
  destruct (Z.ltb_spec usec 0) as [?|_]; [lia|].
  rewrite Z.abs_eq by lia.
  destruct (fmt_u_numeral usec ltac:(lia)) as [[Hne Hall] Hval].
  split; [split|].
  - destruct (repeat "0"%char _); [exact Hne | discriminate].
  - apply Forall_app. split; [|exact Hall].
    apply Forall_forall. intros c Hc. apply repeat_spec in Hc. subst c. reflexivity.
  - rewrite numeral_value_zeros. exact Hval.
Qed.

(** [%lld] of seconds: a sign and a numeral whose signed value it is. *)
Lemma fmt_signed_numeral :
  forall v, exists sgn ds,
    fmt_signed v = sgn ++ ds /\ is_sign sgn /\ is_numeral ds /\ signed_value sgn ds = v.
Proof.
  intros v. unfold fmt_signed. destruct (Z.ltb_spec v 0) as [Hneg|Hpos].
  - destruct (fmt_u_numeral (- v) ltac:(lia)) as [Hnum Hval].
    exists (lit "-"), (fmt_u (- v)). repeat split; try apply Hnum.
    + right. right. reflexivity.
    + change (signed_value (lit "-") (fmt_u (- v))) with (- numeral_value (fmt_u (- v))).
      lia.
  - destruct (fmt_u_numeral v Hpos) as [Hnum Hval].
    exists [], (fmt_u v). repeat split; try apply Hnum.
    + left. reflexivity.
    + exact Hval.
Qed.

Lemma strip_prefix_none_head :
  forall p c s x, Ascii.eqb x c = false -> strip_prefix (c :: p) (x :: s) = None.
Proof. intros p c s x H. cbn. now rewrite H. Qed.

(** The fields ["%lld.%ld"] finds in a printed time, behind any white
    space. *)
Lemma scan_fields_format_readable :
  forall lead sec usec,
    blank lead ->
    type_min 64 <= sec <= type_max 64 -> 0 <= usec < 1000000 ->
    scan_fields (lead ++ format_readable sec usec) = Some (sec, Some usec).
Proof.
  intros lead sec usec Hlead Hsec Husec. unfold format_readable, fmt_lld.
  rewrite to_long_long_in_range by exact Hsec.
  destruct (fmt_signed_numeral sec) as (sgn & ds & Heq & Hsgn & Hds & Hval).
  destruct (fmt_06ld_numeral usec Husec) as [Hnum Huval].
  unfold scan_fields. rewrite Heq, <- !app_assoc.
  rewrite (scan_integer_numeral lead sgn ds (lit "." ++ fmt_06ld usec) Hlead Hsgn Hds)
    by reflexivity.
  rewrite Hval. cbn [lit list_ascii_of_string app]. cbn [Ascii.eqb Bool.eqb].
  pose proof (scan_integer_numeral [] [] (fmt_06ld usec) [] ltac:(constructor)
                ltac:(left; reflexivity) Hnum I) as Hs.
  cbn [app] in Hs. rewrite app_nil_r in Hs. rewrite Hs.
  cbn [signed_value]. rewrite Huval.
  rewrite !saturate_in_range; [reflexivity | | exact Hsec].
  unfold type_min, type_max. change (2 ^ (32 - 1)) with 2147483648. lia.
Qed.

Lemma fmt_signed_head :
  forall v, exists c r, fmt_signed v = c :: r /\ Ascii.eqb c "S" = false.
Proof.
  intros v. destruct (fmt_signed_numeral v) as (sgn & ds & Heq & Hsgn & [Hne Hall] & _).
  rewrite Heq.
  destruct Hsgn as [-> | [-> | ->]].
  - destruct ds as [|c r]; [contradiction|]. exists c, r. split; [reflexivity|].
    inversion Hall as [|? ? Hc _]; subst.
    destruct (Ascii.eqb_spec c "S") as [->|]; [discriminate Hc | reflexivity].
  - eexists. eexists. split; reflexivity.
  - eexists. eexists. split; reflexivity.
Qed.

Lemma timestamp_fields_format_readable :
  forall sec usec,
    type_min 64 <= sec <= type_max 64 -> 0 <= usec < 1000000 ->
    timestamp_fields (format_readable sec usec) = Some (sec, Some usec)
    /\ timestamp_fields (lit "SYNC_TIME: " ++ format_readable sec usec)
       = Some (sec, Some usec).
Proof.
  intros sec usec Hsec Husec. split.
  - unfold timestamp_fields.
    pose proof (scan_fields_format_readable [] sec usec ltac:(constructor) Hsec Husec) as H.
    cbn [app] in H.
    assert (Hnone : strip_prefix (lit "SYNC_TIME:") (format_readable sec usec) = None).
    { unfold format_readable, fmt_lld.
      destruct (fmt_signed_head (to_long_long sec)) as (c & r & Heq & Hc).
      rewrite Heq. cbn [app]. apply strip_prefix_none_head. exact Hc. }
    rewrite Hnone. exact H.
  - unfold timestamp_fields.
    change (lit "SYNC_TIME: " ++ format_readable sec usec)
      with (lit "SYNC_TIME:" ++ (lit " " ++ format_readable sec usec)).
    rewrite strip_prefix_app.
    rewrite (scan_fields_format_readable (lit " ") sec usec); try assumption.
    + reflexivity.
    + repeat constructor.
Qed.

(** X1. The text [get_formatted_timestamp] writes for a time reads back
    as that time: for seconds in the range of [long long] and
    microseconds in [[0, 1000000)], [parse_timestamp_string] on the text,
    bare or behind the tag [SYNC_TIME: ], returns these seconds and
    microseconds with success, and [synchronize_system_time] on it sets
    the clock to exactly that time when [settimeofday] accepts. *)
Theorem timestamp_text_round_trip :
  forall sec usec,
    type_min 64 <= sec <= type_max 64 -> 0 <= usec < 1000000 ->
    let text := format_readable sec usec in
    let r := {| seconds := sec; microseconds := usec; parse_success := true |} in
    parse_timestamp_string (Some text) = r
    /\ parse_timestamp_string (Some (lit "SYNC_TIME: " ++ text)) = r
    /\ forall w,
         settimeofday_rc (os w) {| tv_sec := sec; tv_usec := usec |} = 0 ->
         let w' := snd (synchronize_system_time (Some text) w) in
         fst (synchronize_system_time (Some text) w) = true
         /\ sys_clock w' = {| tv_sec := sec; tv_usec := usec |}
         /\ time_sync_established w' = true.
Proof.
  intros sec usec Hsec Husec text r.
  destruct (timestamp_fields_format_readable sec usec Hsec Husec) as [Hbare Htag].
  assert (Hres : parsed_result (Some (sec, Some usec)) = r).
  { unfold parsed_result, r.
    destruct (Z.ltb_spec usec 0); [lia|].
    destruct (Z.leb_spec 1000000 usec); [lia|]. reflexivity. }
  split; [|split].
  - rewrite parse_timestamp_string_fields. fold text in Hbare. now rewrite Hbare.
  - rewrite parse_timestamp_string_fields. fold text in Htag. now rewrite Htag.
  - intros w Hrc w'. subst w'. rewrite synchronize_system_time_fields.
    fold text in Hbare. rewrite Hbare, Hres. cbv zeta. unfold r.
    cbn [seconds microseconds]. rewrite to_long_long_in_range by exact Hsec.
    rewrite Hrc. cbn. repeat split.
Qed.

Lemma timestamp_text_round_trip_witness :
  parse_timestamp_string (Some (format_readable (-5) 7))
  = {| seconds := -5; microseconds := 7; parse_success := true |}.
Proof.
  assert (Hs : type_min 64 <= -5 <= type_max 64) by (vm_compute; split; discriminate).
  assert (Hu : 0 <= 7 < 1000000) by lia.
  exact (proj1 (timestamp_text_round_trip (-5) 7 Hs Hu)).
Defined.

Lemma saturate_range :
  forall bits v, 0 < bits -> type_min bits <= saturate bits v <= type_max bits.
Proof.
  intros bits v Hb. unfold saturate, type_min, type_max.
  assert (0 < 2 ^ (bits - 1)) by (apply Z.pow_pos_nonneg; lia). lia.
Qed.

(** X2. Whatever its input (NULL included), [parse_timestamp_string]
    returns microseconds in [[0, 1000000)] and seconds in the range of
    [long long]; when it reports failure both fields are 0. *)
Theorem parse_result_ranges :
  forall s,
    let r := parse_timestamp_string s in
    0 <= microseconds r < 1000000
    /\ type_min 64 <= seconds r <= type_max 64
    /\ (parse_success r = false -> seconds r = 0 /\ microseconds r = 0).
Proof.
  intros [s|] r; subst r.
  - rewrite parse_timestamp_string_fields. unfold timestamp_fields.
    assert (Hscan : forall t,
               let r := parsed_result (scan_fields t) in
               0 <= microseconds r < 1000000
               /\ type_min 64 <= seconds r <= type_max 64
               /\ (parse_success r = false -> seconds r = 0 /\ microseconds r = 0)).
    { intros t. unfold scan_fields.
      assert (Hzero : let r := parsed_result None in
                      0 <= microseconds r < 1000000
                      /\ type_min 64 <= seconds r <= type_max 64
                      /\ (parse_success r = false -> seconds r = 0 /\ microseconds r = 0)).
      { cbn [parsed_result microseconds seconds parse_success].
        unfold type_min, type_max. change (2 ^ (64 - 1)) with 9223372036854775808.
        repeat split; lia. }
      destruct (scan_integer t) as [v rest| |]; [|exact Hzero|exact Hzero].
      cbn [parsed_result microseconds seconds parse_success].
      split; [|split; [apply saturate_range; lia | discriminate]].
      set (u := match _ with Some u => u | None => 0 end).
      destruct (Z.ltb_spec u 0); [cbn [orb]; lia|].
      destruct (Z.leb_spec 1000000 u); cbn [orb]; lia. }
    destruct (strip_prefix (lit "SYNC_TIME:") s) as [t|]; [|apply Hscan].
    pose proof (Hscan t) as Ht. destruct (scan_fields t); [exact Ht | apply Hscan].
  - cbn [parse_timestamp_string microseconds seconds parse_success].
    unfold type_min, type_max. change (2 ^ (64 - 1)) with 9223372036854775808.
    repeat split; lia.
Qed.

(** X3. [validate_timestamp_format] accepts exactly the inputs on which
    [parse_timestamp_string] succeeds; hence a console line is
    classified as a time-sync command exactly when the parser succeeds
    on its first 511 characters trimmed of white space. *)
Theorem validator_agrees_with_parser :
  (forall s, validate_timestamp_format s = parse_success (parse_timestamp_string s))
  /\ (forall line,
        classify_command (Some line) = CMD_TYPE_TIME_SYNC
        <-> parse_success
              (parse_timestamp_string
                 (Some (trim_whitespace (strncpy line (Z.to_nat (MAX_COMMAND_LENGTH - 1))))))
            = true).
Proof.
  assert (Hv : forall s,
             validate_timestamp_format s = parse_success (parse_timestamp_string s)).
  { intros [s|]; [|reflexivity]. now rewrite validate_numeric, parse_success_numeric. }
  split; [exact Hv|].
  intros line. rewrite <- Hv. unfold classify_command.
  destruct (validate_timestamp_format _); [split; reflexivity|].
  split; [|discriminate].
  destruct (strncmp _ _ _ =? 0); [discriminate|].
  destruct (_ || _); [discriminate|].
  destruct (_ || _); discriminate.
Qed.

(** X5. [get_time_difference_ms] and [get_current_time_components].
    When [gettimeofday] fails the first returns -1 and the second stores
    0 and 0.  When it succeeds, for times in normal form at most
    2147482 seconds apart, the difference returned is within one
    millisecond of the elapsed time: it is the elapsed microseconds
    divided by 1000, rounded down when the microsecond field has not
    decreased and rounded up when it has; it is not negative when the
    start is not in the future. *)
Theorem time_difference_within_a_millisecond :
  (forall start w,
      gettimeofday_rc (os w) <> 0 ->
      get_time_difference_ms start w = -1
      /\ get_current_time_components w = (0, 0))
  /\ (forall start w,
        gettimeofday_rc (os w) = 0 ->
        normal_timeval start -> normal_timeval (sys_clock w) ->
        -2147482 <= tv_sec (sys_clock w) - tv_sec start <= 2147482 ->
        let ms := get_time_difference_ms start w in
        let us := elapsed_us start (sys_clock w) in
        get_current_time_components w = (tv_sec (sys_clock w), tv_usec (sys_clock w))
        /\ -1000 < 1000 * ms - us < 1000
        /\ (tv_usec start <= tv_usec (sys_clock w) -> ms = us / 1000)
        /\ (tv_usec (sys_clock w) < tv_usec start -> ms = (us + 999) / 1000)
        /\ (0 <= us -> 0 <= ms)).
Proof.
  split.
  - intros start w Hrc. unfold get_time_difference_ms, get_current_time_components,
      gettimeofday.
    apply Z.eqb_neq in Hrc. rewrite Hrc. split; reflexivity.
  - intros start w Hrc [Hs1 Hu1] [Hs2 Hu2] Hd ms us. subst ms us.
    unfold get_time_difference_ms, get_current_time_components, gettimeofday, elapsed_us.
    rewrite Hrc. cbn [Z.eqb negb].
    set (sc := tv_sec (sys_clock w)) in *. set (uc := tv_usec (sys_clock w)) in *.
    set (ss := tv_sec start) in *. set (us := tv_usec start) in *.
    assert (H64 : forall v, -9223372036854775808 <= v <= 9223372036854775807 ->
                            to_long_long v = v).
    { intros v Hv. apply to_long_long_in_range. unfold type_min, type_max.
      change (2 ^ (64 - 1)) with 9223372036854775808. lia. }
    unfold type_min, type_max in Hs1, Hs2.
    change (2 ^ (64 - 1)) with 9223372036854775808 in Hs1, Hs2.
    rewrite (H64 sc), (H64 ss) by lia.
    rewrite (H64 (sc - ss)) by lia. rewrite (H64 ((sc - ss) * 1000)) by lia.
    rewrite (to_int_small uc), (to_int_small (uc - us)), (to_int_small ((sc - ss) * 1000))
      by lia.
    set (ds := sc - ss) in *. set (du := uc - us) in *.
    assert (Hq : (0 <= du -> Z.quot du 1000 = du / 1000)
                 /\ (du < 0 -> Z.quot du 1000 = - ((- du) / 1000))).
    { split; intros Hdu.
      - apply Z.quot_div_nonneg; lia.
      - rewrite <- (Z.opp_involutive du) at 1. rewrite Z.quot_opp_l by lia.
        rewrite Z.quot_div_nonneg by lia. reflexivity. }
    destruct Hq as [Hq1 Hq2].
    assert (Hdu : -1000000 < du < 1000000) by (subst du; lia).
    split; [reflexivity|].
    destruct (Z_lt_le_dec du 0) as [Hneg|Hpos].
    + rewrite (Hq2 Hneg).
      pose proof (Z.div_mod (- du) 1000 ltac:(lia)) as Hdm.
      pose proof (Z.mod_pos_bound (- du) 1000 ltac:(lia)) as Hmb.
      assert (Hqb : 0 <= - du / 1000 < 1000).
      { split; [apply Z.div_pos; lia | apply Z.div_lt_upper_bound; lia]. }
      rewrite to_int_small by lia.
      assert (Hup : (ds * 1000000 + du + 999) / 1000 = ds * 1000 + - (- du / 1000)).
      { symmetry. apply Z.div_unique with (r := 999 - (- du) mod 1000); lia. }
      repeat split; lia.
    + rewrite (Hq1 Hpos).
      pose proof (Z.div_mod du 1000 ltac:(lia)) as Hdm.
      pose proof (Z.mod_pos_bound du 1000 ltac:(lia)) as Hmb.
      assert (Hqb : 0 <= du / 1000 < 1000).
      { split; [apply Z.div_pos; lia | apply Z.div_lt_upper_bound; lia]. }
      rewrite to_int_small by lia.
      assert (Hdown : (ds * 1000000 + du) / 1000 = ds * 1000 + du / 1000).
      { symmetry. apply Z.div_unique with (r := du mod 1000); lia. }
      repeat split; lia.
Qed.

Lemma time_difference_within_a_millisecond_witness :
  get_time_difference_ms {| tv_sec := 1; tv_usec := 999999 |}
    (power_on sample_os {| tv_sec := 2; tv_usec := 0 |}) = 1.
Proof.
  destruct time_difference_within_a_millisecond as [_ H].
  assert (Hrc : gettimeofday_rc (os (power_on sample_os {| tv_sec := 2; tv_usec := 0 |})) = 0)
    by reflexivity.
  assert (Hn1 : normal_timeval {| tv_sec := 1; tv_usec := 999999 |})
    by (split; [vm_compute; split; discriminate | cbn; lia]).
  assert (Hn2 : normal_timeval (sys_clock (power_on sample_os {| tv_sec := 2; tv_usec := 0 |})))
    by (split; [vm_compute; split; discriminate | cbn; lia]).
  assert (Hd : -2147482 <= tv_sec (sys_clock (power_on sample_os {| tv_sec := 2; tv_usec := 0 |}))
                            - tv_sec {| tv_sec := 1; tv_usec := 999999 |} <= 2147482)
    by (cbn; lia).
  destruct (H _ _ Hrc Hn1 Hn2 Hd) as (_ & _ & _ & Hup & _).
  rewrite Hup by (cbn; lia). reflexivity.
Defined.
(** ** The line buffer, for every input *)

Lemma array_set_length :
  forall a i c, List.length (array_set a i c) = List.length a.
Proof.
  induction a as [|x a IH]; intros [|i] c; cbn [array_set List.length];
    try reflexivity. now rewrite IH.
Qed.

Lemma nth_array_set_other :
  forall a i j c, i <> j -> nth j (array_set a i c) NUL = nth j a NUL.
Proof.
  induction a as [|x a IH]; intros [|i] [|j] c Hij; cbn [array_set nth];
    try reflexivity; try contradiction.
  apply IH. lia.
Qed.

Lemma nth_memset_zero : forall n i, nth i (memset_zero n) NUL = NUL.
Proof.
  intros n i. unfold memset_zero. destruct (Nat.lt_ge_cases i n) as [H|H].
  - apply nth_repeat_lt. exact H.
  - apply nth_overflow. rewrite repeat_length. exact H.
Qed.

Lemma reset_buffer_in_bounds : forall w, buffer_in_bounds (reset_buffer w).
Proof.
  intros w. unfold buffer_in_bounds, reset_buffer. world_simpl.
  split; [apply repeat_length|]. split; [unfold MAX_COMMAND_LENGTH; lia|].
  intros i _. apply nth_memset_zero.
Qed.

(** One stored byte keeps the buffer sound. *)
Lemma store_in_bounds :
  forall c w,
    buffer_in_bounds w ->
    buffer_position (g_cmd_processor w) < MAX_COMMAND_LENGTH - 1 ->
    let p := g_cmd_processor w in
    buffer_in_bounds
      (set_g_cmd_processor
         (set_buffer_position
            (to_int (buffer_position p + 1))
            (set_command_buffer
               (array_set (command_buffer p) (Z.to_nat (buffer_position p)) c) p)) w).
Proof.
  intros c w (Hlen & Hpos & Hnul) Hroom p. subst p.
  unfold buffer_in_bounds. world_simpl. unfold MAX_COMMAND_LENGTH in *.
  rewrite to_int_small by lia.
  split; [rewrite array_set_length; exact Hlen|]. split; [lia|].
  intros i Hi. rewrite nth_array_set_other by lia. apply Hnul. lia.
Qed.

Lemma process_received_command_processor :
  forall w,
    command_buffer (g_cmd_processor (process_received_command w))
      = command_buffer (g_cmd_processor w)
    /\ buffer_position (g_cmd_processor (process_received_command w))
       = buffer_position (g_cmd_processor w)
    /\ echo_enabled (g_cmd_processor (process_received_command w))
       = echo_enabled (g_cmd_processor w).
Proof.
  intros w. unfold process_received_command.
  destruct (strlen _ =? 0); [repeat split|].
  set (text := c_str _).
  destruct (execute_classified_command_effects text (classify_command (Some text)) w)
    as [_ Hcp].
  rewrite Hcp. destruct (fst _); repeat split.
Qed.

Lemma scan_in_bounds :
  forall stdin w,
    buffer_in_bounds w -> buffer_in_bounds (fst (scan_for_input_data stdin w)).
Proof.
  induction stdin as [|c rest IH]; intros w Hw; cbn [scan_for_input_data]; [exact Hw|].
  cbv zeta.
  destruct ((char_code c =? 255) || (char_code c =? EOF)); [exact Hw|].
  destruct ((char_code c =? 10) || (char_code c =? 13)).
  - apply IH. apply reset_buffer_in_bounds.
  - destruct (Z.ltb_spec (buffer_position (g_cmd_processor w)) (MAX_COMMAND_LENGTH - 1))
      as [Hroom|Hfull].
    + apply IH. apply (store_in_bounds (char_of (char_code c)) w Hw Hroom).
    + apply IH. apply reset_buffer_in_bounds.
Qed.

Lemma turns_in_bounds :
  forall polls stdin w,
    buffer_in_bounds w -> buffer_in_bounds (fst (command_monitoring_turns polls stdin w)).
Proof.
  induction polls as [|arrived later IH]; intros stdin w Hw;
    cbn [command_monitoring_turns]; [exact Hw|].
  pose proof (scan_in_bounds (stdin ++ arrived) w Hw) as Hs.
  destruct (scan_for_input_data (stdin ++ arrived) w) as [w1 unread].
  apply IH. exact Hs.
Qed.

(** X6. The line buffer of the console reader is never overrun: from
    [initialize_command_processor] on, whatever bytes arrive and however
    they are spread over the turns of the monitoring loop, the buffer
    keeps its 512 cells, the cursor stays in [[0, 511]] (so every store,
    the terminating NUL included, lands inside the array) and every cell
    from the cursor on holds NUL. *)
Theorem line_buffer_never_overrun :
  (forall echo w, buffer_in_bounds (initialize_command_processor echo w))
  /\ (forall stdin w,
        buffer_in_bounds w -> buffer_in_bounds (fst (scan_for_input_data stdin w)))
  /\ (forall polls w,
        buffer_in_bounds w ->
        buffer_in_bounds (fst (start_command_monitoring_loop polls w))).
Proof.
  split; [|split].
  - intros echo w. unfold buffer_in_bounds, initialize_command_processor. world_simpl.
    split; [apply repeat_length|]. split; [unfold MAX_COMMAND_LENGTH; lia|].
    intros i _. apply nth_memset_zero.
  - exact scan_in_bounds.
  - intros polls w Hw. unfold start_command_monitoring_loop.
    apply turns_in_bounds. exact Hw.
Qed.

Lemma line_buffer_never_overrun_witness :
  buffer_in_bounds
    (fst (scan_for_input_data (repeat "x"%char 600 ++ lit "help")
            (initialize_command_processor true booted))).
Proof.
  destruct line_buffer_never_overrun as (Hinit & Hscan & _).
  apply Hscan. apply Hinit.
Defined.

(** ** Polling *)

Lemma data_byte_not_end :
  forall c, data_byte c -> (char_code c =? 255) || (char_code c =? EOF) = false.
Proof.
  intros c Hc. unfold data_byte in Hc. apply orb_false_iff. split; apply Z.eqb_neq.
  - exact Hc.
  - unfold EOF, char_code. lia.
Qed.

(** Reading bytes in one call or in two is the same. *)
Lemma scan_app :
  forall a b w,
    Forall data_byte a ->
    scan_for_input_data (a ++ b) w = scan_for_input_data b (fst (scan_for_input_data a w)).
Proof.
  induction a as [|c a IH]; intros b w Ha; [reflexivity|].
  inversion Ha as [|? ? Hc Ha']; subst.
  cbn [app scan_for_input_data]. cbv zeta. rewrite (data_byte_not_end c Hc).
  destruct ((char_code c =? 10) || (char_code c =? 13)); [now apply IH|].
  destruct (buffer_position (g_cmd_processor w) <? MAX_COMMAND_LENGTH - 1); now apply IH.
Qed.

Lemma scan_all_read :
  forall a w, Forall data_byte a -> snd (scan_for_input_data a w) = [].
Proof.
  intros a w Ha. pose proof (scan_app a [] w Ha) as H. rewrite app_nil_r in H.
  rewrite H. reflexivity.
Qed.

Lemma turns_concat :
  forall polls w,
    Forall (Forall data_byte) polls ->
    command_monitoring_turns polls [] w
    = (fst (scan_for_input_data (concat polls) w), []).
Proof.
  induction polls as [|arrived later IH]; intros w Hp; [reflexivity|].
  inversion Hp as [|? ? Ha Hl]; subst.
  cbn [command_monitoring_turns concat app].
  rewrite (scan_app arrived (concat later) w Ha).
  pose proof (scan_all_read arrived w Ha) as Hrest.
  destruct (scan_for_input_data arrived w) as [w1 unread]. cbn [fst snd] in *.
  subst unread. now apply IH.
Qed.

(** X7. How the bytes of the console are spread over the calls of
    [scan_for_input_data] does not matter: as long as no byte is the
    end-of-data mark 0xFF, reading a stream in one call or in two gives
    the same machine, and the monitoring loop leaves the machine that
    one call on all the bytes would leave, with nothing unread.  A byte
    0xFF ends the call: the bytes behind it stay unread. *)
Theorem polling_granularity_is_immaterial :
  (forall a b w,
      Forall data_byte a ->
      scan_for_input_data (a ++ b) w
      = scan_for_input_data b (fst (scan_for_input_data a w)))
  /\ (forall polls w,
        Forall (Forall data_byte) polls ->
        start_command_monitoring_loop polls w
        = (fst (scan_for_input_data (concat polls)
                  (printf (lit "Command processor started. Type 'help' for commands."
                           ++ newline) w)), []))
  /\ (forall a c b w,
        Forall data_byte a -> char_code c = 255 ->
        scan_for_input_data (a ++ c :: b) w = (fst (scan_for_input_data a w), b)).
Proof.
  split; [exact scan_app|]. split.
  - intros polls w Hp. unfold start_command_monitoring_loop. now apply turns_concat.
  - intros a c b w Ha Hc. rewrite scan_app by exact Ha.
    cbn [scan_for_input_data]. cbv zeta. rewrite Hc. reflexivity.
Qed.

Lemma polling_granularity_is_immaterial_witness :
  start_command_monitoring_loop [lit "he"; lit "lp"; [LF]] booted
  = (fst (scan_for_input_data (lit "help" ++ [LF])
            (printf (lit "Command processor started. Type 'help' for commands."
                     ++ newline) booted)), []).
Proof.
  destruct polling_granularity_is_immaterial as (_ & Hloop & _).
  apply (Hloop [lit "he"; lit "lp"; [LF]] booted).
  repeat constructor; discriminate.
Defined.

(** ** What console input leaves alone *)

Lemma console_frame_refl : forall w, console_frame w w.
Proof. intros w. repeat split; auto. exists []. now rewrite app_nil_r. Qed.

Lemma console_frame_trans :
  forall w1 w2 w3, console_frame w1 w2 -> console_frame w2 w3 -> console_frame w1 w3.
Proof.
  intros w1 w2 w3 (A1 & A2 & A3 & A4 & A5 & A6 & A7 & A8 & A9 & m1 & A10)
         (B1 & B2 & B3 & B4 & B5 & B6 & B7 & B8 & B9 & m2 & B10).
  repeat split; try congruence.
  - intros H. apply B9, A9, H.
  - exists (m1 ++ m2). rewrite B10, A10, app_assoc. reflexivity.
Qed.

Lemma console_frame_printf : forall text w, console_frame w (printf text w).
Proof.
  intros text w. repeat split; auto. exists [text]. reflexivity.
Qed.

Lemma console_frame_processor :
  forall p w,
    echo_enabled p = echo_enabled (g_cmd_processor w) ->
    console_frame w (set_g_cmd_processor p w).
Proof.
  intros p w H. repeat split; auto. exists []. world_simpl.
  now rewrite app_nil_r.
Qed.

(** The timestamp string is allocated, printed and freed. *)
Lemma console_frame_status : forall w, console_frame w (display_system_status w).
Proof.
  intros w. unfold display_system_status, get_formatted_timestamp, gettimeofday, malloc,
    get_csi_configuration, is_time_synchronized.
  destruct w as [o clk con lg hn hl dg cb ts cp cc ap]. world_simpl.
  destruct (negb (gettimeofday_rc o =? 0)); destruct (malloc_ok o hn _);
    unfold console_frame; world_simpl;
    cbn [heap_replace]; rewrite ?Nat.eqb_refl;
    cbn [heap_remove]; rewrite ?Nat.eqb_refl;
    (repeat split; auto; eexists; rewrite <- ?app_assoc; reflexivity).
Qed.

Lemma console_frame_synchronize :
  forall text w, console_frame w (snd (synchronize_system_time text w)).
Proof.
  intros text w. unfold synchronize_system_time, settimeofday.
  destruct (negb (parse_success _)); [apply console_frame_printf|].
  cbv zeta. destruct (settimeofday_rc (os w) _ =? 0) eqn:Hrc; cbv beta iota.
  - change (0 =? 0) with true. cbv iota. unfold console_frame. world_simpl.
    repeat split; auto. eexists. reflexivity.
  - rewrite Hrc. apply console_frame_printf.
Qed.

Lemma console_frame_execute :
  forall text cmd_type w,
    console_frame w (snd (execute_classified_command text cmd_type w)).
Proof.
  intros text cmd_type w. unfold execute_classified_command.
  assert (Hcount : forall w1,
             console_frame w w1 ->
             console_frame w
               (set_g_cmd_processor
                  (set_commands_processed
                     (to_int (commands_processed (g_cmd_processor w1) + 1))
                     (g_cmd_processor w1)) w1)).
  { intros w1 H. eapply console_frame_trans; [exact H|].
    now apply console_frame_processor. }
  destruct cmd_type.
  - cbv beta iota zeta. cbn [snd].
    eapply console_frame_trans; apply console_frame_printf.
  - pose proof (console_frame_synchronize (Some text)
                  (printf (lit "Processing time synchronization: " ++ text ++ newline) w))
      as Hs.
    cbv zeta.
    destruct (synchronize_system_time _ _) as [[|] w1]; cbn [snd] in Hs;
      cbv beta iota; cbn [snd]; [apply Hcount|];
      (eapply console_frame_trans; [apply console_frame_printf | exact Hs]).
  - cbv beta iota zeta. cbn [snd]. apply Hcount. apply console_frame_printf.
  - cbv beta iota zeta. cbn [snd]. apply Hcount. apply console_frame_status.
  - cbv beta iota zeta. cbn [snd]. apply Hcount. unfold display_help_information.
    repeat (eapply console_frame_trans; [|apply console_frame_printf]).
    apply console_frame_refl.
Qed.

Lemma console_frame_process :
  forall w, console_frame w (process_received_command w).
Proof.
  intros w. unfold process_received_command.
  destruct (strlen _ =? 0); [apply console_frame_refl | apply console_frame_execute].
Qed.

Lemma console_frame_scan :
  forall stdin w, console_frame w (fst (scan_for_input_data stdin w)).
Proof.
  induction stdin as [|c rest IH]; intros w; cbn [scan_for_input_data];
    [apply console_frame_refl|].
  cbv zeta.
  destruct ((char_code c =? 255) || (char_code c =? EOF)); [apply console_frame_refl|].
  destruct ((char_code c =? 10) || (char_code c =? 13)).
  - set (w1 := set_g_cmd_processor _ w).
    apply console_frame_trans with (reset_buffer (process_received_command w1));
      [|apply IH].
    apply console_frame_trans with (process_received_command w1);
      [|apply console_frame_processor; reflexivity].
    apply console_frame_trans with w1;
      [apply console_frame_processor; reflexivity | apply console_frame_process].
  - destruct (buffer_position (g_cmd_processor w) <? MAX_COMMAND_LENGTH - 1).
    + eapply console_frame_trans; [|apply IH]. apply console_frame_processor. reflexivity.
    + eapply console_frame_trans; [|apply IH].
      apply console_frame_trans with (printf overflow_notice w);
        [apply console_frame_printf | apply console_frame_processor; reflexivity].
Qed.

(** X8. Console input, whatever it is, changes only the line buffer,
    the counter of handled commands, the clock and the console output.
    It leaves the platform's answers, the live blocks of the heap (the
    time stamp string of a status report is freed again), the log, the
    datagrams, the registered callback, the CSI configuration, the
    application state and the echo setting as they were, never clears
    the synchronized flag, and only appends to the console. *)
Theorem console_input_footprint :
  forall stdin w, console_frame w (fst (scan_for_input_data stdin w)).
Proof. exact console_frame_scan. Qed.

(** ** Line terminators and lines without a command *)

Lemma load_line_nil_reset :
  forall w, buffer_empty w -> reset_buffer (load_line [] w) = w.
Proof.
  intros w [Hbuf Hpos].
  destruct w as [o clk con lg hn hl dg cb ts [b p n e] cc ap].
  world_simpl_in Hbuf. world_simpl_in Hpos. subst b p.
  unfold reset_buffer, load_line. world_norm. reflexivity.
Qed.

Lemma process_empty_line :
  forall w, process_received_command (load_line [] w) = load_line [] w.
Proof.
  intros w. unfold process_received_command, load_line. world_simpl.
  cbn [app List.length]. rewrite Nat.sub_0_r.
  change (c_str (memset_zero (Z.to_nat MAX_COMMAND_LENGTH))) with (@nil ascii).
  reflexivity.
Qed.

(** A terminator on an empty buffer changes nothing. *)
Lemma scan_empty_line :
  forall t rest w,
    buffer_empty w -> char_code t = 10 \/ char_code t = 13 ->
    scan_for_input_data (t :: rest) w = scan_for_input_data rest w.
Proof.
  intros t rest w Hw Ht.
  assert (Hline : console_line []) by (repeat split; [cbn; lia | constructor | constructor]).
  pose proof (scan_line [] t rest w Hw Hline Ht) as H. cbn [app] in H.
  rewrite H, process_empty_line, load_line_nil_reset by exact Hw. reflexivity.
Qed.

(** X9. Line terminators.  With an empty line buffer, a terminator
    alone does nothing at all, so empty lines are ignored silently; a
    line ended by carriage return, by line feed or by carriage return
    and line feed is dispatched once, with the same result. *)
Theorem line_terminators_interchangeable :
  forall line rest w,
    buffer_empty w -> console_line line ->
    scan_for_input_data (LF :: rest) w = scan_for_input_data rest w
    /\ scan_for_input_data (CR :: rest) w = scan_for_input_data rest w
    /\ scan_for_input_data (line ++ CR :: rest) w
       = scan_for_input_data (line ++ LF :: rest) w
    /\ scan_for_input_data (line ++ CR :: LF :: rest) w
       = scan_for_input_data (line ++ LF :: rest) w.
Proof.
  intros line rest w Hw Hline.
  assert (Hlf : char_code LF = 10 \/ char_code LF = 13) by (left; reflexivity).
  assert (Hcr : char_code CR = 10 \/ char_code CR = 13) by (right; reflexivity).
  split; [now apply scan_empty_line|]. split; [now apply scan_empty_line|].
  rewrite (scan_line line CR rest w Hw Hline Hcr).
  rewrite (scan_line line CR (LF :: rest) w Hw Hline Hcr).
  rewrite (scan_line line LF rest w Hw Hline Hlf).
  split; [reflexivity|].
  apply scan_empty_line; [apply reset_buffer_empty | exact Hlf].
Qed.

Lemma line_terminators_interchangeable_witness :
  scan_for_input_data (lit "help" ++ CR :: LF :: lit "status") booted
  = scan_for_input_data (lit "help" ++ LF :: lit "status") booted.
Proof.
  assert (Hw : buffer_empty booted) by (split; vm_compute; reflexivity).
  assert (Hl : console_line (lit "help")) by literal_console_line.
  exact (proj2 (proj2 (proj2
           (line_terminators_interchangeable (lit "help") (lit "status") booted Hw Hl)))).
Defined.

(** The machine after a console line and its terminator. *)
Lemma scan_dispatch :
  forall line w,
    buffer_empty w -> console_line line -> line <> [] ->
    fst (scan_for_input_data (line ++ [LF]) w)
    = reset_buffer
        (snd (execute_classified_command line (classify_command (Some line))
                (load_line line w))).
Proof.
  intros line w Hw Hline Hne.
  rewrite (scan_line line LF [] w Hw Hline) by (left; reflexivity).
  rewrite process_stored_line by assumption. reflexivity.
Qed.

Lemma classify_nil : classify_command (Some []) = CMD_TYPE_UNKNOWN.
Proof. reflexivity. Qed.

(** X10. A line of white space only is not ignored like an empty line:
    it is classified as unknown, the two lines of the diagnostic are
    printed with the white space as typed, and it is not counted. *)
Theorem blank_line_reported_unknown :
  forall line w,
    buffer_empty w -> console_line line -> blank line -> line <> [] ->
    let w' := fst (scan_for_input_data (line ++ [LF]) w) in
    classify_command (Some line) = CMD_TYPE_UNKNOWN
    /\ console w' = console w ++ unknown_diagnostic line
    /\ commands_processed (g_cmd_processor w')
       = commands_processed (g_cmd_processor w).
Proof.
  intros line w Hw Hline Hblank Hne w'. subst w'.
  assert (Hcls : classify_command (Some line) = CMD_TYPE_UNKNOWN).
  { unfold classify_command, strncpy.
    rewrite (trim_whitespace_blank _ (blank_firstn _ _ Hblank)). reflexivity. }
  split; [exact Hcls|].
  rewrite scan_dispatch by assumption.
  destruct (unknown_not_handled line (load_line line w) Hcls) as (_ & Hcon & Hcp).
  destruct (reset_buffer_keeps
              (snd (execute_classified_command line (classify_command (Some line))
                      (load_line line w)))) as (_ & Hk & Hc).
  rewrite Hk, Hc, Hcon, Hcp. split; reflexivity.
Qed.

Lemma blank_line_reported_unknown_witness :
  console (fst (scan_for_input_data (lit "  " ++ [LF]) booted))
  = console booted ++ unknown_diagnostic (lit "  ").
Proof.
  assert (Hw : buffer_empty booted) by (split; vm_compute; reflexivity).
  assert (Hl : console_line (lit "  ")) by literal_console_line.
  assert (Hb : blank (lit "  ")) by (repeat constructor).
  assert (Hn : lit "  " <> []) by discriminate.
  exact (proj1 (proj2 (blank_line_reported_unknown (lit "  ") booted Hw Hl Hb Hn))).
Defined.

(** X11. A line whose text, trimmed of white space, begins with [CSI_]
    is classified as a CSI configuration command; dispatching it prints
    that such commands are not yet implemented, counts the line as a
    handled command and changes nothing of the CSI configuration. *)
Theorem csi_config_line_only_acknowledged :
  forall line rest w,
    buffer_empty w -> console_line line ->
    trim_whitespace line = lit "CSI_" ++ rest ->
    let w' := fst (scan_for_input_data (line ++ [LF]) w) in
    classify_command (Some line) = CMD_TYPE_CSI_CONFIG
    /\ console w'
       = console w ++ [lit "CSI configuration commands not yet implemented: "
                       ++ line ++ newline]
    /\ commands_processed (g_cmd_processor w')
       = to_int (commands_processed (g_cmd_processor w) + 1)
    /\ g_csi_config w' = g_csi_config w.
Proof.
  intros line rest w Hw Hline Htrim w'. subst w'.
  assert (Hne : line <> []) by (intros ->; discriminate Htrim).
  assert (Hcls : classify_command (Some line) = CMD_TYPE_CSI_CONFIG).
  { unfold classify_command. rewrite strncpy_short by apply Hline.
    rewrite Htrim, validate_numeric.
    change (numeric (lit "CSI_" ++ rest)) with false.
    change (strncmp (lit "CSI_" ++ rest) (lit "CSI_") 4) with (strncmp rest [] 0).
    now destruct rest. }
  split; [exact Hcls|].
  rewrite scan_dispatch by assumption. rewrite Hcls.
  unfold execute_classified_command, reset_buffer, load_line. world_simpl.
  repeat split.
Qed.

Lemma csi_config_line_only_acknowledged_witness :
  classify_command (Some (lit " CSI_MODE 1")) = CMD_TYPE_CSI_CONFIG
  /\ g_csi_config (fst (scan_for_input_data (lit " CSI_MODE 1" ++ [LF]) booted))
     = g_csi_config booted.
Proof.
  assert (Hw : buffer_empty booted) by (split; vm_compute; reflexivity).
  assert (Hl : console_line (lit " CSI_MODE 1")) by literal_console_line.
  assert (Ht : trim_whitespace (lit " CSI_MODE 1") = lit "CSI_" ++ lit "MODE 1")
    by (vm_compute; reflexivity).
  destruct (csi_config_line_only_acknowledged (lit " CSI_MODE 1") (lit "MODE 1") booted
              Hw Hl Ht) as (Hc & _ & _ & Hcfg).
  split; [exact Hc | exact Hcfg].
Defined.

(** X4. A time-sync line is counted only when the clock was set: when
    [settimeofday] refuses, the line is announced, a report follows (of
    the failed parse when the line as typed does not parse, of the
    refusal otherwise), and the counter of handled commands, the clock
    and the synchronized flag stay as they were. *)
Theorem refused_time_sync_not_counted :
  forall line w,
    buffer_empty w -> console_line line ->
    classify_command (Some line) = CMD_TYPE_TIME_SYNC ->
    (forall t, settimeofday_rc (os w) t <> 0) ->
    let w' := fst (scan_for_input_data (line ++ [LF]) w) in
    commands_processed (g_cmd_processor w') = commands_processed (g_cmd_processor w)
    /\ sys_clock w' = sys_clock w
    /\ time_sync_established w' = time_sync_established w
    /\ console w'
       = console w
         ++ [lit "Processing time synchronization: " ++ line ++ newline;
             if numeric line
             then lit "Error: Failed to set system time" ++ newline
             else lit "Warning: Failed to parse timestamp format" ++ newline].
Proof.
  intros line w Hw Hline Hcls Hrc w'. subst w'.
  assert (Hne : line <> []) by (intros ->; discriminate Hcls).
  rewrite scan_dispatch by assumption. rewrite Hcls.
  unfold execute_classified_command. rewrite synchronize_system_time_fields.
  pose proof (timestamp_fields_numeric line) as Hnum.
  destruct (timestamp_fields line) as [f|]; cbn [no_fields] in Hnum.
  - apply (f_equal negb) in Hnum. rewrite negb_involutive in Hnum. cbn [negb] in Hnum.
    rewrite <- Hnum. cbv zeta.
    set (t := {| tv_sec := _; tv_usec := _ |}).
    specialize (Hrc t). apply Z.eqb_neq in Hrc.
    unfold reset_buffer, load_line. world_simpl. rewrite !Hrc. world_simpl.
    rewrite <- app_assoc. repeat split.
  - apply (f_equal negb) in Hnum. rewrite negb_involutive in Hnum. cbn [negb] in Hnum.
    rewrite <- Hnum.
    unfold reset_buffer, load_line. world_simpl. rewrite <- app_assoc. repeat split.
Qed.

Lemma refused_time_sync_not_counted_witness :
  let refusing :=
    power_on {| settimeofday_rc := fun _ => -1; gettimeofday_rc := 0;
                malloc_ok := fun _ _ => true; sendto_rc := fun _ => 0;
                atan2 := fun y _ => y; sizeof_wifi_csi_info_t := 60 |}
             {| tv_sec := 5; tv_usec := 7 |} in
  sys_clock (fst (scan_for_input_data (lit "100.5" ++ [LF]) refusing))
  = {| tv_sec := 5; tv_usec := 7 |}.
Proof.
  intros refusing.
  assert (Hw : buffer_empty refusing) by (split; vm_compute; reflexivity).
  assert (Hl : console_line (lit "100.5")) by literal_console_line.
  assert (Hc : classify_command (Some (lit "100.5")) = CMD_TYPE_TIME_SYNC)
    by (vm_compute; reflexivity).
  assert (Hr : forall t, settimeofday_rc (os refusing) t <> 0) by (intros t; discriminate).
  exact (proj1 (proj2 (refused_time_sync_not_counted (lit "100.5") refusing Hw Hl Hc Hr))).
Defined.

(** ** The loops of [enhanced_csi_callback] *)

Lemma raw_loop_console :
  forall fuel idx len data w,
    console (raw_loop fuel idx len data w)
    = console w
      ++ raw_values_from (Nat.min fuel (Z.to_nat (Z.min 128 len - idx))) idx data.
Proof.
  induction fuel as [|fuel IH]; intros idx len data w; cbn [raw_loop].
  - cbn [Nat.min raw_values_from]. now rewrite app_nil_r.
  - destruct (Z.ltb_spec idx 128) as [H1|H1]; cbn [andb];
      [destruct (Z.ltb_spec idx len) as [H2|H2]|].
    + rewrite IH. world_simpl.
      replace (Z.to_nat (Z.min 128 len - idx))
        with (S (Z.to_nat (Z.min 128 len - (idx + 1)))) by lia.
      cbn [Nat.min raw_values_from]. rewrite <- app_assoc. reflexivity.
    + replace (Z.to_nat (Z.min 128 len - idx)) with O by lia.
      rewrite Nat.min_0_r. cbn [raw_values_from]. now rewrite app_nil_r.
    + replace (Z.to_nat (Z.min 128 len - idx)) with O by lia.
      rewrite Nat.min_0_r. cbn [raw_values_from]. now rewrite app_nil_r.
Qed.

Lemma amplitude_loop_console :
  forall fuel idx len data w,
    0 <= idx ->
    console (amplitude_loop fuel idx len data w)
    = console w
      ++ amplitude_values_from (Nat.min fuel (Z.to_nat (Z.min 64 (len / 2) - idx)))
                               idx data.
Proof.
  induction fuel as [|fuel IH]; intros idx len data w Hidx; cbn [amplitude_loop].
  - cbn [Nat.min amplitude_values_from]. now rewrite app_nil_r.
  - rewrite pair_condition by exact Hidx.
    destruct (Z.ltb_spec idx (Z.min 64 (len / 2))) as [H|H].
    + cbv zeta. rewrite IH by lia. world_simpl.
      replace (Z.to_nat (Z.min 64 (len / 2) - idx))
        with (S (Z.to_nat (Z.min 64 (len / 2) - (idx + 1)))) by lia.
      cbn [Nat.min amplitude_values_from]. rewrite <- app_assoc. reflexivity.
    + replace (Z.to_nat (Z.min 64 (len / 2) - idx)) with O by lia.
      rewrite Nat.min_0_r. cbn [amplitude_values_from]. now rewrite app_nil_r.
Qed.

Lemma pair_count_min : forall len, Nat.min 64 (Z.to_nat (Z.min 64 (len / 2) - 0)) = pair_count len.
Proof. intros len. unfold pair_count. lia. Qed.

Lemma concat_amplitude_values :
  forall n idx data, concat (amplitude_values_from n idx data) = pairs_from n idx data.
Proof.
  induction n as [|n IH]; intros idx data; [reflexivity|].
  cbn [amplitude_values_from concat pairs_from]. now rewrite IH.
Qed.

Lemma phase_loop_values :
  forall fuel idx len data w,
    0 <= idx ->
    console (phase_loop fuel idx len data w)
    = console w
      ++ phase_values_from (os w) (Nat.min fuel (Z.to_nat (Z.min 64 (len / 2) - idx)))
                           idx data.
Proof.
  induction fuel as [|fuel IH]; intros idx len data w Hidx; cbn [phase_loop].
  - cbn [Nat.min phase_values_from]. now rewrite app_nil_r.
  - rewrite pair_condition by exact Hidx.
    destruct (Z.ltb_spec idx (Z.min 64 (len / 2))) as [H|H].
    + cbv zeta. rewrite IH by lia. world_simpl.
      replace (Z.to_nat (Z.min 64 (len / 2) - idx))
        with (S (Z.to_nat (Z.min 64 (len / 2) - (idx + 1)))) by lia.
      cbn [Nat.min phase_values_from]. rewrite <- app_assoc. reflexivity.
    + replace (Z.to_nat (Z.min 64 (len / 2) - idx)) with O by lia.
      rewrite Nat.min_0_r. cbn [phase_values_from]. now rewrite app_nil_r.
Qed.

(** What the mode switch prints, mode by mode. *)
Lemma emit_measurements_console :
  forall len data w,
    let m := mode (g_csi_config w) in
    exists values,
      console (emit_measurements len data w) = console w ++ values
      /\ (m = CSI_MODE_RAW_DATA -> values = raw_values_from (raw_count len) 0 data)
      /\ (m = CSI_MODE_AMPLITUDE -> values = amplitude_values_from (pair_count len) 0 data)
      /\ (m = CSI_MODE_PHASE_INFO ->
          values = phase_values_from (os w) (pair_count len) 0 data)
      /\ (m <> CSI_MODE_RAW_DATA -> m <> CSI_MODE_AMPLITUDE -> m <> CSI_MODE_PHASE_INFO ->
          values = []).
Proof.
  intros len data w m. subst m. unfold emit_measurements.
  destruct (Z.eqb_spec (mode (g_csi_config w)) CSI_MODE_RAW_DATA) as [H1|H1].
  { eexists. split; [apply raw_loop_console|]. rewrite H1.
    replace (Nat.min 128 (Z.to_nat (Z.min 128 len - 0))) with (raw_count len)
      by (unfold raw_count; lia).
    repeat split; intros; try discriminate; try reflexivity; now contradiction. }
  destruct (Z.eqb_spec (mode (g_csi_config w)) CSI_MODE_AMPLITUDE) as [H2|H2].
  { eexists. split; [apply amplitude_loop_console; lia|]. rewrite H2, pair_count_min.
    repeat split; intros; try discriminate; try reflexivity; now contradiction. }
  destruct (Z.eqb_spec (mode (g_csi_config w)) CSI_MODE_PHASE_INFO) as [H3|H3].
  { eexists. split; [apply phase_loop_values; lia|]. rewrite H3, pair_count_min.
    repeat split; intros; try discriminate; try reflexivity; now contradiction. }
  exists []. split; [now rewrite app_nil_r|].
  repeat split; intros; try reflexivity; now contradiction.
Qed.

Lemma payload_of_heap :
  forall p w w', heap_live w' = heap_live w -> payload_of p w' = payload_of p w.
Proof. intros p w w' H. unfold payload_of, load. now rewrite H. Qed.

(** The console after [enhanced_csi_callback] on a sample with a
    payload: the header, the values of the mode switch, and the closing
    bracket. *)
Lemma enhanced_callback_console :
  forall info w,
    buf info <> BufNull ->
    exists w1,
      console (enhanced_csi_callback (Some info) w)
      = console (emit_measurements (len info) (payload_of (buf info) w) w1)
        ++ [lit "]" ++ newline]
      /\ console w1 = console w ++ callback_header info w
      /\ g_csi_config w1 = g_csi_config w /\ os w1 = os w.
Proof.
  intros info w Hbuf.
  assert (Htail :
    exists w1,
      (let w := printf (lit "CSI_DATA,") w in
       let w := printf (device_role (g_csi_config w) ++ lit ",") w in
       let w := printf (format_mac_address (mac info) ++ lit ",") w in
       let rx_info := rx_ctrl info in
       let w := printf (fmt_d (rssi rx_info) ++ lit "," ++ fmt_d (rate rx_info) ++ lit ","
                        ++ fmt_d (sig_mode rx_info) ++ lit "," ++ fmt_d (mcs rx_info)
                        ++ lit "," ++ fmt_d (cwb rx_info) ++ lit ",") w in
       let w := printf (fmt_d (smoothing rx_info) ++ lit ","
                        ++ fmt_d (not_sounding rx_info) ++ lit ","
                        ++ fmt_d (aggregation rx_info) ++ lit "," ++ fmt_d (stbc rx_info)
                        ++ lit "," ++ fmt_d (fec_coding rx_info) ++ lit ",") w in
       let w := printf (fmt_d (sgi rx_info) ++ lit "," ++ fmt_d (noise_floor rx_info)
                        ++ lit "," ++ fmt_d (ampdu_cnt rx_info) ++ lit ","
                        ++ fmt_d (channel rx_info) ++ lit ","
                        ++ fmt_d (secondary_channel rx_info) ++ lit ",") w in
       let w := printf (fmt_d (Decl.timestamp rx_info) ++ lit "," ++ fmt_d (ant rx_info)
                        ++ lit "," ++ fmt_d (sig_len rx_info) ++ lit ","
                        ++ fmt_d (rx_state rx_info) ++ lit ",") w in
       let '(current_time, w) := get_formatted_timestamp w in
       let time_text :=
         match current_time with Some p => load_chars p w | None => lit "(null)" end in
       let w := printf (fmt_d (Z.b2z (is_time_synchronized w)) ++ lit ","
                        ++ time_text ++ lit ",") w in
       let w := match current_time with Some p => free p w | None => w end in
       let data_ptr := payload_of (buf info) w in
       let w := printf (fmt_d (len info) ++ lit ",[") w in
       let w := emit_measurements (len info) data_ptr w in
       printf (lit "]" ++ ["010"%char]) w)
      = printf (lit "]" ++ newline)
          (emit_measurements (len info) (payload_of (buf info) w1)
             (printf (fmt_d (len info) ++ lit ",[") w1))
      /\ console (printf (fmt_d (len info) ++ lit ",[") w1)
         = console w ++ callback_header info w
      /\ heap_live w1 = heap_live w
      /\ g_csi_config w1 = g_csi_config w /\ os w1 = os w).
  { unfold callback_header, timestamp_string, format_mac_address.
    unfold get_formatted_timestamp, gettimeofday, malloc, is_time_synchronized.
    destruct w as [o clk con lg hn hl dg cb ts cp cc ap]. world_simpl.
    destruct (negb (gettimeofday_rc o =? 0)); destruct (malloc_ok o hn _);
      world_simpl; unfold load_chars, load; world_simpl;
      cbn [heap_replace heap_find heap_remove option_map];
      rewrite ?Nat.eqb_refl; cbn [heap_replace heap_find heap_remove];
      rewrite ?Nat.eqb_refl;
      (eexists; split; [reflexivity|]); world_simpl;
      (split; [rewrite <- !app_assoc; reflexivity|]); repeat split;
      cbn [heap_replace heap_remove]; rewrite ?Nat.eqb_refl;
      cbn [heap_remove]; now rewrite ?Nat.eqb_refl. }
  destruct Htail as (w1 & Heq & Hcon & Hheap & Hcfg & Hos).
  exists (printf (fmt_d (len info) ++ lit ",[") w1).
  rewrite <- (payload_of_heap (buf info) w w1 Hheap).
  split; [|split; [exact Hcon | split; [exact Hcfg | exact Hos]]].
  unfold enhanced_csi_callback.
  destruct (buf info) eqn:Hb; [contradiction| |]; exact (f_equal console Heq).
Qed.

(** X12. The values [enhanced_csi_callback] prints between the brackets
    follow the configured mode.  For a sample with a payload the callback
    prints the nine texts of the header, the values and the closing
    bracket: in raw mode the values are the first min (128, reported
    length) payload bytes, each as a signed decimal; in amplitude mode
    the amplitudes of the first min (64, length / 2) pairs with four
    decimals; in phase mode their phases; with any other mode value (0
    before the configuration is set) there is no value. *)
Theorem enhanced_callback_values_by_mode :
  forall info w,
    buf info <> BufNull ->
    let data := payload_of (buf info) w in
    let m := mode (g_csi_config w) in
    exists values,
      console (enhanced_csi_callback (Some info) w)
      = console w ++ callback_header info w ++ values ++ [lit "]" ++ newline]
      /\ (m = CSI_MODE_RAW_DATA -> values = raw_values_from (raw_count (len info)) 0 data)
      /\ (m = CSI_MODE_AMPLITUDE ->
          values = amplitude_values_from (pair_count (len info)) 0 data)
      /\ (m = CSI_MODE_PHASE_INFO ->
          values = phase_values_from (os w) (pair_count (len info)) 0 data)
      /\ (m <> CSI_MODE_RAW_DATA -> m <> CSI_MODE_AMPLITUDE -> m <> CSI_MODE_PHASE_INFO ->
          values = []).
Proof.
  intros info w Hbuf data m. subst data m.
  destruct (enhanced_callback_console info w Hbuf) as (w1 & Heq & Hcon & Hcfg & Hos).
  destruct (emit_measurements_console (len info) (payload_of (buf info) w) w1)
    as (values & Hv & Hmodes).
  cbv zeta in Hmodes. rewrite Hcfg, Hos in Hmodes.
  exists values. split; [|exact Hmodes].
  rewrite Heq, Hv, Hcon, <- !app_assoc. reflexivity.
Qed.

Lemma enhanced_callback_values_by_mode_witness :
  let w := set_csi_processing_mode CSI_MODE_RAW_DATA booted in
  exists values,
    console (enhanced_csi_callback (Some sample_csi) w)
    = console w ++ callback_header sample_csi w ++ values ++ [lit "]" ++ newline]
    /\ values = [ lit "3 "; lit "4 "; lit "-1 "; lit "0 " ].
Proof.
  intros w.
  assert (Hbuf : buf sample_csi <> BufNull) by discriminate.
  destruct (enhanced_callback_values_by_mode sample_csi w Hbuf)
    as (values & Hcon & Hraw & _).
  exists values. split; [exact Hcon|].
  rewrite (Hraw eq_refl). vm_compute. reflexivity.
Defined.

(** X13. In amplitude mode the two formatters of the firmware agree:
    the values [enhanced_csi_callback] prints for a sample after its
    header are, put together, exactly the value list between the
    brackets of the record the forwarding task formats for the same
    sample. *)
Theorem amplitude_formatters_agree :
  forall info w sync ts,
    buf info <> BufNull ->
    mode (g_csi_config w) = CSI_MODE_AMPLITUDE ->
    timestamp_text ts ->
    exists values,
      console (enhanced_csi_callback (Some info) w)
      = console w ++ callback_header info w ++ values ++ [lit "]" ++ newline]
      /\ format_csi_record info (payload_of (buf info) w) sync ts
         = Some (buffer_with
                   (record_header (fmt_mac true (mac info)) info sync ts
                    ++ concat values ++ lit "]" ++ newline)).
Proof.
  intros info w sync ts Hbuf Hmode Hts.
  destruct (enhanced_callback_console info w Hbuf) as (w1 & Heq & Hcon & Hcfg & Hos).
  destruct (emit_measurements_console (len info) (payload_of (buf info) w) w1)
    as (values & Hv & _ & Hamp & _).
  cbv zeta in Hamp. rewrite Hcfg in Hamp. specialize (Hamp Hmode).
  exists values. split.
  - rewrite Heq, Hv, Hcon, <- !app_assoc. reflexivity.
  - destruct (format_csi_record_text info (payload_of (buf info) w) sync ts Hts)
      as (Hfmt & _ & _).
    cbv zeta in Hfmt. rewrite Hfmt, Hamp. now rewrite concat_amplitude_values.
Qed.

Lemma amplitude_formatters_agree_witness :
  exists values,
    console (enhanced_csi_callback (Some sample_csi) booted)
    = console booted ++ callback_header sample_csi booted ++ values
      ++ [lit "]" ++ newline]
    /\ format_csi_record sample_csi (payload_of (buf sample_csi) booted) false None
       = Some (buffer_with
                 (record_header (fmt_mac true (mac sample_csi)) sample_csi false None
                  ++ concat values ++ lit "]" ++ newline)).
Proof.
  apply (amplitude_formatters_agree sample_csi booted false None).
  - discriminate.
  - vm_compute. reflexivity.
  - exact I.
Defined.

(** ** What [enhanced_csi_callback] changes *)

Lemma prints_only_refl : forall w, prints_only w w.
Proof. intros w. repeat split. exists []. now rewrite app_nil_r. Qed.

Lemma prints_only_trans :
  forall w1 w2 w3, prints_only w1 w2 -> prints_only w2 w3 -> prints_only w1 w3.
Proof.
  intros w1 w2 w3 (A1 & A2 & A3 & A4 & A5 & A6 & A7 & A8 & A9 & A10 & m1 & A11)
         (B1 & B2 & B3 & B4 & B5 & B6 & B7 & B8 & B9 & B10 & m2 & B11).
  repeat split; try congruence.
  exists (m1 ++ m2). rewrite B11, A11, app_assoc. reflexivity.
Qed.

Lemma prints_only_printf : forall text w, prints_only w (printf text w).
Proof. intros text w. repeat split. exists [text]. reflexivity. Qed.

Lemma prints_only_raw_loop :
  forall fuel idx len data w, prints_only w (raw_loop fuel idx len data w).
Proof.
  induction fuel as [|fuel IH]; intros idx len data w; cbn [raw_loop];
    [apply prints_only_refl|].
  destruct ((idx <? 128) && (idx <? len)); [|apply prints_only_refl].
  eapply prints_only_trans; [apply prints_only_printf | apply IH].
Qed.

Lemma prints_only_amplitude_loop :
  forall fuel idx len data w, prints_only w (amplitude_loop fuel idx len data w).
Proof.
  induction fuel as [|fuel IH]; intros idx len data w; cbn [amplitude_loop];
    [apply prints_only_refl|].
  destruct ((idx <? 64) && (idx * 2 + 1 <? len)); [|apply prints_only_refl].
  cbv zeta. eapply prints_only_trans; [apply prints_only_printf | apply IH].
Qed.

Lemma prints_only_phase_loop :
  forall fuel idx len data w, prints_only w (phase_loop fuel idx len data w).
Proof.
  induction fuel as [|fuel IH]; intros idx len data w; cbn [phase_loop];
    [apply prints_only_refl|].
  destruct ((idx <? 64) && (idx * 2 + 1 <? len)); [|apply prints_only_refl].
  cbv zeta. eapply prints_only_trans; [apply prints_only_printf | apply IH].
Qed.

Lemma prints_only_emit :
  forall len data w, prints_only w (emit_measurements len data w).
Proof.
  intros len data w. unfold emit_measurements.
  destruct (_ =? CSI_MODE_RAW_DATA); [apply prints_only_raw_loop|].
  destruct (_ =? CSI_MODE_AMPLITUDE); [apply prints_only_amplitude_loop|].
  destruct (_ =? CSI_MODE_PHASE_INFO); [apply prints_only_phase_loop|].
  apply prints_only_refl.
Qed.

(** The call on a sample with a payload: the record starts with its tag
    and ends with the closing bracket. *)
Lemma enhanced_callback_valid :
  forall info w,
    buf info <> BufNull ->
    let w' := enhanced_csi_callback (Some info) w in
    prints_only w w'
    /\ exists body,
         console w' = console w ++ lit "CSI_DATA," :: body ++ [lit "]" ++ newline].
Proof.
  intros info w Hbuf w'. subst w'. unfold enhanced_csi_callback.
  assert (Hgoal :
    forall tail : world -> world,
      (forall w0, exists w1,
          prints_only w0 w1
          /\ tail w0 = printf (lit "]" ++ newline)
                         (emit_measurements (len info) (payload_of (buf info) w1)
                            (printf (fmt_d (len info) ++ lit ",[") w1))
          /\ exists body0, console w1 = console w0 ++ body0) ->
      prints_only w (tail (printf (lit "CSI_DATA,") w))
      /\ exists body,
           console (tail (printf (lit "CSI_DATA,") w))
           = console w ++ lit "CSI_DATA," :: body ++ [lit "]" ++ newline]).
  { intros tail Htail.
    destruct (Htail (printf (lit "CSI_DATA,") w)) as (w1 & Hp & Heq & body0 & Hc).
    rewrite Heq.
    pose proof (prints_only_emit (len info) (payload_of (buf info) w1)
                  (printf (fmt_d (len info) ++ lit ",[") w1)) as He.
    split.
    - eapply prints_only_trans; [apply prints_only_printf|].
      eapply prints_only_trans; [exact Hp|].
      eapply prints_only_trans; [apply prints_only_printf|].
      eapply prints_only_trans; [exact He | apply prints_only_printf].
    - destruct He as (_ & _ & _ & _ & _ & _ & _ & _ & _ & _ & more & Hm).
      exists (body0 ++ (fmt_d (len info) ++ lit ",[") :: more).
      world_simpl. rewrite Hm. world_simpl. rewrite Hc. world_simpl.
      rewrite <- !app_assoc. reflexivity. }
  assert (Htail :
    forall w0, exists w1,
      prints_only w0 w1
      /\ (let w := printf (device_role (g_csi_config w0) ++ lit ",") w0 in
          let w := printf (format_mac_address (mac info) ++ lit ",") w in
          let rx_info := rx_ctrl info in
          let w := printf (fmt_d (rssi rx_info) ++ lit "," ++ fmt_d (rate rx_info) ++ lit ","
                           ++ fmt_d (sig_mode rx_info) ++ lit "," ++ fmt_d (mcs rx_info)
                           ++ lit "," ++ fmt_d (cwb rx_info) ++ lit ",") w in
          let w := printf (fmt_d (smoothing rx_info) ++ lit ","
                           ++ fmt_d (not_sounding rx_info) ++ lit ","
                           ++ fmt_d (aggregation rx_info) ++ lit "," ++ fmt_d (stbc rx_info)
                           ++ lit "," ++ fmt_d (fec_coding rx_info) ++ lit ",") w in
          let w := printf (fmt_d (sgi rx_info) ++ lit "," ++ fmt_d (noise_floor rx_info)
                           ++ lit "," ++ fmt_d (ampdu_cnt rx_info) ++ lit ","
                           ++ fmt_d (channel rx_info) ++ lit ","
                           ++ fmt_d (secondary_channel rx_info) ++ lit ",") w in
          let w := printf (fmt_d (Decl.timestamp rx_info) ++ lit "," ++ fmt_d (ant rx_info)
                           ++ lit "," ++ fmt_d (sig_len rx_info) ++ lit ","
                           ++ fmt_d (rx_state rx_info) ++ lit ",") w in
          let '(current_time, w) := get_formatted_timestamp w in
          let time_text :=
            match current_time with Some p => load_chars p w | None => lit "(null)" end in
          let w := printf (fmt_d (Z.b2z (is_time_synchronized w)) ++ lit ","
                           ++ time_text ++ lit ",") w in
          let w := match current_time with Some p => free p w | None => w end in
          let data_ptr := payload_of (buf info) w in
          let w := printf (fmt_d (len info) ++ lit ",[") w in
          let w := emit_measurements (len info) data_ptr w in
          printf (lit "]" ++ ["010"%char]) w)
         = printf (lit "]" ++ newline)
             (emit_measurements (len info) (payload_of (buf info) w1)
                (printf (fmt_d (len info) ++ lit ",[") w1))
      /\ exists body0, console w1 = console w0 ++ body0).
  { intros w0. unfold get_formatted_timestamp, gettimeofday, malloc, is_time_synchronized.
    destruct w0 as [o clk con lg hn hl dg cb ts cp cc ap]. world_simpl.
    destruct (negb (gettimeofday_rc o =? 0)); destruct (malloc_ok o hn _);
      world_simpl; cbn [heap_replace]; rewrite ?Nat.eqb_refl;
      cbn [heap_remove]; rewrite ?Nat.eqb_refl;
      (eexists; split; [|split; [reflexivity|]];
       [unfold prints_only; world_simpl;
        cbn [heap_replace]; rewrite ?Nat.eqb_refl;
        cbn [heap_remove]; rewrite ?Nat.eqb_refl; repeat split;
        eexists; rewrite <- ?app_assoc; reflexivity
       | world_simpl; eexists; rewrite <- ?app_assoc; reflexivity]). }
  destruct (buf info) eqn:Hb; [contradiction| |];
    exact (Hgoal _ Htail).
Qed.

(** X14. [enhanced_csi_callback] only prints.  On a NULL sample or a
    sample without a payload it returns at once and the machine is as
    before; otherwise it prints one record, from the tag [CSI_DATA,] to
    the closing bracket and newline, and leaves the clock, the log, the
    live blocks of the heap (the time stamp string is freed), the
    datagrams, the flags, the line buffer, the configuration and the
    application state as they were. *)
Theorem enhanced_callback_only_prints :
  forall s w,
    let w' := enhanced_csi_callback s w in
    prints_only w w'
    /\ match s with
       | None => w' = w
       | Some info =>
           (buf info = BufNull -> w' = w)
           /\ (buf info <> BufNull ->
               exists body,
                 console w' = console w ++ lit "CSI_DATA," :: body ++ [lit "]" ++ newline])
       end.
Proof.
  intros [info|] w w'; subst w'; [|split; [apply prints_only_refl | reflexivity]].
  destruct (buf info) eqn:Hb.
  - assert (Hsame : enhanced_csi_callback (Some info) w = w)
      by (unfold enhanced_csi_callback; now rewrite Hb).
    rewrite Hsame. split; [apply prints_only_refl|].
    split; [reflexivity | intros H; now contradiction H].
  - assert (Hne : buf info <> BufNull) by (rewrite Hb; discriminate).
    destruct (enhanced_callback_valid info w Hne) as [Hp Hc]. cbv zeta in Hp, Hc.
    split; [exact Hp|]. split; [intros H; discriminate H | intros _; exact Hc].
  - assert (Hne : buf info <> BufNull) by (rewrite Hb; discriminate).
    destruct (enhanced_callback_valid info w Hne) as [Hp Hc]. cbv zeta in Hp, Hc.
    split; [exact Hp|]. split; [intros H; discriminate H | intros _; exact Hc].
Qed.

(** X15. [initialize_csi_collection] stores the configuration first,
    whatever follows: the role cut to 15 characters, the mode, filtering
    on and a buffer size of 128.  It returns [ESP_OK] exactly when the
    three driver calls succeed, and then the callback registered is the
    custom one if given and [enhanced_csi_callback] otherwise, and the
    CSV header has been printed; when a driver call fails its error is
    returned, no callback is registered and nothing is printed. *)
Theorem csi_collection_setup_outcomes :
  forall role m custom drv w,
    let r := initialize_csi_collection role m custom drv w in
    g_csi_config (snd r)
      = {| mode := m; device_role := firstn 15 role;
           enable_filtering := true; buffer_size := 128 |}
    /\ (List.length (device_role (g_csi_config (snd r))) <= 15)%nat
    /\ (fst r = ESP_OK
        <-> set_csi_rc drv = ESP_OK /\ set_csi_config_rc drv = ESP_OK
            /\ set_csi_rx_cb_rc drv = ESP_OK)
    /\ (fst r = ESP_OK ->
        csi_rx_cb (snd r)
          = Some (match custom with Some f => f | None => enhanced_csi_callback_ptr end)
        /\ console (snd r) = console (output_csi_header w))
    /\ (fst r <> ESP_OK ->
        csi_rx_cb (snd r) = csi_rx_cb w /\ console (snd r) = console w
        /\ (fst r = set_csi_rc drv \/ fst r = set_csi_config_rc drv
            \/ fst r = set_csi_rx_cb_rc drv)).
Proof.
  intros role m custom drv w r. subst r. unfold initialize_csi_collection, strncpy.
  destruct (Z.eqb_spec (set_csi_rc drv) ESP_OK) as [H1|H1]; cbn [negb];
    [destruct (Z.eqb_spec (set_csi_config_rc drv) ESP_OK) as [H2|H2]; cbn [negb];
       [destruct (Z.eqb_spec (set_csi_rx_cb_rc drv) ESP_OK) as [H3|H3]; cbn [negb]|]|];
    world_simpl; cbn [device_role].
  all: split; [reflexivity|].
  all: split; [apply firstn_le_length|].
  all: split; [split; [intros H; try (repeat split; assumption); congruence
                      | intros (A & B & C); try reflexivity; congruence]|].
  all: split; [intros H; try (split; reflexivity); congruence|].
  all: intros H; try (now contradiction H); repeat split; auto.
Qed.

(** ** The callback when it does not enqueue *)

Lemma filter_rejects :
  forall mac,
    List.length mac = 6%nat -> ~ In mac allow_list ->
    existsb (fun d => strcmp (fmt_mac false mac) d =? 0) authorized_devices = false.
Proof.
  intros mac Hlen Hnot.
  destruct mac as [|b0 [|b1 [|b2 [|b3 [|b4 [|b5 [|]]]]]]]; try discriminate Hlen.
  destruct (existsb _ authorized_devices) eqn:He; [|reflexivity].
  exfalso. apply Hnot. now apply authorized_iff_allow_list.
Qed.

(** X16. A sample the callback rejects costs nothing: for a NULL
    sample, a sample without a payload, or a sender that is not on the
    allow-list, the callback writes one line of log and nothing else: no
    memory is requested, and the queue, the heap, the console and the
    datagrams are as before. *)
Theorem rejected_sample_costs_nothing :
  forall s w,
    (forall info, s = Some info ->
       buf info = BufNull
       \/ (List.length (mac info) = 6%nat /\ ~ In (mac info) allow_list)) ->
    let w' := research_csi_data_callback s w in
    (exists entry, esp_log w' = esp_log w ++ [entry])
    /\ heap_next w' = heap_next w /\ heap_live w' = heap_live w
    /\ app_state w' = app_state w /\ console w' = console w
    /\ datagrams w' = datagrams w.
Proof.
  intros [info|] w Hrej w'; subst w'; unfold research_csi_data_callback;
    [|split; [eexists; reflexivity | repeat split]].
  destruct (Hrej info eq_refl) as [Hnull|[Hlen Hnot]].
  - rewrite Hnull. split; [eexists; reflexivity | repeat split].
  - pose proof (is_authorized_research_device_run (mac info) w) as Hrun.
    cbv zeta in Hrun. rewrite (filter_rejects _ Hlen Hnot) in Hrun.
    destruct (buf info); rewrite ?Hrun; cbn [negb];
      (split; [eexists; reflexivity | repeat split]).
Qed.

Lemma rejected_sample_costs_nothing_witness :
  heap_next (research_csi_data_callback
               (Some {| rx_ctrl := sample_rx_ctrl; mac := [x00; x11; x22; x33; x44; x55];
                        len := 4; buf := BufDriver [x03; x04; xff; x00] |}) booted)
  = heap_next booted.
Proof.
  refine (proj1 (proj2 (rejected_sample_costs_nothing _ booted _))).
  intros info Heq. injection Heq as <-. right. split; [reflexivity|].
  intros [H|[H|[]]]; discriminate H.
Defined.

(** X17. The sample the callback puts in the queue is a deep copy: with
    room in the queue and both allocations granted, the handle appended
    to the queue points to a record with the sample's reception data,
    sender and length, whose payload pointer leads to a block of its own
    holding the first [len] bytes of the driver's payload; the two
    blocks are the only change of the heap. *)
Theorem queued_sample_is_a_deep_copy :
  forall info content w q,
    buf info = BufDriver content ->
    In (mac info) allow_list ->
    csi_data_queue (app_state w) = Some q ->
    Z.of_nat (List.length (items q)) < uxLength q ->
    malloc_ok (os w) (heap_next w) (sizeof_wifi_csi_info_t (os w)) = true ->
    malloc_ok (os w) (S (heap_next w)) (len info) = true ->
    let w' := research_csi_data_callback (Some info) w in
    let p := heap_next w in
    let copy := {| rx_ctrl := rx_ctrl info; mac := mac info; len := len info;
                   buf := BufHeap (S p) |} in
    queue_items w' = items q ++ [p]
    /\ load p w' = Some (BlkCsi copy)
    /\ payload_of (buf copy) w' = firstn (Z.to_nat (len info)) content
    /\ heap_live w'
       = (S p, BlkBytes (firstn (Z.to_nat (len info)) content))
         :: (p, BlkCsi copy) :: heap_live w.
Proof.
  intros info content w q Hbuf Hmac Hq Hroom Hm1 Hm2 w' p copy. subst w' p copy.
  rewrite (callback_admissible_result info content w q Hbuf Hmac Hq Hm1 Hm2).
  apply Z.ltb_lt in Hroom. rewrite Hroom.
  unfold queue_items, load, payload_of, load. world_simpl. cbn [heap_find buf].
  rewrite eqb_succ_false, !Nat.eqb_refl. repeat split.
Qed.

Lemma queued_sample_is_a_deep_copy_witness :
  payload_of (BufHeap (S (heap_next booted)))
             (research_csi_data_callback (Some sample_csi) booted)
  = [x03; x04; xff; x00].
Proof.
  assert (Hq : csi_data_queue (app_state booted)
               = Some {| uxLength := 64; items := [] |}) by (vm_compute; reflexivity).
  assert (Hmac : In (mac sample_csi) allow_list) by (left; reflexivity).
  assert (Hroom : Z.of_nat (List.length (items {| uxLength := 64; items := [] |}))
                  < uxLength {| uxLength := 64; items := [] |}) by (cbn; lia).
  exact (proj1 (proj2 (proj2
           (queued_sample_is_a_deep_copy sample_csi [x03; x04; xff; x00] booted _
              eq_refl Hmac Hq Hroom eq_refl eq_refl)))).
Defined.

(** X18. When [malloc] refuses, the sample is dropped without a leak:
    if the record cannot be allocated, or the record can and its payload
    buffer cannot (the record is then freed again), the live blocks of
    the heap and the queue are as before and the failure is logged as an
    error. *)
Theorem allocation_failure_drops_without_leak :
  forall info content w,
    buf info = BufDriver content ->
    In (mac info) allow_list ->
    let w' := research_csi_data_callback (Some info) w in
    let first := malloc_ok (os w) (heap_next w) (sizeof_wifi_csi_info_t (os w)) in
    let second := malloc_ok (os w) (S (heap_next w)) (len info) in
    (first = false ->
       heap_live w' = heap_live w /\ app_state w' = app_state w
       /\ heap_next w' = S (heap_next w)
       /\ exists entry,
            esp_log w' = esp_log w
                         ++ [entry; (LOGE, lit "Failed to allocate memory for CSI data")])
    /\ (first = true -> second = false ->
          heap_live w' = heap_live w /\ app_state w' = app_state w
          /\ heap_next w' = S (S (heap_next w))
          /\ exists entry,
               esp_log w' = esp_log w
                            ++ [entry;
                                (LOGE, lit "Failed to allocate memory for CSI buffer")]).
Proof.
  intros info content w Hbuf Hmac w' first second. subst w' first second.
  unfold research_csi_data_callback. rewrite Hbuf.
  pose proof (is_authorized_research_device_run (mac info) w) as Hrun. cbv zeta in Hrun.
  rewrite Hrun, (admissible_passes_filter _ Hmac). cbn [negb]. clear Hrun.
  destruct w as [o clk con lg hn hl dg cb ts cp cc ap]. world_simpl.
  split.
  - intros H1. unfold malloc. world_simpl. rewrite H1. world_simpl.
    repeat split. eexists. rewrite <- app_assoc. reflexivity.
  - intros H1 H2. unfold malloc. world_simpl. rewrite !H1. world_simpl.
    rewrite !H2. world_simpl.
    cbn [heap_replace heap_remove]. rewrite !Nat.eqb_refl. cbn [heap_remove].
    rewrite ?Nat.eqb_refl.
    repeat split. eexists. rewrite <- app_assoc. reflexivity.
Qed.

Lemma allocation_failure_drops_without_leak_witness :
  let starved :=
    power_on {| settimeofday_rc := fun _ => 0; gettimeofday_rc := 0;
                malloc_ok := fun _ _ => false; sendto_rc := fun _ => 0;
                atan2 := fun y _ => y; sizeof_wifi_csi_info_t := 60 |}
             {| tv_sec := 5; tv_usec := 7 |} in
  heap_live (research_csi_data_callback (Some sample_csi) starved) = heap_live starved.
Proof.
  intros starved.
  assert (Hmac : In (mac sample_csi) allow_list) by (left; reflexivity).
  destruct (allocation_failure_drops_without_leak sample_csi [x03; x04; xff; x00] starved
              eq_refl Hmac) as [Hfirst _].
  exact (proj1 (Hfirst eq_refl)).
Defined.

(** ** The forwarder's counter *)

Lemma transmit_unresolved :
  forall record w,
    host_discovered (app_state w) = false \/ udp_socket_descriptor (app_state w) < 0 ->
    transmit_csi_data record w = (ESP_FAIL, w).
Proof.
  intros record w H. unfold transmit_csi_data.
  destruct H as [H|H]; [rewrite H; reflexivity|].
  apply Z.ltb_lt in H. rewrite H, orb_true_r. reflexivity.
Qed.

Lemma transmit_resolved :
  forall record w,
    host_discovered (app_state w) = true -> 0 <= udp_socket_descriptor (app_state w) ->
    let w' := snd (transmit_csi_data record w) in
    os w' = os w
    /\ host_discovered (app_state w') = true
    /\ udp_socket_descriptor (app_state w') = udp_socket_descriptor (app_state w)
    /\ discovered_host_ip (app_state w') = discovered_host_ip (app_state w)
    /\ datagrams w' = datagrams w ++ [datagram_of w record]
    /\ processed_packets (app_state w')
       = if accepted w record
         then (processed_packets (app_state w) + 1) mod 2 ^ 32
         else processed_packets (app_state w).
Proof.
  intros record w Hd Hs w'. subst w'. unfold transmit_csi_data, accepted, datagram_of.
  rewrite Hd. cbn [negb orb].
  destruct (Z.ltb_spec (udp_socket_descriptor (app_state w)) 0) as [?|_]; [lia|].
  cbv zeta.
  set (d := {| dest_ip := _; dest_port := _; payload := _ |}).
  destruct (Z.ltb_spec (sendto_rc (os w) d) 0) as [Hneg|Hpos]; world_simpl.
  - destruct (Z.leb_spec 0 (sendto_rc (os w) d)); [lia|]. repeat split; assumption.
  - destruct (Z.leb_spec 0 (sendto_rc (os w) d)); [|lia].
    cbn [host_discovered udp_socket_descriptor discovered_host_ip processed_packets
         set_processed_packets].
    repeat split; assumption.
Qed.

Lemma accepted_same :
  forall w w' record,
    os w' = os w -> discovered_host_ip (app_state w') = discovered_host_ip (app_state w) ->
    accepted w' record = accepted w record.
Proof.
  intros w w' record Hos Hip. unfold accepted, datagram_of. now rewrite Hos, Hip.
Qed.

Lemma transmit_all_resolved :
  forall records w,
    host_discovered (app_state w) = true -> 0 <= udp_socket_descriptor (app_state w) ->
    0 <= processed_packets (app_state w) < 2 ^ 32 ->
    let w' := transmit_all records w in
    datagrams w' = datagrams w ++ map (datagram_of w) records
    /\ processed_packets (app_state w')
       = (processed_packets (app_state w)
          + Z.of_nat (List.length (filter (accepted w) records))) mod 2 ^ 32.
Proof.
  induction records as [|r records IH]; intros w Hd Hs Hn w'; subst w'.
  - cbn [transmit_all fold_left map filter List.length]. rewrite app_nil_r, Z.add_0_r.
    split; [reflexivity | now rewrite Z.mod_small].
  - change (transmit_all (r :: records) w)
      with (transmit_all records (snd (transmit_csi_data r w))).
    destruct (transmit_resolved r w Hd Hs) as (Hos & Hd1 & Hs1 & Hip & Hdg & Hpp).
    cbv zeta in Hos, Hd1, Hs1, Hip, Hdg, Hpp.
    set (w1 := snd (transmit_csi_data r w)) in *.
    assert (Hn1 : 0 <= processed_packets (app_state w1) < 2 ^ 32).
    { rewrite Hpp. destruct (accepted w r); [apply Z.mod_pos_bound; lia | exact Hn]. }
    rewrite <- Hs1 in Hs.
    destruct (IH w1 Hd1 Hs Hn1) as [Hdg' Hpp']. cbv zeta in Hdg', Hpp'.
    assert (Hmap : map (datagram_of w1) records = map (datagram_of w) records).
    { apply map_ext. intros x. unfold datagram_of. now rewrite Hip. }
    assert (Hfil : filter (accepted w1) records = filter (accepted w) records).
    { apply filter_ext. intros x. now apply accepted_same. }
    rewrite Hdg', Hpp', Hdg, Hpp, Hmap, Hfil. split.
    + cbn [map]. rewrite <- app_assoc. reflexivity.
    + cbn [filter]. destruct (accepted w r); [|reflexivity].
      cbn [List.length]. rewrite Zplus_mod_idemp_l. f_equal. lia.
Qed.

(** X20. [processed_packets] counts the datagrams [sendto] accepted.
    With the peer resolved and a socket, every record handed to
    [transmit_csi_data] goes to [sendto] for the resolved address and
    port 9999, and after any run of records the counter has grown, as a
    32-bit unsigned number, by the number of records [sendto] took.
    Without a resolved peer or without a socket the calls change
    nothing. *)
Theorem processed_packets_counts_accepted :
  forall records w,
    0 <= processed_packets (app_state w) < 2 ^ 32 ->
    let w' := transmit_all records w in
    (host_discovered (app_state w) = true ->
     0 <= udp_socket_descriptor (app_state w) ->
     datagrams w' = datagrams w ++ map (datagram_of w) records
     /\ processed_packets (app_state w')
        = (processed_packets (app_state w)
           + Z.of_nat (List.length (filter (accepted w) records))) mod 2 ^ 32)
    /\ (host_discovered (app_state w) = false
        \/ udp_socket_descriptor (app_state w) < 0 ->
        w' = w).
Proof.
  intros records w Hn w'. subst w'. split.
  - intros Hd Hs. now apply transmit_all_resolved.
  - intros H. induction records as [|r records IH]; [reflexivity|].
    change (transmit_all (r :: records) w)
      with (transmit_all records (snd (transmit_csi_data r w))).
    rewrite transmit_unresolved by exact H. exact IH.
Qed.

Lemma processed_packets_counts_accepted_witness :
  processed_packets
    (app_state (transmit_all [lit "a"; lit "b"] (mdns_discovery_cycle (ESP_OK, []) booted)))
  = 2.
Proof.
  set (w := mdns_discovery_cycle (ESP_OK, []) booted).
  assert (Hn : 0 <= processed_packets (app_state w) < 2 ^ 32)
    by (vm_compute; split; [discriminate | reflexivity]).
  assert (Hd : host_discovered (app_state w) = true) by (vm_compute; reflexivity).
  assert (Hs : 0 <= udp_socket_descriptor (app_state w)) by (vm_compute; discriminate).
  destruct (processed_packets_counts_accepted [lit "a"; lit "b"] w Hn) as [H _].
  destruct (H Hd Hs) as [_ Hpp]. rewrite Hpp. vm_compute. reflexivity.
Defined.

(** ** The discovery loop *)

Lemma failed_query_cycle :
  forall rc results w,
    host_discovered (app_state w) = false -> rc <> ESP_OK ->
    app_state (mdns_discovery_cycle (rc, results) w) = app_state w
    /\ datagrams (mdns_discovery_cycle (rc, results) w) = datagrams w
    /\ esp_log (mdns_discovery_cycle (rc, results) w)
       = esp_log w
         ++ [(LOGI, lit "Searching for host computer via mDNS...");
             (LOGW, lit "mDNS query failed, using broadcast discovery")].
Proof.
  intros rc results w Hd Hrc. unfold mdns_discovery_cycle, discover_host_computer.
  rewrite Hd. cbn [negb]. apply Z.eqb_neq in Hrc. rewrite Hrc. cbn [negb snd].
  world_simpl. rewrite <- app_assoc. repeat split.
Qed.

Lemma discovery_loop_first_answered :
  forall queries w,
    host_discovered (app_state w) = false ->
    app_state (mdns_discovery_loop queries w)
    = match first_answered queries with
      | Some q => set_discovered_host (resolved_address (snd q)) (app_state w)
      | None => app_state w
      end.
Proof.
  induction queries as [|[rc results] rest IH]; intros w Hd; [reflexivity|].
  cbn [mdns_discovery_loop]. unfold first_answered. cbn [find fst].
  destruct (Z.eqb_spec rc ESP_OK) as [->|Hrc].
  - rewrite discovery_loop_resolved.
    + apply discovery_cycle_unresolved. exact Hd.
    + rewrite discovery_cycle_unresolved by exact Hd. reflexivity.
  - destruct (failed_query_cycle rc results w Hd Hrc) as (Happ & _ & _).
    rewrite IH by (rewrite Happ; exact Hd). rewrite Happ. reflexivity.
Qed.

(** X21. The discovery loop resolves the peer with the first query that
    is answered without error, and for good: the peer becomes the first
    usable result of that answer, or the broadcast address when it has
    none.  Queries that fail before it leave the peer unresolved (the
    fallback is not taken on a failed query, whatever the log line
    says), and while it is unresolved [transmit_csi_data] returns
    [ESP_FAIL] and sends nothing. *)
Theorem first_answered_query_resolves_peer :
  forall queries w,
    host_discovered (app_state w) = false ->
    let w' := mdns_discovery_loop queries w in
    match first_answered queries with
    | Some q =>
        host_discovered (app_state w') = true
        /\ discovered_host_ip (app_state w') = resolved_address (snd q)
    | None =>
        app_state w' = app_state w
        /\ forall record, transmit_csi_data record w' = (ESP_FAIL, w')
    end.
Proof.
  intros queries w Hd w'. subst w'.
  pose proof (discovery_loop_first_answered queries w Hd) as H.
  destruct (first_answered queries) as [q|].
  - rewrite H. split; reflexivity.
  - split; [exact H|]. intros record. apply transmit_unresolved. left.
    rewrite H. exact Hd.
Qed.

Lemma first_answered_query_resolves_peer_witness :
  discovered_host_ip
    (app_state (mdns_discovery_loop
                  [(ESP_FAIL, []);
                   (ESP_OK, [{| hostname := Some (lit "host"); addr := Some (10, 0, 0, 7) |}]);
                   (ESP_OK, [])] booted))
  = lit "10.0.0.7".
Proof.
  assert (Hd : host_discovered (app_state booted) = false) by (vm_compute; reflexivity).
  exact (proj2 (first_answered_query_resolves_peer
                  [(ESP_FAIL, []);
                   (ESP_OK, [{| hostname := Some (lit "host"); addr := Some (10, 0, 0, 7) |}]);
                   (ESP_OK, [])] booted Hd)).
Defined.

(** ** A sample through the pipeline *)

Lemma transmit_frame :
  forall record w,
    let w' := snd (transmit_csi_data record w) in
    heap_live w' = heap_live w /\ heap_next w' = heap_next w
    /\ console w' = console w
    /\ csi_data_queue (app_state w') = csi_data_queue (app_state w).
Proof.
  intros record w w'. subst w'. unfold transmit_csi_data.
  destruct (negb _ || _); [repeat split|]. cbv zeta.
  destruct (sendto_rc _ _ <? 0); world_simpl; repeat split.
Qed.

Lemma eqb_succ2_false : forall p, Nat.eqb p (S (S p)) = false.
Proof. intros. apply Nat.eqb_neq. lia. Qed.

Lemma short_timestamp_text : timestamp_text (Some (lit "0.0")).
Proof. split; [cbn; lia | repeat constructor; discriminate]. Qed.

Ltac heap_simpl :=
  repeat (progress (cbn [heap_find heap_remove heap_replace Nat.eqb];
                    rewrite ?Nat.eqb_refl, ?eqb_succ_false, ?eqb_succ2_false)).

(** X19. A sample goes through the pipeline intact and leaves nothing
    behind.  When the callback has put an allow-listed sample into the
    empty queue, the next turn of the forwarding task takes it out,
    prints one record (the header made of the sample's own reception
    data and length, the amplitudes of the first [len] bytes of its
    payload, the closing bracket and newline), and frees the record, its
    payload and the time stamp string: the queue is empty again and the
    live blocks of the heap are those from before the callback. *)
Theorem queued_sample_round_trip :
  forall info content w q,
    buf info = BufDriver content ->
    In (mac info) allow_list ->
    csi_data_queue (app_state w) = Some q ->
    items q = [] -> 0 < uxLength q ->
    malloc_ok (os w) (heap_next w) (sizeof_wifi_csi_info_t (os w)) = true ->
    malloc_ok (os w) (S (heap_next w)) (len info) = true ->
    let w1 := research_csi_data_callback (Some info) w in
    exists w2,
      csi_data_processing_step w1 = Ran w2
      /\ console w2
         = console w
           ++ [record_header (fmt_mac true (mac info)) info (is_time_synchronized w)
                             (timestamp_string w1)
               ++ pairs_from (pair_count (len info)) 0
                             (firstn (Z.to_nat (len info)) content)
               ++ lit "]" ++ newline]
      /\ heap_live w2 = heap_live w
      /\ queue_items w2 = [].
Proof.
  intros info content w q Hbuf Hmac Hq Hitems Hcap Hm1 Hm2 w1. subst w1.
  rewrite (callback_admissible_result info content w q Hbuf Hmac Hq Hm1 Hm2).
  rewrite Hitems. cbn [List.length Z.of_nat app].
  assert (Hroom : (0 <? uxLength q) = true) by (apply Z.ltb_lt; exact Hcap).
  rewrite Hroom. clear Hm1 Hm2 Hroom Hcap Hitems Hq.
  destruct w as [o clk con lg hn hl dg cb ts cp cc ap].
  unfold csi_data_processing_step, timestamp_string, xQueueReceive, load,
    get_formatted_timestamp, gettimeofday, malloc, is_time_synchronized.
  world_simpl. cbn [csi_data_queue set_csi_data_queue items uxLength app_state].
  heap_simpl. world_simpl.
  destruct (negb (gettimeofday_rc o =? 0)); destruct (malloc_ok o (S (S hn)) _);
    world_simpl; cbn [option_map fst snd]; unfold load_chars, payload_of, load;
    world_simpl; cbn [buf]; heap_simpl.
  all: match goal with
       | |- context [format_csi_record ?c ?d ?s ?t] =>
           let Hfmt := fresh "Hfmt" in
           let Hlen := fresh "Hlen" in
           let Hp := fresh "Hp" in
           assert (Hts : timestamp_text t)
             by first [exact I | exact short_timestamp_text | apply format_readable_timestamp];
           destruct (format_csi_record_text c d s t Hts) as (Hfmt & Hlen & Hp);
           cbv zeta in Hfmt, Hlen, Hp; rewrite Hfmt;
           rewrite c_str_buffer_with by (lia || exact Hp)
       end.
  all: eexists; split; [reflexivity|].
  all: unfold queue_items; world_simpl;
       repeat match goal with
              | |- context [heap_live (snd (transmit_csi_data ?r ?x))] =>
                  rewrite (proj1 (transmit_frame r x))
              | |- context [console (snd (transmit_csi_data ?r ?x))] =>
                  rewrite (proj1 (proj2 (proj2 (transmit_frame r x))))
              | |- context [app_state (snd (transmit_csi_data ?r ?x))] =>
                  rewrite (proj2 (proj2 (proj2 (transmit_frame r x))))
              end;
       world_simpl; heap_simpl;
       cbn [csi_data_queue set_csi_data_queue items app_state];
       repeat split.
Qed.

Lemma queued_sample_round_trip_witness :
  exists w2,
    csi_data_processing_step (research_csi_data_callback (Some sample_csi) booted) = Ran w2
    /\ heap_live w2 = heap_live booted
    /\ queue_items w2 = [].
Proof.
  assert (Hq : csi_data_queue (app_state booted)
               = Some {| uxLength := 64; items := [] |}) by (vm_compute; reflexivity).
  assert (Hmac : In (mac sample_csi) allow_list) by (left; reflexivity).
  assert (Hcap : 0 < uxLength {| uxLength := 64; items := [] |}) by (cbn; lia).
  destruct (queued_sample_round_trip sample_csi [x03; x04; xff; x00] booted
              {| uxLength := 64; items := [] |} eq_refl Hmac Hq eq_refl Hcap
              eq_refl eq_refl) as (w2 & Hrun & _ & Hheap & Hqueue).
  exists w2. split; [exact Hrun|]. split; [exact Hheap | exact Hqueue].
Defined.

(** ** Storage *)

(** X22. [initialize_non_volatile_storage] succeeds exactly when the
    first [nvs_flash_init] succeeds, or asks for formatting (no free
    pages, or a new version found) and both the erase and the second
    init succeed.  The partition is erased in no other case, and
    [required_format] is set exactly when it succeeded after an erase.
    A failed result never carries [ESP_OK] as its error code, so
    [setup_nvs_storage] aborts exactly when the initialization failed. *)
Theorem storage_init_outcomes :
  forall nvs w,
    let r := fst (fst (initialize_non_volatile_storage nvs w)) in
    let calls := snd (fst (initialize_non_volatile_storage nvs w)) in
    (success r = true
     <-> nvs_flash_init_first nvs = ESP_OK
         \/ (needs_format nvs = true /\ nvs_flash_erase_rc nvs = ESP_OK
             /\ nvs_flash_init_second nvs = ESP_OK))
    /\ (success r = true <-> error_code r = ESP_OK)
    /\ (In NvsFlashErase calls <-> needs_format nvs = true)
    /\ (required_format r = true <-> success r = true /\ In NvsFlashErase calls)
    /\ (setup_nvs_storage nvs w = None <-> success r = false).
Proof.
  intros nvs w r calls. subst r calls.
  unfold setup_nvs_storage, initialize_non_volatile_storage, needs_format.
  unfold ESP_ERR_NVS_NO_FREE_PAGES, ESP_ERR_NVS_NEW_VERSION_FOUND, ESP_ERR_NVS_BASE, ESP_OK.
  destruct (Z.eqb_spec (nvs_flash_init_first nvs) 0) as [H1|H1];
    destruct ((nvs_flash_init_first nvs =? 4352 + 13)
              || (nvs_flash_init_first nvs =? 4352 + 16)) eqn:Hnf;
    destruct (Z.eqb_spec (nvs_flash_erase_rc nvs) 0) as [H2|H2];
    destruct (Z.eqb_spec (nvs_flash_init_second nvs) 0) as [H3|H3];
    cbn [fst snd success error_code required_format negb In];
    try (rewrite H1 in Hnf; discriminate Hnf);
    repeat match goal with
           | H : ?x <> 0 |- context [?x =? 0] => rewrite (proj2 (Z.eqb_neq x 0) H)
           end;
    intuition (try discriminate; try congruence).
Qed.

(** ** Network events *)

Lemma network_event_handler_state :
  forall base e w,
    app_state (network_event_handler base e w)
    = set_network_ready (ap_state_after [(base, e)] (network_ready (app_state w)))
                        (app_state w)
    /\ os (network_event_handler base e w) = os w
    /\ console (network_event_handler base e w) = console w
    /\ heap_live (network_event_handler base e w) = heap_live w
    /\ datagrams (network_event_handler base e w) = datagrams w.
Proof.
  intros base e w. destruct (app_state w) as [q s nr pp ip hd] eqn:Ha.
  destruct base, e; cbn [network_event_handler ap_state_after fold_left];
    world_simpl; rewrite ?Ha; repeat split.
Qed.

Lemma set_network_ready_twice :
  forall a b a0, set_network_ready b (set_network_ready a a0) = set_network_ready b a0.
Proof. reflexivity. Qed.

Lemma handle_events_state :
  forall events w,
    app_state (handle_events events w)
    = set_network_ready (ap_state_after events (network_ready (app_state w)))
                        (app_state w)
    /\ os (handle_events events w) = os w
    /\ console (handle_events events w) = console w
    /\ heap_live (handle_events events w) = heap_live w
    /\ datagrams (handle_events events w) = datagrams w.
Proof.
  induction events as [|[base e] events IH]; intros w.
  - cbn [handle_events fold_left ap_state_after]. destruct (app_state w). repeat split.
  - change (handle_events ((base, e) :: events) w)
      with (handle_events events (network_event_handler base e w)).
    destruct (IH (network_event_handler base e w)) as (Ha & Ho & Hc & Hh & Hd).
    destruct (network_event_handler_state base e w) as (Ha1 & Ho1 & Hc1 & Hh1 & Hd1).
    rewrite Ha, Ho, Hc, Hh, Hd, Ha1, Ho1, Hc1, Hh1, Hd1.
    repeat split.
Qed.

(** X23. [network_event_handler] keeps [network_ready] equal to what the
    last AP-start or AP-stop event said: after any run of events the
    flag is true when the last such WiFi event was a start, false when
    it was a stop, and unchanged when there was none.  Station events,
    other WiFi events and events of another base change nothing of the
    application state; no event touches the console, the heap or the
    datagrams. *)
Theorem network_ready_follows_ap_events :
  forall events w,
    let w' := handle_events events w in
    network_ready (app_state w')
      = ap_state_after events (network_ready (app_state w))
    /\ csi_data_queue (app_state w') = csi_data_queue (app_state w)
    /\ udp_socket_descriptor (app_state w') = udp_socket_descriptor (app_state w)
    /\ processed_packets (app_state w') = processed_packets (app_state w)
    /\ discovered_host_ip (app_state w') = discovered_host_ip (app_state w)
    /\ host_discovered (app_state w') = host_discovered (app_state w)
    /\ console w' = console w /\ heap_live w' = heap_live w
    /\ datagrams w' = datagrams w.
Proof.
  intros events w w'. subst w'.
  destruct (handle_events_state events w) as (Ha & _ & Hc & Hh & Hd).
  rewrite Ha, Hc, Hh, Hd. repeat split.
Qed.

(** ** The mDNS service *)

Lemma hostname_text_length : forall mac, List.length (hostname_text mac) = 24%nat.
Proof. reflexivity. Qed.

(** X24. [setup_mdns_service] returns [ESP_OK] exactly when its four
    calls to the responder succeed, and otherwise the error of the first
    call that failed, after which no further call is made.  The host
    name it sets is [ESP32_CSI_Collector_] followed by the last two
    bytes of the access point's MAC address in lower-case hexadecimal:
    24 characters, which the 32-byte buffer holds without truncation.
    The application state is not touched. *)
Theorem mdns_setup_outcomes :
  forall mdns w,
    let rc := fst (fst (setup_mdns_service mdns w)) in
    let calls := snd (fst (setup_mdns_service mdns w)) in
    let w' := snd (setup_mdns_service mdns w) in
    (rc = ESP_OK <-> mdns_ok mdns = true)
    /\ (rc = ESP_OK ->
        calls = [MdnsInit;
                 MdnsHostnameSet (lit "ESP32_CSI_Collector_"
                                  ++ fmt_02x false (nth 4 (ap_mac mdns) x00)
                                  ++ fmt_02x false (nth 5 (ap_mac mdns) x00));
                 MdnsInstanceNameSet (lit "ESP32 CSI Data Collector");
                 MdnsServiceAdd (lit "csi-collector") (lit "_udp") 9999])
    /\ (forall h, In (MdnsHostnameSet h) calls ->
          h = hostname_text (ap_mac mdns) /\ List.length h = 24%nat)
    /\ (mdns_init_rc mdns <> ESP_OK -> rc = mdns_init_rc mdns /\ calls = [MdnsInit])
    /\ (mdns_init_rc mdns = ESP_OK -> mdns_hostname_set_rc mdns <> ESP_OK ->
          rc = mdns_hostname_set_rc mdns /\ List.length calls = 2%nat)
    /\ (mdns_init_rc mdns = ESP_OK -> mdns_hostname_set_rc mdns = ESP_OK ->
        mdns_instance_name_set_rc mdns <> ESP_OK ->
          rc = mdns_instance_name_set_rc mdns /\ List.length calls = 3%nat)
    /\ (mdns_init_rc mdns = ESP_OK -> mdns_hostname_set_rc mdns = ESP_OK ->
        mdns_instance_name_set_rc mdns = ESP_OK ->
          rc = mdns_service_add_rc mdns)
    /\ app_state w' = app_state w.
Proof.
  intros mdns w rc calls w'. subst rc calls w'.
  unfold setup_mdns_service, mdns_ok, snprintf_string.
  change (firstn (32 - 1) (hostname_text (ap_mac mdns))) with (hostname_text (ap_mac mdns)).
  unfold ESP_OK.
  destruct (Z.eqb_spec (mdns_init_rc mdns) 0) as [H1|H1];
    destruct (Z.eqb_spec (mdns_hostname_set_rc mdns) 0) as [H2|H2];
    destruct (Z.eqb_spec (mdns_instance_name_set_rc mdns) 0) as [H3|H3];
    destruct (Z.eqb_spec (mdns_service_add_rc mdns) 0) as [H4|H4];
    cbn [fst snd negb andb In List.length];
    (repeat split; try reflexivity; try congruence; try discriminate;
     try (match goal with
          | Hin : _ \/ _ |- _ =>
              repeat (destruct Hin as [Hin|Hin]; try discriminate Hin);
              try contradiction; injection Hin as <-; reflexivity
          end)).
Qed.

(** ** The discovery task *)

Lemma setup_mdns_service_result :
  forall mdns w,
    (fst (fst (setup_mdns_service mdns w)) =? ESP_OK) = mdns_ok mdns
    /\ app_state (snd (setup_mdns_service mdns w)) = app_state w.
Proof.
  intros mdns w. unfold setup_mdns_service, mdns_ok, ESP_OK.
  destruct (Z.eqb_spec (mdns_init_rc mdns) 0) as [H1|H1]; cbn [negb andb fst snd];
    [|split; [now apply Z.eqb_neq | reflexivity]].
  destruct (Z.eqb_spec (mdns_hostname_set_rc mdns) 0) as [H2|H2]; cbn [negb andb fst snd];
    [|split; [now apply Z.eqb_neq | reflexivity]].
  destruct (Z.eqb_spec (mdns_instance_name_set_rc mdns) 0) as [H3|H3];
    cbn [negb andb fst snd]; [|split; [now apply Z.eqb_neq | reflexivity]].
  destruct (Z.eqb_spec (mdns_service_add_rc mdns) 0) as [H4|H4]; cbn [negb andb fst snd];
    [split; reflexivity | split; [now apply Z.eqb_neq | reflexivity]].
Qed.

Lemma wait_for_network_result :
  forall delays w,
    let r := wait_for_network delays w in
    fst r = becomes_ready delays (network_ready (app_state w))
    /\ network_ready (app_state (snd r)) = fst r
    /\ host_discovered (app_state (snd r)) = host_discovered (app_state w).
Proof.
  induction delays as [|events later IH]; intros w r; subst r;
    cbn [wait_for_network becomes_ready];
    destruct (network_ready (app_state w)) eqn:Hn; cbn [fst snd];
    try (repeat split; assumption).
  destruct (handle_events_state events w) as (Ha & _).
  destruct (IH (handle_events events w)) as (H1 & H2 & H3). cbv zeta in H1, H2, H3.
  rewrite Ha, Hn in H1, H3.
  cbn [network_ready set_network_ready host_discovered] in H1, H3.
  split; [exact H1|]. split; [exact H2 | exact H3].
Qed.

(** X25. [mdns_discovery_task] resolves the peer exactly when three
    things happen: the access point is found running at one of the
    task's polls (at its start, or after one of its delays), the mDNS
    service is set up without error, and one of the queries is answered
    without error.  While the access point is down the task stays in
    its first loop; when the mDNS setup fails the task deletes itself,
    and the peer then stays unresolved whatever happens later. *)
Theorem discovery_task_outcome :
  forall delays mdns queries w,
    host_discovered (app_state w) = false ->
    let r := mdns_discovery_task delays mdns queries w in
    let ready := becomes_ready delays (network_ready (app_state w)) in
    fst r = (if negb ready then TaskWaiting
             else if mdns_ok mdns then TaskDiscovering else TaskDeleted)
    /\ host_discovered (app_state (snd r))
       = ready && mdns_ok mdns
         && match first_answered queries with Some _ => true | None => false end
    /\ (fst r = TaskDiscovering -> network_ready (app_state (snd r)) = true).
Proof.
  intros delays mdns queries w Hd r ready. subst r ready.
  unfold mdns_discovery_task.
  set (w0 := ESP_LOG LOGI (lit "mDNS discovery task started") w).
  destruct (wait_for_network_result delays w0) as (Hr & Hn & Hh). cbv zeta in Hr, Hn, Hh.
  change (app_state w0) with (app_state w) in Hr, Hh.
  destruct (wait_for_network delays w0) as [ready w1]. cbn [fst snd] in Hr, Hn, Hh.
  rewrite <- Hr. rewrite Hd in Hh.
  destruct ready; cbn [negb andb fst snd].
  2: { split; [reflexivity|]. split; [exact Hh | discriminate]. }
  destruct (setup_mdns_service_result mdns w1) as (Hrc & Happ).
  destruct (setup_mdns_service mdns w1) as [[rc calls] w2]. cbn [fst snd] in Hrc, Happ.
  rewrite Hrc. destruct (mdns_ok mdns); cbn [negb fst snd].
  - assert (Hd2 : host_discovered (app_state w2) = false) by (rewrite Happ; exact Hh).
    rewrite (discovery_loop_first_answered queries w2 Hd2), Happ.
    split; [reflexivity|].
    destruct (first_answered queries); cbn [host_discovered network_ready set_discovered_host];
      (split; [auto | intros _; exact Hn]).
  - split; [reflexivity|]. split; [|discriminate].
    change (app_state (ESP_LOG LOGE (lit "Failed to setup mDNS service") w2))
      with (app_state w2).
    rewrite Happ. exact Hh.
Qed.

Lemma discovery_task_outcome_witness :
  host_discovered
    (app_state
       (snd (mdns_discovery_task
               [[(WIFI_EVENT, WIFI_EVENT_AP_STACONNECTED [x00; x11; x22; x33; x44; x55])];
                [(WIFI_EVENT, WIFI_EVENT_AP_START)]]
               {| mdns_init_rc := 0; mdns_hostname_set_rc := 0;
                  mdns_instance_name_set_rc := 0; mdns_service_add_rc := 0;
                  ap_mac := [x24; x0a; xc4; x00; xab; xcd];
                  esp_err_to_name := fun _ => lit "ESP_FAIL" |}
               [(ESP_OK, [])] booted)))
  = true.
Proof.
  assert (Hd : host_discovered (app_state booted) = false) by (vm_compute; reflexivity).
  refine (eq_trans (proj1 (proj2 (discovery_task_outcome _ _ _ booted Hd))) _).
  vm_compute. reflexivity.
Defined.

(** ** Start-up *)

Lemma initialize_csi_collection_result :
  forall role m custom drv w,
    let r := initialize_csi_collection role m custom drv w in
    let ok := (set_csi_rc drv =? ESP_OK) && (set_csi_config_rc drv =? ESP_OK)
              && (set_csi_rx_cb_rc drv =? ESP_OK) in
    (fst r =? ESP_OK) = ok
    /\ csi_rx_cb (snd r)
       = (if ok
          then Some (match custom with Some f => f | None => enhanced_csi_callback_ptr end)
          else csi_rx_cb w)
    /\ g_csi_config (snd r)
       = {| mode := m; device_role := strncpy role 15;
            enable_filtering := true; buffer_size := 128 |}
    /\ app_state (snd r) = app_state w
    /\ time_sync_established (snd r) = time_sync_established w
    /\ g_cmd_processor (snd r) = g_cmd_processor w.
Proof.
  intros role m custom drv w r ok. subst r ok.
  unfold initialize_csi_collection, output_csi_header.
  destruct (Z.eqb_spec (set_csi_rc drv) ESP_OK) as [H1|H1]; cbn [negb andb fst snd];
    [|apply Z.eqb_neq in H1; rewrite ?H1; repeat split].
  destruct (Z.eqb_spec (set_csi_config_rc drv) ESP_OK) as [H2|H2];
    cbn [negb andb fst snd]; [|apply Z.eqb_neq in H2; rewrite ?H2; repeat split].
  destruct (Z.eqb_spec (set_csi_rx_cb_rc drv) ESP_OK) as [H3|H3];
    cbn [negb andb fst snd];
    [repeat split | apply Z.eqb_neq in H3; rewrite ?H3; repeat split].
Qed.

(** ** Start-up *)

Lemma log_only_refl : forall w, log_only w w.
Proof.
  intros w. exists []. rewrite app_nil_r. now destruct w.
Qed.

Lemma log_only_ESP_LOG :
  forall level text w w0, log_only w0 w -> log_only w0 (ESP_LOG level text w).
Proof.
  intros level text w w0 [entries ->]. exists (entries ++ [(level, text)]).
  unfold ESP_LOG. world_simpl. now rewrite app_assoc.
Qed.

(** The storage initialization only logs, and succeeds exactly when the
    storage comes up. *)
Lemma storage_init_result :
  forall n w,
    let r := initialize_non_volatile_storage n w in
    (success (fst (fst r)) = true <-> storage_up n) /\ log_only w (snd r).
Proof.
  intros n w r. subst r.
  unfold initialize_non_volatile_storage, STORAGE_LOG, storage_up, needs_format.
  destruct (Z.eqb_spec (nvs_flash_init_first n) ESP_OK) as [H1|H1].
  { cbn [fst snd success]. split; [tauto|].
    repeat apply log_only_ESP_LOG. apply log_only_refl. }
  destruct ((nvs_flash_init_first n =? ESP_ERR_NVS_NO_FREE_PAGES)
            || (nvs_flash_init_first n =? ESP_ERR_NVS_NEW_VERSION_FOUND)) eqn:Hfmt.
  - destruct (Z.eqb_spec (nvs_flash_erase_rc n) ESP_OK) as [H2|H2]; cbn [negb].
    + destruct (Z.eqb_spec (nvs_flash_init_second n) ESP_OK) as [H3|H3];
        cbn [fst snd success];
        (split; [|repeat apply log_only_ESP_LOG; apply log_only_refl]);
        intuition (try discriminate; try congruence).
    + cbn [fst snd success].
      split; [|repeat apply log_only_ESP_LOG; apply log_only_refl].
      intuition (try discriminate; try congruence).
  - cbn [fst snd success].
    split; [|repeat apply log_only_ESP_LOG; apply log_only_refl].
    intuition (try discriminate; try congruence).
Qed.

(** The access-point set-up only logs; it answers [ESP_OK] exactly when
    every call succeeds and aborts exactly when a checked call fails. *)
Lemma configure_wifi_access_point_result :
  forall wf w,
    match configure_wifi_access_point wf w with
    | None => wifi_check_fails wf /\ ~ wifi_up wf
    | Some (rc, w') =>
        log_only w w' /\ ~ wifi_check_fails wf /\ (rc = ESP_OK <-> wifi_up wf)
    end.
Proof.
  intros [a b c d e f g h i j k] w.
  unfold configure_wifi_access_point, checks_pass, wifi_checks_before, wifi_checks_after,
    wifi_check_fails, wifi_up.
  cbn [forallb esp_netif_init_rc esp_event_loop_create_default_rc ap_netif_created
       esp_netif_dhcps_stop_rc esp_netif_set_ip_info_rc esp_netif_dhcps_start_rc
       esp_wifi_init_rc esp_event_handler_register_rc esp_wifi_set_mode_rc
       esp_wifi_set_config_rc esp_wifi_start_rc].
  destruct (Z.eqb_spec a ESP_OK) as [Ha|Ha]; cbn [andb negb]; [|tauto].
  destruct (Z.eqb_spec b ESP_OK) as [Hb|Hb]; cbn [andb negb]; [|tauto].
  destruct c; cbn [negb].
  2:{ split; [apply log_only_ESP_LOG, log_only_ESP_LOG, log_only_refl|].
      split; [intuition discriminate|].
      split; [discriminate | intros H; decompose [and] H; discriminate]. }
  destruct (Z.eqb_spec d ESP_OK) as [Hd|Hd]; cbn [andb negb]; [|tauto].
  destruct (Z.eqb_spec e ESP_OK) as [He|He]; cbn [andb negb]; [|tauto].
  destruct (Z.eqb_spec f ESP_OK) as [Hf|Hf]; cbn [andb negb]; [|tauto].
  destruct (Z.eqb_spec g ESP_OK) as [Hg|Hg]; cbn [andb negb]; [|tauto].
  destruct (Z.eqb_spec h ESP_OK) as [Hh|Hh]; cbn [andb negb]; [|tauto].
  destruct (Z.eqb_spec i ESP_OK) as [Hi|Hi]; cbn [andb negb]; [|tauto].
  destruct (Z.eqb_spec j ESP_OK) as [Hj|Hj]; cbn [andb negb]; [|tauto].
  destruct (Z.eqb_spec k ESP_OK) as [Hk|Hk]; cbn [andb negb]; [|tauto].
  split; [apply log_only_ESP_LOG, log_only_ESP_LOG, log_only_refl|].
  split; tauto.
Qed.

Lemma initialize_udp_socket_result :
  forall sa w,
    let r := initialize_udp_socket sa w in
    (fst r <? 0) = (socket_rc sa <? 0)
    /\ (0 <= socket_rc sa -> fst r = socket_rc sa)
    /\ log_only w (snd r).
Proof.
  intros sa w r. subst r. unfold initialize_udp_socket.
  destruct (Z.ltb_spec (socket_rc sa) 0) as [Hs|Hs]; cbn [fst snd].
  - split; [reflexivity|]. split; [lia|]. apply log_only_ESP_LOG, log_only_refl.
  - split; [now apply Z.ltb_ge|]. split; [reflexivity|].
    destruct (setsockopt_rc sa <? 0); repeat apply log_only_ESP_LOG; apply log_only_refl.
Qed.

(** X26. [app_main] registers the CSI callback last.  It reaches the
    command loop exactly when the storage comes up, the queue is created,
    every call of the access-point set-up succeeds, a socket is obtained
    and the three CSI driver calls succeed; then the callback registered
    is [research_csi_data_callback] (not the default
    [enhanced_csi_callback]), the queue exists, empty, with room for 64
    handles, the socket is the one obtained, the mode is amplitude and
    the role [collector], the synchronized flag is clear and the line
    buffer reset.  It aborts exactly when, the storage up and the queue
    created, a call under [ESP_ERROR_CHECK] fails.  Whenever it does not
    reach the command loop, no callback has been registered. *)
Theorem callback_registered_only_when_ready :
  forall boot w,
    csi_rx_cb w = None ->
    let r := app_main boot w in
    (fst r = MainRunning
     <-> storage_up (nvs boot) /\ queue_created boot = true /\ wifi_up (wifi boot)
         /\ 0 <= socket_rc (udp boot)
         /\ set_csi_rc (csi_driver boot) = ESP_OK
         /\ set_csi_config_rc (csi_driver boot) = ESP_OK
         /\ set_csi_rx_cb_rc (csi_driver boot) = ESP_OK)
    /\ (fst r = MainRunning ->
        csi_rx_cb (snd r) = Some research_csi_data_callback_ptr
        /\ csi_data_queue (app_state (snd r)) = Some {| uxLength := 64; items := [] |}
        /\ udp_socket_descriptor (app_state (snd r)) = socket_rc (udp boot)
        /\ mode (g_csi_config (snd r)) = CSI_MODE_AMPLITUDE
        /\ device_role (g_csi_config (snd r)) = lit "collector"
        /\ time_sync_established (snd r) = false
        /\ commands_processed (g_cmd_processor (snd r)) = 0
        /\ buffer_empty (snd r))
    /\ (fst r = MainAborted
        <-> storage_up (nvs boot) /\ queue_created boot = true
            /\ wifi_check_fails (wifi boot))
    /\ (fst r <> MainRunning -> csi_rx_cb (snd r) = None).
Proof.
  intros boot w Hcb r. subst r. unfold app_main.
  match goal with
  | |- context [initialize_non_volatile_storage ?n ?W] =>
      destruct (storage_init_result n W) as [Hst [e1 Hw1]];
      destruct (initialize_non_volatile_storage n W) as [[sr calls] w1]
  end.
  cbn [fst snd] in Hst, Hw1. subst w1.
  destruct (success sr); cbn [negb].
  2:{ world_simpl.
      intuition (try discriminate; try congruence). }
  assert (Hup : storage_up (nvs boot)) by now apply Hst. clear Hst.
  unfold reset_time_sync_status, initialize_command_processor, xQueueCreate.
  destruct (queue_created boot); world_simpl;
    cbn [app_state csi_data_queue set_csi_data_queue].
  2:{ intuition (try discriminate; try congruence). }
  match goal with
  | |- context [configure_wifi_access_point ?wf ?W] =>
      pose proof (configure_wifi_access_point_result wf W) as Hwf;
      destruct (configure_wifi_access_point wf W) as [[rc w2]|]
  end.
  2:{ world_simpl. intuition (try discriminate; try congruence). }
  destruct Hwf as ([e2 Hw2] & Hnf & Hrc). subst w2.
  destruct (Z.eqb_spec rc ESP_OK) as [H1|H1]; cbn [negb].
  2:{ world_simpl. intuition (try discriminate; try congruence). }
  assert (Hwu : wifi_up (wifi boot)) by now apply Hrc. clear Hrc.
  match goal with
  | |- context [initialize_udp_socket ?sa ?W] =>
      destruct (initialize_udp_socket_result sa W) as (Hlt & Hsock & [e3 Hw3]);
      destruct (initialize_udp_socket sa W) as [sock w3]
  end.
  cbn [fst snd] in Hlt, Hsock, Hw3. subst w3.
  world_simpl. cbn [udp_socket_descriptor set_udp_socket_descriptor].
  rewrite Hlt.
  destruct (Z.ltb_spec (socket_rc (udp boot)) 0) as [H2|H2].
  { world_simpl. intuition (try discriminate; try congruence; try lia). }
  specialize (Hsock H2). subst sock.
  match goal with
  | |- context [initialize_csi_collection ?role ?m ?cb ?drv ?W] =>
      destruct (initialize_csi_collection_result role m cb drv W)
        as (Hrc & Hreg & Hcfg & Happ & Hts & Hcp);
      destruct (initialize_csi_collection role m cb drv W) as [rc' w4]
  end.
  cbn [fst snd] in Hrc, Hreg, Hcfg, Happ, Hts, Hcp. rewrite Hrc. clear Hrc.
  world_simpl_in Happ. world_simpl_in Hts. world_simpl_in Hcp. world_simpl_in Hreg.
  unfold ESP_OK in *.
  destruct (Z.eqb_spec (set_csi_rc (csi_driver boot)) 0) as [H3|H3];
    destruct (Z.eqb_spec (set_csi_config_rc (csi_driver boot)) 0) as [H4|H4];
    destruct (Z.eqb_spec (set_csi_rx_cb_rc (csi_driver boot)) 0) as [H5|H5];
    cbn [andb negb fst snd] in Hreg |- *; world_simpl; world_simpl_in Hreg;
    try (rewrite Hcb in Hreg; intuition (try discriminate; try congruence)).
  unfold buffer_empty. world_simpl. rewrite Hreg, Hcfg, Happ, Hts, Hcp.
  cbn [mode device_role app_state csi_data_queue set_csi_data_queue
       udp_socket_descriptor set_udp_socket_descriptor command_buffer buffer_position
       commands_processed].
  intuition (try discriminate; try congruence).
Qed.

Lemma callback_registered_only_when_ready_witness :
  csi_rx_cb booted = Some research_csi_data_callback_ptr.
Proof.
  assert (Hcb : csi_rx_cb (power_on sample_os {| tv_sec := 5; tv_usec := 7 |}) = None)
    by reflexivity.
  destruct (callback_registered_only_when_ready sample_boot
              (power_on sample_os {| tv_sec := 5; tv_usec := 7 |}) Hcb) as (_ & Hok & _).
  assert (Hrun : fst (app_main sample_boot (power_on sample_os {| tv_sec := 5; tv_usec := 7 |}))
                 = MainRunning) by (vm_compute; reflexivity).
  exact (proj1 (Hok Hrun)).
Defined.

(** ** Trimming *)

(** X27. [trim_whitespace] returns the text between the first and the
    last character that is not white space: the result is empty exactly
    when the string is all white space; otherwise it has no white space
    at either end and the string is the result with white space before
    and after it; trimming the result again changes nothing. *)
Theorem trim_whitespace_characterised :
  forall s,
    let t := trim_whitespace s in
    (t = [] <-> blank s)
    /\ (t <> [] ->
        trimmed t
        /\ exists lead trail, s = lead ++ t ++ trail /\ blank lead /\ blank trail)
    /\ trim_whitespace t = t.
Proof.
  intros s t. subst t.
  assert (Hsplit : trim_whitespace s <> [] ->
                   trimmed (trim_whitespace s)
                   /\ exists lead trail,
                        s = lead ++ trim_whitespace s ++ trail
                        /\ blank lead /\ blank trail).
  { intros Hne. destruct (trim_whitespace_split s Hne) as (lead & trail & Hs & Hl & Ht & Htr).
    split; [exact Htr|]. exists lead, trail. repeat split; assumption. }
  split; [|split; [exact Hsplit|]].
  - split; [|apply trim_whitespace_blank].
    intros Hnil. destruct (blank_or_trimmed s) as [Hb|(lead & body & trail & Hs & Hl & Ht & Hb)];
      [exact Hb|].
    exfalso. rewrite Hs, (trim_whitespace_spec lead body trail Hl Ht Hb) in Hnil.
    subst body. exact Hb.
  - destruct (trim_whitespace s) as [|c r] eqn:Ht; [reflexivity|].
    destruct Hsplit as [Htr _]; [discriminate|].
    pose proof (trim_whitespace_spec [] (c :: r) [] ltac:(constructor) ltac:(constructor) Htr)
      as H.
    cbn [app] in H. rewrite app_nil_r in H. exact H.
Qed.

(** ** The address field *)

Lemma fmt_u_byte_length : forall a, (List.length (fmt_u (a mod 256)) <= 3)%nat.
Proof.
  intros a. apply (fmt_u_length (a mod 256) 2).
  pose proof (Z.mod_pos_bound a 256 ltac:(lia)).
  change (10 ^ Z.of_nat 3) with 1000. lia.
Qed.

Lemma inet_ntoa_length : forall a, (List.length (inet_ntoa a) <= 15)%nat.
Proof.
  intros [[[a0 a1] a2] a3]. unfold inet_ntoa. rewrite !length_app.
  pose proof (fmt_u_byte_length a0). pose proof (fmt_u_byte_length a1).
  pose proof (fmt_u_byte_length a2). pose proof (fmt_u_byte_length a3).
  cbn [List.length lit list_ascii_of_string]. lia.
Qed.

(** X28. The resolved address always fits its field: whatever the
    queries answer, the string that discovery copies into the 16-byte
    [discovered_host_ip] has at most 15 characters. *)
Theorem resolved_address_fits_field :
  forall queries w,
    (List.length (discovered_host_ip (app_state w)) <= 15)%nat ->
    (List.length (discovered_host_ip (app_state (mdns_discovery_loop queries w))) <= 15)%nat.
Proof.
  intros queries w Hlen.
  destruct (host_discovered (app_state w)) eqn:Hd.
  - rewrite discovery_loop_resolved by exact Hd. exact Hlen.
  - rewrite (discovery_loop_first_answered queries w Hd).
    destruct (first_answered queries) as [q|]; [|exact Hlen].
    cbn [discovered_host_ip set_discovered_host]. unfold resolved_address.
    destruct (first_usable (snd q)); [apply inet_ntoa_length | cbn; lia].
Qed.

Lemma resolved_address_fits_field_witness :
  (List.length
     (discovered_host_ip
        (app_state (mdns_discovery_loop
                      [(ESP_OK, [{| hostname := Some (lit "host");
                                    addr := Some (192%Z, 168%Z, 100%Z, 200%Z) |}])] booted)))
   <= 15)%nat.
Proof.
  apply resolved_address_fits_field. vm_compute. lia.
Defined.

(* ================================================================== *)
(** * The pipeline in the running firmware                             *)
(* ================================================================== *)

(** ** The heap in order *)

Lemma heap_replace_keys :
  forall p b l a blk, In (a, blk) (heap_replace p b l) -> exists blk', In (a, blk') l.
Proof.
  induction l as [|[q b'] l IH]; intros a blk H; cbn [heap_replace] in H; [contradiction|].
  destruct (Nat.eqb_spec p q) as [->|Hne].
  - destruct H as [H|H]; [injection H as <- _; eexists; left; reflexivity|].
    eexists; right; exact H.
  - destruct H as [H|H]; [eexists; left; exact H|].
    destruct (IH _ _ H) as [blk' H']. eexists; right; exact H'.
Qed.

Lemma heap_remove_keys :
  forall p l x, In x (heap_remove p l) -> In x l.
Proof.
  induction l as [|[q b'] l IH]; intros x H; cbn [heap_remove] in H; [contradiction|].
  destruct (Nat.eqb p q); [right; exact H|].
  destruct H as [H|H]; [left; exact H | right; now apply IH].
Qed.

Lemma heap_fresh_same :
  forall w w',
    heap_live w' = heap_live w -> (heap_next w <= heap_next w')%nat ->
    heap_fresh w -> heap_fresh w'.
Proof.
  intros w w' Hl Hn Hf a blk Hin. rewrite Hl in Hin. specialize (Hf a blk Hin). lia.
Qed.

Lemma heap_fresh_malloc :
  forall size w, heap_fresh w -> heap_fresh (snd (malloc size w)).
Proof.
  intros size w Hf. unfold malloc.
  destruct (malloc_ok (os w) (heap_next w) size); intros a blk Hin;
    world_simpl_in Hin; world_simpl.
  - destruct Hin as [Hin|Hin]; [injection Hin as <- _; lia|].
    specialize (Hf a blk Hin). lia.
  - specialize (Hf a blk Hin). lia.
Qed.

Lemma heap_fresh_store :
  forall p b w, heap_fresh w -> heap_fresh (store p b w).
Proof.
  intros p b w Hf a blk Hin. unfold store in *. world_simpl_in Hin. world_simpl.
  destruct (heap_replace_keys _ _ _ _ _ Hin) as [blk' H']. exact (Hf a blk' H').
Qed.

Lemma heap_fresh_free :
  forall p w, heap_fresh w -> heap_fresh (free p w).
Proof.
  intros p w Hf a blk Hin. unfold free in *. world_simpl_in Hin. world_simpl.
  apply (Hf a blk). eapply heap_remove_keys. exact Hin.
Qed.

Lemma heap_fresh_next_free :
  forall w, heap_fresh w -> heap_find (heap_next w) (heap_live w) = None.
Proof.
  intros w Hf. unfold heap_fresh in Hf. revert Hf.
  generalize (heap_next w). induction (heap_live w) as [|[q b] l IH]; intros n Hf;
    [reflexivity|].
  cbn [heap_find]. destruct (Nat.eqb_spec n q) as [->|Hne].
  - specialize (Hf q b (or_introl eq_refl)). lia.
  - apply IH. intros a blk Hin. apply (Hf a blk). right. exact Hin.
Qed.

(** A payload is read the same after the time stamp string has been
    allocated. *)
Lemma payload_after_timestamp :
  forall p w,
    heap_fresh w ->
    payload_of p (snd (get_formatted_timestamp w)) = payload_of p w.
Proof.
  intros p w Hf. pose proof (heap_fresh_next_free w Hf) as Hnone.
  destruct p as [|content|a]; try reflexivity.
  unfold payload_of, load, get_formatted_timestamp, gettimeofday, malloc.
  destruct (negb (gettimeofday_rc (os w) =? 0));
    destruct (malloc_ok (os w) (heap_next w) _); world_simpl;
    cbn [heap_replace heap_find]; rewrite ?Nat.eqb_refl; cbn [heap_find];
    try reflexivity;
    (destruct (Nat.eqb_spec a (heap_next w)) as [->|Hne];
     [now rewrite Hnone | reflexivity]).
Qed.

Lemma heap_fresh_timestamp :
  forall w, heap_fresh w -> heap_fresh (snd (get_formatted_timestamp w)).
Proof.
  intros w Hf. unfold get_formatted_timestamp, gettimeofday.
  destruct (negb (gettimeofday_rc (os w) =? 0)).
  - pose proof (heap_fresh_malloc 20 w Hf) as Hm.
    destruct (malloc 20 w) as [[p|] w1]; cbn [snd] in *; [apply heap_fresh_store|];
      exact Hm.
  - cbv zeta.
    match goal with
    | |- context [malloc ?n w] =>
        pose proof (heap_fresh_malloc n w Hf) as Hm;
        destruct (malloc n w) as [[p|] w1]
    end; cbn [snd] in *; [apply heap_fresh_store|]; exact Hm.
Qed.

(** ** A turn of the forwarding task *)

(** A turn on a queued sample: the record it prints and sends, and what
    it leaves. *)
Lemma processing_step_result :
  forall w q ptr rest csi,
    csi_data_queue (app_state w) = Some q -> items q = ptr :: rest ->
    load ptr w = Some (BlkCsi csi) ->
    let record :=
      record_header (fmt_mac true (mac csi)) csi (time_sync_established w)
                    (timestamp_string w)
      ++ pairs_from (pair_count (len csi)) 0
                    (payload_of (buf csi) (snd (get_formatted_timestamp w)))
      ++ lit "]" ++ newline in
    exists w',
      csi_data_processing_step w = Ran w'
      /\ console w' = console w ++ [record]
      /\ datagrams w'
         = datagrams w
           ++ (if host_discovered (app_state w)
                  && (0 <=? udp_socket_descriptor (app_state w))
               then [ {| dest_ip := discovered_host_ip (app_state w);
                         dest_port := HOST_COMMUNICATION_PORT;
                         payload := record |} ]
               else [])
      /\ g_csi_config w' = g_csi_config w /\ csi_rx_cb w' = csi_rx_cb w
      /\ (heap_fresh w -> heap_fresh w')
      /\ queue_items w' = rest.
Proof.
  intros w q ptr rest csi Hq Hitems Hload record.
  unfold csi_data_processing_step. rewrite Hq. unfold xQueueReceive. rewrite Hitems.
  set (w1 := set_app_state _ w).
  change (load ptr w1) with (load ptr w). rewrite Hload.
  assert (Hts : timestamp_text (timestamp_string w))
    by apply get_formatted_timestamp_text.
  assert (H1 : get_formatted_timestamp w1
               = (fst (get_formatted_timestamp w),
                  set_app_state (app_state w1) (snd (get_formatted_timestamp w)))).
  { unfold get_formatted_timestamp, gettimeofday, malloc. subst w1. world_simpl.
    destruct (negb (gettimeofday_rc (os w) =? 0));
      destruct (malloc_ok (os w) (heap_next w) _); reflexivity. }
  rewrite H1. clear H1.
  assert (Hfresh2 : heap_fresh w -> heap_fresh (snd (get_formatted_timestamp w)))
    by apply heap_fresh_timestamp.
  destruct (get_formatted_timestamp_frame w) as (Hos2 & _ & Hcfg2 & Hcon2).
  assert (Hmore : csi_rx_cb (snd (get_formatted_timestamp w)) = csi_rx_cb w
                  /\ datagrams (snd (get_formatted_timestamp w)) = datagrams w
                  /\ app_state (snd (get_formatted_timestamp w)) = app_state w
                  /\ time_sync_established (snd (get_formatted_timestamp w))
                     = time_sync_established w).
  { unfold get_formatted_timestamp, gettimeofday, malloc.
    destruct (negb (gettimeofday_rc (os w) =? 0));
      destruct (malloc_ok (os w) (heap_next w) _); world_simpl; repeat split. }
  destruct Hmore as (Hcb2 & Hdg2 & Hap2 & Hsync2).
  unfold timestamp_string in record, Hts.
  destruct (get_formatted_timestamp w) as [p w2]. cbn [fst snd] in *.
  set (w3 := set_app_state (app_state w1) w2).
  assert (Hchars : option_map (fun p0 => load_chars p0 w3) p
                   = option_map (fun p0 => load_chars p0 w2) p) by reflexivity.
  rewrite Hchars.
  change (payload_of (buf csi) w3) with (payload_of (buf csi) w2).
  change (is_time_synchronized w3) with (time_sync_established w2). rewrite Hsync2.
  destruct (format_csi_record_text csi (payload_of (buf csi) w2)
              (time_sync_established w)
              (option_map (fun p0 => load_chars p0 w2) p) Hts) as (Hfmt & Hlen & Hp).
  cbv zeta in Hfmt, Hlen, Hp. rewrite Hfmt.
  rewrite c_str_buffer_with by (lia || exact Hp).
  fold record.
  assert (Hframe : forall w4 : world,
             g_csi_config w4 = g_csi_config w2 -> csi_rx_cb w4 = csi_rx_cb w2 ->
             heap_next w4 = heap_next w2 -> heap_live w4 = heap_live w2 ->
             csi_data_queue (app_state w4) = csi_data_queue (app_state w1) ->
             let w5 := match p with Some p0 => free p0 w4 | None => w4 end in
             let w6 := match buf csi with BufHeap b => free b w5 | _ => w5 end in
             g_csi_config (free ptr w6) = g_csi_config w
             /\ csi_rx_cb (free ptr w6) = csi_rx_cb w
             /\ (heap_fresh w -> heap_fresh (free ptr w6))
             /\ queue_items (free ptr w6) = rest).
  { intros w4 Hc4 Hr4 Hn4 Hl4 Hq4 w5 w6.
    assert (Hf4 : heap_fresh w -> heap_fresh w4).
    { intros Hf. apply (heap_fresh_same w2); [exact Hl4 | rewrite Hn4; lia | auto]. }
    subst w5 w6.
    destruct p as [p0|], (buf csi) as [|content|b]; unfold queue_items; world_simpl;
      (split; [congruence|]); (split; [congruence|]);
      (split; [intros Hf; repeat apply heap_fresh_free; auto|]);
      rewrite Hq4; reflexivity. }
  unfold transmit_csi_data. subst w3.
  change (app_state (set_app_state (app_state w1) w2)) with (app_state w1).
  assert (Hhd : host_discovered (app_state w1) = host_discovered (app_state w))
    by reflexivity.
  assert (Hsk : udp_socket_descriptor (app_state w1) = udp_socket_descriptor (app_state w))
    by reflexivity.
  assert (Hip : discovered_host_ip (app_state w1) = discovered_host_ip (app_state w))
    by reflexivity.
  rewrite Hhd, Hsk, Hip.
  destruct (host_discovered (app_state w)); cbn [negb orb andb].
  - destruct (Z.ltb_spec (udp_socket_descriptor (app_state w)) 0) as [Hneg|Hpos].
    + replace (0 <=? udp_socket_descriptor (app_state w)) with false
        by (symmetry; apply Z.leb_gt; lia).
      eexists. split; [reflexivity|]. cbn [snd].
      split; [destruct p, (buf csi); world_simpl; now rewrite Hcon2|].
      split; [destruct p, (buf csi); world_simpl; now rewrite Hdg2, app_nil_r|].
      apply Hframe; reflexivity.
    + replace (0 <=? udp_socket_descriptor (app_state w)) with true
        by (symmetry; apply Z.leb_le; lia).
      cbv zeta.
      destruct (sendto_rc _ _ <? 0); cbn [snd];
        (eexists; split; [reflexivity|];
         split; [destruct p, (buf csi); world_simpl; now rewrite Hcon2|];
         split; [destruct p, (buf csi); world_simpl; now rewrite Hdg2|];
         apply Hframe; reflexivity).
  - eexists. split; [reflexivity|]. cbn [snd].
    split; [destruct p, (buf csi); world_simpl; now rewrite Hcon2|].
    split; [destruct p, (buf csi); world_simpl; now rewrite Hdg2, app_nil_r|].
    apply Hframe; reflexivity.
Qed.

(** ** The steps of the firmware *)

Lemma pipeline_frame_refl : forall w, pipeline_frame w w.
Proof. intros w. repeat split. auto. Qed.

Lemma pipeline_frame_trans :
  forall w1 w2 w3, pipeline_frame w1 w2 -> pipeline_frame w2 w3 -> pipeline_frame w1 w3.
Proof.
  intros w1 w2 w3 (A1 & A2 & A3) (B1 & B2 & B3). repeat split; try congruence. auto.
Qed.

(** A step that leaves the configuration, the callback and the live
    blocks alone and does not lower the allocation count. *)
Lemma pipeline_frame_same :
  forall w w',
    g_csi_config w' = g_csi_config w -> csi_rx_cb w' = csi_rx_cb w ->
    heap_live w' = heap_live w -> (heap_next w <= heap_next w')%nat ->
    pipeline_frame w w'.
Proof.
  intros w w' Hc Hr Hl Hn. repeat split; try assumption.
  now apply heap_fresh_same.
Qed.

Lemma heap_next_status :
  forall w, (heap_next w <= heap_next (display_system_status w))%nat.
Proof.
  intros w. unfold display_system_status, get_formatted_timestamp, gettimeofday, malloc,
    get_csi_configuration, is_time_synchronized.
  destruct w as [o clk con lg hn hl dg cb ts cp cc ap]. world_simpl.
  destruct (negb (gettimeofday_rc o =? 0)); destruct (malloc_ok o hn _); world_simpl; lia.
Qed.

Lemma heap_next_execute :
  forall text cmd_type w,
    (heap_next w <= heap_next (snd (execute_classified_command text cmd_type w)))%nat.
Proof.
  intros text cmd_type w. unfold execute_classified_command.
  destruct cmd_type.
  - world_simpl. lia.
  - unfold synchronize_system_time, settimeofday.
    destruct (negb (parse_success _)); [world_simpl; lia|].
    cbv zeta. destruct (settimeofday_rc _ _ =? 0) eqn:Hrc; cbv beta iota.
    + change (0 =? 0) with true. cbv iota. world_simpl. lia.
    + rewrite Hrc. world_simpl. lia.
  - world_simpl. lia.
  - pose proof (heap_next_status w). world_simpl. exact H.
  - unfold display_help_information. world_simpl. lia.
Qed.

Lemma heap_next_process :
  forall w, (heap_next w <= heap_next (process_received_command w))%nat.
Proof.
  intros w. unfold process_received_command.
  destruct (strlen _ =? 0); [lia | apply heap_next_execute].
Qed.

Lemma heap_next_scan :
  forall stdin w, (heap_next w <= heap_next (fst (scan_for_input_data stdin w)))%nat.
Proof.
  induction stdin as [|c rest IH]; intros w; cbn [scan_for_input_data]; [cbn; lia|].
  cbv zeta.
  destruct ((char_code c =? 255) || (char_code c =? EOF)); [cbn; lia|].
  destruct ((char_code c =? 10) || (char_code c =? 13)).
  - set (w1 := set_g_cmd_processor _ w).
    etransitivity; [|apply IH].
    pose proof (heap_next_process w1) as H. unfold reset_buffer. world_simpl. exact H.
  - destruct (buffer_position (g_cmd_processor w) <? MAX_COMMAND_LENGTH - 1);
      (etransitivity; [|apply IH]); world_simpl; unfold reset_buffer; world_simpl; lia.
Qed.

Lemma pipeline_frame_callback :
  forall s w, pipeline_frame w (research_csi_data_callback s w).
Proof.
  intros s w.
  assert (Hlog : forall level text w0,
             pipeline_frame w w0 -> pipeline_frame w (ESP_LOG level text w0)).
  { intros level text w0 H. eapply pipeline_frame_trans; [exact H|].
    apply pipeline_frame_same; world_simpl; auto. }
  unfold research_csi_data_callback.
  destruct s as [info|]; [|apply Hlog, pipeline_frame_refl].
  destruct (buf info) eqn:Hb; [apply Hlog, pipeline_frame_refl| |];
    (pose proof (is_authorized_research_device_run (mac info) w) as Hrun;
     cbv zeta in Hrun; rewrite Hrun; clear Hrun;
     match goal with |- context [ESP_LOG ?l ?t w] => set (w1 := ESP_LOG l t w) end;
     assert (F1 : pipeline_frame w w1) by (apply Hlog, pipeline_frame_refl);
     destruct (existsb _ authorized_devices); cbn [negb]; [|exact F1];
     assert (F2 : pipeline_frame w (snd (malloc (sizeof_wifi_csi_info_t (os w1)) w1)))
       by (eapply pipeline_frame_trans; [exact F1|];
           repeat split; [unfold malloc; destruct (malloc_ok _ _ _); reflexivity ..
                         | apply heap_fresh_malloc]);
     destruct (malloc (sizeof_wifi_csi_info_t (os w1)) w1) as [[copy|] w2];
       cbn [snd] in F2; [|apply Hlog; exact F2];
     match goal with |- context [store copy ?b w2] => set (w3 := store copy b w2) end;
     assert (F3 : pipeline_frame w w3)
       by (eapply pipeline_frame_trans; [exact F2|];
           repeat split; apply heap_fresh_store);
     assert (F4 : pipeline_frame w (snd (malloc (len info) w3)))
       by (eapply pipeline_frame_trans; [exact F3|];
           repeat split; [unfold malloc; destruct (malloc_ok _ _ _); reflexivity ..
                         | apply heap_fresh_malloc]);
     destruct (malloc (len info) w3) as [[b|] w4]; cbn [snd] in F4;
       [|apply Hlog; eapply pipeline_frame_trans; [exact F4|];
         repeat split; apply heap_fresh_free];
     match goal with
     | |- context [store b ?blk (store copy ?c w4)] =>
         set (w5 := store b blk (store copy c w4))
     end;
     assert (F5 : pipeline_frame w w5)
       by (eapply pipeline_frame_trans; [exact F4|];
           repeat split; intros Hf; apply heap_fresh_store, heap_fresh_store, Hf);
     destruct (csi_data_queue (app_state w5)) as [q|]; [|exact F5];
     destruct (xQueueSend_nowait q copy) as [sent q'];
     destruct (negb (sent =? pdTRUE));
       [apply Hlog; eapply pipeline_frame_trans; [exact F5|];
        repeat split; intros Hf; apply heap_fresh_free, heap_fresh_free, Hf
       | eapply pipeline_frame_trans; [exact F5|];
         apply pipeline_frame_same; world_simpl; auto]).
Qed.

(** Discovery touches the log and the application state only. *)
Lemma process_mdns_results_frame :
  forall results w,
    g_csi_config (process_mdns_results results w) = g_csi_config w
    /\ csi_rx_cb (process_mdns_results results w) = csi_rx_cb w
    /\ heap_live (process_mdns_results results w) = heap_live w
    /\ heap_next (process_mdns_results results w) = heap_next w
    /\ console (process_mdns_results results w) = console w
    /\ datagrams (process_mdns_results results w) = datagrams w.
Proof.
  induction results as [|r rs IH]; intros w; cbn [process_mdns_results];
    [repeat split|].
  destruct (addr r), (hostname r); try apply IH.
  cbv zeta. destruct (negb _);
    match goal with |- context [process_mdns_results rs ?W] =>
      destruct (IH W) as (A & B & C & D & E & F); rewrite A, B, C, D, E, F end;
    world_simpl; repeat split.
Qed.

Lemma discovery_cycle_frame :
  forall query w,
    g_csi_config (mdns_discovery_cycle query w) = g_csi_config w
    /\ csi_rx_cb (mdns_discovery_cycle query w) = csi_rx_cb w
    /\ heap_live (mdns_discovery_cycle query w) = heap_live w
    /\ heap_next (mdns_discovery_cycle query w) = heap_next w
    /\ console (mdns_discovery_cycle query w) = console w
    /\ datagrams (mdns_discovery_cycle query w) = datagrams w.
Proof.
  intros [result results] w.
  unfold mdns_discovery_cycle. destruct (negb _); [|repeat split].
  unfold discover_host_computer.
  destruct (negb (result =? ESP_OK)); cbn [snd]; [world_simpl; repeat split|].
  match goal with |- context [process_mdns_results results ?W] =>
    destruct (process_mdns_results_frame results W) as (A & B & C & D & E & F);
    set (w1 := process_mdns_results results W) in *
  end.
  world_simpl_in A. world_simpl_in B. world_simpl_in C. world_simpl_in D.
  world_simpl_in E. world_simpl_in F.
  destruct (negb (host_discovered (app_state w1))); cbn [snd]; world_simpl;
    repeat split; assumption.
Qed.

Lemma pipeline_frame_step :
  forall e w,
    csi_rx_cb w = Some research_csi_data_callback_ptr ->
    pipeline_frame w (firmware_step e w).
Proof.
  intros e w Hcb. destruct e as [bytes|sample| |base event|mdns|query];
    cbn [firmware_step].
  - destruct (console_frame_scan bytes w) as (_ & Hl & _ & _ & Hr & Hc & _).
    apply pipeline_frame_same; auto. apply heap_next_scan.
  - rewrite Hcb. apply pipeline_frame_callback.
  - unfold csi_data_processing_step.
    destruct (csi_data_queue (app_state w)) as [q|] eqn:Hq; [|apply pipeline_frame_refl].
    unfold xQueueReceive. destruct (items q) as [|ptr rest] eqn:Hitems;
      [apply pipeline_frame_refl|].
    change (load ptr (set_app_state _ w)) with (load ptr w).
    destruct (load ptr w) as [[|csi| |]|] eqn:Hload; try apply pipeline_frame_refl.
    destruct (processing_step_result w q ptr rest csi Hq Hitems Hload)
      as (w' & Hrun & _ & _ & Hc & Hr & Hf & _).
    unfold csi_data_processing_step, xQueueReceive in Hrun.
    rewrite Hq, Hitems in Hrun.
    change (load ptr (set_app_state (set_csi_data_queue
              (Some {| uxLength := uxLength q; items := rest |}) (app_state w)) w))
      with (load ptr w) in Hrun.
    rewrite Hload in Hrun. rewrite Hrun. repeat split; assumption.
  - destruct base, event; cbn [network_event_handler];
      apply pipeline_frame_same; world_simpl; auto.
  - unfold setup_mdns_service.
    repeat (destruct (negb _); cbn [snd];
            [apply pipeline_frame_same; world_simpl; auto|]).
    cbn [snd]. apply pipeline_frame_same; world_simpl; auto.
  - destruct (discovery_cycle_frame query w) as (A & B & C & D & _).
    apply pipeline_frame_same; try assumption. rewrite D. lia.
Qed.

Lemma initialize_csi_collection_heap :
  forall role m custom drv w,
    heap_live (snd (initialize_csi_collection role m custom drv w)) = heap_live w
    /\ heap_next (snd (initialize_csi_collection role m custom drv w)) = heap_next w.
Proof.
  intros role m custom drv w. unfold initialize_csi_collection, output_csi_header.
  destruct (negb (set_csi_rc drv =? ESP_OK)); [split; reflexivity|].
  destruct (negb (set_csi_config_rc drv =? ESP_OK)); [split; reflexivity|].
  destruct (negb (set_csi_rx_cb_rc drv =? ESP_OK)); split; reflexivity.
Qed.

(** The state in which [app_main] enters the command loop. *)
Lemma app_main_running :
  forall boot w,
    fst (app_main boot w) = MainRunning ->
    mode (g_csi_config (snd (app_main boot w))) = CSI_MODE_AMPLITUDE
    /\ csi_rx_cb (snd (app_main boot w)) = Some research_csi_data_callback_ptr
    /\ heap_live (snd (app_main boot w)) = heap_live w
    /\ heap_next (snd (app_main boot w)) = heap_next w.
Proof.
  intros boot w. unfold app_main.
  match goal with
  | |- context [initialize_non_volatile_storage ?n ?W] =>
      destruct (storage_init_result n W) as [_ [e1 Hw1]];
      destruct (initialize_non_volatile_storage n W) as [[sr calls] w1]
  end.
  cbn [fst snd] in Hw1. subst w1.
  destruct (success sr); cbn [negb]; [|discriminate].
  unfold reset_time_sync_status, initialize_command_processor, xQueueCreate.
  destruct (queue_created boot); world_simpl;
    cbn [app_state csi_data_queue set_csi_data_queue]; [|discriminate].
  match goal with
  | |- context [configure_wifi_access_point ?wf ?W] =>
      pose proof (configure_wifi_access_point_result wf W) as Hwf;
      destruct (configure_wifi_access_point wf W) as [[rc w2]|]
  end; [|discriminate].
  destruct Hwf as ([e2 Hw2] & _ & _). subst w2.
  destruct (negb (rc =? ESP_OK)); [discriminate|].
  match goal with
  | |- context [initialize_udp_socket ?sa ?W] =>
      destruct (initialize_udp_socket_result sa W) as (_ & _ & [e3 Hw3]);
      destruct (initialize_udp_socket sa W) as [sock w3]
  end.
  cbn [fst snd] in Hw3. subst w3.
  world_simpl. cbn [udp_socket_descriptor set_udp_socket_descriptor].
  destruct (sock <? 0); [discriminate|].
  match goal with
  | |- context [initialize_csi_collection ?role ?m ?cb ?drv ?W] =>
      destruct (initialize_csi_collection_result role m cb drv W)
        as (Hrc & Hreg & Hcfg & _);
      pose proof (initialize_csi_collection_heap role m cb drv W) as Hheap;
      destruct (initialize_csi_collection role m cb drv W) as [rc' w4]
  end.
  cbn [fst snd] in Hrc, Hreg, Hcfg, Hheap. rewrite Hrc.
  destruct ((set_csi_rc (csi_driver boot) =? ESP_OK)
            && (set_csi_config_rc (csi_driver boot) =? ESP_OK)
            && (set_csi_rx_cb_rc (csi_driver boot) =? ESP_OK)); cbn [negb];
    [|discriminate].
  intros _. world_simpl. rewrite Hcfg, Hreg. destruct Hheap as [Hl Hn].
  rewrite Hl, Hn. world_simpl. repeat split.
Qed.

(** Every state the firmware reaches from power-on has the amplitude
    mode configured, [research_csi_data_callback] registered and the heap
    in order. *)
Lemma reachable_invariant :
  forall o now boot events,
    fst (app_main boot (power_on o now)) = MainRunning ->
    let w := run_firmware events (snd (app_main boot (power_on o now))) in
    mode (g_csi_config w) = CSI_MODE_AMPLITUDE
    /\ csi_rx_cb w = Some research_csi_data_callback_ptr
    /\ heap_fresh w.
Proof.
  intros o now boot events Hrun.
  destruct (app_main_running boot (power_on o now) Hrun) as (Hm & Hcb & Hl & Hn).
  assert (Hf : heap_fresh (snd (app_main boot (power_on o now)))).
  { intros a blk Hin. rewrite Hl in Hin. contradiction. }
  clear Hl Hn Hrun. revert Hm Hcb Hf.
  generalize (snd (app_main boot (power_on o now))).
  induction events as [|e events IH]; intros w Hm Hcb Hf; [repeat split; assumption|].
  cbn [run_firmware fold_left]. destruct (pipeline_frame_step e w Hcb) as (Hc & Hr & Hh).
  apply IH; [rewrite Hc; exact Hm | rewrite Hr; exact Hcb | auto].
Qed.

(** C8. The derived values follow the processing mode where the code has
    a mode switch, in [enhanced_csi_callback]: raw mode prints the
    payload bytes as decimal integers, amplitude mode the amplitude of
    every pair with four decimals, phase mode [atan2] of every pair with
    four decimals.  The forwarding pipeline has the amplitude branch only
    and runs in amplitude mode only: in every state the firmware reaches
    from power-on, the mode is the one [app_main] configured, amplitude,
    the registered callback is [research_csi_data_callback], and a turn
    of the forwarding task on a queued sample prints, and sends to a
    resolved peer, the record with the amplitude of every pair of the
    sample's payload with four decimals. *)
Theorem derived_values_follow_mode :
  (forall info w,
      buf info <> BufNull ->
      let data := payload_of (buf info) w in
      let m := mode (g_csi_config w) in
      exists values,
        console (enhanced_csi_callback (Some info) w)
        = console w ++ callback_header info w ++ values ++ [lit "]" ++ newline]
        /\ (m = CSI_MODE_RAW_DATA ->
            values = raw_values_from (raw_count (len info)) 0 data)
        /\ (m = CSI_MODE_AMPLITUDE ->
            values = amplitude_values_from (pair_count (len info)) 0 data)
        /\ (m = CSI_MODE_PHASE_INFO ->
            values = phase_values_from (os w) (pair_count (len info)) 0 data))
  /\ (forall o now boot events,
        fst (app_main boot (power_on o now)) = MainRunning ->
        let w := run_firmware events (snd (app_main boot (power_on o now))) in
        mode (g_csi_config w) = CSI_MODE_AMPLITUDE
        /\ csi_rx_cb w = Some research_csi_data_callback_ptr
        /\ forall q ptr rest csi,
             csi_data_queue (app_state w) = Some q -> items q = ptr :: rest ->
             load ptr w = Some (BlkCsi csi) ->
             exists w',
               csi_data_processing_step w = Ran w'
               /\ console w' = console w ++ [forwarded_record csi w]
               /\ (host_discovered (app_state w) = true ->
                   0 <= udp_socket_descriptor (app_state w) ->
                   datagrams w'
                   = datagrams w ++ [ {| dest_ip := discovered_host_ip (app_state w);
                                         dest_port := 9999;
                                         payload := forwarded_record csi w |} ])).
Proof.
  split.
  - intros info w Hbuf data m. subst data m.
    destruct (enhanced_callback_console info w Hbuf) as (w1 & Heq & Hcon & Hcfg & Hos).
    destruct (emit_measurements_console (len info) (payload_of (buf info) w) w1)
      as (values & Hv & Hraw & Hamp & Hph & _).
    cbv zeta in Hraw, Hamp, Hph. rewrite Hcfg in Hraw, Hamp, Hph. rewrite Hos in Hph.
    exists values. split; [|split; [exact Hraw | split; [exact Hamp | exact Hph]]].
    rewrite Heq, Hv, Hcon, <- !app_assoc. reflexivity.
  - intros o now boot events Hrun w.
    destruct (reachable_invariant o now boot events Hrun) as (Hm & Hcb & Hf).
    fold w in Hm, Hcb, Hf.
    split; [exact Hm|]. split; [exact Hcb|].
    intros q ptr rest csi Hq Hitems Hload.
    destruct (processing_step_result w q ptr rest csi Hq Hitems Hload)
      as (w' & Hstep & Hcon & Hdg & _).
    rewrite (payload_after_timestamp _ w Hf) in Hcon, Hdg.
    rewrite <- concat_amplitude_values in Hcon, Hdg.
    exists w'. split; [exact Hstep|]. split; [exact Hcon|].
    intros Hd Hs. rewrite Hdg, Hd.
    replace (0 <=? udp_socket_descriptor (app_state w)) with true
      by (symmetry; apply Z.leb_le; exact Hs).
    reflexivity.
Qed.

Lemma derived_values_follow_mode_witness :
  (let w := set_csi_processing_mode CSI_MODE_RAW_DATA booted in
   exists values,
     console (enhanced_csi_callback (Some sample_csi) w)
     = console w ++ callback_header sample_csi w ++ values ++ [lit "]" ++ newline]
     /\ values = [ lit "3 "; lit "4 "; lit "-1 "; lit "0 " ])
  /\ (let w := run_firmware [CsiReceived (Some sample_csi); DiscoveryCycle (ESP_OK, [])]
                            booted in
      exists w',
        csi_data_processing_step w = Ran w'
        /\ console w'
           = console w
             ++ [ lit "CSI_Data,AP,A0:B7:65:5A:08:A5,-40,11,1,7,1,1,1,0,0,0,1,-96,0,6,1,123456,0,100,0,0,5.000007,4,[5.0000 1.0000 ]"
                  ++ newline ]).
Proof.
  destruct derived_values_follow_mode as [Hcb Hpipe]. split.
  - intros w.
    assert (Hbuf : buf sample_csi <> BufNull) by discriminate.
    destruct (Hcb sample_csi w Hbuf) as (values & Hcon & Hraw & _).
    exists values. split; [exact Hcon|].
    rewrite (Hraw eq_refl). vm_compute. reflexivity.
  - intros w.
    assert (Hrun : fst (app_main sample_boot (power_on sample_os {| tv_sec := 5; tv_usec := 7 |}))
                   = MainRunning) by (vm_compute; reflexivity).
    destruct (Hpipe sample_os {| tv_sec := 5; tv_usec := 7 |} sample_boot
                [CsiReceived (Some sample_csi); DiscoveryCycle (ESP_OK, [])] Hrun)
      as (_ & _ & Hstep).
    fold booted in Hstep. fold w in Hstep.
    destruct (Hstep {| uxLength := 64; items := [0%nat] |} 0%nat []
                {| rx_ctrl := sample_rx_ctrl; mac := mac sample_csi; len := 4;
                   buf := BufHeap 1 |})
      as (w' & Hran & Hcon & _); try (vm_compute; reflexivity).
    exists w'. split; [exact Hran|]. rewrite Hcon. vm_compute. reflexivity.
Defined.

(** C6. Discovery fallback: when a discovery cycle of a still unresolved
    machine completes and the query brought no result (none at all, or
    none with an address and a name), the peer address is the broadcast
    address 192.168.4.255 and is marked resolved.  The forwarder then
    transmits: [transmit_csi_data] hands its record to [sendto] for that
    address and port 9999 instead of returning early, and a turn of the
    forwarding task on a waiting sample runs to its end, neither blocked
    nor faulting, and sends the record it prints to that address. *)
Theorem discovery_fallback_transmits :
  forall w results,
    host_discovered (app_state w) = false ->
    first_usable results = None ->
    0 <= udp_socket_descriptor (app_state w) ->
    let w1 := mdns_discovery_cycle (ESP_OK, results) w in
    discovered_host_ip (app_state w1) = BROADCAST_ADDRESS
    /\ host_discovered (app_state w1) = true
    /\ (forall record,
          datagrams (snd (transmit_csi_data record w1)) =
            datagrams w1 ++ [ {| dest_ip := BROADCAST_ADDRESS;
                                 dest_port := 9999;
                                 payload := record |} ])
    /\ (forall q ptr rest csi,
          csi_data_queue (app_state w) = Some q -> items q = ptr :: rest ->
          load ptr w = Some (BlkCsi csi) ->
          exists w2 record,
            csi_data_processing_step w1 = Ran w2
            /\ console w2 = console w1 ++ [record]
            /\ datagrams w2 = datagrams w1 ++ [ {| dest_ip := BROADCAST_ADDRESS;
                                                   dest_port := 9999;
                                                   payload := record |} ]
            /\ queue_items w2 = rest).
Proof.
  intros w results Hd Hnone Hsock w1.
  assert (Happ : app_state w1 = set_discovered_host BROADCAST_ADDRESS (app_state w)).
  { unfold w1. rewrite discovery_cycle_unresolved by exact Hd. now rewrite Hnone. }
  split; [rewrite Happ; reflexivity|]. split; [rewrite Happ; reflexivity|]. split.
  - intros record. unfold transmit_csi_data. rewrite Happ.
    cbn [host_discovered set_discovered_host negb orb udp_socket_descriptor
         discovered_host_ip].
    destruct (Z.ltb_spec (udp_socket_descriptor (app_state w)) 0) as [Hneg|_]; [lia|].
    destruct (sendto_rc (os w1) _ <? 0); reflexivity.
  - intros q ptr rest csi Hq Hitems Hload.
    destruct (discovery_cycle_frame (ESP_OK, results) w) as (_ & _ & Hl & _).
    fold w1 in Hl.
    assert (Hq1 : csi_data_queue (app_state w1) = Some q) by (rewrite Happ; exact Hq).
    assert (Hload1 : load ptr w1 = Some (BlkCsi csi)) by (unfold load; now rewrite Hl).
    destruct (processing_step_result w1 q ptr rest csi Hq1 Hitems Hload1)
      as (w2 & Hstep & Hcon & Hdg & _ & _ & _ & Hrest).
    cbv zeta in Hcon, Hdg.
    rewrite Happ in Hdg.
    cbn [host_discovered set_discovered_host udp_socket_descriptor discovered_host_ip
         andb] in Hdg.
    replace (0 <=? udp_socket_descriptor (app_state w)) with true in Hdg
      by (symmetry; apply Z.leb_le; exact Hsock).
    eexists. eexists. split; [exact Hstep|]. split; [exact Hcon|]. split; [exact Hdg|].
    exact Hrest.
Qed.

Lemma discovery_fallback_transmits_witness :
  let w := research_csi_data_callback (Some sample_csi) booted in
  let w1 := mdns_discovery_cycle (ESP_OK, []) w in
  discovered_host_ip (app_state w1) = BROADCAST_ADDRESS
  /\ datagrams (snd (transmit_csi_data (lit "x") w1)) =
       [ {| dest_ip := BROADCAST_ADDRESS; dest_port := 9999; payload := lit "x" |} ]
  /\ exists w2 record,
       csi_data_processing_step w1 = Ran w2
       /\ console w2 = console w1 ++ [record]
       /\ datagrams w2 =
            [ {| dest_ip := BROADCAST_ADDRESS; dest_port := 9999; payload := record |} ].
Proof.
  intros w w1.
  assert (Hd : host_discovered (app_state w) = false) by (vm_compute; reflexivity).
  assert (Hsock : 0 <= udp_socket_descriptor (app_state w)) by (vm_compute; discriminate).
  destruct (discovery_fallback_transmits w [] Hd eq_refl Hsock)
    as (Hip & _ & Hsend & Hturn).
  split; [exact Hip|]. split; [exact (Hsend (lit "x"))|].
  destruct (Hturn {| uxLength := 64; items := [0%nat] |} 0%nat []
              {| rx_ctrl := sample_rx_ctrl; mac := mac sample_csi; len := 4;
                 buf := BufHeap 1 |})
    as (w2 & record & Hran & Hcon & Hdg & _); try (vm_compute; reflexivity).
  exists w2, record. split; [exact Hran|]. split; [exact Hcon | exact Hdg].
Defined.
